(** * The ATA block-device drivers of ToaruOS: a shallow embedding

    Two drivers of the repository are embedded here:

    - [Legacy]: the PIO driver, module [ata_legacy]
      (src/unnamed/part_001);
    - [Dma]: the bus-master DMA and ATAPI driver, module [ata]
      (src/libc/unistd/execvp.c, from line 55 on).

    C integers are [Z] with their wrap-around written out, memory is a
    map from byte offsets to bytes, and the hardware and the kernel
    services the drivers call ([inportb], [outportb], [malloc],
    [sleep_on], the PCI configuration space) are an abstract platform
    the drivers run against.  Every port access, lock operation and
    interrupt-flag change is recorded in the trace a run returns. *)

From Stdlib Require Import String Ascii DecimalString.
From Stdlib Require Import ZArith List Lia Bool.
Import ListNotations.
Local Open Scope Z_scope.

Set Implicit Arguments.

(** ** Machine integers *)

Definition u8 (x : Z) : Z := x mod 2 ^ 8.
Definition u16 (x : Z) : Z := x mod 2 ^ 16.
Definition u32 (x : Z) : Z := x mod 2 ^ 32.
Definition u64 (x : Z) : Z := x mod 2 ^ 64.

(** [char] on x86 is a signed byte. *)
Definition s8 (x : Z) : Z := (x + 128) mod 256 - 128.

(** C truth value of an integer expression. *)
Definition truthy (x : Z) : bool := negb (x =? 0).

(** ** Constants of <kernel/ata.h> and <kernel/fs.h> *)

(** Modelled from the spec: the register offsets, status bits and
    command opcodes of <kernel/ata.h>, a header that is not among the
    sources.  The values are those of the table "Hardware-facing" of
    the specification. *)
Definition ATA_REG_DATA : Z := 0.
Definition ATA_REG_FEATURES : Z := 1.
Definition ATA_REG_SECCOUNT0 : Z := 2.
Definition ATA_REG_LBA0 : Z := 3.
Definition ATA_REG_LBA1 : Z := 4.
Definition ATA_REG_LBA2 : Z := 5.
Definition ATA_REG_HDDEVSEL : Z := 6.
Definition ATA_REG_COMMAND : Z := 7.
Definition ATA_REG_STATUS : Z := 7.

Definition ATA_SR_ERR : Z := 0x01.
Definition ATA_SR_DRQ : Z := 0x08.
Definition ATA_SR_DF : Z := 0x20.
Definition ATA_SR_DRDY : Z := 0x40.
Definition ATA_SR_BSY : Z := 0x80.

Definition ATA_CMD_IDENTIFY : Z := 0xEC.
Definition ATA_CMD_IDENTIFY_PACKET : Z := 0xA1.
Definition ATA_CMD_READ_PIO : Z := 0x20.
Definition ATA_CMD_READ_DMA : Z := 0xC8.
Definition ATA_CMD_WRITE_PIO : Z := 0x30.
Definition ATA_CMD_CACHE_FLUSH : Z := 0xE7.
Definition ATA_CMD_PACKET : Z := 0xA0.

(** The offsets the specification does not give stay parameters of the
    development: the upper LBA registers, and the control and alternate
    status registers as the drivers address them, relative to
    [io_base]. *)
Class ata_h : Type := {
  ATA_REG_LBA3 : Z;
  ATA_REG_LBA4 : Z;
  ATA_REG_LBA5 : Z;
  ATA_REG_CONTROL : Z;
  ATA_REG_ALTSTATUS : Z
}.

(** Of <kernel/fs.h>, which is not among the sources either, the
    drivers use the flag [FS_BLOCKDEVICE] and the node's [length]
    field, whose width in bits is [FS_LENGTH_BITS]; and of
    <kernel/pci.h> the two configuration fields below. *)
Class fs_h : Type := {
  FS_BLOCKDEVICE : Z;
  FS_LENGTH_BITS : Z;
  PCI_COMMAND : Z;
  PCI_BAR4 : Z
}.

Definition ATA_SECTOR_SIZE : Z := 512.

(** ** Memory *)

(** A buffer is the memory an argument pointer gives access to: byte
    [i] of [m] is the byte at [ptr + i].  A copy that runs past the
    object the caller had in mind lands in the bytes that follow it. *)
Definition mem : Type := Z -> Z.

(** The [n] bytes at [m + off]. *)
Definition load (m : mem) (off : Z) (n : nat) : list Z :=
  map (fun i => m (off + Z.of_nat i)) (seq 0 n).

(** [memcpy(m + off, data, length data)]. *)
Definition store (m : mem) (off : Z) (data : list Z) : mem :=
  fun a =>
    if (off <=? a) && (a <? off + Z.of_nat (length data))
    then nth (Z.to_nat (a - off)) data 0
    else m a.

Definition zeroes : mem := fun _ => 0.

(** ** Outcomes and traces *)

Inductive event : Type :=
| EvIn (width port value : Z)      (* inportb / inports *)
| EvOut (width port value : Z)     (* outportb / outports / outportl *)
| EvLock                           (* spin_lock(ata_lock) *)
| EvUnlock                         (* spin_unlock(ata_lock) *)
| EvIrqOn                          (* IRQ_ON *)
| EvIrqOff                         (* IRQ_OFF *)
| EvIrqRes                         (* IRQ_RES *)
| EvSleep                          (* sleep_on(atapi_waiter) *)
| EvPci (write : bool) (field value : Z).

Definition is_port_event (e : event) : bool :=
  match e with
  | EvIn _ _ _ | EvOut _ _ _ => true
  | _ => false
  end.

Inductive result (A : Type) : Type :=
| Ok (a : A)
| Abort          (* a failed assert *)
| Timeout.       (* a loop that did not finish within the fuel *)
Arguments Abort {A}.
Arguments Timeout {A}.

(** ** The platform: hardware and kernel services *)

(** The drivers reach the controller, the PCI configuration space and
    the allocator only through these operations.  [E] is the state of
    everything outside the driver; a port read may change it (reading
    the status register clears the interrupt, reading the data port
    advances the transfer). *)
Class platform (E : Type) : Type := {
  port_in : Z -> Z -> E -> Z * E;          (* width in bits, port *)
  port_out : Z -> Z -> Z -> E -> E;        (* width in bits, port, value *)
  heap_fresh : Z -> E -> mem * E;          (* malloc(n): the block as it comes *)
  kvmalloc_phys : Z -> E -> (Z * Z) * E;   (* kvmalloc_p(n, &phys): virtual, physical *)
  dma_load : Z -> nat -> E -> list Z;      (* bytes found at a DMA-visible address *)
  prdt_store : Z -> Z * Z * Z -> E -> E;   (* prdt[0] = {offset, bytes, last} *)
  pci_read_field : Z -> Z -> Z -> E -> Z * E;
  pci_write_field : Z -> Z -> Z -> Z -> E -> E;
  pci_scan_ata : E -> option Z;            (* device found by find_ata_pci, if any *)
  sleep_wake : E -> E                      (* sleep_on: the platform up to the wakeup *)
}.

(** The state a driver runs in: the platform, the spinlock [ata_lock],
    and the driver's own globals [G]. *)
Record world (E G : Type) : Type := World {
  plat : E;
  ata_lock : bool;
  glob : G
}.

Definition set_plat {E G} (e : E) (w : world E G) : world E G :=
  World e (ata_lock w) (glob w).
Definition set_lock {E G} (b : bool) (w : world E G) : world E G :=
  World (plat w) b (glob w).
Definition set_globals {E G} (g : G) (w : world E G) : world E G :=
  World (plat w) (ata_lock w) g.

(** A computation of the driver: from a world to an outcome, the world
    it leaves and the events it produced, oldest first. *)
Definition M (E G A : Type) : Type :=
  world E G -> result (A * world E G * list event).

Definition ret {E G A} (a : A) : M E G A := fun w => Ok (a, w, []).

Definition bind {E G A B} (m : M E G A) (f : A -> M E G B) : M E G B :=
  fun w =>
    match m w with
    | Ok (a, w1, t1) =>
        match f a w1 with
        | Ok (b, w2, t2) => Ok (b, w2, t1 ++ t2)
        | Abort => Abort
        | Timeout => Timeout
        end
    | Abort => Abort
    | Timeout => Timeout
    end.

Declare Scope drv_scope.
Delimit Scope drv_scope with drv.
Notation "x <- m ;; k" := (bind m (fun x => k))
  (at level 61, m at next level, right associativity) : drv_scope.
Notation "m ;; k" := (bind m (fun _ => k))
  (at level 61, right associativity) : drv_scope.
Local Open Scope drv_scope.

Section Primitives.
Context {E G : Type} {P : platform E}.

Definition emit (ev : event) : M E G unit := fun w => Ok (tt, w, [ev]).
Definition out_of_fuel {A} : M E G A := fun _ => Timeout.
Definition abort {A} : M E G A := fun _ => Abort.
Definition get_globals : M E G G := fun w => Ok (glob w, w, []).
Definition put_globals (g : G) : M E G unit :=
  fun w => Ok (tt, set_globals g w, []).

(** x86 ports are 16 bits wide; the value read or written has the
    width of the instruction. *)
Definition port_read (width : Z) (port : Z) : M E G Z :=
  fun w =>
    let (v, e) := port_in width (u16 port) (plat w) in
    let v := v mod 2 ^ width in
    Ok (v, set_plat e w, [EvIn width (u16 port) v]).

Definition port_write (width : Z) (port value : Z) : M E G unit :=
  fun w =>
    let v := value mod 2 ^ width in
    Ok (tt, set_plat (port_out width (u16 port) v (plat w)) w,
        [EvOut width (u16 port) v]).

Definition inportb := port_read 8.
Definition inports := port_read 16.
Definition outportb := port_write 8.
Definition outports := port_write 16.
Definition outportl := port_write 32.

(** [spin_lock]: with nobody else to release it, a lock that is
    already held is waited for without end. *)
Definition spin_lock : M E G unit :=
  fun w => if ata_lock w then Timeout
           else Ok (tt, set_lock true w, [EvLock]).

Definition spin_unlock : M E G unit :=
  fun w => Ok (tt, set_lock false w, [EvUnlock]).

Definition malloc (n : Z) : M E G mem :=
  fun w => let (m, e) := heap_fresh n (plat w) in Ok (m, set_plat e w, []).

Definition irq (ev : event) : M E G unit := emit ev.

Definition kvmalloc_p (n : Z) : M E G (Z * Z) :=
  fun w => let (r, e) := kvmalloc_phys n (plat w) in Ok (r, set_plat e w, []).

Definition prdt_write (prdt : Z) (entry : Z * Z * Z) : M E G unit :=
  fun w => Ok (tt, set_plat (prdt_store prdt entry (plat w)) w, []).

Definition pci_read (dev field size : Z) : M E G Z :=
  fun w =>
    let (v, e) := pci_read_field dev field size (plat w) in
    let v := v mod 2 ^ (8 * size) in
    Ok (v, set_plat e w, [EvPci false field v]).

Definition pci_write (dev field size value : Z) : M E G unit :=
  fun w => Ok (tt, set_plat (pci_write_field dev field size value (plat w)) w,
               [EvPci true field value]).

(** [sleep_on(atapi_waiter)]: the caller continues once an interrupt
    handler has woken the queue. *)
Definition sleep_on : M E G unit :=
  fun w => Ok (tt, set_plat (sleep_wake (plat w)) w, [EvSleep]).

(** The [n] bytes the controller left at the DMA-visible address
    [addr]. *)
Definition dma_read (addr : Z) (n : nat) : M E G (list Z) :=
  fun w => Ok (dma_load addr n (plat w), w, []).

(** [inportsm(port, buf, n)]: [n] words from the port, stored low
    byte first at [buf + off]. *)
Fixpoint inportsm (port : Z) (buf : mem) (off : Z) (n : nat) : M E G mem :=
  match n with
  | O => ret buf
  | S k =>
      v <- inports port ;;
      inportsm port (store buf off [v mod 256; v / 256]) (off + 2) k
  end.

(** [outportsm(port, buf, n)]: [n] words to the port, read low byte
    first from [buf + off]. *)
Fixpoint outportsm (port : Z) (buf : mem) (off : Z) (n : nat) : M E G unit :=
  match n with
  | O => ret tt
  | S k =>
      outports port (u8 (buf off) + 256 * u8 (buf (off + 1))) ;;
      outportsm port buf (off + 2) k
  end.
End Primitives.

(** ** Data model *)

(** The part of [ata_identify_t] the drivers consume. *)
Record ata_identify_t : Type := Identify {
  model : list Z;          (* char model[40] *)
  sectors_28 : Z;          (* uint32_t *)
  sectors_48 : Z           (* uint64_t *)
}.

(** Word [i] of a list of 16-bit words, and the little-endian value of
    [n] consecutive words from word [i] on. *)
Definition word_at (ws : list Z) (i : nat) : Z := u16 (nth i ws 0).

Fixpoint words_value (ws : list Z) (i n : nat) : Z :=
  match n with
  | O => 0
  | S k => word_at ws i + 2 ^ 16 * words_value ws (S i) k
  end.

Fixpoint words_bytes (ws : list Z) (i n : nat) : list Z :=
  match n with
  | O => []
  | S k => (word_at ws i mod 256) :: (word_at ws i / 256) :: words_bytes ws (S i) k
  end.

(** Modelled from the spec: the layout of [ata_identify_t], declared
    in <kernel/ata.h>.  Of the 256 words of the IDENTIFY response,
    [model] is words 27 to 46, [sectors_28] words 60 and 61, and
    [sectors_48] words 100 to 103. *)
Definition identify_of_words (ws : list Z) : ata_identify_t :=
  Identify (words_bytes ws 27 20) (words_value ws 60 2) (words_value ws 100 4).

(** A static [struct ata_device] starts with a zeroed [identity]. *)
Definition identify_zero : ata_identify_t := Identify (repeat 0 40) 0 0.

(** [struct ata_device].  The legacy driver's structure has the fields
    [io_base], [control], [slave] and [identity] only; the others are
    those the DMA driver adds, and the legacy driver never touches
    them. *)
Record ata_device : Type := Device {
  io_base : Z;
  control : Z;
  slave : Z;
  is_atapi : Z;
  identity : ata_identify_t;
  dma_prdt : Z;
  dma_prdt_phys : Z;
  dma_start : Z;
  dma_start_phys : Z;
  bar4 : Z;
  atapi_lba : Z;
  atapi_sector_size : Z
}.

Definition static_device (io ctl sl : Z) : ata_device :=
  Device io ctl sl 0 identify_zero 0 0 0 0 0 0 0.

(** The four static devices of both drivers. *)
Inductive dev_id : Type :=
| ata_primary_master
| ata_primary_slave
| ata_secondary_master
| ata_secondary_slave.

Definition dev_id_eqb (a b : dev_id) : bool :=
  match a, b with
  | ata_primary_master, ata_primary_master
  | ata_primary_slave, ata_primary_slave
  | ata_secondary_master, ata_secondary_master
  | ata_secondary_slave, ata_secondary_slave => true
  | _, _ => false
  end.

Definition static_devices (d : dev_id) : ata_device :=
  match d with
  | ata_primary_master => static_device 0x1F0 0x3F6 0
  | ata_primary_slave => static_device 0x1F0 0x3F6 1
  | ata_secondary_master => static_device 0x170 0x376 0
  | ata_secondary_slave => static_device 0x170 0x376 1
  end.

Definition set_identity (i : ata_identify_t) (d : ata_device) : ata_device :=
  Device (io_base d) (control d) (slave d) (is_atapi d) i (dma_prdt d)
    (dma_prdt_phys d) (dma_start d) (dma_start_phys d) (bar4 d)
    (atapi_lba d) (atapi_sector_size d).

(** The operations a node can point to. *)
Inductive fs_op : Type :=
| op_read_ata | op_read_atapi | op_write_ata | op_open_ata | op_close_ata.

(** [fs_node_t], as far as the drivers fill it.  [device] points to one
    of the static devices. *)
Record fs_node_t : Type := Node {
  name : string;
  device : dev_id;
  inode : Z;
  uid : Z;
  gid : Z;
  mask : Z;
  length : Z;
  flags : Z;
  read : option fs_op;
  write : option fs_op;
  open : option fs_op;
  close : option fs_op
}.

(** [sprintf] with "%d" and "%c". *)
Definition fmt_d (x : Z) : string := NilZero.string_of_int (Z.to_int x).
Definition fmt_c (x : Z) : string :=
  String (ascii_of_nat (Z.to_nat (u8 x))) EmptyString.

(** ** The device state machine, common to both drivers *)

(** [ata_io_wait], [ata_status_wait], [ata_wait], [ata_soft_reset] and
    [buffer_compare] have the same text in both drivers
    (part_001:193-232 and 369-379; execvp.c:367-406 and 860-870). *)

(** The 32-bit word at [m + off], as a [uint32_t] pointer reads it. *)
Definition load32 (m : mem) (off : Z) : Z :=
  u8 (m off) + 2 ^ 8 * u8 (m (off + 1)) + 2 ^ 16 * u8 (m (off + 2))
  + 2 ^ 24 * u8 (m (off + 3)).

(** The loop of [buffer_compare]; it runs [size / 4] times at most, and
    [n] bounds that number. *)
Fixpoint buffer_compare_loop (n : nat) (ptr1 : mem) (p1 : Z) (ptr2 : mem)
    (p2 i size : Z) : Z :=
  match n with
  | O => 0
  | S k =>
      if i <? size then
        if negb (load32 ptr1 p1 =? load32 ptr2 p2) then 1
        else buffer_compare_loop k ptr1 (p1 + 4) ptr2 (p2 + 4) (i + 4) size
      else 0
  end.

Definition buffer_compare (ptr1 : mem) (p1 : Z) (ptr2 : mem) (p2 : Z)
    (size : Z) : result Z :=
  if negb (negb (truthy (size mod 4))) then Abort     (* assert(!(size % 4)) *)
  else Ok (buffer_compare_loop (Z.to_nat size) ptr1 p1 ptr2 p2 0 size).

Section StateMachine.
Context {E G : Type} {P : platform E} {H : ata_h}.
Local Abbreviation M := (M E G).

Definition lift_result {A} (r : result A) : M A :=
  fun w => match r with
           | Ok a => Ok (a, w, [])
           | Abort => Abort
           | Timeout => Timeout
           end.

Definition ata_io_wait (dev : ata_device) : M unit :=
  inportb (io_base dev + ATA_REG_ALTSTATUS) ;;
  inportb (io_base dev + ATA_REG_ALTSTATUS) ;;
  inportb (io_base dev + ATA_REG_ALTSTATUS) ;;
  inportb (io_base dev + ATA_REG_ALTSTATUS) ;;
  ret tt.

(** The loop of [ata_status_wait] with a timeout:
    [while ((status = inportb(..)) & ATA_SR_BSY && (i < timeout)) i++;] *)
Fixpoint status_wait_capped (fuel : nat) (dev : ata_device)
    (timeout i : Z) : M Z :=
  match fuel with
  | O => out_of_fuel
  | S k =>
      status <- inportb (io_base dev + ATA_REG_STATUS) ;;
      if truthy (Z.land status ATA_SR_BSY) && (i <? timeout)
      then status_wait_capped k dev timeout (i + 1)
      else ret status
  end.

(** The loop without one:
    [while ((status = inportb(..)) & ATA_SR_BSY);] *)
Fixpoint status_wait_forever (fuel : nat) (dev : ata_device) : M Z :=
  match fuel with
  | O => out_of_fuel
  | S k =>
      status <- inportb (io_base dev + ATA_REG_STATUS) ;;
      if truthy (Z.land status ATA_SR_BSY)
      then status_wait_forever k dev
      else ret status
  end.

Definition ata_status_wait (fuel : nat) (dev : ata_device)
    (timeout : Z) : M Z :=
  if timeout >? 0 then status_wait_capped fuel dev timeout 0
  else status_wait_forever fuel dev.

Definition ata_wait (fuel : nat) (dev : ata_device) (advanced : Z) : M Z :=
  ata_io_wait dev ;;
  _ <- ata_status_wait fuel dev (-1) ;;
  if truthy advanced then
    status <- inportb (io_base dev + ATA_REG_STATUS) ;;
    if truthy (Z.land status ATA_SR_ERR) then ret 1
    else if truthy (Z.land status ATA_SR_DF) then ret 1
    else if negb (truthy (Z.land status ATA_SR_DRQ)) then ret 1
    else ret 0
  else ret 0.

Definition ata_soft_reset (dev : ata_device) : M unit :=
  outportb (control dev) 0x04 ;;
  ata_io_wait dev ;;
  outportb (control dev) 0x00.

(** [count] 16-bit words read from the data port, first one first:
    the loop [for (i = 0; i < 256; ++i) buf[i] = inports(..)]. *)
Fixpoint read_words (port : Z) (count : nat) : M (list Z) :=
  match count with
  | O => ret []
  | S k =>
      v <- inports port ;;
      vs <- read_words port k ;;
      ret (v :: vs)
  end.

(** The loop that swaps the bytes of [model] pairwise:
    [for (i = 0; i < 39; i += 2) swap(ptr[i], ptr[i+1])]. *)
Fixpoint swap_pairs (bytes : list Z) : list Z :=
  match bytes with
  | a :: b :: rest => b :: a :: swap_pairs rest
  | other => other
  end.

Definition identify_swapped (ws : list Z) : ata_identify_t :=
  let i := identify_of_words ws in
  Identify (swap_pairs (model i)) (sectors_28 i) (sectors_48 i).
End StateMachine.

(** ** The legacy PIO driver (src/unnamed/part_001) *)

Module Legacy.

(** The driver's globals: [ata_drive_char], the four static devices,
    and the nodes handed to [vfs_mount], latest first. *)
Record globals : Type := Globals {
  ata_drive_char : Z;
  devs : dev_id -> ata_device;
  vfs : list (string * fs_node_t)
}.

Definition initial_globals : globals := Globals 97 static_devices [].

Definition set_dev (d : dev_id) (v : ata_device) (g : globals) : globals :=
  Globals (ata_drive_char g)
    (fun x => if dev_id_eqb x d then v else devs g x) (vfs g).

Definition ata_max_offset (dev : ata_device) : Z :=
  let sectors := sectors_48 (identity dev) in
  let sectors := if negb (truthy sectors)
                 then sectors_28 (identity dev)   (* Fall back to sectors_28 *)
                 else sectors in
  u64 (sectors * ATA_SECTOR_SIZE).

Section Driver.
Context {E : Type} {P : platform E} {H : ata_h} {F : fs_h}.
Local Abbreviation M := (M E globals).

(** One attempt of [ata_device_read_sector]: the register writes from
    the label [try_again] to the READ PIO command, and the status wait
    whose result decides between the transfer and the retry. *)
Definition read_sector_attempt (fuel : nat) (dev : ata_device) (lba : Z) : M Z :=
  let bus := u16 (io_base dev) in
  let slave := u8 (slave dev) in
  outportb (bus + ATA_REG_CONTROL) 0x02 ;;
  _ <- ata_wait fuel dev 0 ;;
  outportb (bus + ATA_REG_HDDEVSEL)
    (Z.lor (Z.lor 0xe0 (Z.shiftl slave 4))
           (Z.shiftr (Z.land lba 0x0f000000) 24)) ;;
  outportb (bus + ATA_REG_FEATURES) 0x00 ;;
  outportb (bus + ATA_REG_SECCOUNT0) 1 ;;
  outportb (bus + ATA_REG_LBA0) (Z.shiftr (Z.land lba 0x000000ff) 0) ;;
  outportb (bus + ATA_REG_LBA1) (Z.shiftr (Z.land lba 0x0000ff00) 8) ;;
  outportb (bus + ATA_REG_LBA2) (Z.shiftr (Z.land lba 0x00ff0000) 16) ;;
  outportb (bus + ATA_REG_COMMAND) ATA_CMD_READ_PIO ;;
  ata_wait fuel dev 1.

(** The body of [ata_device_read_sector] from the label [try_again]
    on; [k] bounds the number of times the label is reached. *)
Fixpoint read_sector_try (k : nat) (fuel : nat) (dev : ata_device)
    (lba : Z) (buf : mem) (off : Z) (errors : Z) : M mem :=
  match k with
  | O => out_of_fuel
  | S k' =>
      let bus := u16 (io_base dev) in
      failed <- read_sector_attempt fuel dev lba ;;
      if truthy failed then
        let errors := errors + 1 in
        if errors >? 4 then
          spin_unlock ;;
          ret buf
        else read_sector_try k' fuel dev lba buf off errors
      else
        let size := 256%nat in
        buf <- inportsm bus buf off size ;;
        _ <- ata_wait fuel dev 0 ;;
        spin_unlock ;;
        ret buf
  end.

(** Whether [n] attempts in a row, from the world [w] on, end with the
    status wait reporting ERR, DF or a missing DRQ. *)
Fixpoint attempts_fail (n : nat) (fuel : nat) (dev : ata_device) (lba : Z)
    (w : world E globals) : bool :=
  match n with
  | O => true
  | S n' =>
      match read_sector_attempt fuel dev lba w with
      | Ok (failed, w1, _) => truthy failed && attempts_fail n' fuel dev lba w1
      | _ => false
      end
  end.

(** [buf] is the memory the pointer's base gives access to and [off]
    the pointer's offset in it; the result is that memory after the
    call. *)
Definition ata_device_read_sector (fuel : nat) (dev : ata_device)
    (lba : Z) (buf : mem) (off : Z) : M mem :=
  spin_lock ;;
  let errors := 0 in
  read_sector_try fuel fuel dev (u32 lba) buf off errors.

Definition ata_device_write_sector (fuel : nat) (dev : ata_device)
    (lba : Z) (buf : mem) (off : Z) : M unit :=
  let lba := u32 lba in
  let bus := u16 (io_base dev) in
  let slave := u8 (slave dev) in
  spin_lock ;;
  outportb (bus + ATA_REG_CONTROL) 0x02 ;;
  _ <- ata_wait fuel dev 0 ;;
  outportb (bus + ATA_REG_HDDEVSEL)
    (Z.lor (Z.lor 0xe0 (Z.shiftl slave 4))
           (Z.shiftr (Z.land lba 0x0f000000) 24)) ;;
  _ <- ata_wait fuel dev 0 ;;
  outportb (bus + ATA_REG_FEATURES) 0x00 ;;
  outportb (bus + ATA_REG_SECCOUNT0) 0x01 ;;
  outportb (bus + ATA_REG_LBA0) (Z.shiftr (Z.land lba 0x000000ff) 0) ;;
  outportb (bus + ATA_REG_LBA1) (Z.shiftr (Z.land lba 0x0000ff00) 8) ;;
  outportb (bus + ATA_REG_LBA2) (Z.shiftr (Z.land lba 0x00ff0000) 16) ;;
  outportb (bus + ATA_REG_COMMAND) ATA_CMD_WRITE_PIO ;;
  _ <- ata_wait fuel dev 0 ;;
  let size := Z.to_nat (ATA_SECTOR_SIZE / 2) in
  outportsm bus buf off size ;;
  outportb (bus + 0x07) ATA_CMD_CACHE_FLUSH ;;
  _ <- ata_wait fuel dev 0 ;;
  spin_unlock.

(** The [do ... while] of [ata_device_write_sector_retry]; the result
    is [read_buf] as the last readback left it. *)
Fixpoint write_verify_loop (k : nat) (fuel : nat) (dev : ata_device)
    (lba : Z) (buf : mem) (off : Z) (read_buf : mem) : M mem :=
  match k with
  | O => out_of_fuel
  | S k' =>
      ata_device_write_sector fuel dev lba buf off ;;
      read_buf <- ata_device_read_sector fuel dev lba read_buf 0 ;;
      differ <- lift_result (buffer_compare buf off read_buf 0 ATA_SECTOR_SIZE) ;;
      if truthy differ
      then write_verify_loop k' fuel dev lba buf off read_buf
      else ret read_buf
  end.

Definition ata_device_write_sector_retry (fuel : nat) (dev : ata_device)
    (lba : Z) (buf : mem) (off : Z) : M unit :=
  read_buf <- malloc ATA_SECTOR_SIZE ;;
  emit EvIrqOff ;;
  _ <- write_verify_loop fuel fuel dev lba buf off read_buf ;;
  emit EvIrqRes.

(** The final [while (start_block <= end_block)] of [read_ata]. *)
Fixpoint read_blocks (k : nat) (fuel : nat) (dev : ata_device)
    (start_block end_block x_offset : Z) (buffer : mem) : M mem :=
  match k with
  | O => out_of_fuel
  | S k' =>
      if start_block <=? end_block then
        buffer <- ata_device_read_sector fuel dev start_block buffer x_offset ;;
        read_blocks k' fuel dev (u32 (start_block + 1)) end_block
          (u32 (x_offset + ATA_SECTOR_SIZE)) buffer
      else ret buffer
  end.

(** [read_ata]: the value returned and the caller's memory from
    [buffer] on. *)
Definition read_ata (fuel : nat) (node : fs_node_t) (_offset size : Z)
    (buffer : mem) : M (Z * mem) :=
  let offset := u32 _offset in
  g <- get_globals ;;
  let dev := devs g (device node) in
  let start_block := offset / ATA_SECTOR_SIZE in
  let end_block := u32 (offset + size - 1) / ATA_SECTOR_SIZE in
  let x_offset := 0 in
  if offset >? ata_max_offset dev then ret (0, buffer)
  else
    let size :=
      if u32 (offset + size) >? ata_max_offset dev
      then u32 (u64 (ata_max_offset dev - offset))
      else size in
    st <- (if truthy (offset mod ATA_SECTOR_SIZE) then
             let prefix_size := ATA_SECTOR_SIZE - offset mod ATA_SECTOR_SIZE in
             tmp <- malloc ATA_SECTOR_SIZE ;;
             tmp <- ata_device_read_sector fuel dev start_block tmp 0 ;;
             let buffer :=
               store buffer 0
                 (load tmp (offset mod ATA_SECTOR_SIZE) (Z.to_nat prefix_size)) in
             ret (buffer, u32 (x_offset + prefix_size), u32 (start_block + 1))
           else ret (buffer, x_offset, start_block)) ;;
    let '(buffer, x_offset, start_block) := st in
    st <- (if truthy (u32 (offset + size) mod ATA_SECTOR_SIZE)
              && (start_block <? end_block) then
             let postfix_size := u32 (offset + size) mod ATA_SECTOR_SIZE in
             tmp <- malloc ATA_SECTOR_SIZE ;;
             tmp <- ata_device_read_sector fuel dev end_block tmp 0 ;;
             let buffer :=
               store buffer (size - postfix_size)
                 (load tmp 0 (Z.to_nat postfix_size)) in
             ret (buffer, u32 (end_block - 1))
           else ret (buffer, end_block)) ;;
    let '(buffer, end_block) := st in
    buffer <- read_blocks fuel fuel dev start_block end_block x_offset buffer ;;
    ret (size, buffer).

(** The final [while (start_block <= end_block)] of [write_ata]. *)
Fixpoint write_blocks (k : nat) (fuel : nat) (dev : ata_device)
    (start_block end_block x_offset : Z) (buffer : mem) : M unit :=
  match k with
  | O => out_of_fuel
  | S k' =>
      if start_block <=? end_block then
        ata_device_write_sector_retry fuel dev start_block buffer x_offset ;;
        write_blocks k' fuel dev (u32 (start_block + 1)) end_block
          (u32 (x_offset + ATA_SECTOR_SIZE)) buffer
      else ret tt
  end.

Definition write_ata (fuel : nat) (node : fs_node_t) (_offset size : Z)
    (buffer : mem) : M Z :=
  let offset := u32 _offset in
  g <- get_globals ;;
  let dev := devs g (device node) in
  let start_block := offset / ATA_SECTOR_SIZE in
  let end_block := u32 (offset + size - 1) / ATA_SECTOR_SIZE in
  let x_offset := 0 in
  if offset >? ata_max_offset dev then ret 0
  else
    let size :=
      if u32 (offset + size) >? ata_max_offset dev
      then u32 (u64 (ata_max_offset dev - offset))
      else size in
    st <- (if truthy (offset mod ATA_SECTOR_SIZE) then
             let prefix_size := ATA_SECTOR_SIZE - offset mod ATA_SECTOR_SIZE in
             tmp <- malloc ATA_SECTOR_SIZE ;;
             tmp <- ata_device_read_sector fuel dev start_block tmp 0 ;;
             let tmp :=
               store tmp (offset mod ATA_SECTOR_SIZE)
                 (load buffer 0 (Z.to_nat prefix_size)) in
             ata_device_write_sector_retry fuel dev start_block tmp 0 ;;
             ret (u32 (x_offset + prefix_size), u32 (start_block + 1))
           else ret (x_offset, start_block)) ;;
    let '(x_offset, start_block) := st in
    end_block <- (if truthy (u32 (offset + size) mod ATA_SECTOR_SIZE)
                     && (start_block <? end_block) then
                    let postfix_size := u32 (offset + size) mod ATA_SECTOR_SIZE in
                    tmp <- malloc ATA_SECTOR_SIZE ;;
                    tmp <- ata_device_read_sector fuel dev end_block tmp 0 ;;
                    let tmp :=
                      store tmp 0
                        (load buffer (size - postfix_size)
                           (Z.to_nat postfix_size)) in
                    ata_device_write_sector_retry fuel dev end_block tmp 0 ;;
                    ret (u32 (end_block - 1))
                  else ret end_block) ;;
    write_blocks fuel fuel dev start_block end_block x_offset buffer ;;
    ret size.

(** [vfs_mount(devname, node)]: the kernel's mount table is kept in
    the driver's globals, latest mount first. *)
Definition vfs_mount (devname : string) (node : fs_node_t) : M unit :=
  g <- get_globals ;;
  put_globals (Globals (ata_drive_char g) (devs g) ((devname, node) :: vfs g)).

Definition ata_device_create (device : dev_id) : M fs_node_t :=
  g <- get_globals ;;
  ret (Node ("atadev" ++ fmt_d (ata_drive_char g - 97))
            device
            0                                   (* inode *)
            0 0                                 (* uid, gid *)
            432                                 (* mask, 0660 in octal *)
            (ata_max_offset (devs g device) mod 2 ^ FS_LENGTH_BITS)
            FS_BLOCKDEVICE
            (Some op_read_ata) (Some op_write_ata)
            (Some op_open_ata) (Some op_close_ata)).

(** A write through the pointer to the static device [d]. *)
Definition update_dev (d : dev_id) (f : ata_device -> ata_device) : M unit :=
  g <- get_globals ;;
  put_globals (set_dev d (f (devs g d)) g).

Definition ata_device_init (fuel : nat) (d : dev_id) : M unit :=
  g <- get_globals ;;
  let dev := devs g d in
  outportb (io_base dev + 1) 1 ;;
  outportb (control dev) 0 ;;
  outportb (io_base dev + ATA_REG_HDDEVSEL) (Z.lor 0xA0 (Z.shiftl (slave dev) 4)) ;;
  ata_io_wait dev ;;
  outportb (io_base dev + ATA_REG_COMMAND) ATA_CMD_IDENTIFY ;;
  ata_io_wait dev ;;
  _ <- inportb (io_base dev + ATA_REG_COMMAND) ;;
  _ <- ata_wait fuel dev 0 ;;
  ws <- read_words (io_base dev) 256 ;;
  update_dev d (set_identity (identify_swapped ws)) ;;
  outportb (io_base dev + ATA_REG_CONTROL) 0x02.

(** The tail of [ata_device_detect], from the first [if] on: what is
    done with the signature [cl], [ch] read from LBA1 and LBA2. *)
Definition detect_dispatch (fuel : nat) (d : dev_id) (cl ch : Z) : M Z :=
  if (cl =? 0xFF) && (ch =? 0xFF) then
    ret 0                                            (* Nothing here *)
  else if ((cl =? 0x00) && (ch =? 0x00)) || ((cl =? 0x3C) && (ch =? 0xC3)) then
    (* Parallel ATA device, or emulated SATA *)
    g <- get_globals ;;
    let devname := ("/dev/hd" ++ fmt_c (ata_drive_char g))%string in
    node <- ata_device_create d ;;
    vfs_mount devname node ;;
    g <- get_globals ;;
    put_globals (Globals (s8 (ata_drive_char g + 1)) (devs g) (vfs g)) ;;
    ata_device_init fuel d ;;
    ret 1
  else
    ret 0.                                           (* ATAPI, SATA, SATAPI: not handled *)

Definition ata_device_detect (fuel : nat) (d : dev_id) : M Z :=
  g <- get_globals ;;
  let dev := devs g d in
  ata_soft_reset dev ;;
  ata_io_wait dev ;;
  outportb (io_base dev + ATA_REG_HDDEVSEL) (Z.lor 0xA0 (Z.shiftl (slave dev) 4)) ;;
  ata_io_wait dev ;;
  _ <- ata_status_wait fuel dev 10000 ;;
  cl <- inportb (io_base dev + ATA_REG_LBA1) ;;      (* CYL_LO *)
  ch <- inportb (io_base dev + ATA_REG_LBA2) ;;      (* CYL_HI *)
  detect_dispatch fuel d cl ch.

Definition ata_initialize (fuel : nat) : M Z :=
  _ <- ata_device_detect fuel ata_primary_master ;;
  _ <- ata_device_detect fuel ata_primary_slave ;;
  _ <- ata_device_detect fuel ata_secondary_master ;;
  _ <- ata_device_detect fuel ata_secondary_slave ;;
  ret 0.
End Driver.

End Legacy.

(** ** The DMA and ATAPI driver (src/libc/unistd/execvp.c, lines 55-905) *)

Module Dma.

Record globals : Type := Globals {
  ata_drive_char : Z;
  cdrom_number : Z;
  ata_pci : Z;
  atapi_in_progress : Z;
  devs : dev_id -> ata_device;
  vfs : list (string * fs_node_t)
}.

Definition initial_globals : globals := Globals 97 0 0 0 static_devices [].

Definition set_dev (d : dev_id) (v : ata_device) (g : globals) : globals :=
  Globals (ata_drive_char g) (cdrom_number g) (ata_pci g) (atapi_in_progress g)
    (fun x => if dev_id_eqb x d then v else devs g x) (vfs g).

Definition set_in_progress (v : Z) (g : globals) : globals :=
  Globals (ata_drive_char g) (cdrom_number g) (ata_pci g) v (devs g) (vfs g).

Definition ata_max_offset (dev : ata_device) : Z :=
  let sectors := sectors_48 (identity dev) in
  let sectors := if negb (truthy sectors)
                 then sectors_28 (identity dev)   (* Fall back to sectors_28 *)
                 else sectors in
  u64 (sectors * ATA_SECTOR_SIZE).

Definition atapi_max_offset (dev : ata_device) : Z :=
  let max_sector := atapi_lba dev in
  if negb (truthy max_sector) then 0
  else u64 ((max_sector + 1) * atapi_sector_size dev).

Section Driver.
Context {E : Type} {P : platform E} {H : ata_h} {F : fs_h}.
Local Abbreviation M := (M E globals).

(** [while (1) { status = inportb(..); if (COND(status)) break; }] *)
Fixpoint poll_status (fuel : nat) (dev : ata_device)
    (done : Z -> bool) : M Z :=
  match fuel with
  | O => out_of_fuel
  | S k =>
      status <- inportb (io_base dev + ATA_REG_STATUS) ;;
      if done status then ret status else poll_status k dev done
  end.

(** The loop that waits for the bus master's interrupt bit and for
    the device to leave BSY. *)
Fixpoint poll_dma_done (fuel : nat) (dev : ata_device) : M unit :=
  match fuel with
  | O => out_of_fuel
  | S k =>
      status <- inportb (bar4 dev + 0x02) ;;
      dstatus <- inportb (io_base dev + ATA_REG_STATUS) ;;
      if negb (truthy (Z.land status 0x04)) then poll_dma_done k dev
      else if negb (truthy (Z.land dstatus ATA_SR_BSY)) then ret tt
      else poll_dma_done k dev
  end.

Definition ata_device_read_sector (fuel : nat) (dev : ata_device)
    (lba : Z) (buf : mem) (off : Z) : M mem :=
  let lba := u64 lba in
  let bus := u16 (io_base dev) in
  let slave := u8 (slave dev) in
  if truthy (is_atapi dev) then ret buf
  else
    spin_lock ;;
    _ <- ata_wait fuel dev 0 ;;
    outportb (bar4 dev) 0x00 ;;                          (* Stop *)
    outportl (bar4 dev + 0x04) (dma_prdt_phys dev) ;;    (* Set the PRDT *)
    st <- inportb (bar4 dev + 0x02) ;;
    outportb (bar4 dev + 0x2) (Z.lor (Z.lor st 0x04) 0x02) ;;
    outportb (bar4 dev) 0x08 ;;                          (* set read *)
    irq EvIrqOn ;;
    _ <- poll_status fuel dev (fun status => negb (truthy (Z.land status ATA_SR_BSY))) ;;
    outportb (bus + ATA_REG_CONTROL) 0x00 ;;
    outportb (bus + ATA_REG_HDDEVSEL) (Z.lor 0xe0 (Z.shiftl slave 4)) ;;
    ata_io_wait dev ;;
    outportb (bus + ATA_REG_FEATURES) 0x00 ;;
    outportb (bus + ATA_REG_SECCOUNT0) 1 ;;
    outportb (bus + ATA_REG_LBA0) (Z.shiftr (Z.land lba 0x000000ff) 0) ;;
    outportb (bus + ATA_REG_LBA1) (Z.shiftr (Z.land lba 0x0000ff00) 8) ;;
    outportb (bus + ATA_REG_LBA2) (Z.shiftr (Z.land lba 0x00ff0000) 16) ;;
    outportb (bus + ATA_REG_LBA3) (Z.shiftr (Z.land lba 0xff000000) 24) ;;
    outportb (bus + ATA_REG_LBA4) (Z.shiftr (Z.land lba 0xff00000000) 32) ;;
    outportb (bus + ATA_REG_LBA5) (Z.shiftr (Z.land lba 0xff0000000000) 40) ;;
    _ <- poll_status fuel dev
           (fun status => negb (truthy (Z.land status ATA_SR_BSY))
                          && truthy (Z.land status ATA_SR_DRDY)) ;;
    outportb (bus + ATA_REG_COMMAND) ATA_CMD_READ_DMA ;;
    ata_io_wait dev ;;
    outportb (bar4 dev) (Z.lor 0x08 0x01) ;;
    poll_dma_done fuel dev ;;
    irq EvIrqOff ;;
    (* Copy from DMA buffer to output buffer. *)
    data <- dma_read (dma_start dev) 512 ;;
    let buf := store buf off data in
    (* Inform device we are done. *)
    st <- inportb (bar4 dev + 0x02) ;;
    outportb (bar4 dev + 0x2) (Z.lor (Z.lor st 0x04) 0x02) ;;
    spin_unlock ;;
    ret buf.

Definition ata_device_write_sector (fuel : nat) (dev : ata_device)
    (lba : Z) (buf : mem) (off : Z) : M unit :=
  let lba := u64 lba in
  let bus := u16 (io_base dev) in
  let slave := u8 (slave dev) in
  spin_lock ;;
  outportb (bus + ATA_REG_CONTROL) 0x02 ;;
  _ <- ata_wait fuel dev 0 ;;
  outportb (bus + ATA_REG_HDDEVSEL) (Z.lor 0xe0 (Z.shiftl slave 4)) ;;
  _ <- ata_wait fuel dev 0 ;;
  outportb (bus + ATA_REG_FEATURES) 0x00 ;;
  outportb (bus + ATA_REG_SECCOUNT0) 0x01 ;;
  outportb (bus + ATA_REG_LBA0) (Z.shiftr (Z.land lba 0x000000ff) 0) ;;
  outportb (bus + ATA_REG_LBA1) (Z.shiftr (Z.land lba 0x0000ff00) 8) ;;
  outportb (bus + ATA_REG_LBA2) (Z.shiftr (Z.land lba 0x00ff0000) 16) ;;
  outportb (bus + ATA_REG_LBA3) (Z.shiftr (Z.land lba 0xff000000) 24) ;;
  outportb (bus + ATA_REG_LBA4) (Z.shiftr (Z.land lba 0xff00000000) 32) ;;
  outportb (bus + ATA_REG_LBA5) (Z.shiftr (Z.land lba 0xff0000000000) 40) ;;
  outportb (bus + ATA_REG_COMMAND) ATA_CMD_WRITE_PIO ;;
  _ <- ata_wait fuel dev 0 ;;
  let size := Z.to_nat (ATA_SECTOR_SIZE / 2) in
  outportsm bus buf off size ;;
  outportb (bus + 0x07) ATA_CMD_CACHE_FLUSH ;;
  _ <- ata_wait fuel dev 0 ;;
  spin_unlock.

Fixpoint write_verify_loop (k : nat) (fuel : nat) (dev : ata_device)
    (lba : Z) (buf : mem) (off : Z) (read_buf : mem) : M mem :=
  match k with
  | O => out_of_fuel
  | S k' =>
      ata_device_write_sector fuel dev lba buf off ;;
      read_buf <- ata_device_read_sector fuel dev lba read_buf 0 ;;
      differ <- lift_result (buffer_compare buf off read_buf 0 ATA_SECTOR_SIZE) ;;
      if truthy differ
      then write_verify_loop k' fuel dev lba buf off read_buf
      else ret read_buf
  end.

Definition ata_device_write_sector_retry (fuel : nat) (dev : ata_device)
    (lba : Z) (buf : mem) (off : Z) : M unit :=
  read_buf <- malloc ATA_SECTOR_SIZE ;;
  _ <- write_verify_loop fuel fuel dev lba buf off read_buf ;;
  ret tt.

(** [koff_t] is declared in a header that is not among the sources;
    it is taken to be a 64-bit integer.  For offsets from 0 to
    [2^63 - 1] its signedness makes no difference to what follows. *)
Definition koff (x : Z) : Z := u64 x.

Fixpoint read_blocks (k : nat) (fuel : nat) (dev : ata_device)
    (start_block end_block x_offset : Z) (buffer : mem) : M mem :=
  match k with
  | O => out_of_fuel
  | S k' =>
      if start_block <=? end_block then
        buffer <- ata_device_read_sector fuel dev start_block buffer (u32 x_offset) ;;
        read_blocks k' fuel dev (u64 (start_block + 1)) end_block
          (u64 (x_offset + ATA_SECTOR_SIZE)) buffer
      else ret buffer
  end.

Definition read_ata (fuel : nat) (node : fs_node_t) (offset size : Z)
    (buffer : mem) : M (Z * mem) :=
  let offset := koff offset in
  g <- get_globals ;;
  let dev := devs g (device node) in
  let start_block := offset / ATA_SECTOR_SIZE in
  let end_block := u64 (offset + size - 1) / ATA_SECTOR_SIZE in
  let x_offset := 0 in
  if offset >? ata_max_offset dev then ret (0, buffer)
  else
    let size :=
      if u64 (offset + size) >? ata_max_offset dev
      then u32 (u64 (ata_max_offset dev - offset))
      else size in
    st <- (if truthy (offset mod ATA_SECTOR_SIZE) then
             let prefix_size := u32 (ATA_SECTOR_SIZE - offset mod ATA_SECTOR_SIZE) in
             tmp <- malloc ATA_SECTOR_SIZE ;;
             tmp <- ata_device_read_sector fuel dev start_block tmp 0 ;;
             let buffer :=
               store buffer 0
                 (load tmp (u32 (offset mod ATA_SECTOR_SIZE)) (Z.to_nat prefix_size)) in
             ret (buffer, u64 (x_offset + prefix_size), u64 (start_block + 1))
           else ret (buffer, x_offset, start_block)) ;;
    let '(buffer, x_offset, start_block) := st in
    st <- (if truthy (u64 (offset + size) mod ATA_SECTOR_SIZE)
              && (start_block <=? end_block) then
             let postfix_size := u32 (u64 (offset + size) mod ATA_SECTOR_SIZE) in
             tmp <- malloc ATA_SECTOR_SIZE ;;
             tmp <- ata_device_read_sector fuel dev end_block tmp 0 ;;
             let buffer :=
               store buffer (size - postfix_size)
                 (load tmp 0 (Z.to_nat postfix_size)) in
             ret (buffer, u64 (end_block - 1))
           else ret (buffer, end_block)) ;;
    let '(buffer, end_block) := st in
    buffer <- read_blocks fuel fuel dev start_block end_block x_offset buffer ;;
    ret (size, buffer).

Fixpoint write_blocks (k : nat) (fuel : nat) (dev : ata_device)
    (start_block end_block x_offset : Z) (buffer : mem) : M unit :=
  match k with
  | O => out_of_fuel
  | S k' =>
      if start_block <=? end_block then
        ata_device_write_sector_retry fuel dev start_block buffer (u32 x_offset) ;;
        write_blocks k' fuel dev (u64 (start_block + 1)) end_block
          (u64 (x_offset + ATA_SECTOR_SIZE)) buffer
      else ret tt
  end.

Definition write_ata (fuel : nat) (node : fs_node_t) (offset size : Z)
    (buffer : mem) : M Z :=
  let offset := koff offset in
  g <- get_globals ;;
  let dev := devs g (device node) in
  let start_block := offset / ATA_SECTOR_SIZE in
  let end_block := u64 (offset + size - 1) / ATA_SECTOR_SIZE in
  let x_offset := 0 in
  if offset >? ata_max_offset dev then ret 0
  else
    let size :=
      if u64 (offset + size) >? ata_max_offset dev
      then u32 (u64 (ata_max_offset dev - offset))
      else size in
    st <- (if truthy (offset mod ATA_SECTOR_SIZE) then
             let prefix_size := u32 (ATA_SECTOR_SIZE - offset mod ATA_SECTOR_SIZE) in
             tmp <- malloc ATA_SECTOR_SIZE ;;
             tmp <- ata_device_read_sector fuel dev start_block tmp 0 ;;
             let tmp :=
               store tmp (u32 (offset mod ATA_SECTOR_SIZE))
                 (load buffer 0 (Z.to_nat prefix_size)) in
             ata_device_write_sector_retry fuel dev start_block tmp 0 ;;
             ret (u64 (x_offset + prefix_size), u64 (start_block + 1))
           else ret (x_offset, start_block)) ;;
    let '(x_offset, start_block) := st in
    end_block <- (if truthy (u64 (offset + size) mod ATA_SECTOR_SIZE)
                     && (start_block <=? end_block) then
                    let postfix_size := u32 (u64 (offset + size) mod ATA_SECTOR_SIZE) in
                    tmp <- malloc ATA_SECTOR_SIZE ;;
                    tmp <- ata_device_read_sector fuel dev end_block tmp 0 ;;
                    let tmp :=
                      store tmp 0
                        (load buffer (size - postfix_size) (Z.to_nat postfix_size)) in
                    ata_device_write_sector_retry fuel dev end_block tmp 0 ;;
                    ret (u64 (end_block - 1))
                  else ret end_block) ;;
    write_blocks fuel fuel dev start_block end_block x_offset buffer ;;
    ret size.

Definition vfs_mount (devname : string) (node : fs_node_t) : M unit :=
  g <- get_globals ;;
  put_globals (Globals (ata_drive_char g) (cdrom_number g) (ata_pci g)
                 (atapi_in_progress g) (devs g) ((devname, node) :: vfs g)).

Definition atapi_device_create (device : dev_id) : M fs_node_t :=
  g <- get_globals ;;
  ret (Node ("cdrom" ++ fmt_d (cdrom_number g))
            device 0 0 0 432
            (atapi_max_offset (devs g device) mod 2 ^ FS_LENGTH_BITS)
            FS_BLOCKDEVICE
            (Some op_read_atapi) None            (* no write support *)
            (Some op_open_ata) (Some op_close_ata)).

Definition ata_device_create (device : dev_id) : M fs_node_t :=
  g <- get_globals ;;
  ret (Node ("atadev" ++ fmt_d (ata_drive_char g - 97))
            device 0 0 0 432
            (ata_max_offset (devs g device) mod 2 ^ FS_LENGTH_BITS)
            FS_BLOCKDEVICE
            (Some op_read_ata) (Some op_write_ata)
            (Some op_open_ata) (Some op_close_ata)).

(** A write through the pointer to the static device [d]. *)
Definition update_dev (d : dev_id) (f : ata_device -> ata_device) : M unit :=
  g <- get_globals ;;
  put_globals (set_dev d (f (devs g d)) g).

Definition set_is_atapi (v : Z) (d : ata_device) : ata_device :=
  Device (io_base d) (control d) (slave d) v (identity d) (dma_prdt d)
    (dma_prdt_phys d) (dma_start d) (dma_start_phys d) (bar4 d)
    (atapi_lba d) (atapi_sector_size d).

Definition set_dma (prdt start : Z * Z) (d : ata_device) : ata_device :=
  Device (io_base d) (control d) (slave d) (is_atapi d) (identity d)
    (fst prdt) (snd prdt) (fst start) (snd start) (bar4 d)
    (atapi_lba d) (atapi_sector_size d).

Definition set_bar4 (v : Z) (d : ata_device) : ata_device :=
  Device (io_base d) (control d) (slave d) (is_atapi d) (identity d)
    (dma_prdt d) (dma_prdt_phys d) (dma_start d) (dma_start_phys d) v
    (atapi_lba d) (atapi_sector_size d).

Definition set_capacity (lba blocks : Z) (d : ata_device) : ata_device :=
  Device (io_base d) (control d) (slave d) (is_atapi d) (identity d)
    (dma_prdt d) (dma_prdt_phys d) (dma_start d) (dma_start_phys d) (bar4 d)
    lba blocks.

(** The IDENTIFY exchange that opens both [ata_device_init] and
    [atapi_device_init], from the write to [io_base + 1] to the byte
    swap of [model]. *)
Definition identify (fuel : nat) (d : dev_id) (cmd : Z) : M unit :=
  g <- get_globals ;;
  let dev := devs g d in
  outportb (io_base dev + 1) 1 ;;
  outportb (control dev) 0 ;;
  outportb (io_base dev + ATA_REG_HDDEVSEL) (Z.lor 0xA0 (Z.shiftl (slave dev) 4)) ;;
  ata_io_wait dev ;;
  outportb (io_base dev + ATA_REG_COMMAND) cmd ;;
  ata_io_wait dev ;;
  _ <- inportb (io_base dev + ATA_REG_COMMAND) ;;
  _ <- ata_wait fuel dev 0 ;;
  ws <- read_words (io_base dev) 256 ;;
  update_dev d (set_identity (identify_swapped ws)).

Definition ata_device_init (fuel : nat) (d : dev_id) : M unit :=
  identify fuel d ATA_CMD_IDENTIFY ;;
  update_dev d (set_is_atapi 0) ;;
  (* Setting up DMA... *)
  prdt <- kvmalloc_p 8 ;;                 (* sizeof(prdt_t) * 1 *)
  start <- kvmalloc_p 4096 ;;
  update_dev d (set_dma prdt start) ;;
  prdt_write (fst prdt) (snd start, 512, 0x8000) ;;
  g <- get_globals ;;
  command_reg <- pci_read (ata_pci g) PCI_COMMAND 4 ;;
  let command_reg := u16 command_reg in
  (if truthy (Z.land command_reg (Z.shiftl 1 2)) then
     ret tt                               (* Bus mastering already enabled. *)
   else
     let command_reg := u16 (Z.lor command_reg (Z.shiftl 1 2)) in   (* bit 2 *)
     pci_write (ata_pci g) PCI_COMMAND 4 command_reg ;;
     _ <- pci_read (ata_pci g) PCI_COMMAND 4 ;;
     ret tt) ;;
  b <- pci_read (ata_pci g) PCI_BAR4 4 ;;
  update_dev d (set_bar4 b) ;;
  if truthy (Z.land b 0x00000001) then
    update_dev d (set_bar4 (Z.land b 0xFFFFFFFC))
  else
    ret tt.                               (* No DMA because we're not sure what to do here *)

(** The polling loops of the ATAPI paths:
    [while (1) { status = inportb(..); if (..) goto error; if (..) break; }].
    [verdict status] is [Some false] for the [goto], [Some true] for
    the [break], [None] to go round again; the result tells whether
    the loop left through [break]. *)
Fixpoint poll_packet (fuel : nat) (dev : ata_device)
    (verdict : Z -> option bool) : M bool :=
  match fuel with
  | O => out_of_fuel
  | S k =>
      status <- inportb (io_base dev + ATA_REG_STATUS) ;;
      match verdict status with
      | Some b => ret b
      | None => poll_packet k dev verdict
      end
  end.

Definition until_drdy (status : Z) : option bool :=
  if truthy (Z.land status ATA_SR_ERR) then Some false
  else if negb (truthy (Z.land status ATA_SR_BSY))
          && truthy (Z.land status ATA_SR_DRDY) then Some true
  else None.

Definition until_drdy_or_drq (status : Z) : option bool :=
  if truthy (Z.land status ATA_SR_ERR) then Some false
  else if negb (truthy (Z.land status ATA_SR_BSY))
          && truthy (Z.land status ATA_SR_DRDY) then Some true
  else if truthy (Z.land status ATA_SR_DRQ) then Some true
  else None.

Definition until_drq (status : Z) : option bool :=
  if truthy (Z.land status ATA_SR_ERR) then Some false
  else if negb (truthy (Z.land status ATA_SR_BSY))
          && truthy (Z.land status ATA_SR_DRQ) then Some true
  else None.

(** The six words of an [atapi_command_t] given by its twelve bytes. *)
Fixpoint command_words (bytes : list Z) : list Z :=
  match bytes with
  | lo :: hi :: rest => (u8 lo + 256 * u8 hi) :: command_words rest
  | _ => []
  end.

Fixpoint write_words (port : Z) (ws : list Z) : M unit :=
  match ws with
  | [] => ret tt
  | v :: rest => outports port v ;; write_words port rest
  end.

Definition htonl (l : Z) : Z :=
  Z.lor (Z.lor (Z.lor (u32 (Z.shiftl (Z.land l 0xFF) 24))
                      (Z.shiftl (Z.land l 0xFF00) 8))
               (Z.shiftr (Z.land l 0xFF0000) 8))
        (Z.shiftr (Z.land l 0xFF000000) 24).

Definition atapi_device_init (fuel : nat) (d : dev_id) : M Z :=
  update_dev d (set_is_atapi 1) ;;
  identify fuel d ATA_CMD_IDENTIFY_PACKET ;;
  g <- get_globals ;;
  let dev := devs g d in
  (* Detect medium *)
  let command := [0x25; 0; 0; 0; 0; 0; 0; 0; 0; 0; 0; 0] in
  let bus := u16 (io_base dev) in
  outportb (bus + ATA_REG_FEATURES) 0x00 ;;
  outportb (bus + ATA_REG_LBA1) 0x08 ;;
  outportb (bus + ATA_REG_LBA2) 0x08 ;;
  outportb (bus + ATA_REG_COMMAND) ATA_CMD_PACKET ;;
  ready <- poll_packet fuel dev until_drdy ;;
  if negb ready then ret 1                       (* atapi_error *)
  else
    write_words bus (command_words command) ;;
    ready <- poll_packet fuel dev until_drdy_or_drq ;;
    if negb ready then ret 1                     (* atapi_error_read *)
    else
      data <- read_words bus 4 ;;
      let lba := htonl (words_value data 0 2) in
      let blocks := htonl (words_value data 2 2) in
      update_dev d (set_capacity lba blocks) ;;
      if negb (truthy lba) then ret 1
      else ret 0.

(** The tail of [ata_device_detect], from the first [if] on: what is
    done with the signature [cl], [ch] read from LBA1 and LBA2. *)
Definition detect_dispatch (fuel : nat) (d : dev_id) (cl ch : Z) : M Z :=
  if (cl =? 0xFF) && (ch =? 0xFF) then
    ret 0                                            (* Nothing here *)
  else if ((cl =? 0x00) && (ch =? 0x00)) || ((cl =? 0x3C) && (ch =? 0xC3)) then
    (* Parallel ATA device, or emulated SATA *)
    g <- get_globals ;;
    let devname := ("/dev/hd" ++ fmt_c (ata_drive_char g))%string in
    node <- ata_device_create d ;;
    vfs_mount devname node ;;
    g <- get_globals ;;
    put_globals (Globals (s8 (ata_drive_char g + 1)) (cdrom_number g) (ata_pci g)
                   (atapi_in_progress g) (devs g) (vfs g)) ;;
    ata_device_init fuel d ;;
    ret 1
  else if ((cl =? 0x14) && (ch =? 0xEB)) || ((cl =? 0x69) && (ch =? 0x96)) then
    g <- get_globals ;;
    let devname := ("/dev/cdrom" ++ fmt_d (cdrom_number g))%string in
    failed <- atapi_device_init fuel d ;;
    if truthy failed then ret 0
    else
      node <- atapi_device_create d ;;
      vfs_mount devname node ;;
      g <- get_globals ;;
      put_globals (Globals (ata_drive_char g) (cdrom_number g + 1) (ata_pci g)
                     (atapi_in_progress g) (devs g) (vfs g)) ;;
      ret 2
  else
    ret 0.

Definition ata_device_detect (fuel : nat) (d : dev_id) : M Z :=
  g <- get_globals ;;
  let dev := devs g d in
  ata_soft_reset dev ;;
  ata_io_wait dev ;;
  outportb (io_base dev + ATA_REG_HDDEVSEL) (Z.lor 0xA0 (Z.shiftl (slave dev) 4)) ;;
  ata_io_wait dev ;;
  _ <- ata_status_wait fuel dev 10000 ;;
  cl <- inportb (io_base dev + ATA_REG_LBA1) ;;      (* CYL_LO *)
  ch <- inportb (io_base dev + ATA_REG_LBA2) ;;      (* CYL_HI *)
  detect_dispatch fuel d cl ch.

Definition ata_initialize (fuel : nat) : M Z :=
  (* Locate ATA device via PCI *)
  (fun w => match pci_scan_ata (plat w) with
            | Some device =>
                let g := glob w in
                Ok (tt, set_globals (Globals (ata_drive_char g) (cdrom_number g)
                                       device (atapi_in_progress g) (devs g) (vfs g)) w, [])
            | None => Ok (tt, w, [])
            end) ;;
  _ <- ata_device_detect fuel ata_primary_master ;;
  _ <- ata_device_detect fuel ata_primary_slave ;;
  _ <- ata_device_detect fuel ata_secondary_master ;;
  _ <- ata_device_detect fuel ata_secondary_slave ;;
  ret 0.

Definition ata_device_read_sector_atapi (fuel : nat) (dev : ata_device)
    (lba : Z) (buf : mem) (off : Z) : M mem :=
  let lba := u64 lba in
  if negb (truthy (is_atapi dev)) then ret buf
  else
    let bus := u16 (io_base dev) in
    spin_lock ;;
    outportb (io_base dev + ATA_REG_HDDEVSEL) (Z.lor 0xA0 (Z.shiftl (slave dev) 4)) ;;
    ata_io_wait dev ;;
    outportb (bus + ATA_REG_FEATURES) 0x00 ;;
    outportb (bus + ATA_REG_LBA1) (Z.land (atapi_sector_size dev) 0xFF) ;;
    outportb (bus + ATA_REG_LBA2) (Z.shiftr (atapi_sector_size dev) 8) ;;
    outportb (bus + ATA_REG_COMMAND) ATA_CMD_PACKET ;;
    ready <- poll_packet fuel dev until_drq ;;
    if negb ready then spin_unlock ;; ret buf    (* atapi_error_on_read_setup *)
    else
      g <- get_globals ;;
      put_globals (set_in_progress 1 g) ;;
      let command :=
        [0xA8; 0;
         Z.land (Z.shiftr lba 0x18) 0xFF; Z.land (Z.shiftr lba 0x10) 0xFF;
         Z.land (Z.shiftr lba 0x08) 0xFF; Z.land (Z.shiftr lba 0x00) 0xFF;
         0; 0; 0; 1; 0; 0] in
      write_words bus (command_words command) ;;
      sleep_on ;;                                 (* Wait *)
      g <- get_globals ;;
      put_globals (set_in_progress 0 g) ;;
      ready <- poll_packet fuel dev until_drq ;;
      if negb ready then spin_unlock ;; ret buf
      else
        hi <- inportb (bus + ATA_REG_LBA2) ;;
        lo <- inportb (bus + ATA_REG_LBA1) ;;
        let size_to_read := u16 (Z.lor (u16 (Z.shiftl hi 8)) lo) in
        buf <- inportsm bus buf off (Z.to_nat (size_to_read / 2)) ;;
        _ <- poll_packet fuel dev until_drdy ;;
        spin_unlock ;;
        ret buf.
(** The loop that ends [read_atapi]:
    [while (start_block <= end_block) { ... start_block++; }]. *)
Fixpoint read_blocks_atapi (k : nat) (fuel : nat) (dev : ata_device)
    (start_block end_block x_offset : Z) (buffer : mem) : M mem :=
  match k with
  | O => out_of_fuel
  | S k' =>
      if start_block <=? end_block then
        buffer <- ata_device_read_sector_atapi fuel dev start_block buffer
                    (u32 x_offset) ;;
        read_blocks_atapi k' fuel dev (u64 (start_block + 1)) end_block
          (u64 (x_offset + atapi_sector_size dev)) buffer
      else ret buffer
  end.

(** [read_atapi].  The two divisions by [dev->atapi_sector_size] are
    the first thing the function does, before any check; a division by
    zero is a fault, and the run stops there. *)
Definition read_atapi (fuel : nat) (node : fs_node_t) (offset size : Z)
    (buffer : mem) : M (Z * mem) :=
  let offset := koff offset in
  g <- get_globals ;;
  let dev := devs g (device node) in
  let sector := atapi_sector_size dev in
  if sector =? 0 then abort
  else
    let start_block := offset / sector in
    let end_block := u64 (offset + size - 1) / sector in
    let x_offset := 0 in
    if offset >? atapi_max_offset dev then ret (0, buffer)
    else
      let size :=
        if u64 (offset + size) >? atapi_max_offset dev
        then u32 (u64 (atapi_max_offset dev - offset))
        else size in
      st <- (if truthy (offset mod sector) then
               let prefix_size := u32 (sector - offset mod sector) in
               tmp <- malloc sector ;;
               tmp <- ata_device_read_sector_atapi fuel dev start_block tmp 0 ;;
               let buffer :=
                 store buffer 0
                   (load tmp (u32 (offset mod sector)) (Z.to_nat prefix_size)) in
               ret (buffer, u64 (x_offset + prefix_size), u64 (start_block + 1))
             else ret (buffer, x_offset, start_block)) ;;
      let '(buffer, x_offset, start_block) := st in
      st <- (if truthy (u64 (offset + size) mod sector)
                && (start_block <=? end_block) then
               let postfix_size := u32 (u64 (offset + size) mod sector) in
               tmp <- malloc sector ;;
               tmp <- ata_device_read_sector_atapi fuel dev end_block tmp 0 ;;
               let buffer :=
                 store buffer (size - postfix_size)
                   (load tmp 0 (Z.to_nat postfix_size)) in
               ret (buffer, u64 (end_block - 1))
             else ret (buffer, end_block)) ;;
      let '(buffer, end_block) := st in
      buffer <- read_blocks_atapi fuel fuel dev start_block end_block x_offset
                  buffer ;;
      ret (size, buffer).
End Driver.

End Dma.

(** ** [execvp] and its neighbours (src/libc/unistd/execvp.c, lines 1-53) *)

Module Exec.

(** What the three functions reach outside the file: the environment,
    the string functions, [stat] and the system call.  [strstr] tells
    whether the needle was found; [strtok_r_all] is the list of tokens
    that the loop
    [for (p = strtok_r(xpath, ":", &last); p; p = strtok_r(NULL, ":", &last))]
    goes through; [stat] gives [st_mode] when it returns 0, and
    [stat_errno] what it leaves in [errno]; [sets_errno_execve] is
    [__sets_errno(syscall_execve(name, argv, envp))]: the result and
    the [errno] it leaves. *)
Class libc_h : Type := {
  ENOENT : Z;
  environ : list string;
  getenv : string -> option string;
  strstr : string -> string -> bool;
  strtok_r_all : string -> string -> list string;
  stat : string -> option Z;
  stat_errno : string -> Z -> Z;
  sets_errno_execve : string -> list string -> list string -> Z -> Z * Z
}.

Definition DEFAULT_PATH : string := "/bin:/usr/bin".

(** The calls a run makes, oldest first. *)
Inductive call : Type :=
| CallStat (path : string)
| CallExecve (name : string) (argv envp : list string).

Record proc : Type := Proc {
  errno : Z;
  calls : list call
}.

Section Libc.
Context {L : libc_h}.

Definition execve (name : string) (argv envp : list string) (s : proc)
    : Z * proc :=
  let (r, e) := sets_errno_execve name argv envp (errno s) in
  (r, Proc e (calls s ++ [CallExecve name argv envp])).

(** The body of the [for] loop of [execvp], over the tokens that are
    left. *)
Fixpoint search (tokens : list string) (file : string) (argv : list string)
    (s : proc) : Z * proc :=
  match tokens with
  | [] => (-1, Proc ENOENT (calls s))          (* errno = ENOENT; return -1; *)
  | p :: rest =>
      let exe := (p ++ "/" ++ file)%string in
      let s := Proc (stat_errno exe (errno s)) (calls s ++ [CallStat exe]) in
      match stat exe with
      | None => search rest file argv s                         (* r != 0 *)
      | Some st_mode =>
          if negb (truthy (Z.land st_mode 73)) then             (* 0111 *)
            search rest file argv s
          else execve exe argv environ s
      end
  end.

Definition execvp (file : option string) (argv : list string) (s : proc)
    : Z * proc :=
  match file with
  | Some f =>
      if negb (strstr f "/") then
        (* We don't quite understand "$PATH", so... *)
        let path := match getenv "PATH" with
                    | Some path => path
                    | None => DEFAULT_PATH
                    end in
        search (strtok_r_all path ":") f argv s
      else execve f argv environ s
  | None => (-1, Proc ENOENT (calls s))
  end.

Definition execv (file : string) (argv : list string) (s : proc) : Z * proc :=
  execve file argv environ s.

(** Whether the loop stops at the token [p]: [stat] succeeds on
    [p/file] and one of the execute bits is set. *)
Definition runnable (file p : string) : bool :=
  match stat (p ++ "/" ++ file)%string with
  | Some st_mode => truthy (Z.land st_mode 73)
  | None => false
  end.

(** The tokens the loop looks at: those up to and including the first
    runnable one. *)
Fixpoint examined (file : string) (tokens : list string) : list string :=
  match tokens with
  | [] => []
  | p :: rest => if runnable file p then [p] else p :: examined file rest
  end.
End Libc.

End Exec.

(** ** A test double: one ideal PIO/DMA disk on the primary channel *)

Module Sim.

(** The register offsets the drivers are run with in the examples. *)
#[local] Instance header : ata_h :=
  {| ATA_REG_LBA3 := 0x09; ATA_REG_LBA4 := 0x0A; ATA_REG_LBA5 := 0x0B;
     ATA_REG_CONTROL := 0x0C; ATA_REG_ALTSTATUS := 0x0C |}.

#[local] Instance fs : fs_h :=
  {| FS_BLOCKDEVICE := 0x04; FS_LENGTH_BITS := 32;
     PCI_COMMAND := 0x04; PCI_BAR4 := 0x20 |}.

(** What the machine is: fixed for a run. *)
Record config : Type := Config {
  signature : Z * Z;        (* what LBA1 and LBA2 read *)
  status : Z;               (* what the status register reads *)
  ident : list Z;           (* the 256 words of the IDENTIFY response *)
  packet_reply : list Z;    (* the words that answer a PACKET command *)
  bm_status : Z             (* what the bus master status register reads *)
}.

(** What changes as the driver works. *)
Record state : Type := State {
  disk : mem;               (* the medium, byte by byte *)
  lba0 : Z; lba1 : Z; lba2 : Z; sel : Z;
  outgoing : list Z;        (* words waiting at the data port *)
  incoming : option (Z * list Z);   (* sector being written, words so far *)
  dma_buffer : list Z;      (* what the last READ DMA transferred *)
  junk : mem                (* what fresh heap blocks contain *)
}.

Definition base : Z := 0x1F0.
Definition bm_base : Z := 0xC000.

Definition lba_of (s : state) : Z :=
  u8 (lba0 s) + 2 ^ 8 * u8 (lba1 s) + 2 ^ 16 * u8 (lba2 s)
  + 2 ^ 24 * Z.land (sel s) 0x0f.

Definition sector_bytes (s : state) (lba : Z) : list Z :=
  map u8 (load (disk s) (lba * 512) 512).

Fixpoint bytes_words (bs : list Z) : list Z :=
  match bs with
  | lo :: hi :: rest => (lo + 256 * hi) :: bytes_words rest
  | _ => []
  end.

Fixpoint words_to_bytes (ws : list Z) : list Z :=
  match ws with
  | [] => []
  | w :: rest => (w mod 256) :: (w / 256 mod 256) :: words_to_bytes rest
  end.

Definition sim_in (c : config) (width port : Z) (s : state) : Z * state :=
  if (width =? 16) && (port =? base) then
    match outgoing s with
    | v :: rest =>
        (v, State (disk s) (lba0 s) (lba1 s) (lba2 s) (sel s) rest
                  (incoming s) (dma_buffer s) (junk s))
    | [] => (0, s)
    end
  else if port =? base + 7 then (status c, s)
  else if port =? base + 4 then (fst (signature c), s)
  else if port =? base + 5 then (snd (signature c), s)
  else if port =? bm_base + 2 then (bm_status c, s)
  else (0xFF, s).

Definition sim_command (c : config) (cmd : Z) (s : state) : state :=
  let keep out inc dma :=
    State (disk s) (lba0 s) (lba1 s) (lba2 s) (sel s) out inc dma (junk s) in
  if cmd =? ATA_CMD_READ_PIO then
    keep (bytes_words (sector_bytes s (lba_of s))) None (dma_buffer s)
  else if cmd =? ATA_CMD_WRITE_PIO then
    keep [] (Some (lba_of s, [])) (dma_buffer s)
  else if (cmd =? ATA_CMD_IDENTIFY) || (cmd =? ATA_CMD_IDENTIFY_PACKET) then
    keep (ident c) None (dma_buffer s)
  else if cmd =? ATA_CMD_PACKET then
    keep (packet_reply c) None (dma_buffer s)
  else if cmd =? ATA_CMD_READ_DMA then
    keep [] None (sector_bytes s (lba_of s))
  else s.

Definition sim_out (c : config) (width port value : Z) (s : state) : state :=
  if (width =? 16) && (port =? base) then
    match incoming s with
    | Some (lba, ws) =>
        let ws := (ws ++ [value])%list in
        if (Z.of_nat (List.length ws) =? 256) then
          State (store (disk s) (lba * 512) (words_to_bytes ws))
            (lba0 s) (lba1 s) (lba2 s) (sel s) (outgoing s) None
            (dma_buffer s) (junk s)
        else
          State (disk s) (lba0 s) (lba1 s) (lba2 s) (sel s) (outgoing s)
            (Some (lba, ws)) (dma_buffer s) (junk s)
    | None => s
    end
  else if width =? 8 then
    if port =? base + 3 then
      State (disk s) value (lba1 s) (lba2 s) (sel s) (outgoing s) (incoming s)
        (dma_buffer s) (junk s)
    else if port =? base + 4 then
      State (disk s) (lba0 s) value (lba2 s) (sel s) (outgoing s) (incoming s)
        (dma_buffer s) (junk s)
    else if port =? base + 5 then
      State (disk s) (lba0 s) (lba1 s) value (sel s) (outgoing s) (incoming s)
        (dma_buffer s) (junk s)
    else if port =? base + 6 then
      State (disk s) (lba0 s) (lba1 s) (lba2 s) value (outgoing s) (incoming s)
        (dma_buffer s) (junk s)
    else if port =? base + 7 then sim_command c value s
    else s
  else s.

Definition sim_platform (c : config) : platform state :=
  {| port_in := sim_in c;
     port_out := sim_out c;
     heap_fresh := fun _ s => (junk s, s);
     kvmalloc_phys := fun n s => ((0x100000, 0x100000), s);
     dma_load := fun _ n s => firstn n (dma_buffer s);
     prdt_store := fun _ _ s => s;
     pci_read_field := fun _ field _ s =>
       (if field =? 0x20 then bm_base + 1 else 0, s);
     pci_write_field := fun _ _ _ _ s => s;
     pci_scan_ata := fun _ => Some 0x0800;
     sleep_wake := fun s => s |}.

(** An idle machine whose medium has [fill] in every byte and whose
    fresh heap blocks are zeroed. *)
Definition fresh (fill : Z) : state :=
  State (fun _ => fill) 0 0 0 0 [] None [] zeroes.

(** The IDENTIFY words of a disk of [n] sectors that only reports a
    28-bit capacity. *)
Definition ident_28 (n : Z) : list Z :=
  (repeat 0 60 ++ [n mod 2 ^ 16; n / 2 ^ 16] ++ repeat 0 194)%list.

End Sim.

(** ** Observations on traces and runs *)

(** The lock discipline.  [lock_after held t] follows [ata_lock]
    through the trace [t], starting with the lock held or not: it is
    [None] when a port is accessed while the lock is free, when the
    lock is taken while held or released while free, and otherwise
    tells whether the lock is held at the end. *)
Fixpoint lock_after (held : bool) (t : list event) : option bool :=
  match t with
  | [] => Some held
  | EvLock :: rest => if held then None else lock_after true rest
  | EvUnlock :: rest => if held then lock_after false rest else None
  | EvIn _ _ _ :: rest | EvOut _ _ _ :: rest =>
      if held then lock_after held rest else None
  | _ :: rest => lock_after held rest
  end.

(** A trace that starts and ends with the lock free and touches the
    ports only between an acquisition and the release that follows. *)
Definition disciplined (t : list event) : bool :=
  match lock_after false t with
  | Some false => true
  | _ => false
  end.

(** Started with the lock in state [pre], a run of [m] that returns
    leaves it in state [post], in the world and by its trace. *)
Definition lockspec {E G A} (pre post : bool) (m : M E G A) : Prop :=
  forall w a w' t, ata_lock w = pre -> m w = Ok (a, w', t) ->
    ata_lock w' = post /\ lock_after pre t = Some post.

(** Events that are neither lock operations nor port accesses outside
    the lock: what a critical section may contain. *)
Definition is_lock_event (e : event) : bool :=
  match e with
  | EvLock | EvUnlock => true
  | _ => false
  end.

(** A write of [cmd] to the command register of [dev]. *)
Definition is_command (dev : ata_device) (cmd : Z) (e : event) : bool :=
  match e with
  | EvOut 8 port value =>
      (port =? u16 (io_base dev + ATA_REG_COMMAND)) && (value =? cmd)
  | _ => false
  end.

Definition commands (dev : ata_device) (cmd : Z) (t : list event) : nat :=
  List.length (filter (is_command dev cmd) t).

(** A word read from the data port of [dev]. *)
Definition is_data_in (dev : ata_device) (e : event) : bool :=
  match e with
  | EvIn 16 port _ => port =? u16 (io_base dev)
  | _ => false
  end.

(** A word written to the data port of [dev]. *)
Definition is_data_out (dev : ata_device) (e : event) : bool :=
  match e with
  | EvOut 16 port _ => port =? u16 (io_base dev)
  | _ => false
  end.

(** The value a port event carries. *)
Definition event_value (e : event) : Z :=
  match e with
  | EvIn _ _ v | EvOut _ _ v => v
  | _ => 0
  end.

(** The words read from, and written to, the data port of [dev] in the
    course of [t], oldest first. *)
Definition data_read (dev : ata_device) (t : list event) : list Z :=
  map event_value (filter (is_data_in dev) t).

Definition data_written (dev : ata_device) (t : list event) : list Z :=
  map event_value (filter (is_data_out dev) t).

(** The [n] words that start at [buf + off], low byte first, and the
    memory that results from storing the words [ws] there. *)
Fixpoint load_words (buf : mem) (off : Z) (n : nat) : list Z :=
  match n with
  | O => []
  | S k => (u8 (buf off) + 256 * u8 (buf (off + 1))) :: load_words buf (off + 2) k
  end.

Fixpoint store_words (buf : mem) (off : Z) (ws : list Z) : mem :=
  match ws with
  | [] => buf
  | v :: rest => store_words (store buf off [v mod 256; v / 256]) (off + 2) rest
  end.

(** [m] run from [w] returns [a], leaving [w'] and the trace [t]. *)
Definition returns {E G A} (m : M E G A) (w : world E G) (a : A)
    (w' : world E G) (t : list event) : Prop :=
  m w = Ok (a, w', t).

(** [m] never fails an assertion. *)
Definition no_abort {E G A} (m : M E G A) : Prop :=
  forall w, m w <> Abort.

(** [m], started with the lock in state [pre], returns and leaves the
    lock in state [post]. *)
Definition runs {E G A} (pre post : bool) (m : M E G A) : Prop :=
  forall w, ata_lock w = pre ->
    exists a w' t, m w = Ok (a, w', t) /\ ata_lock w' = post.

(** [m], started with the lock in state [pre], returns a value that
    satisfies [Q] and leaves the lock in state [post]. *)
Definition runs_to {E G A} (pre post : bool) (Q : A -> Prop) (m : M E G A) : Prop :=
  forall w, ata_lock w = pre ->
    exists a w' t, m w = Ok (a, w', t) /\ ata_lock w' = post /\ Q a.

(** A platform on which the status register of [dev] never reads with
    BSY set. *)
Definition never_busy {E} (P : platform E) (dev : ata_device) : Prop :=
  forall e,
    Z.land (fst (port_in 8 (u16 (io_base dev + ATA_REG_STATUS)) e) mod 2 ^ 8)
      ATA_SR_BSY = 0.

(** Every run of [m] that returns has exactly [n] events that satisfy
    [f] in its trace. *)
Definition tally {E G A} (f : event -> bool) (n : nat) (m : M E G A) : Prop :=
  forall w a w' t, m w = Ok (a, w', t) -> List.length (filter f t) = n.

(** The values of the events that satisfy [f], in every run of [m]
    that returns, are [l]. *)
Definition carries {E G A} (f : event -> bool) (l : list Z) (m : M E G A) : Prop :=
  forall w a w' t, m w = Ok (a, w', t) -> map event_value (filter f t) = l.

(** The names under which the first [n] hard disks are mounted, and the
    names of their nodes, latest first. *)
Definition hd_names (n : nat) : list string :=
  rev (map (fun i => ("/dev/hd" ++ fmt_c (97 + Z.of_nat i))%string) (seq 0 n)).

Definition atadev_names (n : nat) : list string :=
  rev (map (fun i => ("atadev" ++ fmt_d (Z.of_nat i))%string) (seq 0 n)).


(** A platform on which the status register of [dev] always reads
    ready (BSY clear, DRDY set) and the bus master's status register
    always shows its interrupt bit. *)
Definition dma_ready {E} (P : platform E) (dev : ata_device) : Prop :=
  (forall e,
      let v := fst (port_in 8 (u16 (io_base dev + ATA_REG_STATUS)) e) mod 2 ^ 8 in
      Z.land v ATA_SR_BSY = 0 /\ Z.land v ATA_SR_DRDY <> 0) /\
  (forall e,
      Z.land (fst (port_in 8 (u16 (bar4 dev + 0x02)) e) mod 2 ^ 8) 0x04 <> 0).

(** Every run of [m] that returns leaves the driver's globals related
    by [R] to what they were. *)
Definition frames {E G A} (R : G -> G -> Prop) (m : M E G A) : Prop :=
  forall w a w' t, m w = Ok (a, w', t) -> R (glob w) (glob w').

(** Globals that agree on the mount table and on the two counters that
    name the nodes. *)
Definition legacy_same_names (g g' : Legacy.globals) : Prop :=
  Legacy.vfs g' = Legacy.vfs g /\
  Legacy.ata_drive_char g' = Legacy.ata_drive_char g.

Definition dma_same_names (g g' : Dma.globals) : Prop :=
  Dma.vfs g' = Dma.vfs g /\
  Dma.ata_drive_char g' = Dma.ata_drive_char g /\
  Dma.cdrom_number g' = Dma.cdrom_number g.

(** What a finished run returned, left and did. *)
Definition value_of {A W} (r : result (A * W * list event)) : option A :=
  match r with
  | Ok (a, _, _) => Some a
  | _ => None
  end.

Definition world_of {A W} (r : result (A * W * list event)) : option W :=
  match r with
  | Ok (_, w, _) => Some w
  | _ => None
  end.

Definition succeeded {A} (r : result A) : bool :=
  match r with
  | Ok _ => true
  | _ => false
  end.

Definition trace_of {A W} (r : result (A * W * list event)) : list event :=
  match r with
  | Ok (_, _, t) => t
  | _ => []
  end.

(** ** Example machines *)

Module Examples.
#[local] Existing Instances Sim.header Sim.fs.

(** A ready disk of 8 sectors (4096 bytes) that answers the probe as a
    parallel ATA drive. *)
Definition small_disk : Sim.config :=
  Sim.Config (0x00, 0x00) 0x48 (Sim.ident_28 8) [] 0x04.


(** An ATAPI drive without a medium, and one with a medium of 358400
    blocks of 2048 bytes (last block 0x000577FF). *)
Definition cdrom : Sim.config :=
  Sim.Config (0x14, 0xEB) 0x48 (repeat 0 256) [] 0x04.

Definition cdrom_loaded : Sim.config :=
  Sim.Config (0x14, 0xEB) 0x48 (repeat 0 256) [0x0500; 0xFF77; 0x0000; 0x0008] 0x04.

(** A drive whose status register never leaves ERR. *)
Definition failing_disk : Sim.config :=
  Sim.Config (0x00, 0x00) 0x41 (Sim.ident_28 8) [] 0x04.

(** The medium: every byte [0xAA]. *)
Definition medium : Sim.state := Sim.fresh 0xAA.

Definition legacy_boot : world Sim.state Legacy.globals :=
  World medium false Legacy.initial_globals.

Definition dma_boot : world Sim.state Dma.globals :=
  World medium false Dma.initial_globals.

(** The probe of the primary master, in both drivers. *)
Definition legacy_probe (c : Sim.config) :=
  Legacy.ata_device_detect (P:=Sim.sim_platform c) 8 ata_primary_master legacy_boot.

Definition dma_probe (c : Sim.config) :=
  Dma.ata_device_detect (P:=Sim.sim_platform c) 8 ata_primary_master dma_boot.

(** The world once the probe has run. *)
Definition legacy_ready (c : Sim.config) : world Sim.state Legacy.globals :=
  match world_of (legacy_probe c) with
  | Some w => w
  | None => legacy_boot
  end.

Definition dma_ready (c : Sim.config) : world Sim.state Dma.globals :=
  match world_of (dma_probe c) with
  | Some w => w
  | None => dma_boot
  end.

(** The node of the primary master, as the probe mounts it. *)
Definition hda : fs_node_t :=
  Node "atadev0" ata_primary_master 0 0 0 432 0 FS_BLOCKDEVICE
    (Some op_read_ata) (Some op_write_ata) (Some op_open_ata) (Some op_close_ata).

(** The primary master as the drivers find it, and as the DMA driver
    leaves it after the probe. *)
Definition primary : ata_device := static_devices ata_primary_master.

Definition primary_dma (c : Sim.config) : ata_device :=
  Dma.devs (glob (dma_ready c)) ata_primary_master.

(** Requests on the node of the primary master once the probe has run,
    with a caller's buffer of zeroes. *)
Definition legacy_read (c : Sim.config) (fuel : nat) (offset size : Z) :=
  Legacy.read_ata (P:=Sim.sim_platform c) fuel hda offset size zeroes
    (legacy_ready c).

Definition legacy_write (c : Sim.config) (fuel : nat) (offset size : Z)
    (buffer : mem) :=
  Legacy.write_ata (P:=Sim.sim_platform c) fuel hda offset size buffer
    (legacy_ready c).

Definition dma_read (c : Sim.config) (fuel : nat) (offset size : Z) :=
  Dma.read_ata (P:=Sim.sim_platform c) fuel hda offset size zeroes
    (dma_ready c).

Definition dma_write (c : Sim.config) (fuel : nat) (offset size : Z)
    (buffer : mem) :=
  Dma.write_ata (P:=Sim.sim_platform c) fuel hda offset size buffer
    (dma_ready c).

(** A machine on which every port reads 0: no device is ever busy,
    and each of the four positions answers the probe as a disk whose
    IDENTIFY block is all zeroes. *)
Definition quiet : platform unit :=
  {| port_in := fun _ _ e => (0, e);
     port_out := fun _ _ _ e => e;
     heap_fresh := fun _ e => (zeroes, e);
     kvmalloc_phys := fun _ e => ((0, 0), e);
     dma_load := fun _ n _ => repeat 0 n;
     prdt_store := fun _ _ e => e;
     pci_read_field := fun _ _ _ e => (0, e);
     pci_write_field := fun _ _ _ _ e => e;
     pci_scan_ata := fun _ => None;
     sleep_wake := fun e => e |}.

Definition quiet_legacy_boot : world unit Legacy.globals :=
  World tt false Legacy.initial_globals.

Definition quiet_dma_boot : world unit Dma.globals :=
  World tt false Dma.initial_globals.

(** An ATAPI drive that answers every packet with four bytes; the
    primary master as a probe leaves it for a medium of nine blocks of
    four bytes, and for a drive that reports a block size of zero; the
    node of the drive. *)
Definition short_packet : Sim.config :=
  Sim.Config (0x04, 0x00) 0x48 (repeat 0 256) [0x1234; 0x5678] 0x04.

Definition cd_drive (last_block sector_size : Z) : ata_device :=
  Dma.set_capacity last_block sector_size (Dma.set_is_atapi 1 primary).

Definition cd_ready (last_block sector_size : Z) : world Sim.state Dma.globals :=
  World medium false
    (Dma.set_dev ata_primary_master (cd_drive last_block sector_size)
       Dma.initial_globals).

Definition cdrom0 : fs_node_t :=
  Node "cdrom0" ata_primary_master 0 0 0 432 36 FS_BLOCKDEVICE
    (Some op_read_atapi) None (Some op_open_ata) (Some op_close_ata).

(** A C library with [PATH=/usr/bin::/bin], in which only "/bin/ls"
    exists and is executable, and whose [execve] fails with -1. *)
Definition tiny_libc : Exec.libc_h :=
  {| Exec.ENOENT := 2;
     Exec.environ := ["PATH=/usr/bin::/bin"%string];
     Exec.getenv := fun name =>
       if String.eqb name "PATH" then Some "/usr/bin::/bin"%string else None;
     Exec.strstr := fun hay needle =>
       match index 0 needle hay with Some _ => true | None => false end;
     Exec.strtok_r_all := fun _ _ => ["/usr/bin"%string; "/bin"%string];
     Exec.stat := fun path =>
       if String.eqb path "/bin/ls" then Some 493 else None;
     Exec.stat_errno := fun path e =>
       if String.eqb path "/bin/ls" then e else 2;
     Exec.sets_errno_execve := fun _ _ _ _ => (-1, 8) |}.

(** A caller's buffer of [size] bytes 1; the bytes that follow it in
    memory, which are not the caller's, are 2. *)
Definition marked (size : Z) : mem := fun i => if i <? size then 1 else 2.

(** What a read returned and left at the addresses [addrs] of the
    caller's memory, counted from [buffer]. *)
Definition peek {W} (r : result (Z * mem * W * list event)) (addrs : list Z)
    : option (Z * list Z) :=
  option_map (fun a : Z * mem => (fst a, map (snd a) addrs)) (value_of r).

(** The bytes of the medium at [addrs] once a run has returned. *)
Definition disk_after {A G} (r : result (A * world Sim.state G * list event))
    (addrs : list Z) : option (list Z) :=
  option_map (fun w => map (Sim.disk (plat w)) addrs) (world_of r).
End Examples.

(** * Properties *)

Unset Implicit Arguments.

(** ** The monad *)

Lemma bind_ok {E G A B} (m : M E G A) (f : A -> M E G B) w b w2 t :
  bind m f w = Ok (b, w2, t) ->
  exists a w1 t1 t2,
    m w = Ok (a, w1, t1) /\ f a w1 = Ok (b, w2, t2) /\ t = (t1 ++ t2)%list.
Proof.
  unfold bind. destruct (m w) as [[[a w1] t1]| |]; try discriminate.
  destruct (f a w1) as [[[b' w2'] t2]| |] eqn:Ef; try discriminate.
  intros [= <- <- <-]. now exists a, w1, t1, t2.
Qed.

Lemma bind_intro {E G A B} (m : M E G A) (f : A -> M E G B) w a w1 t1 b w2 t2 :
  m w = Ok (a, w1, t1) -> f a w1 = Ok (b, w2, t2) ->
  bind m f w = Ok (b, w2, (t1 ++ t2)%list).
Proof. unfold bind. now intros -> ->. Qed.

Lemma bind_abort {E G A B} (m : M E G A) (f : A -> M E G B) w :
  bind m f w = Abort ->
  m w = Abort \/ exists a w1 t1, m w = Ok (a, w1, t1) /\ f a w1 = Abort.
Proof.
  unfold bind. destruct (m w) as [[[a w1] t1]| |]; try discriminate.
  - destruct (f a w1) as [[[b' w2'] t2]| |] eqn:Ef; try discriminate.
    intros _. right. now exists a, w1, t1.
  - now left.
Qed.

Lemma no_abort_bind {E G A B} (m : M E G A) (f : A -> M E G B) :
  no_abort m -> (forall a, no_abort (f a)) -> no_abort (bind m f).
Proof.
  intros Hm Hf w Hb. apply bind_abort in Hb as [Hb | (a & w1 & t1 & _ & Hb)].
  - exact (Hm w Hb).
  - exact (Hf a w1 Hb).
Qed.

Lemma no_abort_ret {E G A} (a : A) : no_abort (ret (E:=E) (G:=G) a).
Proof. intros w. discriminate. Qed.

Lemma runs_bind {E G A B} (p q r : bool) (m : M E G A) (f : A -> M E G B) :
  runs p q m -> (forall a, runs q r (f a)) -> runs p r (bind m f).
Proof.
  intros Hm Hf w Hw. destruct (Hm w Hw) as (a & w1 & t1 & Em & H1).
  destruct (Hf a w1 H1) as (b & w2 & t2 & Ef & H2).
  exists b, w2, (t1 ++ t2)%list. split; [now apply bind_intro with a w1 | exact H2].
Qed.

Lemma runs_ret {E G A} (p : bool) (a : A) : runs p p (ret (E:=E) (G:=G) a).
Proof. intros w Hw. now exists a, w, []. Qed.

(** ** [buffer_compare] *)

Lemma u8_range x : 0 <= u8 x < 256.
Proof. unfold u8. change (2 ^ 8) with 256. apply Z.mod_pos_bound. lia. Qed.

Lemma load32_inj m1 p1 m2 p2 :
  load32 m1 p1 = load32 m2 p2 <->
  (forall j, 0 <= j < 4 -> u8 (m1 (p1 + j)) = u8 (m2 (p2 + j))).
Proof.
  unfold load32. change (2 ^ 8) with 256. change (2 ^ 16) with 65536.
  change (2 ^ 24) with 16777216.
  pose proof (u8_range (m1 p1)). pose proof (u8_range (m1 (p1 + 1))).
  pose proof (u8_range (m1 (p1 + 2))). pose proof (u8_range (m1 (p1 + 3))).
  pose proof (u8_range (m2 p2)). pose proof (u8_range (m2 (p2 + 1))).
  pose proof (u8_range (m2 (p2 + 2))). pose proof (u8_range (m2 (p2 + 3))).
  split.
  - intros Heq j Hj.
    assert (j = 0 \/ j = 1 \/ j = 2 \/ j = 3) as [-> | [-> | [-> | ->]]] by lia;
      rewrite ?Z.add_0_r; lia.
  - intros Hall.
    pose proof (Hall 0 ltac:(lia)) as E0. pose proof (Hall 1 ltac:(lia)) as E1.
    pose proof (Hall 2 ltac:(lia)) as E2. pose proof (Hall 3 ltac:(lia)) as E3.
    rewrite !Z.add_0_r in E0. lia.
Qed.

Lemma buffer_compare_loop_spec n ptr1 ptr2 size :
  forall p1 p2 i q,
    size - i = 4 * q -> 0 <= q <= Z.of_nat n ->
    let r := buffer_compare_loop n ptr1 p1 ptr2 p2 i size in
    (r = 0 \/ r = 1) /\
    (r = 0 <->
     forall j, 0 <= j < size - i -> u8 (ptr1 (p1 + j)) = u8 (ptr2 (p2 + j))).
Proof.
  induction n as [|n IH]; intros p1 p2 i q Hq Hn; cbn zeta.
  - simpl. split; [now left|]. split; [intros _ j Hj; lia | reflexivity].
  - cbn [buffer_compare_loop]. destruct (i <? size) eqn:Hlt.
    + apply Z.ltb_lt in Hlt.
      destruct (load32 ptr1 p1 =? load32 ptr2 p2) eqn:Hw; cbn [negb].
      * apply Z.eqb_eq in Hw. pose proof (proj1 (load32_inj _ _ _ _) Hw) as Hb.
        clear Hw. rename Hb into Hw.
        destruct (IH (p1 + 4) (p2 + 4) (i + 4) (q - 1) ltac:(lia) ltac:(lia))
          as [Hr Hiff].
        split; [exact Hr|]. rewrite Hiff. split.
        -- intros Hrest j Hj. destruct (Z.lt_ge_cases j 4) as [Hj4 | Hj4].
           ++ apply Hw. lia.
           ++ specialize (Hrest (j - 4) ltac:(lia)).
              now replace (p1 + 4 + (j - 4)) with (p1 + j) in Hrest by lia;
                replace (p2 + 4 + (j - 4)) with (p2 + j) in Hrest by lia.
        -- intros Hall j Hj. specialize (Hall (j + 4) ltac:(lia)).
           now replace (p1 + (j + 4)) with (p1 + 4 + j) in Hall by lia;
             replace (p2 + (j + 4)) with (p2 + 4 + j) in Hall by lia.
      * apply Z.eqb_neq in Hw. split; [now right|]. split; [discriminate|].
        intros Hall. exfalso. apply Hw. apply (proj2 (load32_inj _ _ _ _)).
        intros j Hj. apply Hall. lia.
    + apply Z.ltb_ge in Hlt. split; [now left|].
      split; [intros _ j Hj; lia | reflexivity].
Qed.

Lemma buffer_compare_aligned ptr1 p1 ptr2 p2 size :
  0 <= size -> size mod 4 = 0 ->
  exists r, buffer_compare ptr1 p1 ptr2 p2 size = Ok r /\ (r = 0 \/ r = 1) /\
    (r = 0 <->
     forall j, 0 <= j < size -> u8 (ptr1 (p1 + j)) = u8 (ptr2 (p2 + j))).
Proof.
  intros Hs Hm. unfold buffer_compare, truthy. rewrite Hm. cbn.
  eexists. split; [reflexivity|].
  pose proof (buffer_compare_loop_spec (Z.to_nat size) ptr1 ptr2 size p1 p2 0
                (size / 4)) as Hl.
  cbn zeta in Hl. rewrite Z.sub_0_r in Hl.
  apply Hl.
  - pose proof (Z.div_mod size 4 ltac:(lia)). lia.
  - pose proof (Z.div_mod size 4 ltac:(lia)). split; [apply Z.div_pos; lia|].
    rewrite Z2Nat.id by lia. lia.
Qed.

Lemma buffer_compare_misaligned ptr1 p1 ptr2 p2 size :
  size mod 4 <> 0 -> buffer_compare ptr1 p1 ptr2 p2 size = Abort.
Proof.
  intros Hm. unfold buffer_compare, truthy.
  destruct (size mod 4 =? 0) eqn:He; [apply Z.eqb_eq in He; contradiction|].
  reflexivity.
Qed.

(** ** No driver function fails an assertion but through [buffer_compare] *)

Create HintDb noabort.

Ltac no_abort_prim :=
  let w := fresh "w" in
  intros w; cbv beta delta [emit irq out_of_fuel get_globals put_globals
    port_read port_write inportb inports outportb outports outportl
    spin_lock spin_unlock malloc kvmalloc_p prdt_write pci_read pci_write
    sleep_on dma_read lift_result];
  repeat match goal with
         | |- context [let (_, _) := ?x in _] => destruct x
         | |- context [if ?c then _ else _] => destruct c
         end;
  discriminate.

Ltac no_abort_step :=
  match goal with
  | |- no_abort (bind _ _) => apply no_abort_bind; [|intros]
  | |- no_abort (ret _) => apply no_abort_ret
  | |- no_abort (if ?c then _ else _) => destruct c
  | |- no_abort (match ?x with _ => _ end) => destruct x
  | |- no_abort _ => solve [auto with noabort]
  | |- no_abort _ => solve [no_abort_prim]
  end.

Ltac no_abort_auto := repeat no_abort_step.

Section NoAbort.
Context {E G : Type} {P : platform E} {H : ata_h}.

Lemma no_abort_port_read width port : no_abort (port_read (G:=G) width port).
Proof. no_abort_prim. Qed.

Lemma no_abort_port_write width port v : no_abort (port_write (G:=G) width port v).
Proof. no_abort_prim. Qed.

Lemma no_abort_inportsm port n : forall buf off,
  no_abort (inportsm (G:=G) port buf off n).
Proof. induction n; intros; cbn [inportsm]; no_abort_auto. Qed.

Lemma no_abort_outportsm port buf n : forall off,
  no_abort (outportsm (G:=G) port buf off n).
Proof. induction n; intros; cbn [outportsm]; no_abort_auto. Qed.

Lemma no_abort_read_words port n : no_abort (read_words (G:=G) port n).
Proof. induction n; cbn [read_words]; no_abort_auto. Qed.

Lemma no_abort_ata_io_wait dev : no_abort (ata_io_wait (G:=G) dev).
Proof. unfold ata_io_wait. no_abort_auto. Qed.

Lemma no_abort_status_wait_capped fuel dev timeout : forall i,
  no_abort (status_wait_capped (G:=G) fuel dev timeout i).
Proof. induction fuel; intros; cbn [status_wait_capped]; no_abort_auto. Qed.

Lemma no_abort_status_wait_forever fuel dev :
  no_abort (status_wait_forever (G:=G) fuel dev).
Proof. induction fuel; cbn [status_wait_forever]; no_abort_auto. Qed.

Hint Resolve no_abort_ata_io_wait no_abort_status_wait_capped
  no_abort_status_wait_forever no_abort_inportsm no_abort_outportsm
  no_abort_read_words : noabort.

Lemma no_abort_ata_status_wait fuel dev timeout :
  no_abort (ata_status_wait (G:=G) fuel dev timeout).
Proof. unfold ata_status_wait. no_abort_auto. Qed.

Hint Resolve no_abort_ata_status_wait : noabort.

Lemma no_abort_ata_wait fuel dev advanced :
  no_abort (ata_wait (G:=G) fuel dev advanced).
Proof. unfold ata_wait. no_abort_auto. Qed.

Lemma no_abort_compare_sector buf off read_buf :
  no_abort (lift_result (E:=E) (G:=G)
              (buffer_compare buf off read_buf 0 ATA_SECTOR_SIZE)).
Proof. intros w. unfold lift_result, buffer_compare. cbn. discriminate. Qed.
End NoAbort.

#[export] Hint Resolve no_abort_ata_io_wait no_abort_status_wait_capped
  no_abort_status_wait_forever no_abort_inportsm no_abort_outportsm
  no_abort_read_words no_abort_ata_status_wait no_abort_ata_wait
  no_abort_compare_sector : noabort.

Section NoAbortDrivers.
Context {E : Type} {P : platform E} {H : ata_h} {F : fs_h}.

Lemma legacy_read_sector_attempt_no_abort fuel dev lba :
  no_abort (Legacy.read_sector_attempt fuel dev lba).
Proof. unfold Legacy.read_sector_attempt. no_abort_auto. Qed.

Lemma legacy_read_sector_try_no_abort k fuel dev lba buf off : forall errors,
  no_abort (Legacy.read_sector_try k fuel dev lba buf off errors).
Proof.
  induction k; intros; cbn [Legacy.read_sector_try]; no_abort_auto;
    auto using legacy_read_sector_attempt_no_abort.
Qed.

Lemma legacy_read_sector_no_abort fuel dev lba buf off :
  no_abort (Legacy.ata_device_read_sector fuel dev lba buf off).
Proof.
  unfold Legacy.ata_device_read_sector. no_abort_auto.
  apply legacy_read_sector_try_no_abort.
Qed.

Lemma legacy_write_sector_no_abort fuel dev lba buf off :
  no_abort (Legacy.ata_device_write_sector fuel dev lba buf off).
Proof. unfold Legacy.ata_device_write_sector. no_abort_auto. Qed.

Lemma legacy_write_verify_loop_no_abort k fuel dev lba buf off : forall read_buf,
  no_abort (Legacy.write_verify_loop k fuel dev lba buf off read_buf).
Proof.
  induction k; intros; cbn [Legacy.write_verify_loop]; no_abort_auto;
    auto using legacy_write_sector_no_abort, legacy_read_sector_no_abort.
Qed.

Lemma legacy_write_sector_retry_no_abort fuel dev lba buf off :
  no_abort (Legacy.ata_device_write_sector_retry fuel dev lba buf off).
Proof.
  unfold Legacy.ata_device_write_sector_retry. no_abort_auto.
  apply legacy_write_verify_loop_no_abort.
Qed.

Lemma dma_poll_status_no_abort fuel dev done :
  no_abort (Dma.poll_status fuel dev done).
Proof. induction fuel; cbn [Dma.poll_status]; no_abort_auto. Qed.

Lemma dma_poll_dma_done_no_abort fuel dev :
  no_abort (Dma.poll_dma_done fuel dev).
Proof. induction fuel; cbn [Dma.poll_dma_done]; no_abort_auto. Qed.

Lemma dma_read_sector_no_abort fuel dev lba buf off :
  no_abort (Dma.ata_device_read_sector fuel dev lba buf off).
Proof.
  unfold Dma.ata_device_read_sector. no_abort_auto;
    auto using dma_poll_status_no_abort, dma_poll_dma_done_no_abort.
Qed.

Lemma dma_write_sector_no_abort fuel dev lba buf off :
  no_abort (Dma.ata_device_write_sector fuel dev lba buf off).
Proof. unfold Dma.ata_device_write_sector. no_abort_auto. Qed.

Lemma dma_write_verify_loop_no_abort k fuel dev lba buf off : forall read_buf,
  no_abort (Dma.write_verify_loop k fuel dev lba buf off read_buf).
Proof.
  induction k; intros; cbn [Dma.write_verify_loop]; no_abort_auto;
    auto using dma_write_sector_no_abort, dma_read_sector_no_abort.
Qed.

Lemma dma_write_sector_retry_no_abort fuel dev lba buf off :
  no_abort (Dma.ata_device_write_sector_retry fuel dev lba buf off).
Proof.
  unfold Dma.ata_device_write_sector_retry. no_abort_auto.
  apply dma_write_verify_loop_no_abort.
Qed.
End NoAbortDrivers.

(** C9.  [buffer_compare] aborts, by its assertion, whenever [size] is
    not a multiple of 4.  When it is, the function returns 0 or 1, and 0
    exactly when the first [size] bytes of the two buffers are the same.
    The write-verify path calls it with the sector size 512, so neither
    that call nor [ata_device_write_sector_retry] as a whole, in either
    driver, can end in the abort. *)
Theorem buffer_compare_contract :
  forall (ptr1 : mem) (p1 : Z) (ptr2 : mem) (p2 size : Z),
    0 <= size ->
    (size mod 4 <> 0 -> buffer_compare ptr1 p1 ptr2 p2 size = Abort) /\
    (size mod 4 = 0 ->
     exists r, buffer_compare ptr1 p1 ptr2 p2 size = Ok r /\ (r = 0 \/ r = 1) /\
       (r = 0 <->
        forall j, 0 <= j < size -> u8 (ptr1 (p1 + j)) = u8 (ptr2 (p2 + j)))) /\
    buffer_compare ptr1 p1 ptr2 p2 ATA_SECTOR_SIZE <> Abort /\
    (forall (E : Type) (P : platform E) (H : ata_h) fuel dev lba off
            (w : world E Legacy.globals),
        Legacy.ata_device_write_sector_retry fuel dev lba ptr1 off w <> Abort) /\
    (forall (E : Type) (P : platform E) (H : ata_h) fuel dev lba off
            (w : world E Dma.globals),
        Dma.ata_device_write_sector_retry fuel dev lba ptr1 off w <> Abort).
Proof.
  intros ptr1 p1 ptr2 p2 size Hs. repeat split.
  - apply buffer_compare_misaligned.
  - intros Hm. destruct (buffer_compare_aligned ptr1 p1 ptr2 p2 size Hs Hm)
      as (r & Hr & Hv & Hiff).
    exists r. repeat split; try assumption; apply Hiff.
  - unfold buffer_compare. cbn. discriminate.
  - intros. apply legacy_write_sector_retry_no_abort.
  - intros. apply dma_write_sector_retry_no_abort.
Qed.

Lemma buffer_compare_contract_witness :
  0 <= 8 /\ buffer_compare zeroes 0 zeroes 0 8 = Ok 0
  /\ buffer_compare zeroes 0 zeroes 0 6 = Abort.
Proof.
  split; [discriminate|].
  destruct (buffer_compare_contract zeroes 0 zeroes 0 8) as (_ & Hal & _);
    [discriminate|].
  destruct (Hal eq_refl) as (r & Hr & _ & Hiff).
  split.
  - rewrite Hr. f_equal. apply Hiff. reflexivity.
  - destruct (buffer_compare_contract zeroes 0 zeroes 0 6) as (Hmis & _);
      [discriminate|].
    apply Hmis. discriminate.
Defined.

(** ** Capacity and the bounds checks of the byte-range adapter *)



Section PastTheEnd.
Context {E : Type} {P : platform E} {H : ata_h} {F : fs_h}.

Lemma legacy_read_past_end fuel node _offset size buffer
    (w : world E Legacy.globals) :
  Legacy.ata_max_offset (Legacy.devs (glob w) (device node)) < u32 _offset ->
  Legacy.read_ata fuel node _offset size buffer w = Ok ((0, buffer), w, []).
Proof.
  intros Hgt. unfold Legacy.read_ata, bind, get_globals.
  apply Z.gtb_lt in Hgt. rewrite Hgt. reflexivity.
Qed.

Lemma legacy_write_past_end fuel node _offset size buffer
    (w : world E Legacy.globals) :
  Legacy.ata_max_offset (Legacy.devs (glob w) (device node)) < u32 _offset ->
  Legacy.write_ata fuel node _offset size buffer w = Ok (0, w, []).
Proof.
  intros Hgt. unfold Legacy.write_ata, bind, get_globals.
  apply Z.gtb_lt in Hgt. rewrite Hgt. reflexivity.
Qed.

Lemma dma_read_past_end fuel node offset size buffer
    (w : world E Dma.globals) :
  Dma.ata_max_offset (Dma.devs (glob w) (device node)) < u64 offset ->
  Dma.read_ata fuel node offset size buffer w = Ok ((0, buffer), w, []).
Proof.
  intros Hgt. unfold Dma.read_ata, Dma.koff, bind, get_globals.
  apply Z.gtb_lt in Hgt. rewrite Hgt. reflexivity.
Qed.

Lemma dma_write_past_end fuel node offset size buffer
    (w : world E Dma.globals) :
  Dma.ata_max_offset (Dma.devs (glob w) (device node)) < u64 offset ->
  Dma.write_ata fuel node offset size buffer w = Ok (0, w, []).
Proof.
  intros Hgt. unfold Dma.write_ata, Dma.koff, bind, get_globals.
  apply Z.gtb_lt in Hgt. rewrite Hgt. reflexivity.
Qed.
End PastTheEnd.



(** ** The lock discipline of the sector transfers *)

Lemma lock_after_app t1 : forall held t2,
  lock_after held (t1 ++ t2) =
  match lock_after held t1 with
  | Some q => lock_after q t2
  | None => None
  end.
Proof.
  induction t1 as [|e t1 IH]; intros held t2; [reflexivity|].
  destruct e; cbn [lock_after app]; destruct held; auto.
Qed.

Lemma lockspec_bind {E G A B} (p q r : bool) (m : M E G A) (f : A -> M E G B) :
  lockspec p q m -> (forall a, lockspec q r (f a)) -> lockspec p r (bind m f).
Proof.
  intros Hm Hf w b w2 t Hw Hb.
  apply bind_ok in Hb as (a & w1 & t1 & t2 & Em & Ef & ->).
  destruct (Hm w a w1 t1 Hw Em) as [H1 L1].
  destruct (Hf a w1 b w2 t2 H1 Ef) as [H2 L2].
  split; [exact H2|]. rewrite lock_after_app, L1. exact L2.
Qed.

Lemma lockspec_ret {E G A} (p : bool) (a : A) : lockspec p p (ret (E:=E) (G:=G) a).
Proof. intros w a' w' t Hw [= <- <- <-]. now split. Qed.

Create HintDb lockspec.

Ltac lockspec_prim :=
  let w := fresh "w" in
  let Hw := fresh "Hw" in
  let Hr := fresh "Hr" in
  intros w ? ? ? Hw Hr;
  cbv beta delta [emit irq out_of_fuel get_globals put_globals
    port_read port_write inportb inports outportb outports outportl
    spin_lock spin_unlock malloc kvmalloc_p prdt_write pci_read pci_write
    sleep_on dma_read lift_result] in Hr;
  repeat match type of Hr with
         | context [let (_, _) := ?x in _] => destruct x
         | context [if ?c then _ else _] => destruct c eqn:?
         | context [match ?r with Ok _ => _ | Abort => _ | Timeout => _ end] =>
             destruct r
         end;
  try discriminate;
  injection Hr as <- <- <-; cbn; rewrite ?Hw; split; congruence.

Section LockPrimitives.
Context {E G : Type} {P : platform E} {H : ata_h}.

Lemma lockspec_port_read width port :
  lockspec true true (port_read (G:=G) width port).
Proof. lockspec_prim. Qed.

Lemma lockspec_port_write width port v :
  lockspec true true (port_write (G:=G) width port v).
Proof. lockspec_prim. Qed.

Lemma lockspec_spin_lock : lockspec false true (spin_lock (E:=E) (G:=G)).
Proof. lockspec_prim. Qed.

Lemma lockspec_spin_unlock : lockspec true false (spin_unlock (E:=E) (G:=G)).
Proof. lockspec_prim. Qed.

Lemma lockspec_irq p ev :
  is_port_event ev = false -> is_lock_event ev = false ->
  lockspec p p (irq (E:=E) (G:=G) ev).
Proof.
  intros Hp Hl w a w' t Hw [= <- <- <-]. split; [exact Hw|].
  destruct ev; try discriminate; reflexivity.
Qed.

Lemma lockspec_malloc p n : lockspec p p (malloc (G:=G) n).
Proof. lockspec_prim. Qed.

Lemma lockspec_get_globals p : lockspec p p (get_globals (E:=E) (G:=G)).
Proof. lockspec_prim. Qed.

Lemma lockspec_put_globals p g : lockspec p p (put_globals (E:=E) (G:=G) g).
Proof. lockspec_prim. Qed.

Lemma lockspec_dma_read p addr n : lockspec p p (dma_read (G:=G) addr n).
Proof. lockspec_prim. Qed.

Lemma lockspec_sleep_on p : lockspec p p (sleep_on (E:=E) (G:=G)).
Proof. lockspec_prim. Qed.

Lemma lockspec_lift_result {A} p (r : result A) :
  lockspec p p (lift_result (E:=E) (G:=G) r).
Proof. lockspec_prim. Qed.

Lemma lockspec_out_of_fuel {A} p q : lockspec p q (out_of_fuel (E:=E) (G:=G) (A:=A)).
Proof. intros w a w' t _ Hr. discriminate. Qed.
End LockPrimitives.

#[export] Hint Resolve lockspec_port_read lockspec_port_write lockspec_spin_lock
  lockspec_spin_unlock lockspec_malloc lockspec_get_globals lockspec_put_globals
  lockspec_dma_read lockspec_sleep_on lockspec_lift_result lockspec_out_of_fuel
  lockspec_ret : lockspec.

Ltac lockspec_step :=
  match goal with
  | |- lockspec _ _ (bind _ _) => eapply lockspec_bind; [|intros]
  | |- lockspec _ _ (ret _) => apply lockspec_ret
  | |- lockspec _ _ (if ?c then _ else _) => destruct c
  | |- lockspec _ _ (match ?x with _ => _ end) => destruct x
  | |- lockspec _ _ (irq _) => apply lockspec_irq; reflexivity
  | |- lockspec _ _ (emit _) => apply lockspec_irq; reflexivity
  | |- lockspec _ _ _ =>
      solve [unfold inportb, inports, outportb, outports, outportl;
             eauto with lockspec]
  end.

Ltac lockspec_auto := repeat lockspec_step.

Section LockCommon.
Context {E G : Type} {P : platform E} {H : ata_h}.

Lemma lockspec_inportsm port n : forall buf off,
  lockspec true true (inportsm (G:=G) port buf off n).
Proof. induction n; intros; cbn [inportsm]; lockspec_auto. Qed.

Lemma lockspec_outportsm port buf n : forall off,
  lockspec true true (outportsm (G:=G) port buf off n).
Proof. induction n; intros; cbn [outportsm]; lockspec_auto. Qed.

Lemma lockspec_ata_io_wait dev : lockspec true true (ata_io_wait (G:=G) dev).
Proof. unfold ata_io_wait. lockspec_auto. Qed.

Lemma lockspec_status_wait_capped fuel dev timeout : forall i,
  lockspec true true (status_wait_capped (G:=G) fuel dev timeout i).
Proof. induction fuel; intros; cbn [status_wait_capped]; lockspec_auto. Qed.

Lemma lockspec_status_wait_forever fuel dev :
  lockspec true true (status_wait_forever (G:=G) fuel dev).
Proof. induction fuel; cbn [status_wait_forever]; lockspec_auto. Qed.

Hint Resolve lockspec_ata_io_wait lockspec_status_wait_capped
  lockspec_status_wait_forever lockspec_inportsm lockspec_outportsm : lockspec.

Lemma lockspec_ata_status_wait fuel dev timeout :
  lockspec true true (ata_status_wait (G:=G) fuel dev timeout).
Proof. unfold ata_status_wait. lockspec_auto. Qed.

Hint Resolve lockspec_ata_status_wait : lockspec.

Lemma lockspec_ata_wait fuel dev advanced :
  lockspec true true (ata_wait (G:=G) fuel dev advanced).
Proof. unfold ata_wait. lockspec_auto. Qed.
End LockCommon.

#[export] Hint Resolve lockspec_ata_io_wait lockspec_status_wait_capped
  lockspec_status_wait_forever lockspec_inportsm lockspec_outportsm
  lockspec_ata_status_wait lockspec_ata_wait : lockspec.

Section LockLegacy.
Context {E : Type} {P : platform E} {H : ata_h} {F : fs_h}.

Lemma legacy_read_sector_attempt_lock fuel dev lba :
  lockspec true true (Legacy.read_sector_attempt fuel dev lba).
Proof. unfold Legacy.read_sector_attempt. lockspec_auto. Qed.

Hint Resolve legacy_read_sector_attempt_lock : lockspec.

Lemma legacy_read_sector_try_lock k fuel dev lba buf off : forall errors,
  lockspec true false (Legacy.read_sector_try k fuel dev lba buf off errors).
Proof. induction k; intros; cbn [Legacy.read_sector_try]; lockspec_auto. Qed.

Lemma legacy_read_sector_lock fuel dev lba buf off :
  lockspec false false (Legacy.ata_device_read_sector fuel dev lba buf off).
Proof.
  unfold Legacy.ata_device_read_sector. lockspec_auto.
  apply legacy_read_sector_try_lock.
Qed.

Lemma legacy_write_sector_lock fuel dev lba buf off :
  lockspec false false (Legacy.ata_device_write_sector fuel dev lba buf off).
Proof. unfold Legacy.ata_device_write_sector. lockspec_auto. Qed.

Hint Resolve legacy_read_sector_lock legacy_write_sector_lock : lockspec.

Lemma legacy_write_verify_loop_lock k fuel dev lba buf off : forall read_buf,
  lockspec false false (Legacy.write_verify_loop k fuel dev lba buf off read_buf).
Proof. induction k; intros; cbn [Legacy.write_verify_loop]; lockspec_auto. Qed.

Hint Resolve legacy_write_verify_loop_lock : lockspec.

Lemma legacy_write_sector_retry_lock fuel dev lba buf off :
  lockspec false false (Legacy.ata_device_write_sector_retry fuel dev lba buf off).
Proof. unfold Legacy.ata_device_write_sector_retry. lockspec_auto. Qed.

Hint Resolve legacy_write_sector_retry_lock : lockspec.

Lemma legacy_read_blocks_lock k fuel dev end_block :
  forall start_block x_offset buffer,
  lockspec false false
    (Legacy.read_blocks k fuel dev start_block end_block x_offset buffer).
Proof. induction k; intros; cbn [Legacy.read_blocks]; lockspec_auto. Qed.

Lemma legacy_write_blocks_lock k fuel dev end_block buffer :
  forall start_block x_offset,
  lockspec false false
    (Legacy.write_blocks k fuel dev start_block end_block x_offset buffer).
Proof. induction k; intros; cbn [Legacy.write_blocks]; lockspec_auto. Qed.

Hint Resolve legacy_read_blocks_lock legacy_write_blocks_lock : lockspec.

Lemma legacy_read_ata_lock fuel node _offset size buffer :
  lockspec false false (Legacy.read_ata fuel node _offset size buffer).
Proof. unfold Legacy.read_ata. lockspec_auto. Qed.

Lemma legacy_write_ata_lock fuel node _offset size buffer :
  lockspec false false (Legacy.write_ata fuel node _offset size buffer).
Proof. unfold Legacy.write_ata. lockspec_auto. Qed.
End LockLegacy.

Section LockDma.
Context {E : Type} {P : platform E} {H : ata_h} {F : fs_h}.

Lemma dma_poll_status_lock fuel dev done :
  lockspec true true (Dma.poll_status fuel dev done).
Proof. induction fuel; cbn [Dma.poll_status]; lockspec_auto. Qed.

Lemma dma_poll_dma_done_lock fuel dev :
  lockspec true true (Dma.poll_dma_done fuel dev).
Proof. induction fuel; cbn [Dma.poll_dma_done]; lockspec_auto. Qed.

Lemma dma_poll_packet_lock fuel dev verdict :
  lockspec true true (Dma.poll_packet fuel dev verdict).
Proof. induction fuel; cbn [Dma.poll_packet]; lockspec_auto. Qed.

Lemma dma_write_words_lock port ws :
  lockspec true true (Dma.write_words (E:=E) port ws).
Proof. induction ws; cbn [Dma.write_words]; lockspec_auto. Qed.

Hint Resolve dma_poll_status_lock dma_poll_dma_done_lock dma_poll_packet_lock
  dma_write_words_lock : lockspec.

Lemma dma_read_sector_lock fuel dev lba buf off :
  lockspec false false (Dma.ata_device_read_sector fuel dev lba buf off).
Proof. unfold Dma.ata_device_read_sector. lockspec_auto. Qed.

Lemma dma_write_sector_lock fuel dev lba buf off :
  lockspec false false (Dma.ata_device_write_sector fuel dev lba buf off).
Proof. unfold Dma.ata_device_write_sector. lockspec_auto. Qed.

Lemma dma_read_sector_atapi_lock fuel dev lba buf off :
  lockspec false false (Dma.ata_device_read_sector_atapi fuel dev lba buf off).
Proof. unfold Dma.ata_device_read_sector_atapi. lockspec_auto. Qed.

Hint Resolve dma_read_sector_lock dma_write_sector_lock : lockspec.

Lemma dma_write_verify_loop_lock k fuel dev lba buf off : forall read_buf,
  lockspec false false (Dma.write_verify_loop k fuel dev lba buf off read_buf).
Proof. induction k; intros; cbn [Dma.write_verify_loop]; lockspec_auto. Qed.

Hint Resolve dma_write_verify_loop_lock : lockspec.

Lemma dma_write_sector_retry_lock fuel dev lba buf off :
  lockspec false false (Dma.ata_device_write_sector_retry fuel dev lba buf off).
Proof. unfold Dma.ata_device_write_sector_retry. lockspec_auto. Qed.

Hint Resolve dma_write_sector_retry_lock : lockspec.

Lemma dma_read_blocks_lock k fuel dev end_block :
  forall start_block x_offset buffer,
  lockspec false false
    (Dma.read_blocks k fuel dev start_block end_block x_offset buffer).
Proof. induction k; intros; cbn [Dma.read_blocks]; lockspec_auto. Qed.

Lemma dma_write_blocks_lock k fuel dev end_block buffer :
  forall start_block x_offset,
  lockspec false false
    (Dma.write_blocks k fuel dev start_block end_block x_offset buffer).
Proof. induction k; intros; cbn [Dma.write_blocks]; lockspec_auto. Qed.

Hint Resolve dma_read_blocks_lock dma_write_blocks_lock : lockspec.

Lemma dma_read_ata_lock fuel node offset size buffer :
  lockspec false false (Dma.read_ata fuel node offset size buffer).
Proof. unfold Dma.read_ata. lockspec_auto. Qed.

Lemma dma_write_ata_lock fuel node offset size buffer :
  lockspec false false (Dma.write_ata fuel node offset size buffer).
Proof. unfold Dma.write_ata. lockspec_auto. Qed.
End LockDma.

Lemma lockspec_disciplined {E G A} (m : M E G A) w a w' t :
  lockspec false false m -> ata_lock w = false -> m w = Ok (a, w', t) ->
  ata_lock w' = false /\ disciplined t = true.
Proof.
  intros Hm Hw Hr. destruct (Hm w a w' t Hw Hr) as [Hl Ht].
  split; [exact Hl|]. unfold disciplined. now rewrite Ht.
Qed.

(** C8, as the code has it.  Every sector transfer of either driver
    (the PIO and DMA sector reads, the sector write, the write-verify
    retry, the ATAPI sector read, and with them [read_ata] and
    [write_ata]) touches the ports only between taking [ata_lock] and
    releasing it, and returns with the lock free. *)
Theorem sector_transfers_hold_the_lock :
  forall (E : Type) (P : platform E) (H : ata_h) (F : fs_h)
         (fuel : nat) (dev : ata_device) (lba : Z) (buf : mem) (off : Z),
    (forall (w : world E Legacy.globals) a w' t,
        ata_lock w = false ->
        (Legacy.ata_device_read_sector fuel dev lba buf off w = Ok (a, w', t) ->
         ata_lock w' = false /\ disciplined t = true)) /\
    (forall (w : world E Legacy.globals) a w' t,
        ata_lock w = false ->
        (Legacy.ata_device_write_sector fuel dev lba buf off w = Ok (a, w', t)
         \/ Legacy.ata_device_write_sector_retry fuel dev lba buf off w = Ok (a, w', t)) ->
        ata_lock w' = false /\ disciplined t = true) /\
    (forall (w : world E Dma.globals) a w' t,
        ata_lock w = false ->
        (Dma.ata_device_read_sector fuel dev lba buf off w = Ok (a, w', t)
         \/ Dma.ata_device_read_sector_atapi fuel dev lba buf off w = Ok (a, w', t)) ->
        ata_lock w' = false /\ disciplined t = true) /\
    (forall (w : world E Dma.globals) a w' t,
        ata_lock w = false ->
        (Dma.ata_device_write_sector fuel dev lba buf off w = Ok (a, w', t)
         \/ Dma.ata_device_write_sector_retry fuel dev lba buf off w = Ok (a, w', t)) ->
        ata_lock w' = false /\ disciplined t = true) /\
    (forall node offset size (w : world E Legacy.globals),
        ata_lock w = false ->
        (forall a w' t,
            Legacy.read_ata fuel node offset size buf w = Ok (a, w', t) ->
            ata_lock w' = false /\ disciplined t = true) /\
        (forall a w' t,
            Legacy.write_ata fuel node offset size buf w = Ok (a, w', t) ->
            ata_lock w' = false /\ disciplined t = true)) /\
    (forall node offset size (w : world E Dma.globals),
        ata_lock w = false ->
        (forall a w' t,
            Dma.read_ata fuel node offset size buf w = Ok (a, w', t) ->
            ata_lock w' = false /\ disciplined t = true) /\
        (forall a w' t,
            Dma.write_ata fuel node offset size buf w = Ok (a, w', t) ->
            ata_lock w' = false /\ disciplined t = true)).
Proof.
  intros E P H F fuel dev lba buf off.
  split; [|split; [|split; [|split; [|split]]]].
  - intros w a w' t Hw Hr.
    exact (lockspec_disciplined _ w a w' t
             (legacy_read_sector_lock fuel dev lba buf off) Hw Hr).
  - intros w a w' t Hw [Hr | Hr].
    + exact (lockspec_disciplined _ w a w' t
               (legacy_write_sector_lock fuel dev lba buf off) Hw Hr).
    + exact (lockspec_disciplined _ w a w' t
               (legacy_write_sector_retry_lock fuel dev lba buf off) Hw Hr).
  - intros w a w' t Hw [Hr | Hr].
    + exact (lockspec_disciplined _ w a w' t
               (dma_read_sector_lock fuel dev lba buf off) Hw Hr).
    + exact (lockspec_disciplined _ w a w' t
               (dma_read_sector_atapi_lock fuel dev lba buf off) Hw Hr).
  - intros w a w' t Hw [Hr | Hr].
    + exact (lockspec_disciplined _ w a w' t
               (dma_write_sector_lock fuel dev lba buf off) Hw Hr).
    + exact (lockspec_disciplined _ w a w' t
               (dma_write_sector_retry_lock fuel dev lba buf off) Hw Hr).
  - intros node offset size w Hw. split; intros a w' t Hr.
    + exact (lockspec_disciplined _ w a w' t
               (legacy_read_ata_lock fuel node offset size buf) Hw Hr).
    + exact (lockspec_disciplined _ w a w' t
               (legacy_write_ata_lock fuel node offset size buf) Hw Hr).
  - intros node offset size w Hw. split; intros a w' t Hr.
    + exact (lockspec_disciplined _ w a w' t
               (dma_read_ata_lock fuel node offset size buf) Hw Hr).
    + exact (lockspec_disciplined _ w a w' t
               (dma_write_ata_lock fuel node offset size buf) Hw Hr).
Qed.

Lemma sector_transfers_hold_the_lock_witness :
  ata_lock (Examples.legacy_ready Examples.small_disk) = false /\
  exists a w' t,
    Legacy.ata_device_read_sector (P:=Sim.sim_platform Examples.small_disk) (H:=Sim.header)
      4 Examples.primary 0 zeroes 0 (Examples.legacy_ready Examples.small_disk)
    = Ok (a, w', t) /\
    ata_lock w' = false /\ disciplined t = true.
Proof.
  split; [reflexivity|].
  assert (Hok : succeeded
                  (Legacy.ata_device_read_sector
                     (P:=Sim.sim_platform Examples.small_disk) (H:=Sim.header)
                     4 Examples.primary 0 zeroes 0
                     (Examples.legacy_ready Examples.small_disk)) = true)
    by (vm_compute; reflexivity).
  destruct (Legacy.ata_device_read_sector (P:=Sim.sim_platform Examples.small_disk) (H:=Sim.header)
              4 Examples.primary 0 zeroes 0
              (Examples.legacy_ready Examples.small_disk))
    as [[[a w'] t]| |] eqn:Hr.
  - exists a, w', t. split; [reflexivity|].
    exact (proj1 (sector_transfers_hold_the_lock Sim.state
                    (Sim.sim_platform Examples.small_disk)
                    Sim.header Sim.fs 4%nat Examples.primary 0 zeroes 0)
             (Examples.legacy_ready Examples.small_disk) a w' t eq_refl Hr).
  - discriminate Hok.
  - discriminate Hok.
Defined.

(** C8, as stated, fails on the probe: [ata_device_detect] and the
    initialisation it runs write and read the device's ports without
    ever taking [ata_lock], in both drivers. *)
Lemma probe_runs_without_lock :
  value_of (Examples.legacy_probe Examples.small_disk) = Some 1 /\
  existsb is_port_event (trace_of (Examples.legacy_probe Examples.small_disk)) = true /\
  existsb is_lock_event (trace_of (Examples.legacy_probe Examples.small_disk)) = false /\
  disciplined (trace_of (Examples.legacy_probe Examples.small_disk)) = false /\
  value_of (Examples.dma_probe Examples.small_disk) = Some 1 /\
  existsb is_port_event (trace_of (Examples.dma_probe Examples.small_disk)) = true /\
  existsb is_lock_event (trace_of (Examples.dma_probe Examples.small_disk)) = false /\
  disciplined (trace_of (Examples.dma_probe Examples.small_disk)) = false.
Proof. vm_compute. repeat split. Qed.

(** ** Counting events *)

Lemma tally_bind {E G A B} f n1 n2 n (m : M E G A) (k : A -> M E G B) :
  tally f n1 m -> (forall a, tally f n2 (k a)) -> n = (n1 + n2)%nat ->
  tally f n (bind m k).
Proof.
  intros Hm Hk -> w b w2 t Hb.
  apply bind_ok in Hb as (a & w1 & t1 & t2 & Em & Ek & ->).
  rewrite filter_app, length_app, (Hm _ _ _ _ Em), (Hk _ _ _ _ _ Ek).
  reflexivity.
Qed.

Lemma tally_ret {E G A} f (a : A) : tally f 0 (ret (E:=E) (G:=G) a).
Proof. intros w a' w' t [= <- <- <-]. reflexivity. Qed.

Lemma tally_silent {E G A} f (m : M E G A) :
  (forall w a w' t, m w = Ok (a, w', t) -> t = []) -> tally f 0 m.
Proof. intros Hs w a w' t Hr. now rewrite (Hs _ _ _ _ Hr). Qed.

Section TallyPrimitives.
Context {E G : Type} {P : platform E}.

Lemma tally_port_read_miss f width port :
  (forall v, f (EvIn width (u16 port) v) = false) ->
  tally f 0 (port_read (G:=G) width port).
Proof.
  intros Hf w a w' t Hr. unfold port_read in Hr.
  destruct (port_in width (u16 port) (plat w)). injection Hr as <- <- <-.
  cbn. now rewrite Hf.
Qed.

Lemma tally_port_write_miss f width port v :
  f (EvOut width (u16 port) (v mod 2 ^ width)) = false ->
  tally f 0 (port_write (G:=G) width port v).
Proof.
  intros Hf w a w' t [= <- <- <-]. cbn. now rewrite Hf.
Qed.

Lemma tally_port_write_hit f width port v :
  f (EvOut width (u16 port) (v mod 2 ^ width)) = true ->
  tally f 1 (port_write (G:=G) width port v).
Proof.
  intros Hf w a w' t [= <- <- <-]. cbn. now rewrite Hf.
Qed.

Lemma tally_emit_miss f ev : f ev = false -> tally f 0 (emit (E:=E) (G:=G) ev).
Proof. intros Hf w a w' t [= <- <- <-]. cbn. now rewrite Hf. Qed.

Lemma tally_malloc f n : tally f 0 (malloc (G:=G) n).
Proof.
  apply tally_silent. intros w a w' t Hr. unfold malloc in Hr.
  destruct (heap_fresh n (plat w)). now injection Hr as <- <- <-.
Qed.

Lemma tally_get_globals f : tally f 0 (get_globals (E:=E) (G:=G)).
Proof. apply tally_silent. now intros w a w' t [= <- <- <-]. Qed.

Lemma tally_put_globals f g : tally f 0 (put_globals (E:=E) (G:=G) g).
Proof. apply tally_silent. now intros w a w' t [= <- <- <-]. Qed.

Lemma tally_dma_read f addr n : tally f 0 (dma_read (G:=G) addr n).
Proof. apply tally_silent. now intros w a w' t [= <- <- <-]. Qed.

Lemma tally_spin_lock f : f EvLock = false -> tally f 0 (spin_lock (E:=E) (G:=G)).
Proof.
  intros Hf w a w' t Hr. unfold spin_lock in Hr.
  destruct (ata_lock w); [discriminate|]. injection Hr as <- <- <-.
  cbn. now rewrite Hf.
Qed.

Lemma tally_spin_unlock f :
  f EvUnlock = false -> tally f 0 (spin_unlock (E:=E) (G:=G)).
Proof. intros Hf w a w' t [= <- <- <-]. cbn. now rewrite Hf. Qed.

Lemma tally_lift_result {A} f (r : result A) :
  tally f 0 (lift_result (E:=E) (G:=G) r).
Proof.
  apply tally_silent. intros w a w' t Hr. unfold lift_result in Hr.
  destruct r; [|discriminate|discriminate]. now injection Hr as <- <- <-.
Qed.

Lemma tally_out_of_fuel {A} f n : tally f n (out_of_fuel (E:=E) (G:=G) (A:=A)).
Proof. intros w a w' t Hr. discriminate. Qed.
End TallyPrimitives.

Create HintDb tally.
#[export] Hint Resolve tally_ret tally_malloc tally_get_globals tally_put_globals
  tally_dma_read tally_lift_result tally_out_of_fuel : tally.

(** Ports a fixed distance apart are different ports. *)
Lemma u16_add_neq a x y : u16 (x - y) <> 0 -> u16 (a + x) <> u16 (a + y).
Proof.
  unfold u16. change (2 ^ 16) with 65536. intros Hd Heq. apply Hd.
  pose proof (Z.div_mod (a + x) 65536 ltac:(lia)) as Hx.
  pose proof (Z.div_mod (a + y) 65536 ltac:(lia)) as Hy.
  rewrite Heq in Hx.
  replace (x - y) with (((a + x) / 65536 - (a + y) / 65536) * 65536) by lia.
  apply Z.mod_mul. lia.
Qed.

Ltac tally_go side :=
  lazymatch goal with
  | |- tally _ _ (bind _ _) =>
      eapply tally_bind; [tally_go side | intros; tally_go side | try reflexivity]
  | |- tally _ _ (ret _) => apply tally_ret
  | |- tally _ _ (if ?c then _ else _) => destruct c; tally_go side
  | |- tally _ _ (inportb _) => apply tally_port_read_miss; solve [side]
  | |- tally _ _ (inports _) => apply tally_port_read_miss; solve [side]
  | |- tally _ _ (outportb _ _) =>
      first [apply tally_port_write_miss; solve [side]
            |apply tally_port_write_hit; solve [side]]
  | |- tally _ _ (outports _ _) => apply tally_port_write_miss; solve [side]
  | |- tally _ _ (outportl _ _) => apply tally_port_write_miss; solve [side]
  | |- tally _ _ (irq _) => apply tally_emit_miss; solve [side]
  | |- tally _ _ (emit _) => apply tally_emit_miss; solve [side]
  | |- tally _ _ spin_lock => apply tally_spin_lock; solve [side]
  | |- tally _ _ spin_unlock => apply tally_spin_unlock; solve [side]
  | |- tally _ _ _ => solve [eauto with tally]
  end.

Ltac by_hyp := solve [intros; auto | intros; reflexivity].

Section TallyCommon.
Context {E G : Type} {P : platform E} {H : ata_h}.
Variable f : event -> bool.
Hypothesis byte_reads_miss : forall p v, f (EvIn 8 p v) = false.

Lemma tally_ata_io_wait dev : tally f 0 (ata_io_wait (G:=G) dev).
Proof. unfold ata_io_wait. tally_go by_hyp. Qed.

Lemma tally_status_wait_capped fuel dev timeout : forall i,
  tally f 0 (status_wait_capped (G:=G) fuel dev timeout i).
Proof.
  induction fuel; intros; cbn [status_wait_capped]; [apply tally_out_of_fuel|].
  tally_go by_hyp.
Qed.

Lemma tally_status_wait_forever fuel dev :
  tally f 0 (status_wait_forever (G:=G) fuel dev).
Proof.
  induction fuel; cbn [status_wait_forever]; [apply tally_out_of_fuel|].
  tally_go by_hyp.
Qed.

Lemma tally_ata_status_wait fuel dev timeout :
  tally f 0 (ata_status_wait (G:=G) fuel dev timeout).
Proof.
  unfold ata_status_wait.
  destruct (timeout >? 0);
    [apply tally_status_wait_capped | apply tally_status_wait_forever].
Qed.

Lemma tally_ata_wait fuel dev advanced :
  tally f 0 (ata_wait (G:=G) fuel dev advanced).
Proof.
  unfold ata_wait.
  pose proof (tally_ata_io_wait dev). pose proof (tally_ata_status_wait fuel dev (-1)).
  tally_go by_hyp.
Qed.
End TallyCommon.

(** ** The error path of the legacy sector read *)

Section LegacyReadErrors.
Context {E : Type} {P : platform E} {H : ata_h}.

Lemma legacy_attempt_no_data fuel dev lba :
  tally (is_data_in dev) 0 (Legacy.read_sector_attempt (E:=E) fuel dev lba).
Proof.
  unfold Legacy.read_sector_attempt.
  assert (Hw : forall adv, tally (is_data_in dev) 0 (ata_wait (G:=Legacy.globals) fuel dev adv))
    by (intros; apply tally_ata_wait; reflexivity).
  tally_go by_hyp.
Qed.

Lemma legacy_read_sector_bails fuel dev lba buf off :
  forall n k errors (w : world E Legacy.globals),
    (1 <= n)%nat -> errors + Z.of_nat n = 5 -> (n <= k)%nat ->
    ata_lock w = true ->
    Legacy.attempts_fail n fuel dev lba w = true ->
    exists w' t,
      Legacy.read_sector_try k fuel dev lba buf off errors w = Ok (buf, w', t) /\
      ata_lock w' = false /\
      List.length (filter (is_data_in dev) t) = 0%nat.
Proof.
  induction n as [|n IH]; intros k errors w Hn He Hk Hl Hf; [lia|].
  destruct k as [|k]; [lia|].
  cbn [Legacy.attempts_fail] in Hf.
  destruct (Legacy.read_sector_attempt fuel dev lba w) as [[[failed w1] t1]| |] eqn:Ea;
    try discriminate.
  apply andb_true_iff in Hf as [Hfailed Hrest].
  pose proof (legacy_attempt_no_data fuel dev lba w failed w1 t1 Ea) as Ht1.
  destruct (legacy_read_sector_attempt_lock fuel dev lba w failed w1 t1 Hl Ea)
    as [Hl1 _].
  cbn [Legacy.read_sector_try]. cbv zeta.
  destruct n as [|n].
  - (* the fifth failure: bail out *)
    assert (Hgt : (errors + 1 >? 4) = true) by (apply Z.gtb_lt; lia).
    exists (set_lock false w1), (t1 ++ [EvUnlock])%list. split.
    + unfold bind at 1. rewrite Ea, Hfailed, Hgt. reflexivity.
    + split; [reflexivity|].
      rewrite filter_app, length_app, Ht1. reflexivity.
  - assert (Hgt : (errors + 1 >? 4) = false)
      by (rewrite Z.gtb_ltb; apply Z.ltb_ge; lia).
    destruct (IH k (errors + 1) w1 ltac:(lia) ltac:(lia) ltac:(lia) Hl1 Hrest)
      as (w' & t & Er & Hl' & Ht).
    exists w', (t1 ++ t)%list. split.
    + unfold bind at 1. rewrite Ea, Hfailed, Hgt, Er. reflexivity.
    + split; [exact Hl'|]. rewrite filter_app, length_app, Ht1, Ht. reflexivity.
Qed.
End LegacyReadErrors.

(** C10.  [ata_device_read_sector] of the legacy driver returns with
    [ata_lock] released, whichever [return] it leaves through, having
    touched the ports only while it held the lock.  When the status
    wait that follows the command reports ERR, DF or a missing DRQ on
    five attempts in a row, the function returns, the lock is free, no
    word has been read from the data port, and the caller's buffer is
    the one it passed. *)
Theorem read_sector_releases_lock_and_bails_clean :
  forall (E : Type) (P : platform E) (H : ata_h) (fuel : nat)
         (dev : ata_device) (lba : Z) (buf : mem) (off : Z)
         (w : world E Legacy.globals),
    (forall a w' t,
        Legacy.ata_device_read_sector fuel dev lba buf off w = Ok (a, w', t) ->
        ata_lock w = false /\ ata_lock w' = false /\ disciplined t = true) /\
    (ata_lock w = false -> (5 <= fuel)%nat ->
     Legacy.attempts_fail 5 fuel dev (u32 lba) (set_lock true w) = true ->
     exists w' t,
       Legacy.ata_device_read_sector fuel dev lba buf off w = Ok (buf, w', t) /\
       ata_lock w' = false /\
       filter (is_data_in dev) t = []).
Proof.
  intros E P H fuel dev lba buf off w. split.
  - intros a w' t Hr.
    destruct (ata_lock w) eqn:Hl.
    + unfold Legacy.ata_device_read_sector, bind, spin_lock in Hr.
      rewrite Hl in Hr. discriminate.
    + split; [reflexivity|].
      exact (lockspec_disciplined _ w a w' t
               (legacy_read_sector_lock fuel dev lba buf off) Hl Hr).
  - intros Hl Hfuel Hfail.
    destruct (legacy_read_sector_bails fuel dev (u32 lba) buf off 5 fuel 0
                (set_lock true w) ltac:(lia) ltac:(lia) Hfuel eq_refl Hfail)
      as (w' & t & Er & Hl' & Ht).
    exists w', (EvLock :: t). split.
    + unfold Legacy.ata_device_read_sector. unfold bind at 1, spin_lock.
      rewrite Hl, Er. reflexivity.
    + split; [exact Hl'|]. cbn [filter is_data_in].
      now apply length_zero_iff_nil.
Qed.

Lemma read_sector_releases_lock_and_bails_clean_witness :
  ata_lock Examples.legacy_boot = false /\
  (5 <= 5)%nat /\
  Legacy.attempts_fail (P:=Sim.sim_platform Examples.failing_disk)
    (H:=Sim.header) 5 5
    Examples.primary (u32 3)
    (set_lock true Examples.legacy_boot) = true /\
  exists w' t,
    Legacy.ata_device_read_sector (P:=Sim.sim_platform Examples.failing_disk)
      (H:=Sim.header) 5 Examples.primary 3 zeroes 0 Examples.legacy_boot
    = Ok (zeroes, w', t) /\
    ata_lock w' = false /\ filter (is_data_in Examples.primary) t = [].
Proof.
  split; [reflexivity|]. split; [apply le_n|]. split; [vm_compute; reflexivity|].
  apply (proj2 (read_sector_releases_lock_and_bails_clean Sim.state
                  (Sim.sim_platform Examples.failing_disk) Sim.header 5%nat
                  Examples.primary 3 zeroes 0 Examples.legacy_boot)).
  - reflexivity.
  - apply le_n.
  - vm_compute. reflexivity.
Defined.

(** ** Commands issued by the sector reads *)

Lemma bm_ack_is_not_a_command st cmd :
  Z.testbit cmd 1 = false ->
  (Z.lor (Z.lor st 0x04) 0x02 mod 2 ^ 8 =? cmd) = false.
Proof.
  intros Hbit. apply Z.eqb_neq. intros Heq.
  assert (Hone : Z.testbit (Z.lor (Z.lor st 0x04) 0x02 mod 2 ^ 8) 1 = true).
  { rewrite Z.mod_pow2_bits_low by lia. rewrite !Z.lor_spec.
    apply orb_true_iff. right. reflexivity. }
  rewrite Heq, Hbit in Hone. discriminate.
Qed.

Lemma u16_u16_add a x : u16 (u16 a + x) = u16 (a + x).
Proof.
  unfold u16. rewrite Z.add_mod_idemp_l by (cbv; discriminate). reflexivity.
Qed.

Ltac cmd_side :=
  intros;
  lazymatch goal with
  | |- is_command _ _ (EvOut 8 _ _) = true =>
      unfold is_command; rewrite ?u16_u16_add; apply andb_true_iff; split;
      [apply Z.eqb_refl | reflexivity]
  | |- is_command _ _ (EvOut 8 _ _) = false =>
      unfold is_command; rewrite ?u16_u16_add; apply andb_false_iff;
      first
        [ left; apply Z.eqb_neq; apply u16_add_neq;
          solve [assumption | discriminate]
        | right; apply bm_ack_is_not_a_command; reflexivity
        | right; reflexivity ]
  | |- _ => reflexivity
  end.

Section TallyDma.
Context {E : Type} {P : platform E} {H : ata_h} {F : fs_h}.
Variable f : event -> bool.
Hypothesis byte_reads_miss : forall p v, f (EvIn 8 p v) = false.

Lemma tally_poll_status fuel dev done : tally f 0 (Dma.poll_status fuel dev done).
Proof.
  induction fuel; cbn [Dma.poll_status]; [apply tally_out_of_fuel|].
  tally_go by_hyp.
Qed.

Lemma tally_poll_dma_done fuel dev : tally f 0 (Dma.poll_dma_done fuel dev).
Proof.
  induction fuel; cbn [Dma.poll_dma_done]; [apply tally_out_of_fuel|].
  tally_go by_hyp.
Qed.
End TallyDma.

Section ReadDma.
Context {E : Type} {P : platform E} {H : ata_h} {F : fs_h}.
Hypothesis lba3_apart : u16 (ATA_REG_LBA3 - ATA_REG_COMMAND) <> 0.
Hypothesis lba4_apart : u16 (ATA_REG_LBA4 - ATA_REG_COMMAND) <> 0.
Hypothesis lba5_apart : u16 (ATA_REG_LBA5 - ATA_REG_COMMAND) <> 0.

Lemma dma_read_sector_one_command fuel dev lba buf off :
  is_atapi dev = 0 ->
  tally (is_command dev ATA_CMD_READ_DMA) 1
    (Dma.ata_device_read_sector (E:=E) fuel dev lba buf off).
Proof.
  intros Hata. unfold Dma.ata_device_read_sector. rewrite Hata. cbn [truthy Z.eqb negb].
  assert (Hio : tally (is_command dev ATA_CMD_READ_DMA) 0
                  (ata_io_wait (G:=Dma.globals) dev))
    by (apply tally_ata_io_wait; reflexivity).
  assert (Hw : forall adv, tally (is_command dev ATA_CMD_READ_DMA) 0
                             (ata_wait (G:=Dma.globals) fuel dev adv))
    by (intros; apply tally_ata_wait; reflexivity).
  assert (Hp : forall done, tally (is_command dev ATA_CMD_READ_DMA) 0
                              (Dma.poll_status fuel dev done))
    by (intros; apply tally_poll_status; reflexivity).
  assert (Hd : tally (is_command dev ATA_CMD_READ_DMA) 0
                 (Dma.poll_dma_done fuel dev))
    by (apply tally_poll_dma_done; reflexivity).
  tally_go cmd_side.
Qed.
End ReadDma.

(** ** Running the sector reads to completion *)

Section RunsPrimitives.
Context {E G : Type} {P : platform E} {H : ata_h}.

Lemma runs_port_read p width port : runs p p (port_read (G:=G) width port).
Proof.
  intros w Hw. unfold port_read. destruct (port_in width (u16 port) (plat w)).
  do 3 eexists. split; [reflexivity | exact Hw].
Qed.

Lemma runs_port_write p width port v : runs p p (port_write (G:=G) width port v).
Proof. intros w Hw. do 3 eexists. split; [reflexivity | exact Hw]. Qed.

Lemma runs_emit p ev : runs p p (emit (E:=E) (G:=G) ev).
Proof. intros w Hw. do 3 eexists. split; [reflexivity | exact Hw]. Qed.

Lemma runs_spin_lock : runs false true (spin_lock (E:=E) (G:=G)).
Proof.
  intros w Hw. unfold spin_lock. rewrite Hw.
  do 3 eexists. split; reflexivity.
Qed.

Lemma runs_spin_unlock p : runs p false (spin_unlock (E:=E) (G:=G)).
Proof. intros w Hw. do 3 eexists. split; reflexivity. Qed.

Lemma runs_malloc p n : runs p p (malloc (G:=G) n).
Proof.
  intros w Hw. unfold malloc. destruct (heap_fresh n (plat w)).
  do 3 eexists. split; [reflexivity | exact Hw].
Qed.

Lemma runs_get_globals p : runs p p (get_globals (E:=E) (G:=G)).
Proof. intros w Hw. do 3 eexists. split; [reflexivity | exact Hw]. Qed.

Lemma runs_dma_read p addr n : runs p p (dma_read (G:=G) addr n).
Proof. intros w Hw. do 3 eexists. split; [reflexivity | exact Hw]. Qed.

Lemma runs_inportsm p port n : forall buf off,
  runs p p (inportsm (G:=G) port buf off n).
Proof.
  induction n; intros; cbn [inportsm]; [apply runs_ret|].
  eapply runs_bind; [apply runs_port_read | intros; apply IHn].
Qed.

Lemma runs_ata_io_wait p dev : runs p p (ata_io_wait (G:=G) dev).
Proof.
  unfold ata_io_wait.
  repeat (eapply runs_bind; [apply runs_port_read | intros]). apply runs_ret.
Qed.

(** A status read that satisfies [done] ends a polling loop at once. *)
Lemma runs_status_read p dev (Q : Z -> Prop) :
  (forall e, Q (fst (port_in 8 (u16 (io_base dev + ATA_REG_STATUS)) e) mod 2 ^ 8)) ->
  forall w : world E G, ata_lock w = p ->
    exists v w' t,
      inportb (io_base dev + ATA_REG_STATUS) w = Ok (v, w', t) /\
      ata_lock w' = p /\ Q v.
Proof.
  intros HQ w Hw. unfold inportb, port_read. specialize (HQ (plat w)).
  destruct (port_in 8 (u16 (io_base dev + ATA_REG_STATUS)) (plat w)) as [v e].
  do 3 eexists. split; [reflexivity|]. split; [exact Hw | exact HQ].
Qed.

Lemma runs_status_wait_forever p fuel dev :
  (forall e, Z.land (fst (port_in 8 (u16 (io_base dev + ATA_REG_STATUS)) e)
                       mod 2 ^ 8) ATA_SR_BSY = 0) ->
  (1 <= fuel)%nat ->
  runs p p (status_wait_forever (G:=G) fuel dev).
Proof.
  intros Hq Hfuel w Hw. destruct fuel as [|k]; [lia|].
  cbn [status_wait_forever].
  destruct (runs_status_read p dev (fun v => Z.land v ATA_SR_BSY = 0) Hq w Hw)
    as (v & w' & t & Er & Hl & Hv).
  exists v, w', (t ++ [])%list. split; [|exact Hl].
  eapply bind_intro; [exact Er|]. unfold truthy. rewrite Hv. reflexivity.
Qed.

Lemma runs_ata_wait p fuel dev advanced :
  (forall e, Z.land (fst (port_in 8 (u16 (io_base dev + ATA_REG_STATUS)) e)
                       mod 2 ^ 8) ATA_SR_BSY = 0) ->
  (1 <= fuel)%nat ->
  runs p p (ata_wait (G:=G) fuel dev advanced).
Proof.
  intros Hq Hfuel. unfold ata_wait.
  eapply runs_bind; [apply runs_ata_io_wait | intros].
  eapply runs_bind; [apply runs_status_wait_forever; assumption | intros].
  destruct (truthy advanced); [|apply runs_ret].
  eapply runs_bind; [apply runs_port_read | intros].
  repeat match goal with
         | |- runs _ _ (if ?c then _ else _) => destruct c
         end; apply runs_ret.
Qed.
End RunsPrimitives.

Section RunsDma.
Context {E : Type} {P : platform E} {H : ata_h} {F : fs_h}.
Variable dev : ata_device.
Hypothesis ready : dma_ready P dev.

Lemma dma_status_not_busy e :
  Z.land (fst (port_in 8 (u16 (io_base dev + ATA_REG_STATUS)) e) mod 2 ^ 8)
    ATA_SR_BSY = 0.
Proof. exact (proj1 (proj1 ready e)). Qed.

Lemma runs_poll_status p fuel (done : Z -> bool) :
  (forall v, Z.land v ATA_SR_BSY = 0 -> Z.land v ATA_SR_DRDY <> 0 -> done v = true) ->
  (1 <= fuel)%nat ->
  runs p p (Dma.poll_status (E:=E) fuel dev done).
Proof.
  intros Hdone Hfuel w Hw. destruct fuel as [|k]; [lia|]. cbn [Dma.poll_status].
  destruct (runs_status_read (G:=Dma.globals) p dev
              (fun v => Z.land v ATA_SR_BSY = 0 /\ Z.land v ATA_SR_DRDY <> 0)
              (proj1 ready) w Hw) as (v & w' & t & Er & Hl & Hb & Hd).
  exists v, w', (t ++ [])%list. split; [|exact Hl].
  eapply bind_intro; [exact Er|]. rewrite (Hdone v Hb Hd). reflexivity.
Qed.

Lemma runs_poll_dma_done p fuel :
  (1 <= fuel)%nat -> runs p p (Dma.poll_dma_done (E:=E) fuel dev).
Proof.
  intros Hfuel w Hw. destruct fuel as [|k]; [lia|]. cbn [Dma.poll_dma_done].
  unfold inportb at 1, port_read.
  pose proof (proj2 ready (plat w)) as Hbm.
  destruct (port_in 8 (u16 (bar4 dev + 2)) (plat w)) as [st e1] eqn:E1.
  cbn [fst] in Hbm.
  destruct (runs_status_read (G:=Dma.globals) p dev
              (fun v => Z.land v ATA_SR_BSY = 0) dma_status_not_busy
              (set_plat e1 w) Hw) as (v & w' & t & Er & Hl & Hb).
  exists tt, w', ([EvIn 8 (u16 (bar4 dev + 2)) (st mod 2 ^ 8)] ++ (t ++ []))%list.
  split; [|exact Hl].
  eapply bind_intro.
  - unfold port_read. rewrite E1. reflexivity.
  - eapply bind_intro; [exact Er|]. unfold truthy.
    apply Z.eqb_neq in Hbm. rewrite Hbm, Hb. reflexivity.
Qed.

Lemma runs_dma_read_sector fuel lba buf off :
  (1 <= fuel)%nat ->
  runs false false (Dma.ata_device_read_sector (E:=E) fuel dev lba buf off).
Proof.
  intros Hfuel. unfold Dma.ata_device_read_sector.
  destruct (truthy (is_atapi dev)); [apply runs_ret|].
  repeat first
    [ apply runs_ret
    | eapply runs_bind;
      [ first [ apply runs_spin_lock
              | apply runs_spin_unlock
              | apply runs_port_write
              | apply runs_port_read
              | apply runs_emit
              | apply runs_dma_read
              | apply runs_ata_io_wait
              | apply runs_ata_wait; [exact dma_status_not_busy | exact Hfuel]
              | apply runs_poll_dma_done; exact Hfuel
              | apply runs_poll_status; [|exact Hfuel];
                intros v Hb Hd; unfold truthy; rewrite Hb;
                try (apply Z.eqb_neq in Hd; rewrite Hd); reflexivity ]
      | intros ] ].
Qed.
End RunsDma.

Section TallyTransfers.
Context {E G : Type} {P : platform E}.
Variable f : event -> bool.

Lemma tally_inportsm port n : (forall p v, f (EvIn 16 p v) = false) ->
  forall buf off, tally f 0 (inportsm (G:=G) port buf off n).
Proof.
  intros Hf. induction n; intros; cbn [inportsm]; [apply tally_ret|].
  tally_go by_hyp.
Qed.
End TallyTransfers.

Section LegacyCommands.
Context {E : Type} {P : platform E} {H : ata_h}.

Lemma legacy_attempt_one_read_pio fuel dev lba :
  tally (is_command dev ATA_CMD_READ_PIO) 1
    (Legacy.read_sector_attempt (E:=E) fuel dev lba).
Proof.
  unfold Legacy.read_sector_attempt.
  assert (Hw : forall adv, tally (is_command dev ATA_CMD_READ_PIO) 0
                             (ata_wait (G:=Legacy.globals) fuel dev adv))
    by (intros; apply tally_ata_wait; reflexivity).
  tally_go cmd_side.
Qed.

Lemma legacy_read_sector_no_read_dma fuel dev lba buf off :
  tally (is_command dev ATA_CMD_READ_DMA) 0
    (Legacy.ata_device_read_sector (E:=E) fuel dev lba buf off).
Proof.
  assert (Hw : forall adv, tally (is_command dev ATA_CMD_READ_DMA) 0
                             (ata_wait (G:=Legacy.globals) fuel dev adv))
    by (intros; apply tally_ata_wait; reflexivity).
  assert (Ha : forall l, tally (is_command dev ATA_CMD_READ_DMA) 0
                           (Legacy.read_sector_attempt (E:=E) fuel dev l)).
  { intros. unfold Legacy.read_sector_attempt. tally_go cmd_side. }
  assert (Hi : forall port b o n, tally (is_command dev ATA_CMD_READ_DMA) 0
                                    (inportsm (G:=Legacy.globals) port b o n))
    by (intros; apply tally_inportsm; reflexivity).
  assert (Ht : forall k errors,
             tally (is_command dev ATA_CMD_READ_DMA) 0
               (Legacy.read_sector_try k fuel dev (u32 lba) buf off errors)).
  { induction k; intros; cbn [Legacy.read_sector_try];
      [apply tally_out_of_fuel|]. cbv zeta. tally_go cmd_side. }
  unfold Legacy.ata_device_read_sector. tally_go cmd_side.
Qed.

Lemma legacy_read_sector_try_read_pio fuel dev lba buf off :
  forall k errors (w : world E Legacy.globals) a w' t,
    0 <= errors <= 4 ->
    Legacy.read_sector_try k fuel dev lba buf off errors w = Ok (a, w', t) ->
    (1 <= commands dev ATA_CMD_READ_PIO t <= Z.to_nat (5 - errors))%nat.
Proof.
  assert (Hw : forall adv, tally (is_command dev ATA_CMD_READ_PIO) 0
                             (ata_wait (G:=Legacy.globals) fuel dev adv))
    by (intros; apply tally_ata_wait; reflexivity).
  assert (Hi : forall port b o n, tally (is_command dev ATA_CMD_READ_PIO) 0
                                    (inportsm (G:=Legacy.globals) port b o n))
    by (intros; apply tally_inportsm; reflexivity).
  induction k as [|k IH]; intros errors w a w' t He Hr; [discriminate|].
  cbn [Legacy.read_sector_try] in Hr. cbv zeta in Hr.
  apply bind_ok in Hr as (failed & w1 & t1 & t2 & Ea & Hr & ->).
  pose proof (legacy_attempt_one_read_pio fuel dev lba w failed w1 t1 Ea) as H1.
  unfold commands. rewrite filter_app, length_app, H1.
  destruct (truthy failed).
  - destruct (errors + 1 >? 4) eqn:Hgt.
    + assert (Hz : tally (is_command dev ATA_CMD_READ_PIO) 0
                     (bind (spin_unlock (E:=E) (G:=Legacy.globals))
                        (fun _ => ret buf))) by tally_go cmd_side.
      rewrite (Hz _ _ _ _ Hr). lia.
    + rewrite Z.gtb_ltb in Hgt. apply Z.ltb_ge in Hgt.
      pose proof (IH (errors + 1) w1 a w' t2 ltac:(lia) Hr) as Hrec.
      unfold commands in Hrec. lia.
  - assert (Hz : tally (is_command dev ATA_CMD_READ_PIO) 0
                   (bind (inportsm (u16 (io_base dev)) buf off 256)
                      (fun b => bind (ata_wait fuel dev 0)
                         (fun _ => bind (spin_unlock (E:=E) (G:=Legacy.globals))
                            (fun _ => ret b))))) by tally_go cmd_side.
    rewrite (Hz _ _ _ _ Hr). lia.
Qed.

Lemma legacy_read_sector_read_pio fuel dev lba buf off
    (w : world E Legacy.globals) a w' t :
  Legacy.ata_device_read_sector fuel dev lba buf off w = Ok (a, w', t) ->
  (1 <= commands dev ATA_CMD_READ_PIO t <= 5)%nat.
Proof.
  intros Hr. unfold Legacy.ata_device_read_sector in Hr.
  apply bind_ok in Hr as ([] & w1 & t1 & t2 & El & Hr & ->).
  unfold spin_lock in El. destruct (ata_lock w); [discriminate|].
  injection El as <- <-.
  pose proof (legacy_read_sector_try_read_pio fuel dev (u32 lba) buf off
                fuel 0 _ a w' t2 ltac:(lia) Hr) as Hrec.
  unfold commands in *. cbn [app filter is_command]. exact Hrec.
Qed.
End LegacyCommands.

(** ** The first sector through the DMA driver *)

Section DmaFirstSector.
Context {E : Type} {P : platform E} {H : ata_h} {F : fs_h}.

Lemma dma_read_first_sector_unfold fuel node buffer (w : world E Dma.globals) :
  512 <= Dma.ata_max_offset (Dma.devs (glob w) (device node)) ->
  Dma.read_ata fuel node 0 512 buffer w =
  bind (Dma.read_blocks fuel fuel (Dma.devs (glob w) (device node)) 0 0 0 buffer)
       (fun b => ret (512, b)) w.
Proof.
  intros Hcap. unfold Dma.read_ata. unfold bind at 1, get_globals.
  change (Dma.koff 0) with 0.
  change (u64 (0 + 512 - 1) / ATA_SECTOR_SIZE) with 0.
  change (0 / ATA_SECTOR_SIZE) with 0.
  change (u64 (0 + 512)) with 512.
  assert (H1 : (0 >? Dma.ata_max_offset (Dma.devs (glob w) (device node))) = false)
    by (rewrite Z.gtb_ltb; apply Z.ltb_ge; lia).
  assert (H2 : (512 >? Dma.ata_max_offset (Dma.devs (glob w) (device node))) = false)
    by (rewrite Z.gtb_ltb; apply Z.ltb_ge; lia).
  rewrite H1, H2.
  change (truthy (0 mod ATA_SECTOR_SIZE)) with false.
  change (truthy (u64 (0 + 512) mod ATA_SECTOR_SIZE)) with false.
  cbv [bind ret andb].
  destruct (Dma.read_blocks fuel fuel (Dma.devs (glob w) (device node)) 0 0 0 buffer w)
    as [[[b w2] t2]| |]; reflexivity.
Qed.

Lemma dma_read_blocks_single k fuel dev buffer (w : world E Dma.globals) m w' t :
  Dma.read_blocks k fuel dev 0 0 0 buffer w = Ok (m, w', t) ->
  Dma.ata_device_read_sector fuel dev 0 buffer 0 w = Ok (m, w', t).
Proof.
  intros Hr. destruct k as [|k]; [discriminate|].
  cbn [Dma.read_blocks] in Hr. change (0 <=? 0) with true in Hr. cbv iota in Hr.
  apply bind_ok in Hr as (b & w1 & t1 & t2 & Er & Hr & ->).
  change (u32 0) with 0 in Er.
  destruct k as [|k]; [discriminate|].
  cbn [Dma.read_blocks] in Hr. change (u64 (0 + 1) <=? 0) with false in Hr.
  injection Hr as <- <- <-. rewrite app_nil_r. exact Er.
Qed.

Lemma dma_read_blocks_single_runs k fuel dev buffer (w : world E Dma.globals) m w' t :
  (2 <= k)%nat ->
  Dma.ata_device_read_sector fuel dev 0 buffer 0 w = Ok (m, w', t) ->
  Dma.read_blocks k fuel dev 0 0 0 buffer w = Ok (m, w', t).
Proof.
  intros Hk Er. destruct k as [|[|k]]; try lia.
  cbn [Dma.read_blocks]. change (0 <=? 0) with true. cbv iota.
  change (u32 0) with 0.
  replace t with (t ++ [])%list by apply app_nil_r.
  eapply bind_intro; [exact Er|].
  change (u64 (0 + 1) <=? 0) with false. reflexivity.
Qed.
End DmaFirstSector.

Section DmaCopy.
Context {E : Type} {P : platform E} {H : ata_h} {F : fs_h}.

(** What the DMA sector read leaves in the caller's buffer is what the
    controller left in the DMA buffer of the device. *)
Lemma dma_read_sector_copies fuel dev lba buf off (w : world E Dma.globals)
    m w' t :
  is_atapi dev = 0 ->
  Dma.ata_device_read_sector fuel dev lba buf off w = Ok (m, w', t) ->
  exists e, m = store buf off (dma_load (dma_start dev) 512 e).
Proof.
  intros Hata Hr. unfold Dma.ata_device_read_sector in Hr.
  rewrite Hata in Hr. cbn [truthy Z.eqb negb] in Hr.
  repeat match type of Hr with
         | bind (dma_read _ _) _ _ = Ok _ =>
             let d := fresh "data" in
             let wd := fresh "wd" in
             let Ed := fresh "Ed" in
             apply bind_ok in Hr as (d & wd & ? & ? & Ed & Hr & ?)
         | bind _ _ _ = Ok _ =>
             apply bind_ok in Hr as (? & ? & ? & ? & _ & Hr & ?)
         end.
  injection Hr as <- _ _. injection Ed as <- _ _.
  eexists. reflexivity.
Qed.
End DmaCopy.

(** C5, as the code has it.  In the DMA driver a sector read of a hard
    disk writes READ DMA (0xC8) to the command register exactly once,
    and [read_ata] at offset 0 with size 512 is one such sector read of
    sector 0: it returns 512, issues one READ DMA, and leaves in the
    caller's buffer the 512 bytes the controller put in the device's
    DMA buffer; on a controller that reads ready it does return.  The
    legacy PIO driver never issues READ DMA: each of its sector reads
    writes READ PIO (0x20), once per attempt and so between one and
    five times. *)
Theorem single_sector_read_commands :
  forall (E : Type) (P : platform E) (H : ata_h) (F : fs_h) (fuel : nat)
         (dev : ata_device),
    u16 (ATA_REG_LBA3 - ATA_REG_COMMAND) <> 0 ->
    u16 (ATA_REG_LBA4 - ATA_REG_COMMAND) <> 0 ->
    u16 (ATA_REG_LBA5 - ATA_REG_COMMAND) <> 0 ->
    is_atapi dev = 0 ->
    (forall lba buf off (w : world E Dma.globals) a w' t,
        Dma.ata_device_read_sector fuel dev lba buf off w = Ok (a, w', t) ->
        commands dev ATA_CMD_READ_DMA t = 1%nat) /\
    (forall node buffer (w : world E Dma.globals),
        Dma.devs (glob w) (device node) = dev ->
        512 <= Dma.ata_max_offset dev ->
        (forall r m w' t,
            Dma.read_ata fuel node 0 512 buffer w = Ok ((r, m), w', t) ->
            r = 512 /\ commands dev ATA_CMD_READ_DMA t = 1%nat /\
            Dma.ata_device_read_sector fuel dev 0 buffer 0 w = Ok (m, w', t) /\
            exists e, m = store buffer 0 (dma_load (dma_start dev) 512 e)) /\
        (dma_ready P dev -> ata_lock w = false -> (2 <= fuel)%nat ->
         exists m w' t,
           Dma.read_ata fuel node 0 512 buffer w = Ok ((512, m), w', t))) /\
    (forall lba buf off (w : world E Legacy.globals) a w' t,
        Legacy.ata_device_read_sector fuel dev lba buf off w = Ok (a, w', t) ->
        commands dev ATA_CMD_READ_DMA t = 0%nat /\
        (1 <= commands dev ATA_CMD_READ_PIO t <= 5)%nat).
Proof.
  intros E P H F fuel dev H3 H4 H5 Hata. split; [|split].
  - intros lba buf off w a w' t Hr.
    exact (dma_read_sector_one_command H3 H4 H5 fuel dev lba buf off Hata
             w a w' t Hr).
  - intros node buffer w Hdev Hcap. split.
    + intros r m w' t Hr.
      rewrite dma_read_first_sector_unfold in Hr by (rewrite Hdev; exact Hcap).
      apply bind_ok in Hr as (b & w1 & t1 & t2 & Eb & Hr & ->).
      injection Hr as <- <- <- <-. rewrite app_nil_r, Hdev in *.
      apply dma_read_blocks_single in Eb.
      split; [reflexivity|]. split; [|split; [exact Eb|]].
      * exact (dma_read_sector_one_command H3 H4 H5 fuel dev 0 buffer 0 Hata
                 w b w1 t1 Eb).
      * exact (dma_read_sector_copies fuel dev 0 buffer 0 w b w1 t1 Hata Eb).
    + intros Hready Hl Hfuel.
      destruct (runs_dma_read_sector dev Hready fuel 0 buffer 0 ltac:(lia) w Hl)
        as (m & w' & t & Er & _).
      exists m, w', (t ++ [])%list.
      rewrite dma_read_first_sector_unfold by (rewrite Hdev; exact Hcap).
      eapply bind_intro; [|reflexivity].
      rewrite Hdev. apply dma_read_blocks_single_runs; [exact Hfuel | exact Er].
  - intros lba buf off w a w' t Hr. split.
    + exact (legacy_read_sector_no_read_dma fuel dev lba buf off w a w' t Hr).
    + exact (legacy_read_sector_read_pio fuel dev lba buf off w a w' t Hr).
Qed.

Lemma single_sector_read_commands_witness :
  is_atapi (Examples.primary_dma Examples.small_disk) = 0 /\
  512 <= Dma.ata_max_offset (Examples.primary_dma Examples.small_disk) /\
  exists m w' t,
    Dma.read_ata (P:=Sim.sim_platform Examples.small_disk) (H:=Sim.header)
      2 Examples.hda 0 512 zeroes (Examples.dma_ready Examples.small_disk)
    = Ok ((512, m), w', t).
Proof.
  assert (Hata : is_atapi (Examples.primary_dma Examples.small_disk) = 0)
    by (vm_compute; reflexivity).
  assert (Hcap : 512 <= Dma.ata_max_offset (Examples.primary_dma Examples.small_disk))
    by (vm_compute; discriminate).
  split; [exact Hata|]. split; [exact Hcap|].
  refine (proj2 (proj1 (proj2 (single_sector_read_commands Sim.state
            (Sim.sim_platform Examples.small_disk) Sim.header Sim.fs 2%nat
            (Examples.primary_dma Examples.small_disk) _ _ _ Hata))
            Examples.hda zeroes (Examples.dma_ready Examples.small_disk)
            eq_refl Hcap) _ _ _).
  - discriminate.
  - discriminate.
  - discriminate.
  - split; intros e; vm_compute; [split|]; [reflexivity | discriminate | discriminate].
  - vm_compute. reflexivity.
  - apply le_n.
Defined.

(** C5, as stated, fails on the legacy PIO driver: reading the first
    512 bytes of a disk through it puts one READ PIO (0x20) and no READ
    DMA (0xC8) on the bus.  The DMA driver, on the same machine, issues
    the one READ DMA. *)
Lemma legacy_sector_read_uses_read_pio :
  option_map fst
    (value_of (Legacy.read_ata (P:=Sim.sim_platform Examples.small_disk)
                 (H:=Sim.header) 2 Examples.hda 0 512 zeroes
                 (Examples.legacy_ready Examples.small_disk))) = Some 512 /\
  commands Examples.primary ATA_CMD_READ_DMA
    (trace_of (Legacy.read_ata (P:=Sim.sim_platform Examples.small_disk)
                 (H:=Sim.header) 2 Examples.hda 0 512 zeroes
                 (Examples.legacy_ready Examples.small_disk))) = 0%nat /\
  commands Examples.primary ATA_CMD_READ_PIO
    (trace_of (Legacy.read_ata (P:=Sim.sim_platform Examples.small_disk)
                 (H:=Sim.header) 2 Examples.hda 0 512 zeroes
                 (Examples.legacy_ready Examples.small_disk))) = 1%nat /\
  commands Examples.primary ATA_CMD_READ_DMA
    (trace_of (Dma.read_ata (P:=Sim.sim_platform Examples.small_disk)
                 (H:=Sim.header) 2 Examples.hda 0 512 zeroes
                 (Examples.dma_ready Examples.small_disk))) = 1%nat.
Proof. vm_compute. repeat split. Qed.

(** ** What the probe leaves of the driver's globals *)

Section Frames.
Context {E G : Type} {P : platform E} {H : ata_h}.
Variable R : G -> G -> Prop.
Hypothesis R_refl : forall g, R g g.
Hypothesis R_trans : forall g1 g2 g3, R g1 g2 -> R g2 g3 -> R g1 g3.

Lemma frames_bind {A B} (m : M E G A) (k : A -> M E G B) :
  frames R m -> (forall a, frames R (k a)) -> frames R (bind m k).
Proof.
  intros Hm Hk w b w2 t Hb.
  apply bind_ok in Hb as (a & w1 & t1 & t2 & Em & Ek & ->).
  exact (R_trans _ _ _ (Hm _ _ _ _ Em) (Hk _ _ _ _ _ Ek)).
Qed.

Lemma frames_untouched {A} (m : M E G A) :
  (forall w a w' t, m w = Ok (a, w', t) -> glob w' = glob w) -> frames R m.
Proof. intros Hm w a w' t Hr. rewrite (Hm _ _ _ _ Hr). apply R_refl. Qed.

Lemma frames_ret {A} (a : A) : frames R (ret (E:=E) a).
Proof. apply frames_untouched. now intros w a' w' t [= <- <- <-]. Qed.

Lemma frames_port_read width port : frames R (port_read width port).
Proof.
  apply frames_untouched. intros w a w' t Hr. unfold port_read in Hr.
  destruct (port_in width (u16 port) (plat w)). now injection Hr as <- <- <-.
Qed.

Lemma frames_port_write width port v : frames R (port_write width port v).
Proof. apply frames_untouched. now intros w a w' t [= <- <- <-]. Qed.

Lemma frames_get_globals : frames R (get_globals (E:=E)).
Proof. apply frames_untouched. now intros w a w' t [= <- <- <-]. Qed.

Lemma frames_kvmalloc_p n : frames R (kvmalloc_p n).
Proof.
  apply frames_untouched. intros w a w' t Hr. unfold kvmalloc_p in Hr.
  destruct (kvmalloc_phys n (plat w)). now injection Hr as <- <- <-.
Qed.

Lemma frames_prdt_write prdt entry : frames R (prdt_write prdt entry).
Proof. apply frames_untouched. now intros w a w' t [= <- <- <-]. Qed.

Lemma frames_pci_read dev field size : frames R (pci_read dev field size).
Proof.
  apply frames_untouched. intros w a w' t Hr. unfold pci_read in Hr.
  destruct (pci_read_field dev field size (plat w)). now injection Hr as <- <- <-.
Qed.

Lemma frames_pci_write dev field size v : frames R (pci_write dev field size v).
Proof. apply frames_untouched. now intros w a w' t [= <- <- <-]. Qed.

Lemma frames_out_of_fuel {A} : frames R (out_of_fuel (E:=E) (A:=A)).
Proof. intros w a w' t Hr. discriminate. Qed.
End Frames.

Create HintDb frames.

Lemma legacy_same_names_refl g : legacy_same_names g g.
Proof. now split. Qed.

Lemma legacy_same_names_trans g1 g2 g3 :
  legacy_same_names g1 g2 -> legacy_same_names g2 g3 -> legacy_same_names g1 g3.
Proof. intros [V1 C1] [V2 C2]. split; congruence. Qed.

Lemma dma_same_names_refl g : dma_same_names g g.
Proof. now repeat split. Qed.

Lemma dma_same_names_trans g1 g2 g3 :
  dma_same_names g1 g2 -> dma_same_names g2 g3 -> dma_same_names g1 g3.
Proof. intros (V1 & C1 & N1) (V2 & C2 & N2). repeat split; congruence. Qed.

#[export] Hint Resolve frames_ret frames_port_read frames_port_write
  frames_get_globals frames_kvmalloc_p frames_prdt_write frames_pci_read
  frames_pci_write frames_out_of_fuel : frames.

Ltac frames_go :=
  lazymatch goal with
  | |- frames _ (bind _ _) =>
      apply frames_bind;
      [ solve [auto | exact legacy_same_names_trans | exact dma_same_names_trans]
      | frames_go | intros; frames_go ]
  | |- frames _ (if ?c then _ else _) => destruct c; frames_go
  | |- frames _ (match ?x with _ => _ end) => destruct x; frames_go
  | |- frames _ _ =>
      solve [unfold inportb, inports, outportb, outports, outportl;
             auto with frames]
  end.

Section FramesCommon.
Context {E G : Type} {P : platform E} {H : ata_h}.
Variable R : G -> G -> Prop.
Hypothesis R_refl : forall g, R g g.
Hypothesis R_trans : forall g1 g2 g3, R g1 g2 -> R g2 g3 -> R g1 g3.

Lemma frames_ata_io_wait dev : frames R (ata_io_wait (E:=E) dev).
Proof. unfold ata_io_wait. frames_go. Qed.

Lemma frames_status_wait_capped fuel dev timeout : forall i,
  frames R (status_wait_capped (E:=E) fuel dev timeout i).
Proof. induction fuel; intros; cbn [status_wait_capped]; frames_go. Qed.

Lemma frames_status_wait_forever fuel dev :
  frames R (status_wait_forever (E:=E) fuel dev).
Proof. induction fuel; cbn [status_wait_forever]; frames_go. Qed.

Lemma frames_ata_status_wait fuel dev timeout :
  frames R (ata_status_wait (E:=E) fuel dev timeout).
Proof.
  unfold ata_status_wait.
  destruct (timeout >? 0);
    [apply frames_status_wait_capped | apply frames_status_wait_forever].
Qed.

Lemma frames_ata_wait fuel dev advanced :
  frames R (ata_wait (E:=E) fuel dev advanced).
Proof.
  pose proof (frames_ata_io_wait dev).
  pose proof (frames_ata_status_wait fuel dev (-1)).
  unfold ata_wait. frames_go.
Qed.

Lemma frames_ata_soft_reset dev : frames R (ata_soft_reset (E:=E) dev).
Proof. pose proof (frames_ata_io_wait dev). unfold ata_soft_reset. frames_go. Qed.

Lemma frames_read_words port n : frames R (read_words (E:=E) port n).
Proof. induction n; cbn [read_words]; frames_go. Qed.
End FramesCommon.

#[export] Hint Resolve legacy_same_names_refl dma_same_names_refl : frames.
#[export] Hint Extern 1 => exact legacy_same_names_trans : frames.
#[export] Hint Extern 1 => exact dma_same_names_trans : frames.
#[export] Hint Resolve frames_ata_io_wait frames_status_wait_capped
  frames_status_wait_forever frames_ata_status_wait frames_ata_wait
  frames_ata_soft_reset frames_read_words : frames.

Section FramesDrivers.
Context {E : Type} {P : platform E} {H : ata_h} {F : fs_h}.

Lemma legacy_update_dev_frames d f :
  frames legacy_same_names (Legacy.update_dev (E:=E) d f).
Proof. intros w a w' t [= <- <- <-]. now split. Qed.

Lemma dma_update_dev_frames d f :
  frames dma_same_names (Dma.update_dev (E:=E) d f).
Proof. intros w a w' t [= <- <- <-]. now repeat split. Qed.

Hint Resolve legacy_update_dev_frames dma_update_dev_frames : frames.

Lemma legacy_init_frames fuel d :
  frames legacy_same_names (Legacy.ata_device_init (E:=E) fuel d).
Proof. unfold Legacy.ata_device_init. frames_go. Qed.

Lemma dma_identify_frames fuel d cmd :
  frames dma_same_names (Dma.identify (E:=E) fuel d cmd).
Proof. unfold Dma.identify. frames_go. Qed.

Hint Resolve dma_identify_frames : frames.

Lemma dma_init_frames fuel d :
  frames dma_same_names (Dma.ata_device_init (E:=E) fuel d).
Proof. unfold Dma.ata_device_init. frames_go. Qed.

Lemma dma_poll_packet_frames fuel dev verdict :
  frames dma_same_names (Dma.poll_packet (E:=E) fuel dev verdict).
Proof. induction fuel; cbn [Dma.poll_packet]; frames_go. Qed.

Lemma dma_write_words_frames port ws :
  frames dma_same_names (Dma.write_words (E:=E) port ws).
Proof. induction ws; cbn [Dma.write_words]; frames_go. Qed.

Hint Resolve dma_poll_packet_frames dma_write_words_frames : frames.

Lemma dma_atapi_init_frames fuel d :
  frames dma_same_names (Dma.atapi_device_init (E:=E) fuel d).
Proof. unfold Dma.atapi_device_init. frames_go. Qed.
End FramesDrivers.

(** ** The probe: from the signature to the node *)

Lemma inportb_inv {E G} {P : platform E} port (w : world E G) v w1 t :
  inportb port w = Ok (v, w1, t) ->
  t = [EvIn 8 (u16 port) v] /\ glob w1 = glob w.
Proof.
  unfold inportb, port_read. destruct (port_in 8 (u16 port) (plat w)).
  intros [= <- <- <-]. now split.
Qed.

Lemma eq_trans_globals {G} (g1 g2 g3 : G) : g1 = g2 -> g2 = g3 -> g1 = g3.
Proof. congruence. Qed.

Section ProbeSplit.
Context {E : Type} {P : platform E} {H : ata_h} {F : fs_h}.

Lemma legacy_detect_split fuel d (w : world E Legacy.globals) r w' t :
  Legacy.ata_device_detect fuel d w = Ok (r, w', t) ->
  exists t0 cl ch t1 w0,
    t = (t0 ++ EvIn 8 (u16 (io_base (Legacy.devs (glob w) d) + ATA_REG_LBA1)) cl
            :: EvIn 8 (u16 (io_base (Legacy.devs (glob w) d) + ATA_REG_LBA2)) ch
            :: t1)%list /\
    glob w0 = glob w /\
    Legacy.detect_dispatch fuel d cl ch w0 = Ok (r, w', t1).
Proof.
  intros Hr. unfold Legacy.ata_device_detect in Hr.
  unfold bind at 1, get_globals in Hr.
  set (dev := Legacy.devs (glob w) d) in *.
  destruct (bind (ata_soft_reset dev) _ w) as [[[r0 w0'] t0']| |] eqn:Hb;
    try discriminate.
  injection Hr as -> -> <-. cbn [app].
  apply bind_ok in Hb as (? & w1 & ta & ? & E1 & Hb & ->).
  apply bind_ok in Hb as (? & w2 & tb & ? & E2 & Hb & ->).
  apply bind_ok in Hb as (? & w3 & tc & ? & E3 & Hb & ->).
  apply bind_ok in Hb as (? & w4 & td & ? & E4 & Hb & ->).
  apply bind_ok in Hb as (? & w5 & te & ? & E5 & Hb & ->).
  apply bind_ok in Hb as (cl & w6 & tcl & ? & E6 & Hb & ->).
  apply bind_ok in Hb as (ch & w7 & tch & t1 & E7 & Hb & ->).
  apply inportb_inv in E6 as [-> G6]. apply inportb_inv in E7 as [-> G7].
  exists (ta ++ tb ++ tc ++ td ++ te)%list, cl, ch, t1, w7.
  split; [rewrite <- !app_assoc; reflexivity|]. split; [|exact Hb].
  pose proof (frames_ata_soft_reset eq (@eq_refl _) eq_trans_globals dev _ _ _ _ E1).
  pose proof (frames_ata_io_wait eq (@eq_refl _) eq_trans_globals dev _ _ _ _ E2).
  pose proof (frames_port_write eq (@eq_refl _) _ _ _ _ _ _ _ E3).
  pose proof (frames_ata_io_wait eq (@eq_refl _) eq_trans_globals dev _ _ _ _ E4).
  pose proof (frames_ata_status_wait eq (@eq_refl _) eq_trans_globals _ dev _ _ _ _ _ E5).
  congruence.
Qed.

Lemma dma_detect_split fuel d (w : world E Dma.globals) r w' t :
  Dma.ata_device_detect fuel d w = Ok (r, w', t) ->
  exists t0 cl ch t1 w0,
    t = (t0 ++ EvIn 8 (u16 (io_base (Dma.devs (glob w) d) + ATA_REG_LBA1)) cl
            :: EvIn 8 (u16 (io_base (Dma.devs (glob w) d) + ATA_REG_LBA2)) ch
            :: t1)%list /\
    glob w0 = glob w /\
    Dma.detect_dispatch fuel d cl ch w0 = Ok (r, w', t1).
Proof.
  intros Hr. unfold Dma.ata_device_detect in Hr.
  unfold bind at 1, get_globals in Hr.
  set (dev := Dma.devs (glob w) d) in *.
  destruct (bind (ata_soft_reset dev) _ w) as [[[r0 w0'] t0']| |] eqn:Hb;
    try discriminate.
  injection Hr as -> -> <-. cbn [app].
  apply bind_ok in Hb as (? & w1 & ta & ? & E1 & Hb & ->).
  apply bind_ok in Hb as (? & w2 & tb & ? & E2 & Hb & ->).
  apply bind_ok in Hb as (? & w3 & tc & ? & E3 & Hb & ->).
  apply bind_ok in Hb as (? & w4 & td & ? & E4 & Hb & ->).
  apply bind_ok in Hb as (? & w5 & te & ? & E5 & Hb & ->).
  apply bind_ok in Hb as (cl & w6 & tcl & ? & E6 & Hb & ->).
  apply bind_ok in Hb as (ch & w7 & tch & t1 & E7 & Hb & ->).
  apply inportb_inv in E6 as [-> G6]. apply inportb_inv in E7 as [-> G7].
  exists (ta ++ tb ++ tc ++ td ++ te)%list, cl, ch, t1, w7.
  split; [rewrite <- !app_assoc; reflexivity|]. split; [|exact Hb].
  pose proof (frames_ata_soft_reset eq (@eq_refl _) eq_trans_globals dev _ _ _ _ E1).
  pose proof (frames_ata_io_wait eq (@eq_refl _) eq_trans_globals dev _ _ _ _ E2).
  pose proof (frames_port_write eq (@eq_refl _) _ _ _ _ _ _ _ E3).
  pose proof (frames_ata_io_wait eq (@eq_refl _) eq_trans_globals dev _ _ _ _ E4).
  pose proof (frames_ata_status_wait eq (@eq_refl _) eq_trans_globals _ dev _ _ _ _ _ E5).
  congruence.
Qed.
End ProbeSplit.

Section ProbeDispatch.
Context {E : Type} {P : platform E} {H : ata_h} {F : fs_h}.

Lemma dma_dispatch_pata fuel d cl ch (w : world E Dma.globals) r w' t :
  (cl = 0x00 /\ ch = 0x00) \/ (cl = 0x3C /\ ch = 0xC3) ->
  Dma.detect_dispatch fuel d cl ch w = Ok (r, w', t) ->
  r = 1 /\
  exists node,
    Dma.ata_device_create d w = Ok (node, w, []) /\
    Dma.vfs (glob w') =
      (("/dev/hd" ++ fmt_c (Dma.ata_drive_char (glob w)))%string, node)
        :: Dma.vfs (glob w) /\
    Dma.ata_drive_char (glob w') = s8 (Dma.ata_drive_char (glob w) + 1) /\
    Dma.cdrom_number (glob w') = Dma.cdrom_number (glob w).
Proof.
  intros Hsig Hr.
  assert (Hd : Dma.detect_dispatch fuel d cl ch w =
               Dma.detect_dispatch fuel d 0 0 w)
    by (destruct Hsig as [[-> ->] | [-> ->]]; reflexivity).
  rewrite Hd in Hr. clear Hd Hsig.
  unfold Dma.detect_dispatch in Hr. cbn [Z.eqb andb orb] in Hr.
  cbv [bind get_globals put_globals Dma.ata_device_create Dma.vfs_mount ret] in Hr.
  cbn [glob set_globals plat ata_lock Dma.ata_drive_char Dma.cdrom_number
       Dma.ata_pci Dma.atapi_in_progress Dma.devs Dma.vfs] in Hr.
  match type of Hr with
  | context [Dma.ata_device_init fuel d ?w0] =>
      destruct (Dma.ata_device_init fuel d w0) as [[[u w1] t1]| |] eqn:Ei;
      try discriminate
  end.
  injection Hr as <- <- <-.
  destruct (dma_init_frames fuel d _ _ _ _ Ei) as (Hv & Hc & Hn).
  cbn [glob set_globals Dma.ata_drive_char Dma.cdrom_number Dma.vfs] in Hv, Hc, Hn.
  split; [reflexivity|]. eexists. split; [reflexivity|].
  split; [exact Hv|]. split; [exact Hc | exact Hn].
Qed.

Lemma dma_dispatch_atapi fuel d cl ch (w : world E Dma.globals) r w' t :
  (cl = 0x14 /\ ch = 0xEB) \/ (cl = 0x69 /\ ch = 0x96) ->
  Dma.detect_dispatch fuel d cl ch w = Ok (r, w', t) ->
  exists failed w1,
    Dma.atapi_device_init fuel d w = Ok (failed, w1, t) /\
    ((failed <> 0 /\ r = 0 /\ w' = w1 /\
      Dma.vfs (glob w') = Dma.vfs (glob w) /\
      Dma.cdrom_number (glob w') = Dma.cdrom_number (glob w)) \/
     (failed = 0 /\ r = 2 /\
      exists node,
        Dma.atapi_device_create d w1 = Ok (node, w1, []) /\
        Dma.vfs (glob w') =
          (("/dev/cdrom" ++ fmt_d (Dma.cdrom_number (glob w)))%string, node)
            :: Dma.vfs (glob w) /\
        Dma.cdrom_number (glob w') = Dma.cdrom_number (glob w) + 1 /\
        Dma.ata_drive_char (glob w') = Dma.ata_drive_char (glob w))).
Proof.
  intros Hsig Hr.
  assert (Hd : Dma.detect_dispatch fuel d cl ch w =
               Dma.detect_dispatch fuel d 0x14 0xEB w)
    by (destruct Hsig as [[-> ->] | [-> ->]]; reflexivity).
  rewrite Hd in Hr. clear Hd Hsig.
  unfold Dma.detect_dispatch in Hr. cbn [Z.eqb andb orb Pos.eqb] in Hr.
  unfold bind at 1, get_globals in Hr.
  destruct (bind (Dma.atapi_device_init fuel d) _ w) as [[[r0 w0] t0]| |] eqn:Hb;
    try discriminate.
  injection Hr as -> -> <-. cbn [app].
  apply bind_ok in Hb as (failed & w1 & t1 & t2 & Ei & Hb & ->).
  destruct (dma_atapi_init_frames fuel d _ _ _ _ Ei) as (Hv & Hc & Hn).
  exists failed, w1. unfold truthy in Hb.
  destruct (failed =? 0) eqn:Hf; cbn [negb] in Hb.
  - apply Z.eqb_eq in Hf.
    cbv [bind get_globals put_globals Dma.atapi_device_create Dma.vfs_mount ret]
      in Hb.
    cbn [glob set_globals plat ata_lock Dma.ata_drive_char Dma.cdrom_number
         Dma.ata_pci Dma.atapi_in_progress Dma.devs Dma.vfs app] in Hb.
    injection Hb as <- <- <-. rewrite app_nil_r.
    split; [exact Ei|]. right. split; [exact Hf|]. split; [reflexivity|].
    eexists. split; [reflexivity|].
    cbn [glob set_globals Dma.ata_drive_char Dma.cdrom_number Dma.vfs].
    rewrite Hv, Hc, Hn. repeat split.
  - apply Z.eqb_neq in Hf. injection Hb as <- <- <-. rewrite app_nil_r.
    split; [exact Ei|]. left. repeat split; assumption.
Qed.

Lemma dma_dispatch_skip fuel d cl ch (w : world E Dma.globals) :
  (cl = 0xFF /\ ch = 0xFF) ->
  Dma.detect_dispatch fuel d cl ch w = Ok (0, w, []).
Proof. intros [-> ->]. reflexivity. Qed.

Lemma legacy_dispatch_skip fuel d cl ch (w : world E Legacy.globals) :
  (cl = 0xFF /\ ch = 0xFF) \/ (cl = 0x14 /\ ch = 0xEB) \/ (cl = 0x69 /\ ch = 0x96) ->
  Legacy.detect_dispatch fuel d cl ch w = Ok (0, w, []).
Proof. intros [[-> ->] | [[-> ->] | [-> ->]]]; reflexivity. Qed.

Lemma legacy_dispatch_pata fuel d cl ch (w : world E Legacy.globals) r w' t :
  (cl = 0x00 /\ ch = 0x00) \/ (cl = 0x3C /\ ch = 0xC3) ->
  Legacy.detect_dispatch fuel d cl ch w = Ok (r, w', t) ->
  r = 1 /\
  exists node,
    Legacy.ata_device_create d w = Ok (node, w, []) /\
    Legacy.vfs (glob w') =
      (("/dev/hd" ++ fmt_c (Legacy.ata_drive_char (glob w)))%string, node)
        :: Legacy.vfs (glob w) /\
    Legacy.ata_drive_char (glob w') = s8 (Legacy.ata_drive_char (glob w) + 1).
Proof.
  intros Hsig Hr.
  assert (Hd : Legacy.detect_dispatch fuel d cl ch w =
               Legacy.detect_dispatch fuel d 0 0 w)
    by (destruct Hsig as [[-> ->] | [-> ->]]; reflexivity).
  rewrite Hd in Hr. clear Hd Hsig.
  unfold Legacy.detect_dispatch in Hr. cbn [Z.eqb andb orb] in Hr.
  cbv [bind get_globals put_globals Legacy.ata_device_create Legacy.vfs_mount ret]
    in Hr.
  cbn [glob set_globals plat ata_lock Legacy.ata_drive_char Legacy.devs
       Legacy.vfs] in Hr.
  match type of Hr with
  | context [Legacy.ata_device_init fuel d ?w0] =>
      destruct (Legacy.ata_device_init fuel d w0) as [[[u w1] t1]| |] eqn:Ei;
      try discriminate
  end.
  injection Hr as <- <- <-.
  destruct (legacy_init_frames fuel d _ _ _ _ Ei) as (Hv & Hc).
  cbn [glob set_globals Legacy.ata_drive_char Legacy.vfs] in Hv, Hc.
  split; [reflexivity|]. eexists. split; [reflexivity|].
  split; [exact Hv | exact Hc].
Qed.
End ProbeDispatch.

(** C4, as the code has it.  The probe reads the signature from LBA1
    and LBA2 and dispatches on it.  In the DMA driver a signature
    0x14,0xEB or 0x69,0x96 is treated as ATAPI: [atapi_device_init]
    (IDENTIFY PACKET and the capacity probe) runs first, and only when
    it reports success is the node "/dev/cdrom<n>" created and mounted
    and the counter advanced (result 2); when it fails (error, or a
    last block of zero: no medium) nothing is mounted (result 0).
    0xFF,0xFF is skipped with no further port access; 0x00,0x00 and
    0x3C,0xC3 mount the node of [ata_device_create] as "/dev/hd<letter>"
    and advance the letter (result 1).  The legacy driver does the same
    for the absent and the PATA signatures, and skips an ATAPI signature
    as it skips an absent drive. *)
Theorem probe_dispatches_on_signature :
  forall (E : Type) (P : platform E) (H : ata_h) (F : fs_h) (fuel : nat)
         (d : dev_id),
    (forall (w : world E Dma.globals) r w' t,
        Dma.ata_device_detect fuel d w = Ok (r, w', t) ->
        exists t0 cl ch t1 w0,
          t = (t0 ++ EvIn 8 (u16 (io_base (Dma.devs (glob w) d) + ATA_REG_LBA1)) cl
                  :: EvIn 8 (u16 (io_base (Dma.devs (glob w) d) + ATA_REG_LBA2)) ch
                  :: t1)%list /\
          glob w0 = glob w /\
          (cl = 0xFF /\ ch = 0xFF -> r = 0 /\ w' = w0 /\ t1 = []) /\
          ((cl = 0x00 /\ ch = 0x00) \/ (cl = 0x3C /\ ch = 0xC3) ->
           r = 1 /\
           exists node,
             Dma.ata_device_create d w0 = Ok (node, w0, []) /\
             Dma.vfs (glob w') =
               (("/dev/hd" ++ fmt_c (Dma.ata_drive_char (glob w)))%string, node)
                 :: Dma.vfs (glob w) /\
             Dma.ata_drive_char (glob w') = s8 (Dma.ata_drive_char (glob w) + 1) /\
             Dma.cdrom_number (glob w') = Dma.cdrom_number (glob w)) /\
          ((cl = 0x14 /\ ch = 0xEB) \/ (cl = 0x69 /\ ch = 0x96) ->
           exists failed w1,
             Dma.atapi_device_init fuel d w0 = Ok (failed, w1, t1) /\
             ((failed <> 0 /\ r = 0 /\ w' = w1 /\
               Dma.vfs (glob w') = Dma.vfs (glob w) /\
               Dma.cdrom_number (glob w') = Dma.cdrom_number (glob w)) \/
              (failed = 0 /\ r = 2 /\
               exists node,
                 Dma.atapi_device_create d w1 = Ok (node, w1, []) /\
                 Dma.vfs (glob w') =
                   (("/dev/cdrom" ++ fmt_d (Dma.cdrom_number (glob w)))%string, node)
                     :: Dma.vfs (glob w) /\
                 Dma.cdrom_number (glob w') = Dma.cdrom_number (glob w) + 1 /\
                 Dma.ata_drive_char (glob w') = Dma.ata_drive_char (glob w))))) /\
    (forall (w : world E Legacy.globals) r w' t,
        Legacy.ata_device_detect fuel d w = Ok (r, w', t) ->
        exists t0 cl ch t1 w0,
          t = (t0 ++ EvIn 8 (u16 (io_base (Legacy.devs (glob w) d) + ATA_REG_LBA1)) cl
                  :: EvIn 8 (u16 (io_base (Legacy.devs (glob w) d) + ATA_REG_LBA2)) ch
                  :: t1)%list /\
          glob w0 = glob w /\
          ((cl = 0xFF /\ ch = 0xFF) \/ (cl = 0x14 /\ ch = 0xEB)
           \/ (cl = 0x69 /\ ch = 0x96) ->
           r = 0 /\ w' = w0 /\ t1 = []) /\
          ((cl = 0x00 /\ ch = 0x00) \/ (cl = 0x3C /\ ch = 0xC3) ->
           r = 1 /\
           exists node,
             Legacy.ata_device_create d w0 = Ok (node, w0, []) /\
             Legacy.vfs (glob w') =
               (("/dev/hd" ++ fmt_c (Legacy.ata_drive_char (glob w)))%string, node)
                 :: Legacy.vfs (glob w) /\
             Legacy.ata_drive_char (glob w') =
               s8 (Legacy.ata_drive_char (glob w) + 1))).
Proof.
  intros E P H F fuel d. split.
  - intros w r w' t Hr.
    destruct (dma_detect_split fuel d w r w' t Hr)
      as (t0 & cl & ch & t1 & w0 & Ht & Hg & Hd).
    exists t0, cl, ch, t1, w0. split; [exact Ht|]. split; [exact Hg|].
    split; [|split].
    + intros Hsig. rewrite (dma_dispatch_skip fuel d cl ch w0 Hsig) in Hd.
      injection Hd as <- <- <-. repeat split.
    + intros Hsig. rewrite <- Hg. exact (dma_dispatch_pata fuel d cl ch w0 r w' t1 Hsig Hd).
    + intros Hsig. rewrite <- Hg. exact (dma_dispatch_atapi fuel d cl ch w0 r w' t1 Hsig Hd).
  - intros w r w' t Hr.
    destruct (legacy_detect_split fuel d w r w' t Hr)
      as (t0 & cl & ch & t1 & w0 & Ht & Hg & Hd).
    exists t0, cl, ch, t1, w0. split; [exact Ht|]. split; [exact Hg|]. split.
    + intros Hsig. rewrite (legacy_dispatch_skip fuel d cl ch w0 Hsig) in Hd.
      injection Hd as <- <- <-. repeat split.
    + intros Hsig. rewrite <- Hg.
      exact (legacy_dispatch_pata fuel d cl ch w0 r w' t1 Hsig Hd).
Qed.

Lemma probe_dispatches_on_signature_witness :
  exists r w' t,
    @Dma.ata_device_detect Sim.state (Sim.sim_platform Examples.cdrom_loaded)
      Sim.header Sim.fs 8 ata_primary_master Examples.dma_boot = Ok (r, w', t) /\
    exists t0 cl ch t1,
      t = (t0 ++ EvIn 8 0x1F4 cl :: EvIn 8 0x1F5 ch :: t1)%list.
Proof.
  assert (Hok : succeeded
                  (@Dma.ata_device_detect Sim.state
                     (Sim.sim_platform Examples.cdrom_loaded)
                     Sim.header Sim.fs 8 ata_primary_master Examples.dma_boot) = true)
    by (vm_compute; reflexivity).
  destruct (@Dma.ata_device_detect Sim.state (Sim.sim_platform Examples.cdrom_loaded)
              Sim.header Sim.fs 8 ata_primary_master Examples.dma_boot)
    as [[[r w'] t]| |] eqn:Hr; try discriminate Hok.
  exists r, w', t. split; [reflexivity|].
  destruct (proj1 (probe_dispatches_on_signature Sim.state
                     (Sim.sim_platform Examples.cdrom_loaded) Sim.header Sim.fs
                     8%nat ata_primary_master)
              Examples.dma_boot r w' t Hr)
    as (t0 & cl & ch & t1 & w0 & Ht & _).
  exists t0, cl, ch, t1. vm_compute in Ht. exact Ht.
Defined.

(** C4, as stated, fails in two ways.  An ATAPI drive without a medium
    is probed by the DMA driver (PACKET is issued) but gets no node; and
    the legacy driver creates no node for an ATAPI drive at all, with or
    without a medium.  With a medium, the DMA driver mounts
    "/dev/cdrom0". *)
Lemma atapi_signature_without_node :
  value_of (Examples.dma_probe Examples.cdrom) = Some 0 /\
  option_map (fun w => Dma.vfs (glob w)) (world_of (Examples.dma_probe Examples.cdrom))
    = Some [] /\
  commands Examples.primary ATA_CMD_PACKET
    (trace_of (Examples.dma_probe Examples.cdrom)) = 1%nat /\
  value_of (Examples.legacy_probe Examples.cdrom_loaded) = Some 0 /\
  option_map (fun w => Legacy.vfs (glob w))
    (world_of (Examples.legacy_probe Examples.cdrom_loaded)) = Some [] /\
  value_of (Examples.dma_probe Examples.cdrom_loaded) = Some 2 /\
  option_map (fun w => map fst (Dma.vfs (glob w)))
    (world_of (Examples.dma_probe Examples.cdrom_loaded))
    = Some ["/dev/cdrom0"%string].
Proof. vm_compute. repeat split. Qed.

(** ** What the byte-range adapter returns *)

Section TransferValue.
Context {E : Type} {P : platform E} {H : ata_h} {F : fs_h}.

Lemma legacy_read_value fuel node _offset size buffer
    (w : world E Legacy.globals) n m w' t :
  Legacy.read_ata fuel node _offset size buffer w = Ok ((n, m), w', t) ->
  let cap := Legacy.ata_max_offset (Legacy.devs (glob w) (device node)) in
  n = if u32 _offset >? cap then 0
      else if u32 (u32 _offset + size) >? cap
           then u32 (u64 (cap - u32 _offset)) else size.
Proof.
  intros Hr cap. unfold Legacy.read_ata in Hr.
  apply bind_ok in Hr as (g & w0 & t0 & t0' & Eg & Hr & _).
  injection Eg as <- <- _. fold cap in Hr.
  destruct (u32 _offset >? cap); [injection Hr as <- _ _ _; reflexivity|].
  apply bind_ok in Hr as ([[b1 x1] s1] & w1 & t1 & t2 & _ & Hr & _).
  apply bind_ok in Hr as ([b2 e2] & w2 & t3 & t4 & _ & Hr & _).
  apply bind_ok in Hr as (b3 & w3 & t5 & t6 & _ & Hr & _).
  injection Hr as <- _ _ _. reflexivity.
Qed.



End TransferValue.

(** ** Running a read to completion *)

Lemma runs_to_bind {E G A B} (p q r : bool) (Q : A -> Prop) (R : B -> Prop)
    (m : M E G A) (f : A -> M E G B) :
  runs_to p q Q m -> (forall a, Q a -> runs_to q r R (f a)) ->
  runs_to p r R (bind m f).
Proof.
  intros Hm Hf w Hw. destruct (Hm w Hw) as (a & w1 & t1 & Em & H1 & Ha).
  destruct (Hf a Ha w1 H1) as (b & w2 & t2 & Ef & H2 & Hb).
  exists b, w2, (t1 ++ t2)%list.
  split; [now apply bind_intro with a w1 | split; assumption].
Qed.

Lemma runs_to_ret {E G A} (p : bool) (Q : A -> Prop) (a : A) :
  Q a -> runs_to p p Q (ret (E:=E) (G:=G) a).
Proof. intros Ha w Hw. now exists a, w, []. Qed.

Lemma runs_to_any {E G A} (p q : bool) (m : M E G A) :
  runs p q m -> runs_to p q (fun _ => True) m.
Proof.
  intros Hm w Hw. destruct (Hm w Hw) as (a & w' & t & Em & Hl).
  now exists a, w', t.
Qed.

Lemma runs_of_runs_to {E G A} (p q : bool) (Q : A -> Prop) (m : M E G A) :
  runs_to p q Q m -> runs p q m.
Proof.
  intros Hm w Hw. destruct (Hm w Hw) as (a & w' & t & Em & Hl & _).
  now exists a, w', t.
Qed.

Lemma bind_get_globals {E G B} (f : G -> M E G B) (w : world E G) :
  bind get_globals f w = f (glob w) w.
Proof.
  unfold bind, get_globals.
  destruct (f (glob w) w) as [[[b w2] t2]| |]; reflexivity.
Qed.

Section RunsLegacy.
Context {E : Type} {P : platform E} {H : ata_h} {F : fs_h}.
Variable dev : ata_device.
Hypothesis idle : never_busy P dev.
Variable fuel : nat.
Hypothesis enough : (5 <= fuel)%nat.

Lemma runs_legacy_attempt p lba :
  runs p p (Legacy.read_sector_attempt (E:=E) fuel dev lba).
Proof.
  unfold Legacy.read_sector_attempt.
  repeat first
    [ apply runs_ata_wait; [exact idle | lia]
    | eapply runs_bind;
      [ first [ apply runs_port_write
              | apply runs_ata_wait; [exact idle | lia] ]
      | intros ] ].
Qed.

Lemma runs_legacy_try lba buf off : forall k errors,
  0 <= errors <= 4 -> 5 - errors <= Z.of_nat k ->
  runs true false (Legacy.read_sector_try (E:=E) k fuel dev lba buf off errors).
Proof.
  induction k as [|k IH]; intros errors He Hk; [lia|].
  cbn [Legacy.read_sector_try]. cbv zeta.
  eapply runs_bind; [apply runs_legacy_attempt | intros failed].
  destruct (truthy failed).
  - destruct (errors + 1 >? 4) eqn:Hgt.
    + eapply runs_bind; [apply runs_spin_unlock | intros; apply runs_ret].
    + rewrite Z.gtb_ltb in Hgt. apply Z.ltb_ge in Hgt. apply IH; lia.
  - eapply runs_bind; [apply runs_inportsm | intros].
    eapply runs_bind; [apply runs_ata_wait; [exact idle | lia] | intros].
    eapply runs_bind; [apply runs_spin_unlock | intros; apply runs_ret].
Qed.

Lemma runs_legacy_read_sector lba buf off :
  runs false false (Legacy.ata_device_read_sector (E:=E) fuel dev lba buf off).
Proof.
  unfold Legacy.ata_device_read_sector.
  eapply runs_bind; [apply runs_spin_lock | intros].
  apply runs_legacy_try; lia.
Qed.

Lemma runs_legacy_read_blocks end_block : end_block < 2 ^ 32 - 1 ->
  forall k start_block x_offset buffer,
    0 <= start_block ->
    Z.max 0 (end_block - start_block + 1) < Z.of_nat k ->
    runs false false
      (Legacy.read_blocks (E:=E) k fuel dev start_block end_block x_offset buffer).
Proof.
  intros Hend. induction k as [|k IH]; intros s x b Hs Hk; [lia|].
  cbn [Legacy.read_blocks]. destruct (s <=? end_block) eqn:Hle.
  - apply Z.leb_le in Hle.
    eapply runs_bind; [apply runs_legacy_read_sector | intros].
    assert (Hu : u32 (s + 1) = s + 1)
      by (unfold u32; apply Z.mod_small; lia).
    rewrite Hu. apply IH; lia.
  - apply runs_ret.
Qed.
End RunsLegacy.

Section LegacyReadReturns.
Context {E : Type} {P : platform E} {H : ata_h} {F : fs_h}.

Lemma legacy_read_ata_returns fuel node _offset size buffer
    (w : world E Legacy.globals) :
  let dev := Legacy.devs (glob w) (device node) in
  never_busy P dev ->
  ata_lock w = false ->
  (5 <= fuel)%nat ->
  u32 (u32 _offset + size - 1) / ATA_SECTOR_SIZE + 2 < Z.of_nat fuel ->
  exists a w' t, Legacy.read_ata fuel node _offset size buffer w = Ok (a, w', t).
Proof.
  intros dev idle Hw Hfuel Hblocks.
  unfold Legacy.read_ata. rewrite bind_get_globals. fold dev.
  destruct (u32 _offset >? Legacy.ata_max_offset dev); [now do 3 eexists|].
  set (offset := u32 _offset) in *.
  set (size' := if u32 (offset + size) >? Legacy.ata_max_offset dev
                then u32 (u64 (Legacy.ata_max_offset dev - offset)) else size).
  set (end_block := u32 (offset + size - 1) / ATA_SECTOR_SIZE) in *.
  assert (Hoff : 0 <= offset < 2 ^ 32) by (apply Z.mod_pos_bound; lia).
  assert (Hend : 0 <= end_block < 2 ^ 32 - 1).
  { unfold end_block, ATA_SECTOR_SIZE.
    assert (0 <= u32 (offset + size - 1) < 2 ^ 32) by (apply Z.mod_pos_bound; lia).
    split; [apply Z.div_pos; lia|].
    apply Z.div_lt_upper_bound; lia. }
  assert (Hstart : 0 <= offset / ATA_SECTOR_SIZE < 2 ^ 32 - 1).
  { unfold ATA_SECTOR_SIZE. split; [apply Z.div_pos; lia|].
    apply Z.div_lt_upper_bound; lia. }
  match goal with
  | |- exists a w' t, ?m w = _ =>
      cut (runs_to false false (fun _ : Z * mem => True) m)
  end.
  { intros Hr. destruct (Hr w Hw) as (a & w' & t & Er & _). now exists a, w', t. }
  eapply runs_to_bind
    with (Q := fun st : mem * Z * Z => 0 <= snd st).
  { destruct (truthy (offset mod ATA_SECTOR_SIZE)).
    - eapply runs_to_bind; [apply runs_to_any, runs_malloc | intros tmp _].
      eapply runs_to_bind;
        [apply runs_to_any, runs_legacy_read_sector; assumption | intros tmp' _].
      apply runs_to_ret. cbn [snd]. apply Z.mod_pos_bound. lia.
    - apply runs_to_ret. cbn [snd]. lia. }
  intros [[b1 x1] s1] Hs1. cbn [snd] in Hs1.
  eapply runs_to_bind
    with (Q := fun st : mem * Z => snd st <= end_block).
  { destruct (truthy (u32 (offset + size') mod ATA_SECTOR_SIZE) && (s1 <? end_block))
      eqn:Hc.
    - apply andb_true_iff in Hc as [_ Hlt]. apply Z.ltb_lt in Hlt.
      eapply runs_to_bind; [apply runs_to_any, runs_malloc | intros tmp _].
      eapply runs_to_bind;
        [apply runs_to_any, runs_legacy_read_sector; assumption | intros tmp' _].
      apply runs_to_ret. cbn [snd]. unfold u32. rewrite Z.mod_small; lia.
    - apply runs_to_ret. cbn [snd]. lia. }
  intros [b2 e2] He2. cbn [snd] in He2.
  eapply runs_to_bind; [|intros; apply runs_to_ret; exact I].
  apply runs_to_any. apply runs_legacy_read_blocks; try assumption; lia.
Qed.
End LegacyReadReturns.

Lemma max_offset_whole_sectors dev :
  Legacy.ata_max_offset dev mod ATA_SECTOR_SIZE = 0.
Proof.
  unfold Legacy.ata_max_offset, u64, ATA_SECTOR_SIZE.
  rewrite Z.mod_mod_divide by (exists (2 ^ 55); reflexivity).
  apply Z_mod_mult.
Qed.

Section RunsDmaBlocks.
Context {E : Type} {P : platform E} {H : ata_h} {F : fs_h}.
Variable dev : ata_device.
Hypothesis ready : dma_ready P dev.
Variable fuel : nat.
Hypothesis enough : (1 <= fuel)%nat.

End RunsDmaBlocks.

Section DmaReadReturns.
Context {E : Type} {P : platform E} {H : ata_h} {F : fs_h}.

End DmaReadReturns.

Section TransferNoAbort.
Context {E : Type} {P : platform E} {H : ata_h} {F : fs_h}.




End TransferNoAbort.





(** ** A request that starts at the capacity *)

Lemma commands_app dev cmd t1 t2 :
  commands dev cmd (t1 ++ t2) = (commands dev cmd t1 + commands dev cmd t2)%nat.
Proof. unfold commands. rewrite filter_app. apply length_app. Qed.

Section TallyWrites.
Context {E G : Type} {P : platform E}.
Variable f : event -> bool.

Lemma tally_outportsm port n : (forall p v, f (EvOut 16 p v) = false) ->
  forall buf off, tally f 0 (outportsm (G:=G) port buf off n).
Proof.
  intros Hf. induction n; intros; cbn [outportsm]; [apply tally_ret|].
  tally_go by_hyp.
Qed.
End TallyWrites.

Section AtCapacity.
Context {E : Type} {P : platform E} {H : ata_h} {F : fs_h}.

Lemma legacy_write_sector_one_write fuel dev lba buf off :
  tally (is_command dev ATA_CMD_WRITE_PIO) 1
    (Legacy.ata_device_write_sector (E:=E) fuel dev lba buf off).
Proof.
  unfold Legacy.ata_device_write_sector.
  assert (Hw : forall adv, tally (is_command dev ATA_CMD_WRITE_PIO) 0
                             (ata_wait (G:=Legacy.globals) fuel dev adv))
    by (intros; apply tally_ata_wait; reflexivity).
  assert (Ho : forall port b o n, tally (is_command dev ATA_CMD_WRITE_PIO) 0
                                    (outportsm (G:=Legacy.globals) port b o n))
    by (intros; apply tally_outportsm; reflexivity).
  tally_go cmd_side.
Qed.

Lemma legacy_write_retry_writes fuel dev lba buf off
    (w : world E Legacy.globals) a w' t :
  Legacy.ata_device_write_sector_retry fuel dev lba buf off w = Ok (a, w', t) ->
  (1 <= commands dev ATA_CMD_WRITE_PIO t)%nat.
Proof.
  intros Hr. unfold Legacy.ata_device_write_sector_retry in Hr.
  apply bind_ok in Hr as (rb & w1 & t1 & t2 & _ & Hr & ->).
  apply bind_ok in Hr as (u & w2 & t3 & t4 & _ & Hr & ->).
  apply bind_ok in Hr as (rb' & w3 & t5 & t6 & Hl & _ & ->).
  destruct fuel as [|k]; [discriminate|].
  cbn [Legacy.write_verify_loop] in Hl.
  apply bind_ok in Hl as (u' & w4 & t7 & t8 & Hs & _ & ->).
  pose proof (legacy_write_sector_one_write (S k) dev lba buf off w2 u' w4 t7 Hs) as H1.
  rewrite !commands_app. unfold commands at 3. lia.
Qed.

Lemma legacy_read_at_capacity fuel node size buffer (w : world E Legacy.globals) :
  let dev := Legacy.devs (glob w) (device node) in
  let cap := Legacy.ata_max_offset dev in
  1 <= size -> cap + size < 2 ^ 32 ->
  Legacy.read_ata fuel node cap size buffer w =
  bind (Legacy.read_blocks fuel fuel dev (cap / ATA_SECTOR_SIZE)
          ((cap + size - 1) / ATA_SECTOR_SIZE) 0 buffer)
       (fun b => ret (0, b)) w.
Proof.
  intros dev cap Hsize Hsum.
  assert (Hcap : 0 <= cap) by (apply Z.mod_pos_bound; lia).
  unfold Legacy.read_ata. rewrite bind_get_globals. fold dev. fold cap.
  assert (Hu : u32 cap = cap) by (unfold u32; apply Z.mod_small; lia).
  rewrite Hu.
  replace (cap >? cap) with false by (symmetry; rewrite Z.gtb_ltb; apply Z.ltb_irrefl).
  assert (Hs : u32 (cap + size) = cap + size) by (unfold u32; apply Z.mod_small; lia).
  rewrite Hs.
  replace (cap + size >? cap) with true by (symmetry; apply Z.gtb_lt; lia).
  rewrite Z.sub_diag. change (u32 (u64 0)) with 0. rewrite Z.add_0_r, Hu.
  assert (Hl : u32 (cap + size - 1) = cap + size - 1)
    by (unfold u32; apply Z.mod_small; lia).
  rewrite Hl.
  assert (Hm : cap mod ATA_SECTOR_SIZE = 0) by apply max_offset_whole_sectors.
  rewrite !Hm. change (truthy 0) with false. cbn [andb].
  unfold bind, ret.
  destruct (Legacy.read_blocks fuel fuel dev (cap / ATA_SECTOR_SIZE)
              ((cap + size - 1) / ATA_SECTOR_SIZE) 0 buffer w)
    as [[[b w2] t2]| |]; reflexivity.
Qed.

Lemma legacy_write_at_capacity fuel node size buffer (w : world E Legacy.globals) :
  let dev := Legacy.devs (glob w) (device node) in
  let cap := Legacy.ata_max_offset dev in
  1 <= size -> cap + size < 2 ^ 32 ->
  Legacy.write_ata fuel node cap size buffer w =
  bind (Legacy.write_blocks fuel fuel dev (cap / ATA_SECTOR_SIZE)
          ((cap + size - 1) / ATA_SECTOR_SIZE) 0 buffer)
       (fun _ => ret 0) w.
Proof.
  intros dev cap Hsize Hsum.
  assert (Hcap : 0 <= cap) by (apply Z.mod_pos_bound; lia).
  unfold Legacy.write_ata. rewrite bind_get_globals. fold dev. fold cap.
  assert (Hu : u32 cap = cap) by (unfold u32; apply Z.mod_small; lia).
  rewrite Hu.
  replace (cap >? cap) with false by (symmetry; rewrite Z.gtb_ltb; apply Z.ltb_irrefl).
  assert (Hs : u32 (cap + size) = cap + size) by (unfold u32; apply Z.mod_small; lia).
  rewrite Hs.
  replace (cap + size >? cap) with true by (symmetry; apply Z.gtb_lt; lia).
  rewrite Z.sub_diag. change (u32 (u64 0)) with 0. rewrite Z.add_0_r, Hu.
  assert (Hl : u32 (cap + size - 1) = cap + size - 1)
    by (unfold u32; apply Z.mod_small; lia).
  rewrite Hl.
  assert (Hm : cap mod ATA_SECTOR_SIZE = 0) by apply max_offset_whole_sectors.
  rewrite !Hm. change (truthy 0) with false. cbn [andb].
  unfold bind, ret.
  destruct (Legacy.write_blocks fuel fuel dev (cap / ATA_SECTOR_SIZE)
              ((cap + size - 1) / ATA_SECTOR_SIZE) 0 buffer w)
    as [[[b w2] t2]| |]; reflexivity.
Qed.

Lemma sector_of_capacity_in_range cap size :
  0 <= cap -> 1 <= size ->
  cap / ATA_SECTOR_SIZE <= (cap + size - 1) / ATA_SECTOR_SIZE.
Proof. intros. unfold ATA_SECTOR_SIZE. apply Z.div_le_mono; lia. Qed.
End AtCapacity.

(** C2.  The bounds check of [read_ata] and [write_ata] is
    [offset > ata_max_offset(dev)]: a request that starts past the
    capacity returns 0 with no event at all, but one that starts exactly
    at the capacity passes the check.  Its size is clamped to 0, which
    is what it returns, and the sectors from [capacity / 512] on, which
    were computed before the clamp and lie past the end of the disk, are
    transferred all the same: a run of [read_ata] issues READ PIO at
    least once, and does return on a drive that is never busy; a run of
    [write_ata] that returns has issued WRITE PIO at least once. *)
Theorem offset_at_capacity_reaches_the_ports :
  forall (E : Type) (P : platform E) (H : ata_h) (F : fs_h) (fuel : nat)
         (node : fs_node_t) (size : Z) (buffer : mem)
         (w : world E Legacy.globals),
    let dev := Legacy.devs (glob w) (device node) in
    let cap := Legacy.ata_max_offset dev in
    1 <= size -> cap + size < 2 ^ 32 ->
    (never_busy P dev -> ata_lock w = false -> (5 <= fuel)%nat ->
     (cap + size - 1) / ATA_SECTOR_SIZE + 2 < Z.of_nat fuel ->
     exists m w' t,
       Legacy.read_ata fuel node cap size buffer w = Ok ((0, m), w', t) /\
       (1 <= commands dev ATA_CMD_READ_PIO t)%nat) /\
    (forall n w' t,
        Legacy.write_ata fuel node cap size buffer w = Ok (n, w', t) ->
        n = 0 /\ (1 <= commands dev ATA_CMD_WRITE_PIO t)%nat) /\
    (forall offset, cap < u32 offset ->
        Legacy.read_ata fuel node offset size buffer w = Ok ((0, buffer), w, []) /\
        Legacy.write_ata fuel node offset size buffer w = Ok (0, w, [])).
Proof.
  intros E P H F fuel node size buffer w dev cap Hsize Hsum.
  assert (Hcap : 0 <= cap) by (apply Z.mod_pos_bound; lia).
  pose proof (sector_of_capacity_in_range cap size Hcap Hsize) as Hle.
  apply Z.leb_le in Hle.
  split; [|split].
  - intros Hidle Hw Hfuel Hblocks.
    destruct (legacy_read_ata_returns fuel node cap size buffer w Hidle Hw Hfuel)
      as ([n m] & w' & t & Hr).
    { fold dev. fold cap.
      assert (Hu : u32 cap = cap) by (unfold u32; apply Z.mod_small; lia).
      rewrite Hu. unfold u32. rewrite Z.mod_small by lia. exact Hblocks. }
    exists m, w', t. rewrite Hr.
    rewrite (legacy_read_at_capacity fuel node size buffer w Hsize Hsum) in Hr.
    fold dev in Hr. fold cap in Hr.
    apply bind_ok in Hr as (b & w1 & t1 & t2 & Hb & Hr & ->).
    injection Hr as <- <- _ _.
    split; [reflexivity|].
    destruct fuel as [|k]; [discriminate|].
    cbn [Legacy.read_blocks] in Hb. rewrite Hle in Hb.
    apply bind_ok in Hb as (b1 & w2 & t3 & t4 & Hs & _ & ->).
    apply legacy_read_sector_read_pio in Hs.
    rewrite !commands_app. lia.
  - intros n w' t Hr.
    rewrite (legacy_write_at_capacity fuel node size buffer w Hsize Hsum) in Hr.
    fold dev in Hr. fold cap in Hr.
    apply bind_ok in Hr as (u & w1 & t1 & t2 & Hb & Hr & ->).
    injection Hr as <- _ _.
    split; [reflexivity|].
    destruct fuel as [|k]; [discriminate|].
    cbn [Legacy.write_blocks] in Hb. rewrite Hle in Hb.
    apply bind_ok in Hb as (u1 & w2 & t3 & t4 & Hs & _ & ->).
    apply legacy_write_retry_writes in Hs.
    rewrite !commands_app. lia.
  - intros offset Hgt. split.
    + apply legacy_read_past_end. exact Hgt.
    + apply legacy_write_past_end. exact Hgt.
Qed.

Lemma offset_at_capacity_reaches_the_ports_witness :
  exists m w' t,
    Legacy.read_ata (P:=Sim.sim_platform Examples.small_disk) (H:=Sim.header)
      12 Examples.hda 4096 512 zeroes (Examples.legacy_ready Examples.small_disk)
    = Ok ((0, m), w', t) /\
    (1 <= commands
            (Legacy.devs (glob (Examples.legacy_ready Examples.small_disk))
               (device Examples.hda))
            ATA_CMD_READ_PIO t)%nat.
Proof.
  pose proof (offset_at_capacity_reaches_the_ports Sim.state
                (Sim.sim_platform Examples.small_disk) Sim.header Sim.fs
                12%nat Examples.hda 512 zeroes
                (Examples.legacy_ready Examples.small_disk)) as K.
  cbv zeta in K.
  assert (Hcap : Legacy.ata_max_offset
                   (Legacy.devs (glob (Examples.legacy_ready Examples.small_disk))
                      (device Examples.hda)) = 4096)
    by (vm_compute; reflexivity).
  rewrite Hcap in K.
  destruct K as (K & _); [lia | lia |].
  apply K.
  - intros e. vm_compute. reflexivity.
  - vm_compute. reflexivity.
  - lia.
  - vm_compute. reflexivity.
Defined.

(** The same requests on the simulated disk of 8 sectors (capacity
    4096), in both drivers: at offset 4096 each call returns 0 after one
    read or write command for a sector past the end; at offset 4097 each
    returns 0 and leaves no event. *)
Lemma offset_at_capacity_on_the_small_disk :
  option_map fst (value_of (Examples.legacy_read Examples.small_disk 8 4096 512))
    = Some 0 /\
  commands Examples.primary ATA_CMD_READ_PIO
    (trace_of (Examples.legacy_read Examples.small_disk 8 4096 512)) = 1%nat /\
  value_of (Examples.legacy_write Examples.small_disk 8 4096 512 zeroes) = Some 0 /\
  commands Examples.primary ATA_CMD_WRITE_PIO
    (trace_of (Examples.legacy_write Examples.small_disk 8 4096 512 zeroes)) = 1%nat /\
  option_map fst (value_of (Examples.dma_read Examples.small_disk 8 4096 512))
    = Some 0 /\
  commands Examples.primary ATA_CMD_READ_DMA
    (trace_of (Examples.dma_read Examples.small_disk 8 4096 512)) = 1%nat /\
  value_of (Examples.dma_write Examples.small_disk 8 4096 512 zeroes) = Some 0 /\
  commands Examples.primary ATA_CMD_WRITE_PIO
    (trace_of (Examples.dma_write Examples.small_disk 8 4096 512 zeroes)) = 1%nat /\
  trace_of (Examples.legacy_read Examples.small_disk 8 4097 512) = [] /\
  trace_of (Examples.legacy_write Examples.small_disk 8 4097 512 zeroes) = [] /\
  trace_of (Examples.dma_read Examples.small_disk 8 4097 512) = [] /\
  trace_of (Examples.dma_write Examples.small_disk 8 4097 512 zeroes) = [].
Proof. vm_compute. repeat split. Qed.

(** ** Memory *)

Lemma load_length m off n : List.length (load m off n) = n.
Proof. unfold load. rewrite length_map. apply length_seq. Qed.

Lemma nth_load m off n i :
  (i < n)%nat -> nth i (load m off n) 0 = m (off + Z.of_nat i).
Proof.
  intros Hi. unfold load.
  rewrite (nth_indep _ 0 ((fun k => m (off + Z.of_nat k)) 0%nat))
    by (rewrite length_map, length_seq; exact Hi).
  rewrite (map_nth (fun k => m (off + Z.of_nat k))).
  rewrite seq_nth by exact Hi. reflexivity.
Qed.

Lemma store_inside m off data a :
  off <= a < off + Z.of_nat (List.length data) ->
  store m off data a = nth (Z.to_nat (a - off)) data 0.
Proof.
  intros Ha. unfold store.
  replace (off <=? a) with true by (symmetry; apply Z.leb_le; lia).
  replace (a <? off + Z.of_nat (List.length data)) with true
    by (symmetry; apply Z.ltb_lt; lia).
  reflexivity.
Qed.

Lemma store_outside m off data a :
  a < off \/ off + Z.of_nat (List.length data) <= a ->
  store m off data a = m a.
Proof.
  intros Ha. unfold store.
  destruct (off <=? a) eqn:H1; [|reflexivity].
  destruct (a <? off + Z.of_nat (List.length data)) eqn:H2; [|reflexivity].
  apply Z.leb_le in H1. apply Z.ltb_lt in H2. lia.
Qed.

Lemma store_load m off src o n a :
  off <= a < off + Z.of_nat n ->
  store m off (load src o n) a = src (o + (a - off)).
Proof.
  intros Ha. rewrite store_inside by (rewrite load_length; exact Ha).
  rewrite nth_load by lia. f_equal. lia.
Qed.

(** ** Requests that fall inside one sector *)

Section InsideASector.
Context {E : Type} {P : platform E} {H : ata_h} {F : fs_h}.

Lemma legacy_read_inside_sector fuel node offset size buffer
    (w : world E Legacy.globals) :
  let dev := Legacy.devs (glob w) (device node) in
  let cap := Legacy.ata_max_offset dev in
  (1 <= fuel)%nat ->
  0 <= offset -> 1 <= size -> offset + size <= cap -> offset + size < 2 ^ 32 ->
  offset mod ATA_SECTOR_SIZE <> 0 ->
  (offset + size - 1) / ATA_SECTOR_SIZE = offset / ATA_SECTOR_SIZE ->
  Legacy.read_ata fuel node offset size buffer w =
  (tmp <- malloc ATA_SECTOR_SIZE ;;
   tmp <- Legacy.ata_device_read_sector fuel dev (offset / ATA_SECTOR_SIZE) tmp 0 ;;
   ret (size,
        store buffer 0
          (load tmp (offset mod ATA_SECTOR_SIZE)
             (Z.to_nat (ATA_SECTOR_SIZE - offset mod ATA_SECTOR_SIZE)))))%drv w.
Proof.
  intros dev cap Hfuel Hoff Hsize Hcap Hsum Hmod Hsame.
  unfold Legacy.read_ata. rewrite bind_get_globals.
  fold dev. fold cap.
  assert (Hu : u32 offset = offset) by (unfold u32; apply Z.mod_small; lia).
  rewrite Hu.
  replace (offset >? cap) with false
    by (symmetry; rewrite Z.gtb_ltb; apply Z.ltb_ge; lia).
  assert (Hs : u32 (offset + size) = offset + size)
    by (unfold u32; apply Z.mod_small; lia).
  rewrite Hs.
  replace (offset + size >? cap) with false
    by (symmetry; rewrite Z.gtb_ltb; apply Z.ltb_ge; lia).
  rewrite Hs.
  assert (Hl : u32 (offset + size - 1) = offset + size - 1)
    by (unfold u32; apply Z.mod_small; lia).
  rewrite Hl, Hsame.
  assert (Ht : truthy (offset mod ATA_SECTOR_SIZE) = true).
  { unfold truthy. apply negb_true_iff. apply Z.eqb_neq. exact Hmod. }
  rewrite Ht.
  assert (Hstart : 0 <= offset / ATA_SECTOR_SIZE < 2 ^ 32 - 1).
  { unfold ATA_SECTOR_SIZE. split; [apply Z.div_pos; lia|].
    apply Z.div_lt_upper_bound; lia. }
  assert (Hn : u32 (offset / ATA_SECTOR_SIZE + 1) = offset / ATA_SECTOR_SIZE + 1)
    by (unfold u32; apply Z.mod_small; lia).
  rewrite Hn.
  unfold bind, ret.
  destruct (malloc ATA_SECTOR_SIZE w) as [[[tmp0 w1] t1]| |]; [|reflexivity..].
  destruct (Legacy.ata_device_read_sector fuel dev (offset / ATA_SECTOR_SIZE) tmp0 0 w1)
    as [[[tmp w2] t2]| |]; [|reflexivity..].
  replace (offset / ATA_SECTOR_SIZE + 1 <? offset / ATA_SECTOR_SIZE) with false
    by (symmetry; apply Z.ltb_ge; lia).
  rewrite andb_false_r.
  destruct fuel as [|k]; [lia|].
  cbn [Legacy.read_blocks].
  replace (offset / ATA_SECTOR_SIZE + 1 <=? offset / ATA_SECTOR_SIZE) with false
    by (symmetry; apply Z.leb_gt; lia).
  unfold ret. rewrite !app_nil_r. reflexivity.
Qed.

Lemma dma_read_inside_sector fuel node offset size buffer
    (w : world E Dma.globals) :
  let dev := Dma.devs (glob w) (device node) in
  let cap := Dma.ata_max_offset dev in
  (1 <= fuel)%nat ->
  0 <= offset -> 1 <= size -> offset + size <= cap ->
  offset mod ATA_SECTOR_SIZE <> 0 ->
  (offset + size - 1) / ATA_SECTOR_SIZE = offset / ATA_SECTOR_SIZE ->
  Dma.read_ata fuel node offset size buffer w =
  (tmp <- malloc ATA_SECTOR_SIZE ;;
   tmp <- Dma.ata_device_read_sector fuel dev (offset / ATA_SECTOR_SIZE) tmp 0 ;;
   ret (size,
        store buffer 0
          (load tmp (offset mod ATA_SECTOR_SIZE)
             (Z.to_nat (ATA_SECTOR_SIZE - offset mod ATA_SECTOR_SIZE)))))%drv w.
Proof.
  intros dev cap Hfuel Hoff Hsize Hcap Hmod Hsame.
  assert (Hc : cap < 2 ^ 64) by (apply Z.mod_pos_bound; lia).
  unfold Dma.read_ata. rewrite bind_get_globals.
  fold dev. fold cap.
  assert (Hu : Dma.koff offset = offset)
    by (unfold Dma.koff, u64; apply Z.mod_small; lia).
  rewrite Hu.
  replace (offset >? cap) with false
    by (symmetry; rewrite Z.gtb_ltb; apply Z.ltb_ge; lia).
  assert (Hs : u64 (offset + size) = offset + size)
    by (unfold u64; apply Z.mod_small; lia).
  rewrite Hs.
  replace (offset + size >? cap) with false
    by (symmetry; rewrite Z.gtb_ltb; apply Z.ltb_ge; lia).
  rewrite Hs.
  assert (Hl : u64 (offset + size - 1) = offset + size - 1)
    by (unfold u64; apply Z.mod_small; lia).
  rewrite Hl, Hsame.
  assert (Ht : truthy (offset mod ATA_SECTOR_SIZE) = true).
  { unfold truthy. apply negb_true_iff. apply Z.eqb_neq. exact Hmod. }
  rewrite Ht.
  assert (Hm : 0 <= offset mod ATA_SECTOR_SIZE < 512)
    by (apply Z.mod_pos_bound; reflexivity).
  assert (Hstart : 0 <= offset / ATA_SECTOR_SIZE < 2 ^ 64 - 1).
  { unfold ATA_SECTOR_SIZE. split; [apply Z.div_pos; lia|].
    apply Z.div_lt_upper_bound; lia. }
  assert (Hn : u64 (offset / ATA_SECTOR_SIZE + 1) = offset / ATA_SECTOR_SIZE + 1)
    by (unfold u64; apply Z.mod_small; lia).
  rewrite Hn.
  assert (Hp : u32 (ATA_SECTOR_SIZE - offset mod ATA_SECTOR_SIZE)
               = ATA_SECTOR_SIZE - offset mod ATA_SECTOR_SIZE)
    by (unfold u32, ATA_SECTOR_SIZE in *; apply Z.mod_small; lia).
  assert (Hq : u32 (offset mod ATA_SECTOR_SIZE) = offset mod ATA_SECTOR_SIZE)
    by (unfold u32; apply Z.mod_small; lia).
  rewrite Hp, Hq.
  unfold bind, ret.
  destruct (malloc ATA_SECTOR_SIZE w) as [[[tmp0 w1] t1]| |]; [|reflexivity..].
  destruct (Dma.ata_device_read_sector fuel dev (offset / ATA_SECTOR_SIZE) tmp0 0 w1)
    as [[[tmp w2] t2]| |]; [|reflexivity..].
  replace (offset / ATA_SECTOR_SIZE + 1 <=? offset / ATA_SECTOR_SIZE) with false
    by (symmetry; apply Z.leb_gt; lia).
  rewrite andb_false_r.
  destruct fuel as [|k]; [lia|].
  cbn [Dma.read_blocks].
  replace (offset / ATA_SECTOR_SIZE + 1 <=? offset / ATA_SECTOR_SIZE) with false
    by (symmetry; apply Z.leb_gt; lia).
  unfold ret. rewrite !app_nil_r. reflexivity.
Qed.
End InsideASector.

Section DmaUnderflow.
Context {E : Type} {P : platform E} {H : ata_h} {F : fs_h}.

Lemma dma_read_blocks_needs_fuel fuel dev end_block : end_block < 2 ^ 64 ->
  forall k start_block x_offset buffer (w : world E Dma.globals) a w' t,
    0 <= start_block <= end_block ->
    Z.of_nat k <= end_block - start_block + 1 ->
    Dma.read_blocks k fuel dev start_block end_block x_offset buffer w
    <> Ok (a, w', t).
Proof.
  intros Hend. induction k as [|k IH]; intros s x b w a w' t Hs Hk Hr;
    [discriminate|].
  cbn [Dma.read_blocks] in Hr.
  replace (s <=? end_block) with true in Hr by (symmetry; apply Z.leb_le; lia).
  apply bind_ok in Hr as (b1 & w1 & t1 & t2 & _ & Hr & _).
  destruct k as [|k]; [discriminate|].
  assert (Hu : u64 (s + 1) = s + 1) by (unfold u64; apply Z.mod_small; lia).
  rewrite Hu in Hr. revert Hr. apply IH; lia.
Qed.

Lemma dma_read_first_bytes fuel node size buffer (w : world E Dma.globals) :
  let dev := Dma.devs (glob w) (device node) in
  1 <= size < ATA_SECTOR_SIZE -> size <= Dma.ata_max_offset dev ->
  Dma.read_ata fuel node 0 size buffer w =
  (tmp <- malloc ATA_SECTOR_SIZE ;;
   tmp <- Dma.ata_device_read_sector fuel dev 0 tmp 0 ;;
   b <- Dma.read_blocks fuel fuel dev 0 (2 ^ 64 - 1) 0
          (store buffer 0 (load tmp 0 (Z.to_nat size))) ;;
   ret (size, b))%drv w.
Proof.
  intros dev Hsize Hcap. unfold ATA_SECTOR_SIZE in Hsize.
  unfold Dma.read_ata. rewrite bind_get_globals. fold dev.
  change (Dma.koff 0) with 0. rewrite !Z.add_0_l.
  change (0 / ATA_SECTOR_SIZE) with 0.
  replace (0 >? Dma.ata_max_offset dev) with false
    by (symmetry; rewrite Z.gtb_ltb; apply Z.ltb_ge; lia).
  assert (Hs : u64 size = size) by (unfold u64; apply Z.mod_small; lia).
  rewrite Hs.
  replace (size >? Dma.ata_max_offset dev) with false
    by (symmetry; rewrite Z.gtb_ltb; apply Z.ltb_ge; lia).
  rewrite Hs.
  assert (Hl : u64 (size - 1) / ATA_SECTOR_SIZE = 0).
  { unfold u64, ATA_SECTOR_SIZE. rewrite Z.mod_small by lia.
    apply Z.div_small. lia. }
  rewrite Hl.
  change (truthy (0 mod ATA_SECTOR_SIZE)) with false. cbv iota.
  assert (Hm : size mod ATA_SECTOR_SIZE = size)
    by (unfold ATA_SECTOR_SIZE; apply Z.mod_small; lia).
  rewrite Hm.
  assert (Ht : truthy size = true).
  { unfold truthy. apply negb_true_iff. apply Z.eqb_neq. lia. }
  assert (Hp : u32 size = size) by (unfold u32; apply Z.mod_small; lia).
  rewrite Hp, Z.sub_diag.
  change (u64 (0 - 1)) with (2 ^ 64 - 1).
  unfold bind, ret. rewrite Ht. change (0 <=? 0) with true. cbn [andb].
  destruct (malloc ATA_SECTOR_SIZE w) as [[[tmp0 w1] t1]| |]; [|reflexivity..].
  destruct (Dma.ata_device_read_sector fuel dev 0 tmp0 0 w1)
    as [[[tmp w2] t2]| |]; [|reflexivity..].
  destruct (Dma.read_blocks fuel fuel dev 0 (2 ^ 64 - 1) 0
              (store buffer 0 (load tmp 0 (Z.to_nat size))) w2)
    as [[[b w3] t3]| |]; [|reflexivity..].
  rewrite !app_nil_r, !app_nil_l, <- app_assoc. reflexivity.
Qed.

Lemma dma_read_first_bytes_does_not_return fuel node size buffer
    (w : world E Dma.globals) a w' t :
  1 <= size < ATA_SECTOR_SIZE ->
  size <= Dma.ata_max_offset (Dma.devs (glob w) (device node)) ->
  Z.of_nat fuel <= 2 ^ 64 ->
  Dma.read_ata fuel node 0 size buffer w <> Ok (a, w', t).
Proof.
  intros Hsize Hcap Hfuel Hr.
  rewrite (dma_read_first_bytes fuel node size buffer w Hsize Hcap) in Hr.
  apply bind_ok in Hr as (tmp0 & w1 & t1 & t2 & _ & Hr & _).
  apply bind_ok in Hr as (tmp & w2 & t3 & t4 & _ & Hr & _).
  apply bind_ok in Hr as (b & w3 & t5 & t6 & Hb & _ & _).
  revert Hb. apply dma_read_blocks_needs_fuel; lia.
Qed.
End DmaUnderflow.

(** C1.  The byte counts of the planner do not follow [size].  A
    request that starts inside a sector and ends in that same sector is
    served, in both drivers, by the prefix operation alone: the sector
    is read into a temporary buffer, and the [512 - offset mod 512]
    bytes from [offset mod 512] to the end of the sector are copied to
    the caller's buffer, however small [size] is; the call returns
    [size].  In the DMA driver a request for fewer than 512 bytes at
    offset 0 takes the postfix path with [end_block = 0], decrements it
    to [2^64 - 1], and enters the sector loop from sector 0 to that
    bound: it cannot return before 2^64 sectors have been read. *)
Theorem transfer_sizes_ignore_the_request :
  forall (E : Type) (P : platform E) (H : ata_h) (F : fs_h) (fuel : nat)
         (node : fs_node_t) (offset size : Z) (buffer : mem),
    0 <= offset -> 1 <= size ->
    (forall w : world E Legacy.globals,
        let dev := Legacy.devs (glob w) (device node) in
        let prefix_size := ATA_SECTOR_SIZE - offset mod ATA_SECTOR_SIZE in
        offset mod ATA_SECTOR_SIZE <> 0 ->
        (offset + size - 1) / ATA_SECTOR_SIZE = offset / ATA_SECTOR_SIZE ->
        offset + size <= Legacy.ata_max_offset dev -> offset + size < 2 ^ 32 ->
        never_busy P dev -> ata_lock w = false -> (5 <= fuel)%nat ->
        exists tmp0 w1 tmp t1 m w' t,
          Legacy.ata_device_read_sector fuel dev (offset / ATA_SECTOR_SIZE) tmp0 0 w1
          = Ok (tmp, w', t1) /\
          Legacy.read_ata fuel node offset size buffer w = Ok ((size, m), w', t) /\
          (forall j, 0 <= j < prefix_size ->
                     m j = tmp (offset mod ATA_SECTOR_SIZE + j)) /\
          (forall j, j < 0 \/ prefix_size <= j -> m j = buffer j)) /\
    (forall w : world E Dma.globals,
        let dev := Dma.devs (glob w) (device node) in
        let prefix_size := ATA_SECTOR_SIZE - offset mod ATA_SECTOR_SIZE in
        offset mod ATA_SECTOR_SIZE <> 0 ->
        (offset + size - 1) / ATA_SECTOR_SIZE = offset / ATA_SECTOR_SIZE ->
        offset + size <= Dma.ata_max_offset dev ->
        dma_ready P dev -> ata_lock w = false -> (1 <= fuel)%nat ->
        exists tmp0 w1 tmp t1 m w' t,
          Dma.ata_device_read_sector fuel dev (offset / ATA_SECTOR_SIZE) tmp0 0 w1
          = Ok (tmp, w', t1) /\
          Dma.read_ata fuel node offset size buffer w = Ok ((size, m), w', t) /\
          (forall j, 0 <= j < prefix_size ->
                     m j = tmp (offset mod ATA_SECTOR_SIZE + j)) /\
          (forall j, j < 0 \/ prefix_size <= j -> m j = buffer j)) /\
    (forall w : world E Dma.globals,
        size < ATA_SECTOR_SIZE ->
        size <= Dma.ata_max_offset (Dma.devs (glob w) (device node)) ->
        Z.of_nat fuel <= 2 ^ 64 ->
        forall a w' t, Dma.read_ata fuel node 0 size buffer w <> Ok (a, w', t)).
Proof.
  intros E P H F fuel node offset size buffer Hoff Hsize.
  assert (Hmem : forall tmp j,
             let n := ATA_SECTOR_SIZE - offset mod ATA_SECTOR_SIZE in
             let m := store buffer 0
                        (load tmp (offset mod ATA_SECTOR_SIZE) (Z.to_nat n)) in
             (0 <= j < n -> m j = tmp (offset mod ATA_SECTOR_SIZE + j)) /\
             (j < 0 \/ n <= j -> m j = buffer j)).
  { intros tmp j n m.
    assert (Hm : 0 <= offset mod ATA_SECTOR_SIZE < 512)
      by (apply Z.mod_pos_bound; reflexivity).
    assert (Hn : 0 < n) by (unfold n, ATA_SECTOR_SIZE in *; lia).
    split; intros Hj; unfold m.
    - rewrite store_load by lia. f_equal. lia.
    - apply store_outside. rewrite load_length. lia. }
  split; [|split].
  - intros w dev prefix_size Hmod Hsame Hcap Hsum Hidle Hw Hfuel.
    destruct (runs_malloc (G:=Legacy.globals) false ATA_SECTOR_SIZE w Hw)
      as (tmp0 & w1 & t0 & Em & Hw1).
    destruct (runs_legacy_read_sector dev Hidle fuel Hfuel
                (offset / ATA_SECTOR_SIZE) tmp0 0 w1 Hw1)
      as (tmp & w2 & t1 & Er & _).
    exists tmp0, w1, tmp, t1.
    eexists. exists w2. eexists.
    split; [exact Er|]. split.
    + rewrite (legacy_read_inside_sector fuel node offset size buffer w)
        by (assumption || lia).
      eapply bind_intro; [exact Em|].
      eapply bind_intro; [exact Er | reflexivity].
    + split; intros j Hj; apply (Hmem tmp j); exact Hj.
  - intros w dev prefix_size Hmod Hsame Hcap Hready Hw Hfuel.
    destruct (runs_malloc (G:=Dma.globals) false ATA_SECTOR_SIZE w Hw)
      as (tmp0 & w1 & t0 & Em & Hw1).
    destruct (runs_dma_read_sector dev Hready fuel
                (offset / ATA_SECTOR_SIZE) tmp0 0 Hfuel w1 Hw1)
      as (tmp & w2 & t1 & Er & _).
    exists tmp0, w1, tmp, t1.
    eexists. exists w2. eexists.
    split; [exact Er|]. split.
    + rewrite (dma_read_inside_sector fuel node offset size buffer w)
        by (assumption || lia).
      eapply bind_intro; [exact Em|].
      eapply bind_intro; [exact Er | reflexivity].
    + split; intros j Hj; apply (Hmem tmp j); exact Hj.
  - intros w Hlt Hcap Hfuel a w' t.
    apply dma_read_first_bytes_does_not_return; [lia | exact Hcap | exact Hfuel].
Qed.

Lemma transfer_sizes_ignore_the_request_witness :
  exists tmp m w' t,
    Legacy.read_ata (P:=Sim.sim_platform Examples.small_disk) (H:=Sim.header)
      8 Examples.hda 100 10 zeroes (Examples.legacy_ready Examples.small_disk)
    = Ok ((10, m), w', t) /\
    (forall j, 0 <= j < 412 -> m j = tmp (100 + j)).
Proof.
  destruct (proj1 (transfer_sizes_ignore_the_request Sim.state
                     (Sim.sim_platform Examples.small_disk) Sim.header Sim.fs
                     8%nat Examples.hda 100 10 zeroes
                     ltac:(lia) ltac:(lia))
              (Examples.legacy_ready Examples.small_disk))
    as (tmp0 & w1 & tmp & t1 & m & w' & t & _ & Hr & Hin & _).
  - discriminate.
  - reflexivity.
  - vm_compute. discriminate.
  - reflexivity.
  - intros e. vm_compute. reflexivity.
  - vm_compute. reflexivity.
  - lia.
  - exists tmp, m, w', t. split; [exact Hr | exact Hin].
Defined.

(** The requests (100, 10) and (0, 100) on the simulated disk, whose
    medium holds 0xAA in every byte.  A read of 10 bytes at offset 100
    leaves sector data in the 412 bytes from [buffer] on, in both
    drivers, and the legacy read of 100 bytes at offset 0 leaves a whole
    sector there.  A write of 10 bytes at offset 100 puts on the medium,
    from byte 110 to the end of the sector, the 402 bytes that follow
    the caller's buffer in memory. *)
Lemma request_inside_a_sector_overruns_the_buffer :
  Examples.peek (Examples.legacy_read Examples.small_disk 8 100 10)
    [0; 9; 10; 411; 412] = Some (10, [0xAA; 0xAA; 0xAA; 0xAA; 0]) /\
  Examples.peek (Examples.dma_read Examples.small_disk 8 100 10)
    [0; 9; 10; 411; 412] = Some (10, [0xAA; 0xAA; 0xAA; 0xAA; 0]) /\
  Examples.peek (Examples.legacy_read Examples.small_disk 8 0 100)
    [0; 99; 100; 511; 512] = Some (100, [0xAA; 0xAA; 0xAA; 0xAA; 0]) /\
  value_of (Examples.legacy_write Examples.small_disk 8 100 10 (Examples.marked 10))
    = Some 10 /\
  Examples.disk_after
    (Examples.legacy_write Examples.small_disk 8 100 10 (Examples.marked 10))
    [99; 100; 109; 110; 511; 512] = Some [0xAA; 1; 1; 2; 2; 0xAA] /\
  Examples.disk_after
    (Examples.dma_write Examples.small_disk 8 100 10 (Examples.marked 10))
    [99; 100; 109; 110; 511; 512] = Some [0xAA; 1; 1; 2; 2; 0xAA].
Proof. vm_compute. repeat split. Qed.

(** * Further properties of the drivers *)

(** ** Waiting for the device *)

Section StatusWait.
Context {E G : Type} {P : platform E}.

(** A status read, whatever the device answers. *)
Lemma status_read_inv dev (w : world E G) :
  exists v e,
    inportb (io_base dev + ATA_REG_STATUS) w
    = Ok (v, set_plat e w, [EvIn 8 (u16 (io_base dev + ATA_REG_STATUS)) v]).
Proof.
  unfold inportb, port_read.
  destruct (port_in 8 (u16 (io_base dev + ATA_REG_STATUS)) (plat w)) as [v e].
  now exists (v mod 2 ^ 8), e.
Qed.

Lemma status_wait_capped_bounded dev timeout : forall fuel i (w : world E G),
  0 <= i <= timeout -> (Z.to_nat (timeout - i) + 1 <= fuel)%nat ->
  exists status w' t0,
    status_wait_capped fuel dev timeout i w
    = Ok (status, w', (t0 ++ [EvIn 8 (u16 (io_base dev + ATA_REG_STATUS)) status])%list) /\
    (List.length t0 <= Z.to_nat (timeout - i))%nat /\
    Forall (fun e => exists v, e = EvIn 8 (u16 (io_base dev + ATA_REG_STATUS)) v
                               /\ Z.land v ATA_SR_BSY <> 0) t0 /\
    ((List.length t0 < Z.to_nat (timeout - i))%nat -> Z.land status ATA_SR_BSY = 0) /\
    ata_lock w' = ata_lock w /\ glob w' = glob w.
Proof.
  induction fuel as [|k IH]; intros i w Hi Hfuel; [lia|].
  cbn [status_wait_capped].
  destruct (status_read_inv dev w) as (v & e & Er).
  destruct (truthy (Z.land v ATA_SR_BSY) && (i <? timeout)) eqn:Hc.
  - apply andb_true_iff in Hc as [Hb Hlt]. apply Z.ltb_lt in Hlt.
    destruct (IH (i + 1) (set_plat e w) ltac:(lia) ltac:(lia))
      as (st & w' & t0 & Ek & Hlen & Hall & Hclr & Hl & Hg).
    exists st, w', (EvIn 8 (u16 (io_base dev + ATA_REG_STATUS)) v :: t0).
    split; [|split; [|split; [|split]]].
    + change ((EvIn 8 (u16 (io_base dev + ATA_REG_STATUS)) v :: t0) ++
              [EvIn 8 (u16 (io_base dev + ATA_REG_STATUS)) st])%list
        with ([EvIn 8 (u16 (io_base dev + ATA_REG_STATUS)) v] ++
              (t0 ++ [EvIn 8 (u16 (io_base dev + ATA_REG_STATUS)) st]))%list.
      eapply bind_intro; [exact Er|]. rewrite Hb, (proj2 (Z.ltb_lt _ _) Hlt).
      exact Ek.
    + cbn [List.length]. lia.
    + constructor; [|exact Hall]. exists v. split; [reflexivity|].
      unfold truthy in Hb. apply negb_true_iff, Z.eqb_neq in Hb. exact Hb.
    + cbn [List.length]. intros Hlt'. apply Hclr. lia.
    + exact (conj Hl Hg).
  - exists v, (set_plat e w), [].
    split; [|split; [|split; [|split]]].
    + change ([] ++ [EvIn 8 (u16 (io_base dev + ATA_REG_STATUS)) v])%list
        with ([EvIn 8 (u16 (io_base dev + ATA_REG_STATUS)) v] ++ [])%list.
      eapply bind_intro; [exact Er|]. rewrite Hc. reflexivity.
    + cbn. lia.
    + constructor.
    + cbn [List.length]. intros Hlt.
      apply andb_false_iff in Hc as [Hb | Hge].
      * unfold truthy in Hb. apply negb_false_iff, Z.eqb_eq in Hb. exact Hb.
      * apply Z.ltb_ge in Hge. lia.
    + split; reflexivity.
Qed.
End StatusWait.

(** X1.  [ata_status_wait] with a positive [timeout] cannot hang: it
    reads the status register at most [timeout + 1] times and returns
    the last value read, whatever the device answers.  Every read
    before the last showed BSY, and if the loop ended before the
    timeout ran out the value returned has BSY clear.  The lock and the
    driver's globals are left as they were. *)
Theorem status_wait_with_timeout_is_bounded :
  forall (E G : Type) (P : platform E) (fuel : nat)
         (dev : ata_device) (timeout : Z) (w : world E G),
    0 < timeout -> (Z.to_nat timeout + 1 <= fuel)%nat ->
    exists status w' t0,
      ata_status_wait fuel dev timeout w
      = Ok (status, w',
            (t0 ++ [EvIn 8 (u16 (io_base dev + ATA_REG_STATUS)) status])%list) /\
      (List.length t0 <= Z.to_nat timeout)%nat /\
      Forall (fun e => exists v, e = EvIn 8 (u16 (io_base dev + ATA_REG_STATUS)) v
                                 /\ Z.land v ATA_SR_BSY <> 0) t0 /\
      ((List.length t0 < Z.to_nat timeout)%nat -> Z.land status ATA_SR_BSY = 0) /\
      ata_lock w' = ata_lock w /\ glob w' = glob w.
Proof.
  intros E G P fuel dev timeout w Ht Hfuel. unfold ata_status_wait.
  replace (timeout >? 0) with true by (symmetry; apply Z.gtb_lt; lia).
  destruct (status_wait_capped_bounded dev timeout fuel 0 w ltac:(lia))
    as (st & w' & t0 & Er & Hlen & Hall & Hclr & Hl & Hg).
  { rewrite Z.sub_0_r. exact Hfuel. }
  rewrite Z.sub_0_r in Hlen, Hclr.
  exists st, w', t0. repeat split; assumption.
Qed.

Lemma status_wait_with_timeout_is_bounded_witness :
  exists status w' t0,
    ata_status_wait (P:=Sim.sim_platform Examples.failing_disk)
      4 Examples.primary 3 Examples.legacy_boot
    = Ok (status, w', (t0 ++ [EvIn 8 0x1F7 status])%list) /\
    (List.length t0 <= 3)%nat.
Proof.
  destruct (status_wait_with_timeout_is_bounded Sim.state Legacy.globals
              (Sim.sim_platform Examples.failing_disk)
              4%nat Examples.primary 3 Examples.legacy_boot)
    as (st & w' & t0 & Er & Hlen & _).
  - reflexivity.
  - vm_compute. lia.
  - exists st, w', t0. split; [exact Er | exact Hlen].
Defined.

Section WaitVerdict.
Context {E G : Type} {P : platform E} {H : ata_h}.

Lemma port_read_keeps width port (w : world E G) v w' t :
  port_read width port w = Ok (v, w', t) ->
  ata_lock w' = ata_lock w /\ glob w' = glob w /\
  t = [EvIn width (u16 port) v].
Proof.
  unfold port_read. destruct (port_in width (u16 port) (plat w)) as [x e].
  intros [= <- <- <-]. repeat split.
Qed.

Lemma ata_io_wait_keeps dev (w : world E G) a w' t :
  ata_io_wait dev w = Ok (a, w', t) ->
  ata_lock w' = ata_lock w /\ glob w' = glob w.
Proof.
  unfold ata_io_wait. intros Hr.
  repeat match type of Hr with
         | bind (inportb _) _ _ = Ok _ =>
             let Hp := fresh "Hp" in
             apply bind_ok in Hr as (? & ? & ? & ? & Hp & Hr & ?);
             apply port_read_keeps in Hp as (? & ? & _)
         end.
  injection Hr as _ <- _. split; congruence.
Qed.

Lemma status_wait_forever_keeps dev : forall fuel (w : world E G) a w' t,
  status_wait_forever fuel dev w = Ok (a, w', t) ->
  ata_lock w' = ata_lock w /\ glob w' = glob w.
Proof.
  induction fuel as [|k IH]; intros w a w' t Hr; [discriminate|].
  cbn [status_wait_forever] in Hr.
  apply bind_ok in Hr as (v & w1 & t1 & t2 & Hp & Hr & _).
  apply port_read_keeps in Hp as (Hl & Hg & _).
  destruct (truthy (Z.land v ATA_SR_BSY)).
  - apply IH in Hr as [Hl' Hg']. split; congruence.
  - injection Hr as _ <- _. split; assumption.
Qed.
End WaitVerdict.

(** X2.  [ata_wait] answers 0 or 1 and changes neither the lock nor the
    driver's globals.  Without [advanced] it always answers 0, whatever
    the status register shows; with [advanced] its last action is one
    more read of the status register, and it answers 1 exactly when
    that value has ERR or DF set or DRQ clear. *)
Theorem ata_wait_verdict :
  forall (E G : Type) (P : platform E) (H : ata_h) (fuel : nat)
         (dev : ata_device) (advanced : Z) (w : world E G) r w' t,
    ata_wait fuel dev advanced w = Ok (r, w', t) ->
    (r = 0 \/ r = 1) /\
    ata_lock w' = ata_lock w /\ glob w' = glob w /\
    (advanced = 0 -> r = 0) /\
    (advanced <> 0 ->
     exists t0 status,
       t = (t0 ++ [EvIn 8 (u16 (io_base dev + ATA_REG_STATUS)) status])%list /\
       (r = 1 <-> Z.land status ATA_SR_ERR <> 0 \/ Z.land status ATA_SR_DF <> 0
                  \/ Z.land status ATA_SR_DRQ = 0)).
Proof.
  intros E G P H fuel dev advanced w r w' t Hr. unfold ata_wait in Hr.
  apply bind_ok in Hr as ([] & w1 & t1 & t2 & Hio & Hr & ->).
  apply ata_io_wait_keeps in Hio as [Hl1 Hg1].
  apply bind_ok in Hr as (st & w2 & t3 & t4 & Hs & Hr & ->).
  unfold ata_status_wait in Hs. change (-1 >? 0) with false in Hs. cbv iota in Hs.
  apply status_wait_forever_keeps in Hs as [Hl2 Hg2].
  unfold truthy in Hr at 1.
  destruct (advanced =? 0) eqn:Ha; cbn [negb] in Hr.
  - apply Z.eqb_eq in Ha. injection Hr as <- <- <-.
    split; [now left|]. split; [congruence|]. split; [congruence|].
    split; [reflexivity|]. intros Hn. contradiction.
  - apply Z.eqb_neq in Ha.
    apply bind_ok in Hr as (status & w3 & t5 & t6 & Hp & Hr & ->).
    apply port_read_keeps in Hp as (Hl3 & Hg3 & ->).
    unfold truthy in Hr.
    destruct (Z.land status ATA_SR_ERR =? 0) eqn:He; cbn [negb] in Hr;
      [destruct (Z.land status ATA_SR_DF =? 0) eqn:Hd; cbn [negb] in Hr;
       [destruct (Z.land status ATA_SR_DRQ =? 0) eqn:Hq; cbn [negb] in Hr|]|];
      injection Hr as <- <- <-;
      rewrite ?Z.eqb_eq, ?Z.eqb_neq in *;
      (split; [auto|]); (split; [congruence|]); (split; [congruence|]);
      (split; [intros; contradiction|]); intros _;
      exists (t1 ++ t3)%list, status;
      (split; [rewrite app_nil_r, <- !app_assoc; reflexivity|]);
      split; intros; try lia; try discriminate; auto.
Qed.

Lemma ata_wait_verdict_witness :
  exists w' t0 status,
    ata_wait (P:=Sim.sim_platform Examples.failing_disk) (H:=Sim.header)
      2 Examples.primary 1 Examples.legacy_boot
    = Ok (1, w', (t0 ++ [EvIn 8 0x1F7 status])%list).
Proof.
  assert (Hok : succeeded
                  (ata_wait (P:=Sim.sim_platform Examples.failing_disk)
                     (H:=Sim.header) 2 Examples.primary 1 Examples.legacy_boot)
                = true) by (vm_compute; reflexivity).
  destruct (ata_wait (P:=Sim.sim_platform Examples.failing_disk) (H:=Sim.header)
              2 Examples.primary 1 Examples.legacy_boot)
    as [[[r w'] t]| |] eqn:Hr; try discriminate Hok.
  destruct (ata_wait_verdict Sim.state Legacy.globals
              (Sim.sim_platform Examples.failing_disk) Sim.header
              2%nat Examples.primary 1 Examples.legacy_boot r w' t Hr)
    as (_ & _ & _ & _ & Hadv).
  destruct (Hadv ltac:(discriminate)) as (t0 & status & -> & Hiff).
  exists w', t0, status.
  assert (Hst : status = 0x41).
  { apply (f_equal (fun x => match x with
                             | Ok (_, _, l) => last l (EvIn 8 0 0)
                             | _ => EvIn 8 0 0
                             end)) in Hr.
    rewrite last_last in Hr. vm_compute in Hr. injection Hr as Hr. congruence. }
  assert (Hone : r = 1).
  { apply Hiff. left. rewrite Hst. discriminate. }
  rewrite Hone. reflexivity.
Defined.

(** ** Writing a sector *)

Lemma lift_result_inv {E G A} (r : result A) (w : world E G) a w' t :
  lift_result r w = Ok (a, w', t) -> r = Ok a /\ w' = w /\ t = [].
Proof. unfold lift_result. destruct r; [|discriminate..]. now intros [= <- <- <-]. Qed.

Lemma compare_equal_bytes buf off rb differ :
  buffer_compare buf off rb 0 ATA_SECTOR_SIZE = Ok differ ->
  truthy differ = false ->
  forall j, 0 <= j < 512 -> u8 (rb j) = u8 (buf (off + j)).
Proof.
  intros Hc Hd j Hj.
  destruct (buffer_compare_aligned buf off rb 0 ATA_SECTOR_SIZE)
    as (r & Hr & _ & Hiff); [discriminate | reflexivity |].
  rewrite Hr in Hc. injection Hc as ->.
  unfold truthy in Hd. apply negb_false_iff, Z.eqb_eq in Hd.
  symmetry. exact (proj1 Hiff Hd j Hj).
Qed.

Section VerifyLoop.
Context {E : Type} {P : platform E} {H : ata_h} {F : fs_h}.

Lemma legacy_verify_loop_exit fuel dev lba buf off :
  forall k rb0 (w : world E Legacy.globals) rb w' t,
    Legacy.write_verify_loop k fuel dev lba buf off rb0 w = Ok (rb, w', t) ->
    exists rbi w1 t1 t2,
      Legacy.ata_device_read_sector fuel dev lba rbi 0 w1 = Ok (rb, w', t2) /\
      t = (t1 ++ t2)%list /\
      (forall j, 0 <= j < 512 -> u8 (rb j) = u8 (buf (off + j))).
Proof.
  induction k as [|k IH]; intros rb0 w rb w' t Hr; [discriminate|].
  cbn [Legacy.write_verify_loop] in Hr.
  apply bind_ok in Hr as ([] & w1 & t1 & t2 & _ & Hr & ->).
  apply bind_ok in Hr as (rb1 & w2 & t3 & t4 & Hread & Hr & ->).
  apply bind_ok in Hr as (differ & w3 & t5 & t6 & Hc & Hr & ->).
  apply lift_result_inv in Hc as (Hc & -> & ->).
  destruct (truthy differ) eqn:Hd.
  - destruct (IH rb1 w2 rb w' t6 Hr) as (rbi & wi & ta & tb & Hlast & -> & Heq).
    exists rbi, wi, (t1 ++ t3 ++ ta)%list, tb.
    split; [exact Hlast|]. split; [|exact Heq].
    cbn [app]. rewrite <- !app_assoc. reflexivity.
  - injection Hr as <- <- <-.
    exists rb0, w1, t1, t3. split; [exact Hread|]. split.
    + cbn [app]. rewrite app_nil_r. reflexivity.
    + exact (compare_equal_bytes buf off rb1 differ Hc Hd).
Qed.

Lemma dma_verify_loop_exit fuel dev lba buf off :
  forall k rb0 (w : world E Dma.globals) rb w' t,
    Dma.write_verify_loop k fuel dev lba buf off rb0 w = Ok (rb, w', t) ->
    exists rbi w1 t1 t2,
      Dma.ata_device_read_sector fuel dev lba rbi 0 w1 = Ok (rb, w', t2) /\
      t = (t1 ++ t2)%list /\
      (forall j, 0 <= j < 512 -> u8 (rb j) = u8 (buf (off + j))).
Proof.
  induction k as [|k IH]; intros rb0 w rb w' t Hr; [discriminate|].
  cbn [Dma.write_verify_loop] in Hr.
  apply bind_ok in Hr as ([] & w1 & t1 & t2 & _ & Hr & ->).
  apply bind_ok in Hr as (rb1 & w2 & t3 & t4 & Hread & Hr & ->).
  apply bind_ok in Hr as (differ & w3 & t5 & t6 & Hc & Hr & ->).
  apply lift_result_inv in Hc as (Hc & -> & ->).
  destruct (truthy differ) eqn:Hd.
  - destruct (IH rb1 w2 rb w' t6 Hr) as (rbi & wi & ta & tb & Hlast & -> & Heq).
    exists rbi, wi, (t1 ++ t3 ++ ta)%list, tb.
    split; [exact Hlast|]. split; [|exact Heq].
    cbn [app]. rewrite <- !app_assoc. reflexivity.
  - injection Hr as <- <- <-.
    exists rb0, w1, t1, t3. split; [exact Hread|]. split.
    + cbn [app]. rewrite app_nil_r. reflexivity.
    + exact (compare_equal_bytes buf off rb1 differ Hc Hd).
Qed.
End VerifyLoop.

(** X3.  [ata_device_write_sector_retry] returns only after a readback
    that matches: in either driver, the last thing a returning run did
    with the device is a call of [ata_device_read_sector] for the same
    [lba], and the 512 bytes that call left in the readback buffer are
    the 512 bytes of the caller's buffer.  The legacy driver brackets
    the loop with IRQ_OFF and IRQ_RES: its trace starts with the one
    and ends with the other. *)
Theorem write_retry_returns_only_verified :
  forall (E : Type) (P : platform E) (H : ata_h) (F : fs_h) (fuel : nat)
         (dev : ata_device) (lba : Z) (buf : mem) (off : Z),
    (forall (w : world E Legacy.globals) a w' t,
        Legacy.ata_device_write_sector_retry fuel dev lba buf off w = Ok (a, w', t) ->
        exists rbi w1 rb t1 t2,
          Legacy.ata_device_read_sector fuel dev lba rbi 0 w1 = Ok (rb, w', t2) /\
          t = (EvIrqOff :: t1 ++ t2 ++ [EvIrqRes])%list /\
          (forall j, 0 <= j < 512 -> u8 (rb j) = u8 (buf (off + j)))) /\
    (forall (w : world E Dma.globals) a w' t,
        Dma.ata_device_write_sector_retry fuel dev lba buf off w = Ok (a, w', t) ->
        exists rbi w1 rb t1 t2,
          Dma.ata_device_read_sector fuel dev lba rbi 0 w1 = Ok (rb, w', t2) /\
          t = (t1 ++ t2)%list /\
          (forall j, 0 <= j < 512 -> u8 (rb j) = u8 (buf (off + j)))).
Proof.
  intros E P H F fuel dev lba buf off. split.
  - intros w a w' t Hr. unfold Legacy.ata_device_write_sector_retry in Hr.
    apply bind_ok in Hr as (rb0 & w1 & t1 & t2 & Hm & Hr & ->).
    unfold malloc in Hm. destruct (heap_fresh ATA_SECTOR_SIZE (plat w)) as [m e].
    injection Hm as _ _ <-.
    apply bind_ok in Hr as ([] & w2 & t3 & t4 & He & Hr & ->).
    injection He as _ <-.
    apply bind_ok in Hr as (rb & w3 & t5 & t6 & Hl & Hr & ->).
    injection Hr as _ <- <-.
    destruct (legacy_verify_loop_exit fuel dev lba buf off fuel rb0 w2 rb w3 t5 Hl)
      as (rbi & wi & ta & tb & Hlast & -> & Heq).
    exists rbi, wi, rb, ta, tb. split; [exact Hlast|]. split; [|exact Heq].
    cbn [app]. rewrite <- app_assoc. reflexivity.
  - intros w a w' t Hr. unfold Dma.ata_device_write_sector_retry in Hr.
    apply bind_ok in Hr as (rb0 & w1 & t1 & t2 & Hm & Hr & ->).
    unfold malloc in Hm. destruct (heap_fresh ATA_SECTOR_SIZE (plat w)) as [m e].
    injection Hm as _ _ <-.
    apply bind_ok in Hr as (rb & w3 & t5 & t6 & Hl & Hr & ->).
    injection Hr as _ <- <-.
    destruct (dma_verify_loop_exit fuel dev lba buf off fuel rb0 w1 rb w3 t5 Hl)
      as (rbi & wi & ta & tb & Hlast & -> & Heq).
    exists rbi, wi, rb, ta, tb. split; [exact Hlast|]. split; [|exact Heq].
    cbn [app]. rewrite app_nil_r. reflexivity.
Qed.

Lemma write_retry_returns_only_verified_witness :
  exists rbi w1 rb w' t2,
    Legacy.ata_device_read_sector (P:=Sim.sim_platform Examples.small_disk)
      (H:=Sim.header) 8 Examples.primary 3 rbi 0 w1 = Ok (rb, w', t2) /\
    (forall j, 0 <= j < 512 -> u8 (rb j) = u8 (Examples.marked 10 (0 + j))).
Proof.
  assert (Hok : succeeded
                  (Legacy.ata_device_write_sector_retry
                     (P:=Sim.sim_platform Examples.small_disk) (H:=Sim.header)
                     8 Examples.primary 3 (Examples.marked 10) 0
                     Examples.legacy_boot) = true) by (vm_compute; reflexivity).
  destruct (Legacy.ata_device_write_sector_retry
              (P:=Sim.sim_platform Examples.small_disk) (H:=Sim.header)
              8 Examples.primary 3 (Examples.marked 10) 0 Examples.legacy_boot)
    as [[[a w'] t]| |] eqn:Hr; try discriminate Hok.
  destruct (proj1 (write_retry_returns_only_verified Sim.state
                     (Sim.sim_platform Examples.small_disk) Sim.header Sim.fs
                     8%nat Examples.primary 3 (Examples.marked 10) 0)
              Examples.legacy_boot a w' t Hr)
    as (rbi & w1 & rb & t1 & t2 & Hlast & _ & Heq).
  exists rbi, w1, rb, w', t2. split; [exact Hlast | exact Heq].
Defined.

Lemma carries_bind_l {E G A B} f l (m : M E G A) (k : A -> M E G B) :
  tally f 0 m -> (forall a, carries f l (k a)) -> carries f l (bind m k).
Proof.
  intros Hm Hk w b w2 t Hb.
  apply bind_ok in Hb as (a & w1 & t1 & t2 & Em & Ek & ->).
  rewrite filter_app, map_app, (Hk _ _ _ _ _ Ek).
  apply Hm in Em. apply length_zero_iff_nil in Em. rewrite Em. reflexivity.
Qed.

Lemma carries_bind_r {E G A B} f l (m : M E G A) (k : A -> M E G B) :
  carries f l m -> (forall a, tally f 0 (k a)) -> carries f l (bind m k).
Proof.
  intros Hm Hk w b w2 t Hb.
  apply bind_ok in Hb as (a & w1 & t1 & t2 & Em & Ek & ->).
  rewrite filter_app, map_app, (Hm _ _ _ _ Em).
  apply Hk in Ek. apply length_zero_iff_nil in Ek. rewrite Ek. apply app_nil_r.
Qed.

Lemma carries_bind {E G A B} f l1 l2 (m : M E G A) (k : A -> M E G B) :
  carries f l1 m -> (forall a, carries f l2 (k a)) ->
  carries f (l1 ++ l2) (bind m k).
Proof.
  intros Hm Hk w b w2 t Hb.
  apply bind_ok in Hb as (a & w1 & t1 & t2 & Em & Ek & ->).
  now rewrite filter_app, map_app, (Hm _ _ _ _ Em), (Hk _ _ _ _ _ Ek).
Qed.

Lemma carries_ret {E G A} f (a : A) : carries f [] (ret (E:=E) (G:=G) a).
Proof. intros w a' w' t [= <- <- <-]. reflexivity. Qed.

Lemma u16_idem a : u16 (u16 a) = u16 a.
Proof. unfold u16. apply Z.mod_mod. lia. Qed.

Lemma data_out_hit dev v :
  map event_value (filter (is_data_out dev) [EvOut 16 (u16 (u16 (io_base dev))) v])
  = [v].
Proof.
  unfold filter, is_data_out. rewrite u16_idem, Z.eqb_refl. reflexivity.
Qed.

Lemma word_of_bytes_small a b : (u8 a + 256 * u8 b) mod 2 ^ 16 = u8 a + 256 * u8 b.
Proof.
  pose proof (u8_range a). pose proof (u8_range b).
  apply Z.mod_small. change (2 ^ 16) with 65536. lia.
Qed.

Section Transfers.
Context {E G : Type} {P : platform E}.

Lemma port_write_inv width port v (w : world E G) a w' t :
  port_write width port v w = Ok (a, w', t) ->
  t = [EvOut width (u16 port) (v mod 2 ^ width)].
Proof. unfold port_write. intros Hr. now injection Hr as _ _ <-. Qed.

Lemma carries_outportsm dev n : forall buf off,
  carries (is_data_out dev) (load_words buf off n)
    (outportsm (G:=G) (u16 (io_base dev)) buf off n).
Proof.
  induction n as [|n IH]; intros buf off; cbn [outportsm load_words];
    [apply carries_ret|].
  change (?x :: load_words buf (off + 2) n)
    with ([x] ++ load_words buf (off + 2) n)%list.
  apply carries_bind; [|intros; apply IH].
  intros w a w' t Hr. apply port_write_inv in Hr. subst t.
  rewrite data_out_hit, word_of_bytes_small. reflexivity.
Qed.
End Transfers.

Section WriteSector.
Context {E : Type} {P : platform E} {H : ata_h}.

Lemma legacy_write_sector_carries fuel dev lba buf off :
  carries (is_data_out dev) (load_words buf off 256)
    (Legacy.ata_device_write_sector (E:=E) fuel dev lba buf off).
Proof.
  unfold Legacy.ata_device_write_sector. cbv zeta.
  assert (Hw : forall adv, tally (is_data_out dev) 0
                             (ata_wait (G:=Legacy.globals) fuel dev adv))
    by (intros; apply tally_ata_wait; reflexivity).
  repeat (apply carries_bind_l; [tally_go by_hyp | intros]).
  change (Z.to_nat (ATA_SECTOR_SIZE / 2)) with 256%nat.
  apply carries_bind_r; [apply carries_outportsm | intros].
  tally_go by_hyp.
Qed.

Lemma legacy_write_sector_one_flush fuel dev lba buf off :
  tally (is_command dev ATA_CMD_CACHE_FLUSH) 1
    (Legacy.ata_device_write_sector (E:=E) fuel dev lba buf off).
Proof.
  unfold Legacy.ata_device_write_sector.
  assert (Hw : forall adv, tally (is_command dev ATA_CMD_CACHE_FLUSH) 0
                             (ata_wait (G:=Legacy.globals) fuel dev adv))
    by (intros; apply tally_ata_wait; reflexivity).
  assert (Ho : forall port b o n, tally (is_command dev ATA_CMD_CACHE_FLUSH) 0
                                    (outportsm (G:=Legacy.globals) port b o n))
    by (intros; apply tally_outportsm; reflexivity).
  tally_go cmd_side.
Qed.

Lemma legacy_write_sector_reads_nothing fuel dev lba buf off :
  tally (is_data_in dev) 0
    (Legacy.ata_device_write_sector (E:=E) fuel dev lba buf off).
Proof.
  unfold Legacy.ata_device_write_sector.
  assert (Hw : forall adv, tally (is_data_in dev) 0
                             (ata_wait (G:=Legacy.globals) fuel dev adv))
    by (intros; apply tally_ata_wait; reflexivity).
  assert (Ho : forall port b o n, tally (is_data_in dev) 0
                                    (outportsm (G:=Legacy.globals) port b o n))
    by (intros; apply tally_outportsm; reflexivity).
  tally_go by_hyp.
Qed.
End WriteSector.

(** X4.  A run of the legacy [ata_device_write_sector] that returns has
    written WRITE PIO to the command register once and CACHE FLUSH
    once, has written to the data port exactly the 256 words of the 512
    bytes at [buf], low byte first and in order, and has read nothing
    from the data port and issued no READ PIO. *)
Theorem sector_write_sends_the_buffer :
  forall (E : Type) (P : platform E) (H : ata_h) (fuel : nat)
         (dev : ata_device) (lba : Z) (buf : mem) (off : Z)
         (w : world E Legacy.globals) a w' t,
    Legacy.ata_device_write_sector fuel dev lba buf off w = Ok (a, w', t) ->
    commands dev ATA_CMD_WRITE_PIO t = 1%nat /\
    commands dev ATA_CMD_CACHE_FLUSH t = 1%nat /\
    commands dev ATA_CMD_READ_PIO t = 0%nat /\
    data_written dev t = load_words buf off 256 /\
    data_read dev t = [].
Proof.
  intros E P H fuel dev lba buf off w a w' t Hr.
  split; [exact (legacy_write_sector_one_write fuel dev lba buf off w a w' t Hr)|].
  split; [exact (legacy_write_sector_one_flush fuel dev lba buf off w a w' t Hr)|].
  split; [|split].
  - assert (Hn : tally (is_command dev ATA_CMD_READ_PIO) 0
                   (Legacy.ata_device_write_sector (E:=E) fuel dev lba buf off)).
    { unfold Legacy.ata_device_write_sector.
      assert (Hw : forall adv, tally (is_command dev ATA_CMD_READ_PIO) 0
                                 (ata_wait (G:=Legacy.globals) fuel dev adv))
        by (intros; apply tally_ata_wait; reflexivity).
      assert (Ho : forall port b o n, tally (is_command dev ATA_CMD_READ_PIO) 0
                                        (outportsm (G:=Legacy.globals) port b o n))
        by (intros; apply tally_outportsm; reflexivity).
      tally_go cmd_side. }
    exact (Hn w a w' t Hr).
  - exact (legacy_write_sector_carries fuel dev lba buf off w a w' t Hr).
  - unfold data_read.
    pose proof (legacy_write_sector_reads_nothing fuel dev lba buf off w a w' t Hr)
      as Hz.
    apply length_zero_iff_nil in Hz. rewrite Hz. reflexivity.
Qed.

Lemma sector_write_sends_the_buffer_witness :
  exists w' t,
    Legacy.ata_device_write_sector (P:=Sim.sim_platform Examples.small_disk)
      (H:=Sim.header) 2 Examples.primary 3 (Examples.marked 10) 0
      Examples.legacy_boot = Ok (tt, w', t) /\
    data_written Examples.primary t = load_words (Examples.marked 10) 0 256.
Proof.
  assert (Hok : succeeded
                  (Legacy.ata_device_write_sector
                     (P:=Sim.sim_platform Examples.small_disk) (H:=Sim.header)
                     2 Examples.primary 3 (Examples.marked 10) 0
                     Examples.legacy_boot) = true) by (vm_compute; reflexivity).
  destruct (Legacy.ata_device_write_sector
              (P:=Sim.sim_platform Examples.small_disk) (H:=Sim.header)
              2 Examples.primary 3 (Examples.marked 10) 0 Examples.legacy_boot)
    as [[[[] w'] t]| |] eqn:Hr; try discriminate Hok.
  exists w', t. split; [reflexivity|].
  exact (proj1 (proj2 (proj2 (proj2
           (sector_write_sends_the_buffer Sim.state
              (Sim.sim_platform Examples.small_disk) Sim.header 2%nat
              Examples.primary 3 (Examples.marked 10) 0 Examples.legacy_boot
              tt w' t Hr))))).
Defined.

Lemma data_read_app dev t1 t2 :
  data_read dev (t1 ++ t2) = (data_read dev t1 ++ data_read dev t2)%list.
Proof. unfold data_read. now rewrite filter_app, map_app. Qed.

Lemma data_read_none dev t :
  List.length (filter (is_data_in dev) t) = 0%nat -> data_read dev t = [].
Proof. intros Hz. apply length_zero_iff_nil in Hz. unfold data_read. now rewrite Hz. Qed.

Section ReadSectorData.
Context {E : Type} {P : platform E} {H : ata_h}.

Lemma inportsm_places dev port : u16 port = u16 (io_base dev) ->
  forall n buf off (w : world E Legacy.globals) rb w' t,
    inportsm port buf off n w = Ok (rb, w', t) ->
    List.length (data_read dev t) = n /\
    rb = store_words buf off (data_read dev t).
Proof.
  intros Hp. induction n as [|n IH]; intros buf off w rb w' t Hr.
  - injection Hr as <- _ <-. now split.
  - cbn [inportsm] in Hr.
    apply bind_ok in Hr as (v & w1 & t1 & t2 & Hv & Hr & ->).
    apply port_read_keeps in Hv as (_ & _ & ->).
    destruct (IH _ _ _ _ _ _ Hr) as [Hlen ->].
    rewrite data_read_app.
    assert (Hone : data_read dev [EvIn 16 (u16 port) v] = [v]).
    { unfold data_read, filter, is_data_in. rewrite Hp, Z.eqb_refl. reflexivity. }
    rewrite Hone. cbn [app List.length store_words]. split; [now rewrite Hlen | reflexivity].
Qed.

Lemma legacy_read_sector_try_places fuel dev lba buf off :
  forall k errors (w : world E Legacy.globals) rb w' t,
    Legacy.read_sector_try k fuel dev lba buf off errors w = Ok (rb, w', t) ->
    rb = store_words buf off (data_read dev t) /\
    (data_read dev t = [] \/ List.length (data_read dev t) = 256%nat).
Proof.
  assert (Hw : forall adv, tally (is_data_in dev) 0
                             (ata_wait (G:=Legacy.globals) fuel dev adv))
    by (intros; apply tally_ata_wait; reflexivity).
  induction k as [|k IH]; intros errors w rb w' t Hr; [discriminate|].
  cbn [Legacy.read_sector_try] in Hr. cbv zeta in Hr.
  apply bind_ok in Hr as (failed & w1 & t1 & t2 & Ea & Hr & ->).
  pose proof (data_read_none dev t1
                (legacy_attempt_no_data fuel dev lba w failed w1 t1 Ea)) as H1.
  rewrite data_read_app, H1. cbn [app].
  destruct (truthy failed).
  - destruct (errors + 1 >? 4).
    + apply bind_ok in Hr as ([] & w2 & t3 & t4 & Hu & Hr & ->).
      injection Hu as _ <-. injection Hr as <- _ <-.
      split; [reflexivity | now left].
    + exact (IH _ _ _ _ _ Hr).
  - apply bind_ok in Hr as (b & w2 & t3 & t4 & Hi & Hr & ->).
    apply (inportsm_places dev) in Hi as [Hlen ->];
      [|unfold u16; apply Z.mod_mod; lia].
    apply bind_ok in Hr as (x & w3 & t5 & t6 & Hwait & Hr & ->).
    apply Hw in Hwait. apply data_read_none in Hwait.
    apply bind_ok in Hr as ([] & w4 & t7 & t8 & Hu & Hr & ->).
    injection Hu as _ <-. injection Hr as <- _ <-.
    rewrite !data_read_app, Hwait. cbn [app data_read filter map is_data_in].
    rewrite app_nil_r. split; [reflexivity | right; exact Hlen].
Qed.
End ReadSectorData.

(** X5.  What the legacy [ata_device_read_sector] leaves in the caller's
    buffer is what it read from the data port: the buffer it returns is
    the one it was given with the words received stored at [buf], low
    byte first and in order.  It receives either no word at all (the
    read gave up, and the buffer is as it was) or the 256 words of one
    sector, and it never writes to the data port. *)
Theorem sector_read_stores_the_words :
  forall (E : Type) (P : platform E) (H : ata_h) (fuel : nat)
         (dev : ata_device) (lba : Z) (buf : mem) (off : Z)
         (w : world E Legacy.globals) rb w' t,
    Legacy.ata_device_read_sector fuel dev lba buf off w = Ok (rb, w', t) ->
    rb = store_words buf off (data_read dev t) /\
    (data_read dev t = [] \/ List.length (data_read dev t) = 256%nat) /\
    data_written dev t = [].
Proof.
  intros E P H fuel dev lba buf off w rb w' t Hr.
  assert (Hout : tally (is_data_out dev) 0
                   (Legacy.ata_device_read_sector (E:=E) fuel dev lba buf off)).
  { assert (Hw : forall adv, tally (is_data_out dev) 0
                               (ata_wait (G:=Legacy.globals) fuel dev adv))
      by (intros; apply tally_ata_wait; reflexivity).
    assert (Ha : forall l, tally (is_data_out dev) 0
                             (Legacy.read_sector_attempt (E:=E) fuel dev l))
      by (intros; unfold Legacy.read_sector_attempt; tally_go by_hyp).
    assert (Hi : forall port b o n, tally (is_data_out dev) 0
                                      (inportsm (G:=Legacy.globals) port b o n))
      by (intros; apply tally_inportsm; reflexivity).
    assert (Ht : forall k errors,
               tally (is_data_out dev) 0
                 (Legacy.read_sector_try k fuel dev (u32 lba) buf off errors)).
    { induction k; intros; cbn [Legacy.read_sector_try];
        [apply tally_out_of_fuel|]. cbv zeta. tally_go by_hyp. }
    unfold Legacy.ata_device_read_sector. tally_go by_hyp. }
  assert (Hdw : data_written dev t = []).
  { pose proof (Hout w rb w' t Hr) as Hz. apply length_zero_iff_nil in Hz.
    unfold data_written. rewrite Hz. reflexivity. }
  split; [|split; [|exact Hdw]]; clear Hdw;
  unfold Legacy.ata_device_read_sector in Hr;
  apply bind_ok in Hr as ([] & w1 & t1 & t2 & Hl & Hr & ->);
  unfold spin_lock in Hl; (destruct (ata_lock w); [discriminate|]);
  injection Hl as _ <-;
  destruct (legacy_read_sector_try_places fuel dev (u32 lba) buf off
              fuel 0 w1 rb w' t2 Hr) as [Hrb Hlen];
  rewrite data_read_app; cbn [data_read filter map is_data_in app];
  assumption.
Qed.

Lemma sector_read_stores_the_words_witness :
  exists rb w' t,
    Legacy.ata_device_read_sector (P:=Sim.sim_platform Examples.small_disk)
      (H:=Sim.header) 8 Examples.primary 3 zeroes 0 Examples.legacy_boot
    = Ok (rb, w', t) /\
    rb = store_words zeroes 0 (data_read Examples.primary t).
Proof.
  assert (Hok : succeeded
                  (Legacy.ata_device_read_sector
                     (P:=Sim.sim_platform Examples.small_disk) (H:=Sim.header)
                     8 Examples.primary 3 zeroes 0 Examples.legacy_boot) = true)
    by (vm_compute; reflexivity).
  destruct (Legacy.ata_device_read_sector
              (P:=Sim.sim_platform Examples.small_disk) (H:=Sim.header)
              8 Examples.primary 3 zeroes 0 Examples.legacy_boot)
    as [[[rb w'] t]| |] eqn:Hr; try discriminate Hok.
  exists rb, w', t. split; [reflexivity|].
  exact (proj1 (sector_read_stores_the_words Sim.state
                  (Sim.sim_platform Examples.small_disk) Sim.header 8%nat
                  Examples.primary 3 zeroes 0 Examples.legacy_boot rb w' t Hr)).
Defined.

Section Keeps.
Context {E G : Type} {P : platform E} {H : ata_h}.

Lemma port_write_keeps width port v (w : world E G) a w' t :
  port_write width port v w = Ok (a, w', t) ->
  ata_lock w' = ata_lock w /\ glob w' = glob w.
Proof. unfold port_write. intros Hr. injection Hr as _ <- _. now split. Qed.

Lemma ata_wait_keeps fuel dev advanced (w : world E G) a w' t :
  ata_wait fuel dev advanced w = Ok (a, w', t) ->
  ata_lock w' = ata_lock w /\ glob w' = glob w.
Proof.
  unfold ata_wait. intros Hr.
  apply bind_ok in Hr as ([] & w1 & t1 & t2 & Hio & Hr & _).
  apply ata_io_wait_keeps in Hio as [Hl1 Hg1].
  apply bind_ok in Hr as (st & w2 & t3 & t4 & Hs & Hr & _).
  unfold ata_status_wait in Hs. change (-1 >? 0) with false in Hs. cbv iota in Hs.
  apply status_wait_forever_keeps in Hs as [Hl2 Hg2].
  destruct (truthy advanced).
  - apply bind_ok in Hr as (status & w3 & t5 & t6 & Hp & Hr & _).
    apply port_read_keeps in Hp as (Hl3 & Hg3 & _).
    repeat match type of Hr with
           | (if ?c then _ else _) _ = _ => destruct c
           end; injection Hr as _ <- _; split; congruence.
  - injection Hr as _ <- _. split; congruence.
Qed.

Lemma read_words_receives dev port : u16 port = u16 (io_base dev) ->
  forall n (w : world E G) ws w' t,
    read_words port n w = Ok (ws, w', t) ->
    ws = data_read dev t /\ List.length ws = n /\
    ata_lock w' = ata_lock w /\ glob w' = glob w.
Proof.
  intros Hp. induction n as [|n IH]; intros w ws w' t Hr.
  - injection Hr as <- <- <-. now repeat split.
  - cbn [read_words] in Hr.
    apply bind_ok in Hr as (v & w1 & t1 & t2 & Hv & Hr & ->).
    apply port_read_keeps in Hv as (Hl1 & Hg1 & ->).
    apply bind_ok in Hr as (vs & w2 & t3 & t4 & Hrest & Hr & ->).
    injection Hr as <- <- <-.
    destruct (IH _ _ _ _ Hrest) as (-> & Hlen & Hl2 & Hg2).
    rewrite app_nil_r, data_read_app.
    assert (Hone : data_read dev [EvIn 16 (u16 port) v] = [v]).
    { unfold data_read, filter, is_data_in. rewrite Hp, Z.eqb_refl. reflexivity. }
    rewrite Hone. cbn [app List.length].
    repeat split; congruence.
Qed.
End Keeps.

Section LegacyInit.
Context {E : Type} {P : platform E} {H : ata_h} {F : fs_h}.

Lemma legacy_init_one_identify fuel d (w : world E Legacy.globals) a w' t :
  Legacy.ata_device_init fuel d w = Ok (a, w', t) ->
  commands (Legacy.devs (glob w) d) ATA_CMD_IDENTIFY t = 1%nat.
Proof.
  intros Hr. unfold Legacy.ata_device_init in Hr.
  rewrite bind_get_globals in Hr. revert Hr.
  set (dev := Legacy.devs (glob w) d).
  assert (Hio : tally (is_command dev ATA_CMD_IDENTIFY) 0
                  (ata_io_wait (E:=E) (G:=Legacy.globals) dev))
    by (apply tally_ata_io_wait; reflexivity).
  assert (Hw : forall adv, tally (is_command dev ATA_CMD_IDENTIFY) 0
                             (ata_wait (G:=Legacy.globals) fuel dev adv))
    by (intros; apply tally_ata_wait; reflexivity).
  assert (Hrw : forall n, tally (is_command dev ATA_CMD_IDENTIFY) 0
                            (read_words (E:=E) (G:=Legacy.globals) (io_base dev) n)).
  { induction n; cbn [read_words]; tally_go by_hyp. }
  assert (Hu : forall f, tally (is_command dev ATA_CMD_IDENTIFY) 0
                           (Legacy.update_dev (E:=E) d f)).
  { intros f. unfold Legacy.update_dev. tally_go by_hyp. }
  match goal with
  | |- ?m w = _ -> _ =>
      assert (Ht : tally (is_command dev ATA_CMD_IDENTIFY) 1 m) by tally_go cmd_side
  end.
  intros Hr. exact (Ht w a w' t Hr).
Qed.

Lemma legacy_init_effect fuel d (w : world E Legacy.globals) a w' t :
  Legacy.ata_device_init fuel d w = Ok (a, w', t) ->
  let dev := Legacy.devs (glob w) d in
  List.length (data_read dev t) = 256%nat /\
  glob w' = Legacy.set_dev d (set_identity (identify_swapped (data_read dev t)) dev)
              (glob w) /\
  ata_lock w' = ata_lock w.
Proof.
  intros Hr dev. unfold Legacy.ata_device_init in Hr.
  rewrite bind_get_globals in Hr. fold dev in Hr.
  assert (Hio : tally (is_data_in dev) 0
                  (ata_io_wait (E:=E) (G:=Legacy.globals) dev))
    by (apply tally_ata_io_wait; reflexivity).
  assert (Hw : forall adv, tally (is_data_in dev) 0
                             (ata_wait (G:=Legacy.globals) fuel dev adv))
    by (intros; apply tally_ata_wait; reflexivity).
  apply bind_ok in Hr as (? & w1 & t1 & ? & H1 & Hr & ->).
  pose proof (port_write_keeps _ _ _ _ _ _ _ H1) as [L1 G1].
  apply port_write_inv in H1 as ->.
  apply bind_ok in Hr as (? & w2 & t2 & ? & H2 & Hr & ->).
  pose proof (port_write_keeps _ _ _ _ _ _ _ H2) as [L2 G2].
  apply port_write_inv in H2 as ->.
  apply bind_ok in Hr as (? & w3 & t3 & ? & H3 & Hr & ->).
  pose proof (port_write_keeps _ _ _ _ _ _ _ H3) as [L3 G3].
  apply port_write_inv in H3 as ->.
  apply bind_ok in Hr as (? & w4 & t4 & ? & H4 & Hr & ->).
  pose proof (ata_io_wait_keeps _ _ _ _ _ H4) as [L4 G4].
  apply Hio, data_read_none in H4.
  apply bind_ok in Hr as (? & w5 & t5 & ? & H5 & Hr & ->).
  pose proof (port_write_keeps _ _ _ _ _ _ _ H5) as [L5 G5].
  apply port_write_inv in H5 as ->.
  apply bind_ok in Hr as (? & w6 & t6 & ? & H6 & Hr & ->).
  pose proof (ata_io_wait_keeps _ _ _ _ _ H6) as [L6 G6].
  apply Hio, data_read_none in H6.
  apply bind_ok in Hr as (? & w7 & t7 & ? & H7 & Hr & ->).
  apply port_read_keeps in H7 as (L7 & G7 & ->).
  apply bind_ok in Hr as (? & w8 & t8 & ? & H8 & Hr & ->).
  pose proof (ata_wait_keeps _ _ _ _ _ _ _ H8) as [L8 G8].
  apply Hw, data_read_none in H8.
  apply bind_ok in Hr as (ws & w9 & t9 & ? & H9 & Hr & ->).
  apply (read_words_receives dev) in H9 as (-> & Hlen & L9 & G9); [|reflexivity].
  apply bind_ok in Hr as (? & w10 & t10 & ? & H10 & Hr & ->).
  unfold Legacy.update_dev in H10. rewrite bind_get_globals in H10.
  injection H10 as _ <- <-.
  pose proof (port_write_keeps _ _ _ _ _ _ _ Hr) as [L11 G11].
  apply port_write_inv in Hr as ->.
  rewrite !data_read_app, H4, H6, H8.
  cbn [data_read filter is_data_in map app]. rewrite !app_nil_r.
  fold (data_read dev t9).
  split; [exact Hlen|]. split.
  - rewrite G11. cbn [glob set_globals].
    assert (Hg : glob w9 = glob w) by congruence.
    rewrite Hg. reflexivity.
  - rewrite L11. cbn [ata_lock set_globals]. congruence.
Qed.
End LegacyInit.

(** X6.  The legacy [ata_device_init] issues IDENTIFY once, reads
    exactly 256 words from the data port, and installs them (with the
    bytes of [model] swapped pairwise) as the identity of the device it
    was called for.  Nothing else changes: the other three devices, the
    ports of the device itself, the mount table, the drive letter and
    the lock are as they were. *)
Theorem init_installs_the_identify_block :
  forall (E : Type) (P : platform E) (H : ata_h) (fuel : nat) (d : dev_id)
         (w : world E Legacy.globals) a w' t,
    Legacy.ata_device_init fuel d w = Ok (a, w', t) ->
    let dev := Legacy.devs (glob w) d in
    let dev' := Legacy.devs (glob w') d in
    commands dev ATA_CMD_IDENTIFY t = 1%nat /\
    List.length (data_read dev t) = 256%nat /\
    identity dev' = identify_swapped (data_read dev t) /\
    io_base dev' = io_base dev /\ control dev' = control dev /\
    slave dev' = slave dev /\
    (forall x, x <> d -> Legacy.devs (glob w') x = Legacy.devs (glob w) x) /\
    Legacy.vfs (glob w') = Legacy.vfs (glob w) /\
    Legacy.ata_drive_char (glob w') = Legacy.ata_drive_char (glob w) /\
    ata_lock w' = ata_lock w.
Proof.
  intros E P H fuel d w a w' t Hr dev dev'.
  split; [exact (legacy_init_one_identify fuel d w a w' t Hr)|].
  destruct (legacy_init_effect fuel d w a w' t Hr) as (Hlen & Hg & Hl).
  fold dev in Hlen, Hg.
  assert (Hd : dev' = set_identity (identify_swapped (data_read dev t)) dev).
  { unfold dev'. rewrite Hg. unfold Legacy.set_dev. cbn [Legacy.devs].
    destruct d; reflexivity. }
  split; [exact Hlen|]. rewrite Hd, Hg.
  repeat split; try reflexivity; try exact Hl.
  intros x Hx. unfold Legacy.set_dev. cbn [Legacy.devs].
  destruct x, d; try reflexivity; contradiction.
Qed.

Lemma init_installs_the_identify_block_witness :
  exists w' t,
    Legacy.ata_device_init (P:=Sim.sim_platform Examples.small_disk)
      (H:=Sim.header) 8 ata_primary_master Examples.legacy_boot = Ok (tt, w', t) /\
    List.length (data_read (Legacy.devs (glob Examples.legacy_boot) ata_primary_master) t)
    = 256%nat.
Proof.
  assert (Hok : succeeded
                  (Legacy.ata_device_init
                     (P:=Sim.sim_platform Examples.small_disk) (H:=Sim.header)
                     8 ata_primary_master Examples.legacy_boot) = true)
    by (vm_compute; reflexivity).
  destruct (Legacy.ata_device_init
              (P:=Sim.sim_platform Examples.small_disk) (H:=Sim.header)
              8 ata_primary_master Examples.legacy_boot)
    as [[[[] w'] t]| |] eqn:Hr; try discriminate Hok.
  exists w', t. split; [reflexivity|].
  exact (proj1 (proj2 (init_installs_the_identify_block Sim.state
                         (Sim.sim_platform Examples.small_disk) Sim.header 8%nat
                         ata_primary_master Examples.legacy_boot tt w' t Hr))).
Defined.

(** ** Probing and initialising the disks *)

Section LegacyProbe.
Context {E : Type} {P : platform E} {H : ata_h} {F : fs_h}.

(** What the signature dispatch of the legacy probe does to the
    globals: nothing, or one mount followed by [ata_device_init]. *)
Lemma legacy_dispatch_effect fuel d cl ch (w : world E Legacy.globals) r w' t :
  Legacy.detect_dispatch fuel d cl ch w = Ok (r, w', t) ->
  (r = 0 /\ w' = w /\ t = []) \/
  (r = 1 /\
   exists node a,
     Legacy.ata_device_create d w = Ok (node, w, []) /\
     Legacy.ata_device_init fuel d
       (set_globals
          (Legacy.Globals (s8 (Legacy.ata_drive_char (glob w) + 1))
             (Legacy.devs (glob w))
             ((("/dev/hd" ++ fmt_c (Legacy.ata_drive_char (glob w)))%string, node)
                :: Legacy.vfs (glob w))) w)
     = Ok (a, w', t)).
Proof.
  unfold Legacy.detect_dispatch. intros Hr.
  destruct ((cl =? 0xFF) && (ch =? 0xFF));
    [injection Hr as <- <- <-; now left|].
  destruct (((cl =? 0) && (ch =? 0)) || ((cl =? 0x3C) && (ch =? 0xC3)));
    [|injection Hr as <- <- <-; now left].
  right. rewrite bind_get_globals in Hr.
  apply bind_ok in Hr as (node & w1 & t1 & t2 & Hc & Hr & ->).
  assert (Hc' := Hc).
  unfold Legacy.ata_device_create in Hc'. rewrite bind_get_globals in Hc'.
  injection Hc' as Hn <- <-.
  apply bind_ok in Hr as ([] & w2 & t3 & t4 & Hm & Hr & ->).
  unfold Legacy.vfs_mount in Hm. rewrite bind_get_globals in Hm.
  injection Hm as <- <-.
  rewrite bind_get_globals in Hr.
  apply bind_ok in Hr as ([] & w3 & t5 & t6 & Hp & Hr & ->).
  injection Hp as <- <-.
  apply bind_ok in Hr as (a & w4 & t7 & t8 & Hi & Hr & ->).
  injection Hr as <- <- <-.
  cbn [glob set_globals plat ata_lock Legacy.ata_drive_char Legacy.devs
       Legacy.vfs] in Hi.
  split; [reflexivity|]. exists node, a. split; [exact Hc|].
  cbn [app]. rewrite app_nil_r. exact Hi.
Qed.

Lemma legacy_detect_effect fuel d (w : world E Legacy.globals) r w' t :
  Legacy.ata_device_detect fuel d w = Ok (r, w', t) ->
  let g := glob w in
  let dev := Legacy.devs g d in
  (r = 0 /\ glob w' = g) \/
  (r = 1 /\
   exists ws,
     List.length ws = 256%nat /\
     glob w' =
     Legacy.set_dev d (set_identity (identify_swapped ws) dev)
       (Legacy.Globals (s8 (Legacy.ata_drive_char g + 1)) (Legacy.devs g)
          ((("/dev/hd" ++ fmt_c (Legacy.ata_drive_char g))%string,
            Node ("atadev" ++ fmt_d (Legacy.ata_drive_char g - 97)) d 0 0 0 432
              (Legacy.ata_max_offset dev mod 2 ^ FS_LENGTH_BITS) FS_BLOCKDEVICE
              (Some op_read_ata) (Some op_write_ata)
              (Some op_open_ata) (Some op_close_ata))
             :: Legacy.vfs g))).
Proof.
  intros Hr g dev.
  destruct (legacy_detect_split fuel d w r w' t Hr)
    as (t0 & cl & ch & t1 & w0 & _ & Hg & Hd).
  apply legacy_dispatch_effect in Hd
    as [(-> & -> & _) | (-> & node & a & Hc & Hi)].
  - left. split; [reflexivity | exact Hg].
  - right. split; [reflexivity|].
    unfold Legacy.ata_device_create in Hc. rewrite bind_get_globals in Hc.
    injection Hc as <-.
    cbn [set_globals] in Hi.
    apply legacy_init_effect in Hi as (Hlen & Hgi & _).
    cbn [glob set_globals Legacy.devs] in Hlen, Hgi.
    rewrite Hg in Hlen, Hgi. fold g in Hlen, Hgi. fold dev in Hlen, Hgi.
    eexists. split; [exact Hlen | exact Hgi].
Qed.
End LegacyProbe.

Lemma zero_identity_zero_capacity dev :
  identity dev = identify_zero -> Legacy.ata_max_offset dev = 0.
Proof. unfold Legacy.ata_max_offset. intros ->. reflexivity. Qed.

(** X7.  The node the legacy probe mounts carries the capacity the
    device record had before the probe: [ata_device_create] runs, and
    the node is mounted, before [ata_device_init] has read the IDENTIFY
    block.  So a probe that finds a disk mounts "/dev/hd<letter>" with a
    node "atadev<n>" whose [length] is that of the old identity (0 for
    a device that was never initialised, whatever the disk holds), and
    only then installs the 256 IDENTIFY words in the device record and
    advances the letter; a probe that finds none (result 0) leaves the
    globals as they were.  The other devices are never touched. *)
Theorem probe_publishes_the_capacity_it_had :
  forall (E : Type) (P : platform E) (H : ata_h) (F : fs_h) (fuel : nat)
         (d : dev_id) (w : world E Legacy.globals) r w' t,
    Legacy.ata_device_detect fuel d w = Ok (r, w', t) ->
    let g := glob w in
    let g' := glob w' in
    let dev := Legacy.devs g d in
    (r = 0 /\ g' = g) \/
    (r = 1 /\
     exists node ws,
       Legacy.vfs g' =
         (("/dev/hd" ++ fmt_c (Legacy.ata_drive_char g))%string, node)
           :: Legacy.vfs g /\
       name node = ("atadev" ++ fmt_d (Legacy.ata_drive_char g - 97))%string /\
       device node = d /\
       length node = Legacy.ata_max_offset dev mod 2 ^ FS_LENGTH_BITS /\
       (identity dev = identify_zero -> length node = 0) /\
       List.length ws = 256%nat /\
       identity (Legacy.devs g' d) = identify_swapped ws /\
       Legacy.ata_drive_char g' = s8 (Legacy.ata_drive_char g + 1) /\
       (forall x, x <> d -> Legacy.devs g' x = Legacy.devs g x)).
Proof.
  intros E P H F fuel d w r w' t Hr g g' dev.
  destruct (legacy_detect_effect fuel d w r w' t Hr)
    as [[-> Hg] | (-> & ws & Hlen & Hg)].
  - left. split; [reflexivity | exact Hg].
  - right. split; [reflexivity|]. fold g in Hg. fold dev in Hg.
    eexists. exists ws. unfold g'. rewrite Hg.
    unfold Legacy.set_dev. cbn [Legacy.vfs Legacy.devs Legacy.ata_drive_char].
    split; [reflexivity|]. cbn [name device length].
    split; [reflexivity|]. split; [reflexivity|]. split; [reflexivity|].
    split.
    { intros Hz. fold dev. rewrite (zero_identity_zero_capacity dev Hz).
      apply Zmod_0_l. }
    split; [exact Hlen|].
    split; [destruct d; reflexivity|].
    split; [reflexivity|].
    intros x Hx. destruct x, d; try reflexivity; contradiction.
Qed.

Lemma probe_publishes_the_capacity_it_had_witness :
  exists w' t node,
    Legacy.ata_device_detect (P:=Sim.sim_platform Examples.small_disk)
      (H:=Sim.header) (F:=Sim.fs) 8 ata_primary_master Examples.legacy_boot
    = Ok (1, w', t) /\
    Legacy.vfs (glob w') = [("/dev/hda"%string, node)] /\
    length node = 0 /\
    Legacy.ata_max_offset (Legacy.devs (glob w') ata_primary_master) = 4096.
Proof.
  assert (Hv : value_of
                 (Legacy.ata_device_detect (P:=Sim.sim_platform Examples.small_disk)
                    (H:=Sim.header) (F:=Sim.fs) 8 ata_primary_master
                    Examples.legacy_boot) = Some 1) by (vm_compute; reflexivity).
  assert (Hc : option_map
                 (fun w => Legacy.ata_max_offset (Legacy.devs (glob w) ata_primary_master))
                 (world_of
                    (Legacy.ata_device_detect (P:=Sim.sim_platform Examples.small_disk)
                       (H:=Sim.header) (F:=Sim.fs) 8 ata_primary_master
                       Examples.legacy_boot)) = Some 4096)
    by (vm_compute; reflexivity).
  destruct (Legacy.ata_device_detect (P:=Sim.sim_platform Examples.small_disk)
              (H:=Sim.header) (F:=Sim.fs) 8 ata_primary_master Examples.legacy_boot)
    as [[[r w'] t]| |] eqn:Hr; try discriminate Hv.
  injection Hv as ->. injection Hc as Hc.
  destruct (probe_publishes_the_capacity_it_had Sim.state
              (Sim.sim_platform Examples.small_disk) Sim.header Sim.fs 8%nat
              ata_primary_master Examples.legacy_boot 1 w' t Hr)
    as [[Hz _] | (_ & node & ws & Hvfs & _ & _ & _ & Hlen & _)];
    [discriminate Hz|].
  exists w', t, node. split; [reflexivity|].
  split; [exact Hvfs|]. split; [apply Hlen; reflexivity | exact Hc].
Defined.

Lemma hd_names_S n :
  hd_names (S n) = ("/dev/hd" ++ fmt_c (97 + Z.of_nat n))%string :: hd_names n.
Proof. unfold hd_names. rewrite seq_S, map_app, rev_app_distr. reflexivity. Qed.

Lemma atadev_names_S n :
  atadev_names (S n) = ("atadev" ++ fmt_d (Z.of_nat n))%string :: atadev_names n.
Proof. unfold atadev_names. rewrite seq_S, map_app, rev_app_distr. reflexivity. Qed.

Section LegacyInitialize.
Context {E : Type} {P : platform E} {H : ata_h} {F : fs_h}.

(** One probe of a device that was never initialised, in a driver that
    has mounted [n] disks so far, all with a length of 0. *)
Lemma legacy_probe_step fuel d n (w : world E Legacy.globals) r w' t :
  (n < 30)%nat ->
  Legacy.ata_drive_char (glob w) = 97 + Z.of_nat n ->
  map fst (Legacy.vfs (glob w)) = hd_names n ->
  map (fun x => name (snd x)) (Legacy.vfs (glob w)) = atadev_names n ->
  Forall (fun x => length (snd x) = 0) (Legacy.vfs (glob w)) ->
  identity (Legacy.devs (glob w) d) = identify_zero ->
  Legacy.ata_device_detect fuel d w = Ok (r, w', t) ->
  exists n',
    (n' = n \/ n' = S n) /\
    Legacy.ata_drive_char (glob w') = 97 + Z.of_nat n' /\
    map fst (Legacy.vfs (glob w')) = hd_names n' /\
    map (fun x => name (snd x)) (Legacy.vfs (glob w')) = atadev_names n' /\
    Forall (fun x => length (snd x) = 0) (Legacy.vfs (glob w')) /\
    (forall x, x <> d -> Legacy.devs (glob w') x = Legacy.devs (glob w) x).
Proof.
  intros Hn Hc Hnames Hnodes Hzero Hid Hr.
  destruct (legacy_detect_effect fuel d w r w' t Hr)
    as [[-> Hg] | (-> & ws & Hlen & Hg)].
  - exists n. rewrite Hg. repeat split; try assumption. now left.
  - exists (S n). rewrite Hg. unfold Legacy.set_dev.
    cbn [Legacy.vfs Legacy.devs Legacy.ata_drive_char map fst snd name].
    split; [now right|]. split.
    { rewrite Hc. unfold s8. rewrite Z.mod_small by lia. lia. }
    split; [rewrite hd_names_S, Hnames, Hc; reflexivity|].
    split.
    { rewrite atadev_names_S, Hnodes, Hc. do 3 f_equal. lia. }
    split.
    { constructor; [|exact Hzero]. cbn [snd length].
      rewrite (zero_identity_zero_capacity _ Hid). apply Zmod_0_l. }
    intros x Hx. destruct x, d; try reflexivity; contradiction.
Qed.
End LegacyInitialize.

(** X8.  Started with the driver's initial globals, the legacy
    [ata_initialize] probes the four devices in the order primary
    master, primary slave, secondary master, secondary slave and returns
    0.  The disks it finds, at most four, are mounted as "/dev/hda",
    "/dev/hdb", ... in the order they were found, with nodes "atadev0",
    "atadev1", ..., no letter skipped; and every node it mounts has
    length 0, because each is created before its IDENTIFY block is
    read. *)
Theorem initialize_names_the_disks_in_order :
  forall (E : Type) (P : platform E) (H : ata_h) (F : fs_h) (fuel : nat)
         (w : world E Legacy.globals) r w' t,
    glob w = Legacy.initial_globals ->
    Legacy.ata_initialize fuel w = Ok (r, w', t) ->
    r = 0 /\
    exists n,
      (n <= 4)%nat /\
      Legacy.ata_drive_char (glob w') = 97 + Z.of_nat n /\
      map fst (Legacy.vfs (glob w')) = hd_names n /\
      map (fun x => name (snd x)) (Legacy.vfs (glob w')) = atadev_names n /\
      Forall (fun x => length (snd x) = 0) (Legacy.vfs (glob w')).
Proof.
  intros E P H F fuel w r w' t Hg Hr. unfold Legacy.ata_initialize in Hr.
  apply bind_ok in Hr as (r1 & w1 & t1 & ? & H1 & Hr & _).
  apply bind_ok in Hr as (r2 & w2 & t2 & ? & H2 & Hr & _).
  apply bind_ok in Hr as (r3 & w3 & t3 & ? & H3 & Hr & _).
  apply bind_ok in Hr as (r4 & w4 & t4 & ? & H4 & Hr & _).
  injection Hr as <- <- _. split; [reflexivity|].
  destruct (legacy_probe_step fuel ata_primary_master 0 w r1 w1 t1)
    as (n1 & Hn1 & C1 & N1 & A1 & Z1 & D1);
    try (rewrite Hg; reflexivity || constructor); [lia | exact H1 |].
  destruct (legacy_probe_step fuel ata_primary_slave n1 w1 r2 w2 t2)
    as (n2 & Hn2 & C2 & N2 & A2 & Z2 & D2); try assumption; [lia | |].
  { rewrite D1 by discriminate. rewrite Hg. reflexivity. }
  destruct (legacy_probe_step fuel ata_secondary_master n2 w2 r3 w3 t3)
    as (n3 & Hn3 & C3 & N3 & A3 & Z3 & D3); try assumption; [lia | |].
  { rewrite D2, D1 by discriminate. rewrite Hg. reflexivity. }
  destruct (legacy_probe_step fuel ata_secondary_slave n3 w3 r4 w4 t4)
    as (n4 & Hn4 & C4 & N4 & A4 & Z4 & D4); try assumption; [lia | |].
  { rewrite D3, D2, D1 by discriminate. rewrite Hg. reflexivity. }
  exists n4. split; [lia|]. repeat split; assumption.
Qed.

Lemma initialize_names_the_disks_in_order_witness :
  exists w' t,
    Legacy.ata_initialize (P:=Examples.quiet) (H:=Sim.header) (F:=Sim.fs)
      2 Examples.quiet_legacy_boot = Ok (0, w', t) /\
    exists n, (n <= 4)%nat /\ map fst (Legacy.vfs (glob w')) = hd_names n.
Proof.
  assert (Hok : succeeded
                  (Legacy.ata_initialize (P:=Examples.quiet) (H:=Sim.header)
                     (F:=Sim.fs) 2 Examples.quiet_legacy_boot) = true)
    by (vm_compute; reflexivity).
  destruct (Legacy.ata_initialize (P:=Examples.quiet) (H:=Sim.header) (F:=Sim.fs)
              2 Examples.quiet_legacy_boot) as [[[r w'] t]| |] eqn:Hr;
    try discriminate Hok.
  destruct (initialize_names_the_disks_in_order unit Examples.quiet Sim.header
              Sim.fs 2%nat Examples.quiet_legacy_boot r w' t eq_refl Hr)
    as (-> & n & Hn & _ & Hnames & _).
  exists w', t. split; [reflexivity|]. exists n. split; assumption.
Defined.

Section LegacyReadFrame.
Context {E : Type} {P : platform E} {H : ata_h} {F : fs_h}.
Local Abbreviation G := Legacy.globals.

Lemma frames_eq_spin_lock : frames (@eq G) (spin_lock (E:=E)).
Proof.
  intros w a w' t Hr. unfold spin_lock in Hr.
  destruct (ata_lock w); [discriminate|]. now injection Hr as _ <- _.
Qed.

Lemma frames_eq_spin_unlock : frames (@eq G) (spin_unlock (E:=E)).
Proof. intros w a w' t Hr. now injection Hr as _ <- _. Qed.

Lemma frames_eq_malloc n : frames (@eq G) (malloc (E:=E) n).
Proof.
  intros w a w' t Hr. unfold malloc in Hr.
  destruct (heap_fresh n (plat w)). now injection Hr as _ <- _.
Qed.

Lemma frames_eq_inportsm port n : forall buf off,
  frames (@eq G) (inportsm (E:=E) port buf off n).
Proof.
  pose proof (@eq_trans_globals G) as Ht.
  induction n; intros; cbn [inportsm]; frames_go.
Qed.

Hint Resolve frames_eq_spin_lock frames_eq_spin_unlock frames_eq_malloc
  frames_eq_inportsm : frames.

Lemma legacy_read_sector_frame fuel dev lba buf off :
  frames (@eq G) (Legacy.ata_device_read_sector (E:=E) fuel dev lba buf off).
Proof.
  pose proof (@eq_trans_globals G) as Ht.
  assert (Ha : forall l, frames (@eq G) (Legacy.read_sector_attempt (E:=E) fuel dev l))
    by (intros; unfold Legacy.read_sector_attempt; frames_go).
  assert (Hk : forall k errors,
             frames (@eq G)
               (Legacy.read_sector_try (E:=E) k fuel dev (u32 lba) buf off errors)).
  { induction k; intros; cbn [Legacy.read_sector_try]; cbv zeta; frames_go. }
  unfold Legacy.ata_device_read_sector. frames_go.
Qed.

Hint Resolve legacy_read_sector_frame : frames.

Lemma legacy_read_blocks_frame fuel dev end_block : forall k s x buffer,
  frames (@eq G) (Legacy.read_blocks (E:=E) k fuel dev s end_block x buffer).
Proof.
  pose proof (@eq_trans_globals G) as Ht.
  induction k; intros; cbn [Legacy.read_blocks]; frames_go.
Qed.

Hint Resolve legacy_read_blocks_frame : frames.

Lemma legacy_read_ata_frame fuel node offset size buffer :
  frames (@eq G) (Legacy.read_ata (E:=E) fuel node offset size buffer).
Proof.
  pose proof (@eq_trans_globals G) as Ht.
  unfold Legacy.read_ata. frames_go.
Qed.
End LegacyReadFrame.

(** X9.  The legacy [read_ata] returns for every request, on a drive
    whose status register never shows BSY and with the lock free: 0 when
    the offset (as a 32-bit value) lies past the capacity, the distance
    to the capacity when the 32-bit end of the request does, and [size]
    otherwise.  It leaves the lock free and never changes the driver's
    globals. *)
Theorem legacy_read_always_returns :
  forall (E : Type) (P : platform E) (H : ata_h) (F : fs_h) (fuel : nat)
         (node : fs_node_t) (offset size : Z) (buffer : mem)
         (w : world E Legacy.globals),
    let dev := Legacy.devs (glob w) (device node) in
    let cap := Legacy.ata_max_offset dev in
    never_busy P dev -> ata_lock w = false -> (5 <= fuel)%nat ->
    u32 (u32 offset + size - 1) / ATA_SECTOR_SIZE + 2 < Z.of_nat fuel ->
    exists m w' t,
      Legacy.read_ata fuel node offset size buffer w
      = Ok ((if u32 offset >? cap then 0
             else if u32 (u32 offset + size) >? cap
                  then u32 (u64 (cap - u32 offset)) else size, m), w', t) /\
      ata_lock w' = false /\ glob w' = glob w.
Proof.
  intros E P H F fuel node offset size buffer w dev cap Hidle Hw Hfuel Hblocks.
  destruct (legacy_read_ata_returns fuel node offset size buffer w
              Hidle Hw Hfuel Hblocks) as ([n m] & w' & t & Hr).
  exists m, w', t.
  rewrite (legacy_read_value fuel node offset size buffer w n m w' t Hr) in Hr.
  split; [exact Hr|]. split.
  - exact (proj1 (legacy_read_ata_lock fuel node offset size buffer w _ w' t Hw Hr)).
  - symmetry. exact (legacy_read_ata_frame fuel node offset size buffer w _ w' t Hr).
Qed.

Lemma legacy_read_always_returns_witness :
  exists m w' t,
    Legacy.read_ata (P:=Sim.sim_platform Examples.small_disk) (H:=Sim.header)
      12 Examples.hda 700 2000 zeroes (Examples.legacy_ready Examples.small_disk)
    = Ok ((2000, m), w', t) /\
    glob w' = glob (Examples.legacy_ready Examples.small_disk).
Proof.
  pose proof (legacy_read_always_returns Sim.state
                (Sim.sim_platform Examples.small_disk) Sim.header Sim.fs
                12%nat Examples.hda 700 2000 zeroes
                (Examples.legacy_ready Examples.small_disk)) as K.
  cbv zeta in K.
  assert (Hcap : Legacy.ata_max_offset
                   (Legacy.devs (glob (Examples.legacy_ready Examples.small_disk))
                      (device Examples.hda)) = 4096)
    by (vm_compute; reflexivity).
  rewrite Hcap in K.
  destruct K as (m & w' & t & Hr & _ & Hg).
  - intros e. vm_compute. reflexivity.
  - vm_compute. reflexivity.
  - lia.
  - vm_compute. reflexivity.
  - exists m, w', t. split; [exact Hr | exact Hg].
Defined.

Lemma aligned_last_block offset size :
  0 <= offset -> 0 < size ->
  offset mod ATA_SECTOR_SIZE = 0 -> size mod ATA_SECTOR_SIZE = 0 ->
  (offset + size - 1) / ATA_SECTOR_SIZE
  = offset / ATA_SECTOR_SIZE + size / ATA_SECTOR_SIZE - 1 /\
  (offset + size) mod ATA_SECTOR_SIZE = 0 /\
  1 <= size / ATA_SECTOR_SIZE.
Proof.
  unfold ATA_SECTOR_SIZE. intros Ho Hs Hmo Hms.
  repeat split; Z.div_mod_to_equations; lia.
Qed.

Section AlignedReads.
Context {E : Type} {P : platform E} {H : ata_h} {F : fs_h}.

Lemma legacy_read_aligned fuel node offset size buffer
    (w : world E Legacy.globals) :
  let dev := Legacy.devs (glob w) (device node) in
  0 <= offset -> 0 < size ->
  offset mod ATA_SECTOR_SIZE = 0 -> size mod ATA_SECTOR_SIZE = 0 ->
  offset + size <= Legacy.ata_max_offset dev -> offset + size < 2 ^ 32 ->
  Legacy.read_ata fuel node offset size buffer w =
  bind (Legacy.read_blocks fuel fuel dev (offset / ATA_SECTOR_SIZE)
          (offset / ATA_SECTOR_SIZE + size / ATA_SECTOR_SIZE - 1) 0 buffer)
       (fun b => ret (size, b)) w.
Proof.
  intros dev Ho Hs Hmo Hms Hcap Hsum.
  destruct (aligned_last_block offset size Ho Hs Hmo Hms) as (He & Hm & _).
  unfold Legacy.read_ata. rewrite bind_get_globals. fold dev.
  assert (Hu : u32 offset = offset) by (unfold u32; apply Z.mod_small; lia).
  rewrite Hu.
  replace (offset >? Legacy.ata_max_offset dev) with false
    by (symmetry; rewrite Z.gtb_ltb; apply Z.ltb_ge; lia).
  assert (Hs' : u32 (offset + size) = offset + size)
    by (unfold u32; apply Z.mod_small; lia).
  rewrite Hs'.
  replace (offset + size >? Legacy.ata_max_offset dev) with false
    by (symmetry; rewrite Z.gtb_ltb; apply Z.ltb_ge; lia).
  rewrite Hs', Hmo, Hm.
  assert (Hl : u32 (offset + size - 1) = offset + size - 1)
    by (unfold u32; apply Z.mod_small; lia).
  rewrite Hl, He. change (truthy 0) with false. cbn [andb].
  unfold bind, ret.
  destruct (Legacy.read_blocks fuel fuel dev (offset / ATA_SECTOR_SIZE)
              (offset / ATA_SECTOR_SIZE + size / ATA_SECTOR_SIZE - 1) 0 buffer w)
    as [[[b w2] t2]| |]; reflexivity.
Qed.

Lemma dma_read_aligned fuel node offset size buffer (w : world E Dma.globals) :
  let dev := Dma.devs (glob w) (device node) in
  0 <= offset -> 0 < size ->
  offset mod ATA_SECTOR_SIZE = 0 -> size mod ATA_SECTOR_SIZE = 0 ->
  offset + size <= Dma.ata_max_offset dev ->
  Dma.read_ata fuel node offset size buffer w =
  bind (Dma.read_blocks fuel fuel dev (offset / ATA_SECTOR_SIZE)
          (offset / ATA_SECTOR_SIZE + size / ATA_SECTOR_SIZE - 1) 0 buffer)
       (fun b => ret (size, b)) w.
Proof.
  intros dev Ho Hs Hmo Hms Hcap.
  assert (Hc : Dma.ata_max_offset dev < 2 ^ 64) by (apply Z.mod_pos_bound; lia).
  destruct (aligned_last_block offset size Ho Hs Hmo Hms) as (He & Hm & _).
  unfold Dma.read_ata. rewrite bind_get_globals. fold dev.
  assert (Hu : Dma.koff offset = offset)
    by (unfold Dma.koff, u64; apply Z.mod_small; lia).
  rewrite Hu.
  replace (offset >? Dma.ata_max_offset dev) with false
    by (symmetry; rewrite Z.gtb_ltb; apply Z.ltb_ge; lia).
  assert (Hs' : u64 (offset + size) = offset + size)
    by (unfold u64; apply Z.mod_small; lia).
  rewrite Hs'.
  replace (offset + size >? Dma.ata_max_offset dev) with false
    by (symmetry; rewrite Z.gtb_ltb; apply Z.ltb_ge; lia).
  rewrite Hs', Hmo, Hm.
  assert (Hl : u64 (offset + size - 1) = offset + size - 1)
    by (unfold u64; apply Z.mod_small; lia).
  rewrite Hl, He. change (truthy 0) with false. cbn [andb].
  unfold bind, ret.
  destruct (Dma.read_blocks fuel fuel dev (offset / ATA_SECTOR_SIZE)
              (offset / ATA_SECTOR_SIZE + size / ATA_SECTOR_SIZE - 1) 0 buffer w)
    as [[[b w2] t2]| |]; reflexivity.
Qed.

Lemma legacy_read_blocks_commands fuel dev end_block : end_block < 2 ^ 32 - 1 ->
  forall k s x buffer (w : world E Legacy.globals) rb w' t,
    0 <= s <= end_block + 1 ->
    Legacy.read_blocks k fuel dev s end_block x buffer w = Ok (rb, w', t) ->
    (Z.to_nat (end_block - s + 1) <= commands dev ATA_CMD_READ_PIO t
     <= 5 * Z.to_nat (end_block - s + 1))%nat.
Proof.
  intros He. induction k as [|k IH]; intros s x b w rb w' t Hs Hr; [discriminate|].
  cbn [Legacy.read_blocks] in Hr. destruct (s <=? end_block) eqn:Hle.
  - apply Z.leb_le in Hle.
    apply bind_ok in Hr as (b1 & w1 & t1 & t2 & Hsec & Hr & ->).
    apply legacy_read_sector_read_pio in Hsec.
    assert (Hu : u32 (s + 1) = s + 1) by (unfold u32; apply Z.mod_small; lia).
    rewrite Hu in Hr. apply IH in Hr; [|lia].
    rewrite commands_app.
    replace (Z.to_nat (end_block - s + 1))
      with (S (Z.to_nat (end_block - (s + 1) + 1))) by lia.
    lia.
  - apply Z.leb_gt in Hle. injection Hr as _ _ <-.
    replace (end_block - s + 1) with 0 by lia. cbn. lia.
Qed.
End AlignedReads.

Section AlignedDma.
Context {E : Type} {P : platform E} {H : ata_h} {F : fs_h}.
Hypothesis lba3_apart : u16 (ATA_REG_LBA3 - ATA_REG_COMMAND) <> 0.
Hypothesis lba4_apart : u16 (ATA_REG_LBA4 - ATA_REG_COMMAND) <> 0.
Hypothesis lba5_apart : u16 (ATA_REG_LBA5 - ATA_REG_COMMAND) <> 0.

Lemma dma_read_blocks_commands fuel dev end_block :
  is_atapi dev = 0 -> end_block < 2 ^ 64 - 1 ->
  forall k s x buffer (w : world E Dma.globals) rb w' t,
    0 <= s <= end_block + 1 ->
    Dma.read_blocks k fuel dev s end_block x buffer w = Ok (rb, w', t) ->
    commands dev ATA_CMD_READ_DMA t = Z.to_nat (end_block - s + 1).
Proof.
  intros Hata He. induction k as [|k IH]; intros s x b w rb w' t Hs Hr;
    [discriminate|].
  cbn [Dma.read_blocks] in Hr. destruct (s <=? end_block) eqn:Hle.
  - apply Z.leb_le in Hle.
    apply bind_ok in Hr as (b1 & w1 & t1 & t2 & Hsec & Hr & ->).
    apply (dma_read_sector_one_command lba3_apart lba4_apart lba5_apart
             fuel dev s b (u32 x) Hata) in Hsec.
    assert (Hu : u64 (s + 1) = s + 1) by (unfold u64; apply Z.mod_small; lia).
    rewrite Hu in Hr. apply IH in Hr; [|lia].
    rewrite commands_app. unfold commands at 1. rewrite Hsec, Hr.
    replace (Z.to_nat (end_block - s + 1))
      with (S (Z.to_nat (end_block - (s + 1) + 1))) by lia.
    reflexivity.
  - apply Z.leb_gt in Hle. injection Hr as _ _ <-.
    replace (end_block - s + 1) with 0 by lia. reflexivity.
Qed.
End AlignedDma.

(** X10.  A request for whole sectors inside the disk is served sector
    by sector, with no bounce buffer: when [offset] and [size] are
    multiples of 512 and the range ends at or before the capacity (and,
    in the legacy driver with its 32-bit offsets, below 4 GiB),
    [read_ata] returns [size] and the trace of the call holds one READ
    DMA per sector in the DMA driver (on a hard disk, the LBA3..LBA5
    registers being distinct from the command register), and in the
    legacy driver between one and five READ PIO per sector (one per
    attempt). *)
Theorem whole_sector_read_commands :
  forall (E : Type) (P : platform E) (H : ata_h) (F : fs_h) (fuel : nat)
         (node : fs_node_t) (offset size : Z) (buffer : mem),
    0 <= offset -> 0 < size ->
    offset mod ATA_SECTOR_SIZE = 0 -> size mod ATA_SECTOR_SIZE = 0 ->
    (forall (w : world E Dma.globals) r w' t,
        let dev := Dma.devs (glob w) (device node) in
        u16 (ATA_REG_LBA3 - ATA_REG_COMMAND) <> 0 ->
        u16 (ATA_REG_LBA4 - ATA_REG_COMMAND) <> 0 ->
        u16 (ATA_REG_LBA5 - ATA_REG_COMMAND) <> 0 ->
        is_atapi dev = 0 ->
        offset + size <= Dma.ata_max_offset dev ->
        Dma.read_ata fuel node offset size buffer w = Ok (r, w', t) ->
        fst r = size /\
        commands dev ATA_CMD_READ_DMA t = Z.to_nat (size / ATA_SECTOR_SIZE)) /\
    (forall (w : world E Legacy.globals) r w' t,
        let dev := Legacy.devs (glob w) (device node) in
        offset + size <= Legacy.ata_max_offset dev -> offset + size < 2 ^ 32 ->
        Legacy.read_ata fuel node offset size buffer w = Ok (r, w', t) ->
        fst r = size /\
        (Z.to_nat (size / ATA_SECTOR_SIZE)
         <= commands dev ATA_CMD_READ_PIO t
         <= 5 * Z.to_nat (size / ATA_SECTOR_SIZE))%nat).
Proof.
  intros E P H F fuel node offset size buffer Ho Hs Hmo Hms.
  destruct (aligned_last_block offset size Ho Hs Hmo Hms) as (He & Hm & Hn).
  assert (Hq : 0 <= offset / ATA_SECTOR_SIZE)
    by (apply Z.div_pos; [lia | reflexivity]).
  split.
  - intros w r w' t dev A3 A4 A5 Hata Hcap Hr.
    assert (Hc : Dma.ata_max_offset dev < 2 ^ 64) by (apply Z.mod_pos_bound; lia).
    rewrite (dma_read_aligned fuel node offset size buffer w Ho Hs Hmo Hms Hcap) in Hr.
    fold dev in Hr.
    apply bind_ok in Hr as (b & w1 & t1 & t2 & Hb & Hr & ->).
    injection Hr as <- _ <-. split; [reflexivity|].
    rewrite app_nil_r.
    assert (Hend : offset / ATA_SECTOR_SIZE + size / ATA_SECTOR_SIZE - 1 < 2 ^ 64 - 1).
    { rewrite <- He. unfold ATA_SECTOR_SIZE. apply Z.div_lt_upper_bound; lia. }
    assert (Hrange : 0 <= offset / ATA_SECTOR_SIZE
                     <= offset / ATA_SECTOR_SIZE + size / ATA_SECTOR_SIZE - 1 + 1)
      by lia.
    rewrite (dma_read_blocks_commands A3 A4 A5 fuel dev _ Hata Hend fuel _ 0
               buffer w b w1 t1 Hrange Hb).
    f_equal. lia.
  - intros w r w' t dev Hcap Hc Hr.
    rewrite (legacy_read_aligned fuel node offset size buffer w Ho Hs Hmo Hms Hcap
               Hc) in Hr.
    fold dev in Hr.
    apply bind_ok in Hr as (b & w1 & t1 & t2 & Hb & Hr & ->).
    injection Hr as <- _ <-. split; [reflexivity|].
    rewrite app_nil_r.
    assert (Hend : offset / ATA_SECTOR_SIZE + size / ATA_SECTOR_SIZE - 1 < 2 ^ 32 - 1).
    { rewrite <- He. unfold ATA_SECTOR_SIZE. apply Z.div_lt_upper_bound; lia. }
    assert (Hrange : 0 <= offset / ATA_SECTOR_SIZE
                     <= offset / ATA_SECTOR_SIZE + size / ATA_SECTOR_SIZE - 1 + 1)
      by lia.
    pose proof (legacy_read_blocks_commands fuel dev _ Hend fuel _ 0 buffer w b w1 t1
                  Hrange Hb) as Hcnt.
    replace (offset / ATA_SECTOR_SIZE + size / ATA_SECTOR_SIZE - 1
             - offset / ATA_SECTOR_SIZE + 1) with (size / ATA_SECTOR_SIZE) in Hcnt by lia.
    exact Hcnt.
Qed.

Lemma whole_sector_read_commands_witness :
  exists m w' t,
    Dma.read_ata (P:=Sim.sim_platform Examples.small_disk) (H:=Sim.header)
      5 Examples.hda 512 1024 zeroes (Examples.dma_ready Examples.small_disk)
    = Ok ((1024, m), w', t) /\
    commands (Examples.primary_dma Examples.small_disk) ATA_CMD_READ_DMA t = 2%nat.
Proof.
  assert (Hok : option_map fst
                  (value_of (Dma.read_ata (P:=Sim.sim_platform Examples.small_disk)
                     (H:=Sim.header) 5 Examples.hda 512 1024 zeroes
                     (Examples.dma_ready Examples.small_disk))) = Some 1024)
    by (vm_compute; reflexivity).
  destruct (Dma.read_ata (P:=Sim.sim_platform Examples.small_disk)
              (H:=Sim.header) 5 Examples.hda 512 1024 zeroes
              (Examples.dma_ready Examples.small_disk))
    as [[[[n m] w'] t]| |] eqn:Hr; try discriminate Hok.
  cbn in Hok. injection Hok as ->.
  exists m, w', t. split; [reflexivity|].
  exact (proj2 (proj1 (whole_sector_read_commands Sim.state
           (Sim.sim_platform Examples.small_disk) Sim.header Sim.fs 5%nat
           Examples.hda 512 1024 zeroes ltac:(lia) ltac:(lia) eq_refl eq_refl)
           (Examples.dma_ready Examples.small_disk) (1024, m) w' t
           ltac:(discriminate) ltac:(discriminate) ltac:(discriminate)
           ltac:(vm_compute; reflexivity) ltac:(vm_compute; discriminate) Hr)).
Defined.

(** ** The byte order of the ATAPI capacity *)

Lemma testbit_byte_mask k n : 0 <= k -> 0 <= n ->
  Z.testbit (Z.shiftl (Z.ones 8) k) n = (k <=? n) && (n <? k + 8).
Proof.
  intros Hk Hn. rewrite Z.shiftl_spec by exact Hn.
  destruct (Z.leb_spec k n) as [Hle|Hlt].
  - rewrite Z.testbit_ones_nonneg by lia. cbn [andb].
    destruct (Z.ltb_spec (n - k) 8), (Z.ltb_spec n (k + 8)); try reflexivity; lia.
  - rewrite Z.testbit_neg_r by lia. reflexivity.
Qed.

Ltac bits_done :=
  repeat match goal with
         | |- context [Z.testbit ?x ?i] => destruct (Z.testbit x i)
         | |- context [?a <? ?b] => destruct (a <? b)
         | |- context [?a <=? ?b] => destruct (a <=? b)
         end;
  reflexivity.

Lemma htonl_testbit l n : 0 <= n ->
  Z.testbit (Dma.htonl l) n =
  if n <? 8 then Z.testbit l (n + 24)
  else if n <? 16 then Z.testbit l (n + 8)
  else if n <? 24 then Z.testbit l (n - 8)
  else if n <? 32 then Z.testbit l (n - 24)
  else false.
Proof.
  intros Hn. unfold Dma.htonl, u32.
  change 0xFF with (Z.shiftl (Z.ones 8) 0).
  change 0xFF00 with (Z.shiftl (Z.ones 8) 8).
  change 0xFF0000 with (Z.shiftl (Z.ones 8) 16).
  change 0xFF000000 with (Z.shiftl (Z.ones 8) 24).
  rewrite !Z.lor_spec, !Z.shiftr_spec by exact Hn.
  rewrite Z.testbit_mod_pow2 by lia.
  rewrite (Z.shiftl_spec _ 8) by exact Hn.
  rewrite (Z.shiftl_spec _ 24) by exact Hn.
  rewrite !Z.land_spec.
  rewrite (testbit_byte_mask 16 (n + 8)) by lia.
  rewrite (testbit_byte_mask 24 (n + 24)) by lia.
  destruct (Z.ltb_spec n 8) as [H8|H8].
  - rewrite (Z.testbit_neg_r _ (n - 24)) by lia.
    rewrite (Z.testbit_neg_r _ (n - 8)) by lia.
    rewrite (Z.testbit_neg_r (Z.shiftl (Z.ones 8) 8)) by lia.
    replace (16 <=? n + 8) with false by (symmetry; apply Z.leb_gt; lia).
    replace (24 <=? n + 24) with true by (symmetry; apply Z.leb_le; lia).
    replace (n + 24 <? 24 + 8) with true by (symmetry; apply Z.ltb_lt; lia).
    replace (n <? 32) with true by (symmetry; apply Z.ltb_lt; lia).
    bits_done.
  - destruct (Z.ltb_spec n 16) as [H16|H16].
    + rewrite (Z.testbit_neg_r _ (n - 24)) by lia.
      rewrite (testbit_byte_mask 8 (n - 8)) by lia.
      replace (8 <=? n - 8) with false by (symmetry; apply Z.leb_gt; lia).
      replace (16 <=? n + 8) with true by (symmetry; apply Z.leb_le; lia).
      replace (n + 8 <? 16 + 8) with true by (symmetry; apply Z.ltb_lt; lia).
      replace (n + 24 <? 24 + 8) with false by (symmetry; apply Z.ltb_ge; lia).
      bits_done.
    + destruct (Z.ltb_spec n 24) as [H24|H24].
      * rewrite (Z.testbit_neg_r _ (n - 24)) by lia.
        rewrite (testbit_byte_mask 8 (n - 8)) by lia.
        replace (8 <=? n - 8) with true by (symmetry; apply Z.leb_le; lia).
        replace (n - 8 <? 8 + 8) with true by (symmetry; apply Z.ltb_lt; lia).
        replace (n + 8 <? 16 + 8) with false by (symmetry; apply Z.ltb_ge; lia).
        replace (n + 24 <? 24 + 8) with false by (symmetry; apply Z.ltb_ge; lia).
        bits_done.
      * rewrite (testbit_byte_mask 0 (n - 24)) by lia.
        rewrite (testbit_byte_mask 8 (n - 8)) by lia.
        replace (0 <=? n - 24) with true by (symmetry; apply Z.leb_le; lia).
        replace (n - 8 <? 8 + 8) with false by (symmetry; apply Z.ltb_ge; lia).
        replace (n + 8 <? 16 + 8) with false by (symmetry; apply Z.ltb_ge; lia).
        replace (n + 24 <? 24 + 8) with false by (symmetry; apply Z.ltb_ge; lia).
        destruct (Z.ltb_spec n 32) as [H32|H32].
        -- replace (n - 24 <? 0 + 8) with true by (symmetry; apply Z.ltb_lt; lia).
           bits_done.
        -- replace (n - 24 <? 0 + 8) with false by (symmetry; apply Z.ltb_ge; lia).
           bits_done.
Qed.

Lemma testbit_byte_of x k n : 0 <= k -> 0 <= n ->
  Z.testbit (Z.land (Z.shiftr x k) 0xFF) n = (n <? 8) && Z.testbit x (n + k).
Proof.
  intros Hk Hn. change 0xFF with (Z.ones 8).
  rewrite Z.land_spec, Z.shiftr_spec, Z.testbit_ones_nonneg by lia.
  apply andb_comm.
Qed.

(** X11.  [htonl], the macro that decodes the capacity an ATAPI drive
    reports, reverses the four bytes of a 32-bit value: byte [k] of the
    result is byte [3 - k] of the argument, the result fits in 32 bits,
    and swapping twice gives back the low 32 bits of the argument. *)
Theorem htonl_reverses_the_bytes :
  forall l : Z,
    Z.land (Z.shiftr (Dma.htonl l) 0) 0xFF = Z.land (Z.shiftr l 24) 0xFF /\
    Z.land (Z.shiftr (Dma.htonl l) 8) 0xFF = Z.land (Z.shiftr l 16) 0xFF /\
    Z.land (Z.shiftr (Dma.htonl l) 16) 0xFF = Z.land (Z.shiftr l 8) 0xFF /\
    Z.land (Z.shiftr (Dma.htonl l) 24) 0xFF = Z.land (Z.shiftr l 0) 0xFF /\
    0 <= Dma.htonl l < 2 ^ 32 /\
    Dma.htonl (Dma.htonl l) = u32 l.
Proof.
  intros l.
  assert (Hbyte : forall k j, (k = 0 \/ k = 8 \/ k = 16 \/ k = 24) -> k + j = 24 ->
            Z.land (Z.shiftr (Dma.htonl l) k) 0xFF = Z.land (Z.shiftr l j) 0xFF).
  { intros k j Hk Hj. apply Z.bits_inj'. intros n Hn.
    rewrite !testbit_byte_of by lia.
    destruct (Z.ltb_spec n 8) as [H8|H8]; [|reflexivity]. cbn [andb].
    rewrite htonl_testbit by lia.
    destruct Hk as [Hk|[Hk|[Hk|Hk]]]; subst k.
    - replace (n + 0 <? 8) with true by (symmetry; apply Z.ltb_lt; lia).
      f_equal. lia.
    - replace (n + 8 <? 8) with false by (symmetry; apply Z.ltb_ge; lia).
      replace (n + 8 <? 16) with true by (symmetry; apply Z.ltb_lt; lia).
      f_equal. lia.
    - replace (n + 16 <? 8) with false by (symmetry; apply Z.ltb_ge; lia).
      replace (n + 16 <? 16) with false by (symmetry; apply Z.ltb_ge; lia).
      replace (n + 16 <? 24) with true by (symmetry; apply Z.ltb_lt; lia).
      f_equal. lia.
    - replace (n + 24 <? 8) with false by (symmetry; apply Z.ltb_ge; lia).
      replace (n + 24 <? 16) with false by (symmetry; apply Z.ltb_ge; lia).
      replace (n + 24 <? 24) with false by (symmetry; apply Z.ltb_ge; lia).
      replace (n + 24 <? 32) with true by (symmetry; apply Z.ltb_lt; lia).
      f_equal. lia. }
  assert (Hfit : Dma.htonl l = Dma.htonl l mod 2 ^ 32).
  { apply Z.bits_inj'. intros n Hn.
    rewrite Z.testbit_mod_pow2 by lia.
    destruct (Z.ltb_spec n 32) as [H32|H32]; [reflexivity|].
    rewrite htonl_testbit by lia.
    replace (n <? 8) with false by (symmetry; apply Z.ltb_ge; lia).
    replace (n <? 16) with false by (symmetry; apply Z.ltb_ge; lia).
    replace (n <? 24) with false by (symmetry; apply Z.ltb_ge; lia).
    replace (n <? 32) with false by (symmetry; apply Z.ltb_ge; lia).
    reflexivity. }
  repeat split.
  - apply Hbyte; [tauto | reflexivity].
  - apply Hbyte; [tauto | reflexivity].
  - apply Hbyte; [tauto | reflexivity].
  - apply Hbyte; [tauto | reflexivity].
  - rewrite Hfit. apply Z.mod_pos_bound. lia.
  - rewrite Hfit. apply Z.mod_pos_bound. lia.
  - unfold u32. apply Z.bits_inj'. intros n Hn.
    rewrite Z.testbit_mod_pow2 by lia.
    rewrite htonl_testbit by lia.
    destruct (Z.ltb_spec n 8) as [H8|H8].
    + rewrite htonl_testbit by lia.
      replace (n + 24 <? 8) with false by (symmetry; apply Z.ltb_ge; lia).
      replace (n + 24 <? 16) with false by (symmetry; apply Z.ltb_ge; lia).
      replace (n + 24 <? 24) with false by (symmetry; apply Z.ltb_ge; lia).
      replace (n + 24 <? 32) with true by (symmetry; apply Z.ltb_lt; lia).
      replace (n <? 32) with true by (symmetry; apply Z.ltb_lt; lia).
      cbn [andb]. f_equal. lia.
    + destruct (Z.ltb_spec n 16) as [H16|H16].
      * rewrite htonl_testbit by lia.
        replace (n + 8 <? 8) with false by (symmetry; apply Z.ltb_ge; lia).
        replace (n + 8 <? 16) with false by (symmetry; apply Z.ltb_ge; lia).
        replace (n + 8 <? 24) with true by (symmetry; apply Z.ltb_lt; lia).
        replace (n <? 32) with true by (symmetry; apply Z.ltb_lt; lia).
        cbn [andb]. f_equal. lia.
      * destruct (Z.ltb_spec n 24) as [H24|H24].
        -- rewrite htonl_testbit by lia.
           replace (n - 8 <? 8) with false by (symmetry; apply Z.ltb_ge; lia).
           replace (n - 8 <? 16) with true by (symmetry; apply Z.ltb_lt; lia).
           replace (n <? 32) with true by (symmetry; apply Z.ltb_lt; lia).
           cbn [andb]. f_equal. lia.
        -- destruct (Z.ltb_spec n 32) as [H32|H32]; [|reflexivity].
           rewrite htonl_testbit by lia.
           replace (n - 24 <? 8) with true by (symmetry; apply Z.ltb_lt; lia).
           cbn [andb]. f_equal. lia.
Qed.

(** ** Initialising a drive in the DMA driver *)

Lemma dev_id_eqb_refl d : dev_id_eqb d d = true.
Proof. destruct d; reflexivity. Qed.

Lemma quiet_run {E G A} (dev : ata_device) (m : M E G A) w a w' t :
  frames eq m -> tally (is_data_in dev) 0 m ->
  m w = Ok (a, w', t) -> glob w' = glob w /\ data_read dev t = [].
Proof.
  intros Hf Ht Hr. split.
  - symmetry. exact (Hf _ _ _ _ Hr).
  - apply data_read_none. exact (Ht _ _ _ _ Hr).
Qed.

Section DmaInit.
Context {E : Type} {P : platform E} {H : ata_h} {F : fs_h}.
Local Abbreviation G := Dma.globals.

Lemma dma_poll_packet_quiet dev0 fuel dev verdict :
  frames eq (Dma.poll_packet (E:=E) fuel dev verdict) /\
  tally (is_data_in dev0) 0 (Dma.poll_packet (E:=E) fuel dev verdict).
Proof.
  pose proof (@eq_trans_globals G) as Ht.
  split; induction fuel; cbn [Dma.poll_packet].
  - frames_go.
  - frames_go.
  - apply tally_out_of_fuel.
  - eapply tally_bind; [apply tally_port_read_miss; reflexivity | | reflexivity].
    intros status. destruct (verdict status); [apply tally_ret | exact IHfuel].
Qed.

Lemma dma_write_words_quiet dev0 port ws :
  frames eq (Dma.write_words (E:=E) port ws) /\
  tally (is_data_in dev0) 0 (Dma.write_words (E:=E) port ws).
Proof.
  pose proof (@eq_trans_globals G) as Ht.
  split; induction ws; cbn [Dma.write_words].
  - frames_go.
  - frames_go.
  - apply tally_ret.
  - tally_go by_hyp.
Qed.

Lemma dma_update_dev_inv d f (w : world E G) a w' t :
  Dma.update_dev d f w = Ok (a, w', t) ->
  glob w' = Dma.set_dev d (f (Dma.devs (glob w) d)) (glob w) /\ t = [].
Proof.
  unfold Dma.update_dev. rewrite bind_get_globals. intros Hr.
  injection Hr as _ <- <-. split; reflexivity.
Qed.

(** Peeling one operation off a run: an operation that leaves the
    globals alone and reads no data word. *)
Ltac quiet dev Hr :=
  let Hq := fresh "Hq" in
  let Hg := fresh "Hg" in
  let Hd := fresh "Hd" in
  apply bind_ok in Hr as (? & ? & ? & ? & Hq & Hr & ->);
  apply (quiet_run dev) in Hq as [Hg Hd];
  [ rewrite ?data_read_app, ?Hd; cbn [app]
  | first [ apply (dma_poll_packet_quiet dev) | apply (dma_write_words_quiet dev)
          | unfold outportb, inportb; auto with frames ]
  | first [ apply (dma_poll_packet_quiet dev) | apply (dma_write_words_quiet dev)
          | apply tally_ata_io_wait; reflexivity
          | apply tally_ata_wait; reflexivity
          | tally_go by_hyp ] ].

Lemma dma_identify_effect fuel d cmd (w : world E G) a w' t :
  Dma.identify fuel d cmd w = Ok (a, w', t) ->
  let dev := Dma.devs (glob w) d in
  List.length (data_read dev t) = 256%nat /\
  glob w' = Dma.set_dev d (set_identity (identify_swapped (data_read dev t)) dev)
              (glob w).
Proof.
  pose proof (@eq_trans_globals G) as Ht.
  intros Hr dev. unfold Dma.identify in Hr.
  rewrite bind_get_globals in Hr. fold dev in Hr.
  do 8 (quiet dev Hr).
  apply bind_ok in Hr as (ws & w9 & t9 & ? & H9 & Hr & ->).
  apply (read_words_receives dev) in H9 as (-> & Hlen & _ & G9); [|reflexivity].
  apply dma_update_dev_inv in Hr as [-> ->].
  rewrite data_read_app. cbn [data_read filter map app]. rewrite app_nil_r.
  fold (data_read dev t9).
  split; [exact Hlen|].
  assert (Hgw : glob w9 = glob w) by congruence.
  rewrite Hgw. reflexivity.
Qed.

Lemma dma_update_dev_at d f (w : world E G) a w' t :
  Dma.update_dev d f w = Ok (a, w', t) ->
  Dma.devs (glob w') d = f (Dma.devs (glob w) d) /\
  (forall d', dev_id_eqb d' d = false ->
              Dma.devs (glob w') d' = Dma.devs (glob w) d') /\
  t = [].
Proof.
  intros Hr. apply dma_update_dev_inv in Hr as [-> ->].
  cbn [Dma.devs Dma.set_dev]. rewrite dev_id_eqb_refl.
  repeat split. intros d' Hd'. now rewrite Hd'.
Qed.

Lemma tally_data_kvmalloc_p dev n :
  tally (is_data_in dev) 0 (kvmalloc_p (E:=E) (G:=G) n).
Proof.
  apply tally_silent. intros w a w' t Hr. unfold kvmalloc_p in Hr.
  destruct (kvmalloc_phys n (plat w)). now injection Hr as _ _ <-.
Qed.

Lemma tally_data_prdt_write dev prdt entry :
  tally (is_data_in dev) 0 (prdt_write (E:=E) (G:=G) prdt entry).
Proof. apply tally_silent. intros w a w' t Hr. now injection Hr as _ _ <-. Qed.

Lemma tally_data_pci_read dev pdev field size :
  tally (is_data_in dev) 0 (pci_read (E:=E) (G:=G) pdev field size).
Proof.
  intros w a w' t Hr. unfold pci_read in Hr.
  destruct (pci_read_field pdev field size (plat w)).
  now injection Hr as _ _ <-.
Qed.

Lemma tally_data_pci_write dev pdev field size v :
  tally (is_data_in dev) 0 (pci_write (E:=E) (G:=G) pdev field size v).
Proof. intros w a w' t Hr. now injection Hr as _ _ <-. Qed.

Lemma masked_bar_is_even b : Z.land (Z.land b 0xFFFFFFFC) 1 = 0.
Proof.
  rewrite <- Z.land_assoc. change (Z.land 0xFFFFFFFC 1) with 0.
  apply Z.land_0_r.
Qed.

Lemma dma_init_effect fuel d (w : world E G) a w' t :
  Dma.ata_device_init fuel d w = Ok (a, w', t) ->
  let dev := Dma.devs (glob w) d in
  let dev' := Dma.devs (glob w') d in
  List.length (data_read dev t) = 256%nat /\
  (exists prdt start b,
     dev' = Dma.set_bar4 b
              (Dma.set_dma prdt start
                 (Dma.set_is_atapi 0
                    (set_identity (identify_swapped (data_read dev t)) dev))) /\
     Z.land b 1 = 0) /\
  (forall d', dev_id_eqb d' d = false ->
              Dma.devs (glob w') d' = Dma.devs (glob w) d').
Proof.
  pose proof (@eq_trans_globals G) as Ht.
  intros Hr dev dev'. unfold Dma.ata_device_init in Hr.
  apply bind_ok in Hr as (? & w1 & t1 & ? & Hi & Hr & ->).
  apply dma_identify_effect in Hi as [Hlen G1]. fold dev in Hlen, G1.
  set (ws := data_read dev t1) in *.
  assert (D1 : Dma.devs (glob w1) d = set_identity (identify_swapped ws) dev).
  { rewrite G1. cbn [Dma.devs Dma.set_dev]. now rewrite dev_id_eqb_refl. }
  assert (O1 : forall d', dev_id_eqb d' d = false ->
                          Dma.devs (glob w1) d' = Dma.devs (glob w) d').
  { intros d' Hd'. rewrite G1. cbn [Dma.devs Dma.set_dev]. now rewrite Hd'. }
  apply bind_ok in Hr as (? & w2 & t2 & ? & Hu & Hr & ->).
  apply dma_update_dev_at in Hu as (D2 & O2 & ->). rewrite D1 in D2.
  apply bind_ok in Hr as (prdt & w3 & t3 & ? & Hq & Hr & ->).
  apply (quiet_run dev) in Hq as [G3 Hd3];
    [|auto with frames | apply tally_data_kvmalloc_p].
  apply bind_ok in Hr as (start & w4 & t4 & ? & Hq & Hr & ->).
  apply (quiet_run dev) in Hq as [G4 Hd4];
    [|auto with frames | apply tally_data_kvmalloc_p].
  apply bind_ok in Hr as (? & w5 & t5 & ? & Hu & Hr & ->).
  apply dma_update_dev_at in Hu as (D5 & O5 & ->).
  rewrite G4, G3, D2 in D5.
  apply bind_ok in Hr as (? & w6 & t6 & ? & Hq & Hr & ->).
  apply (quiet_run dev) in Hq as [G6 Hd6];
    [|auto with frames | apply tally_data_prdt_write].
  rewrite bind_get_globals in Hr.
  apply bind_ok in Hr as (creg & w7 & t7 & ? & Hq & Hr & ->).
  apply (quiet_run dev) in Hq as [G7 Hd7];
    [|auto with frames | apply tally_data_pci_read].
  apply bind_ok in Hr as (? & w8 & t8 & ? & Hq & Hr & ->).
  apply (quiet_run dev) in Hq as [G8 Hd8].
  2:{ destruct (truthy _); [auto with frames|].
      repeat (apply frames_bind; [auto | auto with frames | intros]).
      auto with frames. }
  2:{ destruct (truthy _); [apply tally_ret|].
      eapply tally_bind; [apply tally_data_pci_write | intros | reflexivity].
      eapply tally_bind; [apply tally_data_pci_read | intros; apply tally_ret
                         | reflexivity]. }
  apply bind_ok in Hr as (b & w9 & t9 & ? & Hq & Hr & ->).
  apply (quiet_run dev) in Hq as [G9 Hd9];
    [|auto with frames | apply tally_data_pci_read].
  apply bind_ok in Hr as (? & w10 & t10 & tl & Hu & Hr & ->).
  apply dma_update_dev_at in Hu as (D10 & O10 & ->).
  rewrite G9, G8, G7, G6, D5 in D10.
  assert (Oall : forall d', dev_id_eqb d' d = false ->
                            Dma.devs (glob w10) d' = Dma.devs (glob w) d').
  { intros d' Hd'. rewrite (O10 d' Hd'), G9, G8, G7, G6, (O5 d' Hd'), G4, G3.
    rewrite (O2 d' Hd'). exact (O1 d' Hd'). }
  assert (Hdata : forall tl', tl' = [] ->
            data_read dev (t1 ++ [] ++ t3 ++ t4 ++ [] ++ t6 ++ t7 ++ t8 ++ t9
                              ++ [] ++ tl') = ws).
  { intros tl' ->. rewrite !data_read_app, Hd3, Hd4, Hd6, Hd7, Hd8, Hd9.
    cbn [data_read filter map app]. rewrite app_nil_r. reflexivity. }
  destruct (truthy (Z.land b 1)) eqn:Hodd.
  - apply dma_update_dev_at in Hr as (D11 & O11 & ->).
    rewrite D10 in D11. rewrite (Hdata [] eq_refl).
    split; [exact Hlen|]. split.
    + exists prdt, start, (Z.land b 0xFFFFFFFC). split.
      * unfold dev'. rewrite D11. reflexivity.
      * apply masked_bar_is_even.
    + intros d' Hd'. rewrite (O11 d' Hd'). exact (Oall d' Hd').
  - injection Hr as _ <- <-. rewrite (Hdata [] eq_refl).
    split; [exact Hlen|]. split.
    + exists prdt, start, b. split.
      * unfold dev'. rewrite D10. reflexivity.
      * unfold truthy in Hodd. apply negb_false_iff, Z.eqb_eq in Hodd. exact Hodd.
    + exact Oall.
Qed.
Lemma dma_atapi_init_effect fuel d (w : world E G) r w' t :
  Dma.atapi_device_init fuel d w = Ok (r, w', t) ->
  let dev := Dma.devs (glob w) d in
  let dev' := Dma.devs (glob w') d in
  exists ws rest,
    data_read dev t = (ws ++ rest)%list /\ List.length ws = 256%nat /\
    ((r = 1 /\ rest = [] /\
      dev' = set_identity (identify_swapped ws) (Dma.set_is_atapi 1 dev)) \/
     (List.length rest = 4%nat /\
      dev' = Dma.set_capacity (Dma.htonl (words_value rest 0 2))
               (Dma.htonl (words_value rest 2 2))
               (set_identity (identify_swapped ws) (Dma.set_is_atapi 1 dev)) /\
      r = if truthy (Dma.htonl (words_value rest 0 2)) then 0 else 1)) /\
    (forall d', dev_id_eqb d' d = false ->
                Dma.devs (glob w') d' = Dma.devs (glob w) d').
Proof.
  pose proof (@eq_trans_globals G) as Ht.
  intros Hr dev dev'. unfold Dma.atapi_device_init in Hr.
  apply bind_ok in Hr as (? & w1 & t1 & ? & Hu & Hr & ->).
  apply dma_update_dev_at in Hu as (D1 & O1 & ->). fold dev in D1.
  apply bind_ok in Hr as (? & w2 & t2 & ? & Hi & Hr & ->).
  apply dma_identify_effect in Hi as [Hlen G2]. rewrite D1 in Hlen, G2.
  assert (Hsame : forall tr, data_read (Dma.set_is_atapi 1 dev) tr = data_read dev tr)
    by reflexivity.
  rewrite Hsame in Hlen, G2.
  set (ws := data_read dev t2) in *.
  set (base := set_identity (identify_swapped ws) (Dma.set_is_atapi 1 dev)) in *.
  assert (D2 : Dma.devs (glob w2) d = base).
  { rewrite G2. cbn [Dma.devs Dma.set_dev]. now rewrite dev_id_eqb_refl. }
  assert (O2 : forall d', dev_id_eqb d' d = false ->
                          Dma.devs (glob w2) d' = Dma.devs (glob w) d').
  { intros d' Hd'. rewrite G2. cbn [Dma.devs Dma.set_dev]. rewrite Hd'.
    exact (O1 d' Hd'). }
  rewrite bind_get_globals in Hr. rewrite D2 in Hr.
  cbn [app]. rewrite data_read_app. fold ws.
  do 4 (quiet dev Hr).
  apply bind_ok in Hr as (ready & w7 & t7 & ? & Hq & Hr & ->).
  apply (quiet_run dev) in Hq as [G7 Hd7]; [|apply (dma_poll_packet_quiet dev) ..].
  rewrite ?data_read_app, Hd7. cbn [app].
  assert (G7' : glob w7 = glob w2) by congruence.
  destruct ready; cbn [negb] in Hr.
  2:{ injection Hr as <- <- <-. exists ws, []. cbn [data_read filter map app]. rewrite ?app_nil_r.
      split; [reflexivity|]. split; [exact Hlen|]. split.
      - left. repeat split. unfold dev'. rewrite G7'. exact D2.
      - intros d' Hd'. rewrite G7'. exact (O2 d' Hd'). }
  apply bind_ok in Hr as (? & w8 & t8 & ? & Hq & Hr & ->).
  apply (quiet_run dev) in Hq as [G8 Hd8]; [|apply (dma_write_words_quiet dev) ..].
  apply bind_ok in Hr as (ready & w9 & t9 & ? & Hq & Hr & ->).
  apply (quiet_run dev) in Hq as [G9 Hd9]; [|apply (dma_poll_packet_quiet dev) ..].
  rewrite ?data_read_app, Hd8, Hd9. cbn [app].
  assert (G9' : glob w9 = glob w2) by congruence.
  destruct ready; cbn [negb] in Hr.
  2:{ injection Hr as <- <- <-. exists ws, []. cbn [data_read filter map app]. rewrite ?app_nil_r.
      split; [reflexivity|]. split; [exact Hlen|]. split.
      - left. repeat split. unfold dev'. rewrite G9'. exact D2.
      - intros d' Hd'. rewrite G9'. exact (O2 d' Hd'). }
  apply bind_ok in Hr as (data & w10 & t10 & ? & Hdata & Hr & ->).
  apply (read_words_receives dev) in Hdata as (-> & Hlen4 & _ & G10).
  2:{ unfold base. cbn [io_base set_identity Dma.set_is_atapi]. apply u16_idem. }
  apply bind_ok in Hr as (? & w11 & t11 & tl & Hu & Hr & ->).
  apply dma_update_dev_at in Hu as (D11 & O11 & ->).
  rewrite G10, G9', D2 in D11.
  exists ws, (data_read dev t10).
  assert (Hfin : glob w' = glob w11 /\
                 r = (if truthy (Dma.htonl (words_value (data_read dev t10) 0 2))
                      then 0 else 1) /\
                 tl = []).
  { destruct (truthy (Dma.htonl (words_value (data_read dev t10) 0 2)));
      cbn [negb] in Hr; injection Hr as <- <- <-; repeat split. }
  destruct Hfin as (Gf & -> & ->).
  rewrite !data_read_app. cbn [data_read filter map app]. rewrite app_nil_r.
  fold (data_read dev t10).
  split; [reflexivity|]. split; [exact Hlen|]. split.
  - right. split; [exact Hlen4|]. split; [|reflexivity].
    unfold dev'. rewrite Gf. exact D11.
  - intros d' Hd'. rewrite Gf, (O11 d' Hd'), G10, G9'. exact (O2 d' Hd').
Qed.
End DmaInit.

(** X12.  What the DMA driver's [ata_device_init] leaves in the device
    record: the identity is the IDENTIFY block, the 256 words it read
    from the data port with the model string swapped; the device is
    marked as not ATAPI; and the bus-master base it stores has bit 0
    clear, whatever BAR4 read.  The ports of the device, its ATAPI
    capacity and the other three devices are as they were. *)
Theorem dma_init_installs_a_hard_disk :
  forall (E : Type) (P : platform E) (H : ata_h) (F : fs_h) (fuel : nat)
         (d : dev_id) (w : world E Dma.globals) a w' t,
    Dma.ata_device_init fuel d w = Ok (a, w', t) ->
    let dev := Dma.devs (glob w) d in
    let dev' := Dma.devs (glob w') d in
    List.length (data_read dev t) = 256%nat /\
    identity dev' = identify_swapped (data_read dev t) /\
    is_atapi dev' = 0 /\
    Z.land (bar4 dev') 1 = 0 /\
    (io_base dev' = io_base dev /\ control dev' = control dev /\
     slave dev' = slave dev /\ atapi_lba dev' = atapi_lba dev /\
     atapi_sector_size dev' = atapi_sector_size dev) /\
    (forall d', dev_id_eqb d' d = false ->
                Dma.devs (glob w') d' = Dma.devs (glob w) d').
Proof.
  intros E P H F fuel d w a w' t Hr dev dev'.
  destruct (dma_init_effect fuel d w a w' t Hr)
    as (Hlen & (prdt & start & b & Hdev & Hb) & Hother).
  fold dev in Hlen, Hdev. fold dev' in Hdev.
  split; [exact Hlen|]. rewrite Hdev.
  cbn [identity is_atapi bar4 io_base control slave atapi_lba atapi_sector_size
       Dma.set_bar4 Dma.set_dma Dma.set_is_atapi set_identity].
  repeat split; try reflexivity; assumption.
Qed.

Lemma dma_init_installs_a_hard_disk_witness :
  exists w' t,
    Dma.ata_device_init (P:=Sim.sim_platform Examples.small_disk) (H:=Sim.header)
      (F:=Sim.fs) 4 ata_primary_master Examples.dma_boot = Ok (tt, w', t) /\
    is_atapi (Dma.devs (glob w') ata_primary_master) = 0 /\
    Z.land (bar4 (Dma.devs (glob w') ata_primary_master)) 1 = 0.
Proof.
  assert (Hok : succeeded
                  (Dma.ata_device_init (P:=Sim.sim_platform Examples.small_disk)
                     (H:=Sim.header) (F:=Sim.fs) 4 ata_primary_master
                     Examples.dma_boot) = true)
    by (vm_compute; reflexivity).
  destruct (Dma.ata_device_init (P:=Sim.sim_platform Examples.small_disk)
              (H:=Sim.header) (F:=Sim.fs) 4 ata_primary_master Examples.dma_boot)
    as [[[[] w'] t]| |] eqn:Hr; try discriminate Hok.
  exists w', t. split; [reflexivity|].
  destruct (dma_init_installs_a_hard_disk Sim.state
              (Sim.sim_platform Examples.small_disk) Sim.header Sim.fs 4%nat
              ata_primary_master Examples.dma_boot tt w' t Hr)
    as (_ & _ & Ha & Hb & _).
  split; assumption.
Defined.

(** X13.  What [atapi_device_init] leaves in the device record.  The
    device is marked ATAPI whether the probe succeeds or not.  The
    result is 0 or 1, and it is 0 only if the drive answered READ
    CAPACITY: then the data port gave the 256 words of IDENTIFY PACKET
    and four words more, the last block and the block size stored are
    the first and the second pair of those words read big-endian, and
    the last block is not zero.  The ports of the device and the other
    three devices are as they were. *)
Theorem atapi_init_records_the_capacity :
  forall (E : Type) (P : platform E) (H : ata_h) (fuel : nat)
         (d : dev_id) (w : world E Dma.globals) r w' t,
    Dma.atapi_device_init fuel d w = Ok (r, w', t) ->
    let dev := Dma.devs (glob w) d in
    let dev' := Dma.devs (glob w') d in
    is_atapi dev' = 1 /\
    (r = 0 \/ r = 1) /\
    (r = 0 ->
     exists ws rest,
       data_read dev t = (ws ++ rest)%list /\
       List.length ws = 256%nat /\ List.length rest = 4%nat /\
       identity dev' = identify_swapped ws /\
       atapi_lba dev' = Dma.htonl (words_value rest 0 2) /\
       atapi_sector_size dev' = Dma.htonl (words_value rest 2 2) /\
       atapi_lba dev' <> 0) /\
    (io_base dev' = io_base dev /\ control dev' = control dev /\
     slave dev' = slave dev) /\
    (forall d', dev_id_eqb d' d = false ->
                Dma.devs (glob w') d' = Dma.devs (glob w) d').
Proof.
  intros E P H fuel d w r w' t Hr dev dev'.
  destruct (dma_atapi_init_effect fuel d w r w' t Hr)
    as (ws & rest & Hdata & Hlen & Hcase & Hother).
  fold dev in Hdata, Hcase. fold dev' in Hcase.
  destruct Hcase as [(-> & -> & Hdev) | (Hlen4 & Hdev & Hres)].
  - rewrite Hdev.
    cbn [is_atapi io_base control slave set_identity Dma.set_is_atapi].
    repeat split; try reflexivity; try assumption.
    + now right.
    + discriminate.
  - rewrite Hdev.
    cbn [is_atapi io_base control slave identity atapi_lba atapi_sector_size
         set_identity Dma.set_is_atapi Dma.set_capacity].
    split; [reflexivity|].
    destruct (truthy (Dma.htonl (words_value rest 0 2))) eqn:Hlba; subst r.
    + split; [now left|]. split; [|split; [repeat split | exact Hother]].
      intros _. exists ws, rest.
      repeat split; try reflexivity; try assumption.
      unfold truthy in Hlba. apply negb_true_iff, Z.eqb_neq in Hlba. exact Hlba.
    + split; [now right|]. split; [discriminate|].
      split; [repeat split | exact Hother].
Qed.

Lemma atapi_init_records_the_capacity_witness :
  exists w' t,
    Dma.atapi_device_init (P:=Sim.sim_platform Examples.cdrom_loaded)
      (H:=Sim.header) 4 ata_primary_master Examples.dma_boot
    = Ok (0, w', t) /\
    is_atapi (Dma.devs (glob w') ata_primary_master) = 1 /\
    atapi_lba (Dma.devs (glob w') ata_primary_master) <> 0.
Proof.
  assert (Hok : value_of
                  (Dma.atapi_device_init (P:=Sim.sim_platform Examples.cdrom_loaded)
                     (H:=Sim.header) 4 ata_primary_master
                     Examples.dma_boot) = Some 0)
    by (vm_compute; reflexivity).
  destruct (Dma.atapi_device_init (P:=Sim.sim_platform Examples.cdrom_loaded)
              (H:=Sim.header) 4 ata_primary_master Examples.dma_boot)
    as [[[r w'] t]| |] eqn:Hr; try discriminate Hok.
  cbn in Hok. injection Hok as ->.
  exists w', t. split; [reflexivity|].
  destruct (atapi_init_records_the_capacity Sim.state
              (Sim.sim_platform Examples.cdrom_loaded) Sim.header 4%nat
              ata_primary_master Examples.dma_boot 0 w' t Hr)
    as (Ha & _ & Hz & _).
  split; [exact Ha|].
  destruct (Hz eq_refl) as (ws & rest & _ & _ & _ & _ & _ & _ & Hn).
  exact Hn.
Defined.

(** ** Reading a sector from an ATAPI drive *)

Section AtapiSector.
Context {E : Type} {P : platform E} {H : ata_h}.
Local Abbreviation G := Dma.globals.

Lemma dma_lock_quiet dev :
  frames eq (spin_lock (E:=E) (G:=G)) /\
  tally (is_data_in dev) 0 (spin_lock (E:=E) (G:=G)).
Proof.
  split.
  - intros w a w' t Hr. unfold spin_lock in Hr.
    destruct (ata_lock w); [discriminate|]. now injection Hr as _ <- _.
  - apply tally_spin_lock. reflexivity.
Qed.

Lemma dma_unlock_quiet dev :
  frames eq (spin_unlock (E:=E) (G:=G)) /\
  tally (is_data_in dev) 0 (spin_unlock (E:=E) (G:=G)).
Proof.
  split.
  - intros w a w' t Hr. now injection Hr as _ <- _.
  - apply tally_spin_unlock. reflexivity.
Qed.

Lemma dma_sleep_quiet dev :
  frames eq (sleep_on (E:=E) (G:=G)) /\
  tally (is_data_in dev) 0 (sleep_on (E:=E) (G:=G)).
Proof.
  split.
  - intros w a w' t Hr. now injection Hr as _ <- _.
  - intros w a w' t Hr. now injection Hr as _ _ <-.
Qed.

Lemma inportsm_receives dev port : u16 port = u16 (io_base dev) ->
  forall n buf off (w : world E G) rb w' t,
    inportsm port buf off n w = Ok (rb, w', t) ->
    List.length (data_read dev t) = n /\
    rb = store_words buf off (data_read dev t) /\
    glob w' = glob w.
Proof.
  intros Hp. induction n as [|n IH]; intros buf off w rb w' t Hr.
  - injection Hr as <- <- <-. now repeat split.
  - cbn [inportsm] in Hr.
    apply bind_ok in Hr as (v & w1 & t1 & t2 & Hv & Hr & ->).
    apply port_read_keeps in Hv as (_ & Hg1 & ->).
    destruct (IH _ _ _ _ _ _ Hr) as (Hlen & -> & Hg2).
    rewrite data_read_app.
    assert (Hone : data_read dev [EvIn 16 (u16 port) v] = [v]).
    { unfold data_read, filter, is_data_in. rewrite Hp, Z.eqb_refl. reflexivity. }
    rewrite Hone. cbn [app List.length store_words].
    split; [now rewrite Hlen|]. split; [reflexivity | congruence].
Qed.

Ltac quiet dev Hr :=
  let Hq := fresh "Hq" in
  let Hg := fresh "Hg" in
  let Hd := fresh "Hd" in
  apply bind_ok in Hr as (? & ? & ? & ? & Hq & Hr & ->);
  apply (quiet_run dev) in Hq as [Hg Hd];
  [ rewrite ?data_read_app, ?Hd; cbn [app]
  | first [ apply (dma_poll_packet_quiet dev) | apply (dma_write_words_quiet dev)
          | apply (dma_lock_quiet dev) | apply (dma_unlock_quiet dev)
          | apply (dma_sleep_quiet dev)
          | unfold outportb, inportb; auto with frames ]
  | first [ apply (dma_poll_packet_quiet dev) | apply (dma_write_words_quiet dev)
          | apply (dma_lock_quiet dev) | apply (dma_unlock_quiet dev)
          | apply (dma_sleep_quiet dev)
          | apply tally_ata_io_wait; reflexivity
          | tally_go by_hyp ] ].

Lemma dma_unlock_ret_inv (buf : mem) (w : world E G) rb w' t :
  bind spin_unlock (fun _ => ret buf) w = Ok (rb, w', t) ->
  rb = buf /\ glob w' = glob w /\ t = [EvUnlock].
Proof. intros Hr. injection Hr as <- <- <-. repeat split. Qed.

Lemma dma_read_sector_atapi_effect fuel dev lba buf off (w : world E G) rb w' t :
  Dma.ata_device_read_sector_atapi fuel dev lba buf off w = Ok (rb, w', t) ->
  rb = store_words buf off (data_read dev t) /\
  (data_read dev t = [] \/
   exists t0 hi lo t1,
     t = (t0 ++ EvIn 8 (u16 (u16 (io_base dev) + ATA_REG_LBA2)) hi
             :: EvIn 8 (u16 (u16 (io_base dev) + ATA_REG_LBA1)) lo :: t1)%list /\
     List.length (data_read dev t)
     = Z.to_nat (u16 (Z.lor (u16 (Z.shiftl hi 8)) lo) / 2)) /\
  (glob w' = glob w \/ glob w' = Dma.set_in_progress 0 (glob w)).
Proof.
  pose proof (@eq_trans_globals G) as Ht.
  unfold Dma.ata_device_read_sector_atapi. intros Hr.
  destruct (negb (truthy (is_atapi dev))).
  { injection Hr as <- <- <-. repeat split; now left. }
  do 7 (quiet dev Hr).
  apply bind_ok in Hr as (ready & w9 & t9 & ? & Hq & Hr & ->).
  apply (quiet_run dev) in Hq as [G9 Hd9]; [|apply (dma_poll_packet_quiet dev) ..].
  rewrite ?data_read_app, Hd9. cbn [app].
  assert (G9' : glob w9 = glob w) by congruence.
  destruct ready; cbn [negb] in Hr.
  2:{ apply dma_unlock_ret_inv in Hr as (-> & Gu & ->).
      cbn [data_read filter map is_data_in store_words].
      repeat split; left; [reflexivity | congruence]. }
  rewrite bind_get_globals in Hr.
  apply bind_ok in Hr as (? & w10 & t10 & ? & Hp & Hr & ->).
  injection Hp as _ <- <-.
  quiet dev Hr. quiet dev Hr.
  rewrite bind_get_globals in Hr.
  apply bind_ok in Hr as (? & w13 & t13 & ? & Hp & Hr & ->).
  injection Hp as _ <- <-.
  match goal with
  | Hg1 : glob ?wa = glob _, Hg2 : glob ?wb = glob ?wa |- _ =>
      match type of Hr with
      | context [Dma.set_in_progress 0 (glob wb)] =>
          assert (G13 : Dma.set_in_progress 0 (glob wb)
                        = Dma.set_in_progress 0 (glob w))
            by (rewrite Hg2, Hg1; cbn [glob set_globals]; rewrite G9'; reflexivity)
      end
  end.
  rewrite G13 in Hr.
  apply bind_ok in Hr as (ready & w14 & t14 & ? & Hq & Hr & ->).
  apply (quiet_run dev) in Hq as [G14 Hd14]; [|apply (dma_poll_packet_quiet dev) ..].
  cbn [glob set_globals] in G14.
  rewrite ?data_read_app, Hd14. cbn [app data_read filter map].
  destruct ready; cbn [negb] in Hr.
  2:{ apply dma_unlock_ret_inv in Hr as (-> & Gu & ->).
      cbn [data_read filter map is_data_in store_words].
      split; [reflexivity|]. split; [now left|]. right. congruence. }
  apply bind_ok in Hr as (hi & w15 & t15 & ? & Hh & Hr & ->).
  apply port_read_keeps in Hh as (_ & G15 & ->).
  apply bind_ok in Hr as (lo & w16 & t16 & ? & Hl & Hr & ->).
  apply port_read_keeps in Hl as (_ & G16 & ->).
  apply bind_ok in Hr as (b & w17 & t17 & ? & Hi & Hr & ->).
  apply (inportsm_receives dev) in Hi as (Hlen & -> & G17); [|apply u16_idem].
  quiet dev Hr.
  apply dma_unlock_ret_inv in Hr as (-> & Gu & ->).
  rewrite ?data_read_app.
  cbn [data_read filter map is_data_in app]. fold (data_read dev t17).
  rewrite app_nil_r.
  split; [reflexivity|]. split.
  - right. eexists _, hi, lo, _. split; [rewrite !app_assoc; reflexivity | exact Hlen].
  - right. congruence.
Qed.
End AtapiSector.

(** X14.  [ata_device_read_sector_atapi] stores what the data port
    gave, and as much as the drive announced: the buffer returned is
    the one given with the words read stored at [buf], in order; a
    run reads either no word at all, and then returns the buffer as it
    was, or as many words as half the byte count read from LBA2 and
    LBA1 after the packet, whatever the block size of the device.  On
    a device that is not marked ATAPI nothing at all is done.  Of the
    driver's variables only [atapi_in_progress] can differ afterwards,
    and then it is 0. *)
Theorem atapi_sector_read_stores_what_the_drive_announced :
  forall (E : Type) (P : platform E) (H : ata_h) (fuel : nat)
         (dev : ata_device) (lba : Z) (buf : mem) (off : Z)
         (w : world E Dma.globals) rb w' t,
    Dma.ata_device_read_sector_atapi fuel dev lba buf off w = Ok (rb, w', t) ->
    rb = store_words buf off (data_read dev t) /\
    (data_read dev t = [] \/
     exists t0 hi lo t1,
       t = (t0 ++ EvIn 8 (u16 (u16 (io_base dev) + ATA_REG_LBA2)) hi
               :: EvIn 8 (u16 (u16 (io_base dev) + ATA_REG_LBA1)) lo :: t1)%list /\
       List.length (data_read dev t)
       = Z.to_nat (u16 (Z.lor (u16 (Z.shiftl hi 8)) lo) / 2)) /\
    (is_atapi dev = 0 -> t = [] /\ w' = w) /\
    (glob w' = glob w \/ glob w' = Dma.set_in_progress 0 (glob w)).
Proof.
  intros E P H fuel dev lba buf off w rb w' t Hr.
  destruct (dma_read_sector_atapi_effect fuel dev lba buf off w rb w' t Hr)
    as (Hrb & Hlen & Hg).
  split; [exact Hrb|]. split; [exact Hlen|]. split; [|exact Hg].
  intros Hz. unfold Dma.ata_device_read_sector_atapi in Hr. rewrite Hz in Hr.
  change (negb (truthy 0)) with true in Hr. cbv iota in Hr.
  injection Hr as _ <- <-. split; reflexivity.
Qed.

Lemma atapi_sector_read_stores_what_the_drive_announced_witness :
  exists rb w' t,
    Dma.ata_device_read_sector_atapi (P:=Sim.sim_platform Examples.short_packet)
      (H:=Sim.header) 4 (Examples.cd_drive 8 2048) 3 zeroes 0
      (Examples.cd_ready 8 2048) = Ok (rb, w', t) /\
    rb = store_words zeroes 0 (data_read (Examples.cd_drive 8 2048) t).
Proof.
  assert (Hok : succeeded
                  (Dma.ata_device_read_sector_atapi
                     (P:=Sim.sim_platform Examples.short_packet) (H:=Sim.header)
                     4 (Examples.cd_drive 8 2048) 3 zeroes 0
                     (Examples.cd_ready 8 2048)) = true)
    by (vm_compute; reflexivity).
  destruct (Dma.ata_device_read_sector_atapi
              (P:=Sim.sim_platform Examples.short_packet) (H:=Sim.header)
              4 (Examples.cd_drive 8 2048) 3 zeroes 0 (Examples.cd_ready 8 2048))
    as [[[rb w'] t]| |] eqn:Hr; try discriminate Hok.
  exists rb, w', t. split; [reflexivity|].
  exact (proj1 (atapi_sector_read_stores_what_the_drive_announced Sim.state
                  (Sim.sim_platform Examples.short_packet) Sim.header 4%nat
                  (Examples.cd_drive 8 2048) 3 zeroes 0 (Examples.cd_ready 8 2048)
                  rb w' t Hr)).
Defined.

(** ** Byte ranges of an ATAPI medium *)

Section ReadAtapi.
Context {E : Type} {P : platform E} {H : ata_h}.
Local Abbreviation G := Dma.globals.

Lemma dma_read_atapi_value fuel node offset size buffer (w : world E G) n m w' t :
  Dma.read_atapi fuel node offset size buffer w = Ok ((n, m), w', t) ->
  let dev := Dma.devs (glob w) (device node) in
  let cap := Dma.atapi_max_offset dev in
  atapi_sector_size dev <> 0 /\
  n = (if u64 offset >? cap then 0
       else if u64 (u64 offset + size) >? cap
            then u32 (u64 (cap - u64 offset)) else size) /\
  ((u64 offset >? cap) = true -> m = buffer /\ w' = w /\ t = []).
Proof.
  intros Hr dev cap. unfold Dma.read_atapi, Dma.koff in Hr.
  rewrite bind_get_globals in Hr. fold dev in Hr. fold cap in Hr.
  destruct (atapi_sector_size dev =? 0) eqn:Hs; [discriminate|].
  apply Z.eqb_neq in Hs. split; [exact Hs|].
  destruct (u64 offset >? cap).
  - injection Hr as <- <- <- <-. split; [reflexivity|]. intros _. repeat split.
  - split; [|discriminate].
    apply bind_ok in Hr as ([[b1 x1] s1] & w1 & t1 & t2 & _ & Hr & _).
    apply bind_ok in Hr as ([b2 e2] & w2 & t3 & t4 & _ & Hr & _).
    apply bind_ok in Hr as (b3 & w3 & t5 & t6 & _ & Hr & _).
    injection Hr as <- _ _ _. reflexivity.
Qed.

Lemma dma_read_atapi_faults fuel node offset size buffer (w : world E G) :
  atapi_sector_size (Dma.devs (glob w) (device node)) = 0 ->
  Dma.read_atapi fuel node offset size buffer w = Abort.
Proof.
  intros Hz. unfold Dma.read_atapi. rewrite bind_get_globals, Hz. reflexivity.
Qed.
End ReadAtapi.

(** X15.  [read_atapi] divides by the block size of the device before
    it checks anything: on a device whose block size is 0 every request
    faults.  Otherwise a request that returns gives 0 and touches
    neither the buffer nor the drive when it starts beyond the capacity
    [(atapi_lba + 1) * atapi_sector_size], the distance to the capacity
    (as an [unsigned int]) when it starts inside and would end beyond
    it, and [size] when it ends inside. *)
Theorem read_atapi_bounds :
  forall (E : Type) (P : platform E) (H : ata_h) (fuel : nat)
         (node : fs_node_t) (offset size : Z) (buffer : mem)
         (w : world E Dma.globals),
    let dev := Dma.devs (glob w) (device node) in
    let cap := Dma.atapi_max_offset dev in
    (atapi_sector_size dev = 0 ->
     Dma.read_atapi fuel node offset size buffer w = Abort) /\
    (forall n m w' t,
        Dma.read_atapi fuel node offset size buffer w = Ok ((n, m), w', t) ->
        atapi_sector_size dev <> 0 /\
        n = (if u64 offset >? cap then 0
             else if u64 (u64 offset + size) >? cap
                  then u32 (u64 (cap - u64 offset)) else size) /\
        ((u64 offset >? cap) = true -> m = buffer /\ w' = w /\ t = [])).
Proof.
  intros E P H fuel node offset size buffer w dev cap. split.
  - apply dma_read_atapi_faults.
  - intros n m w' t Hr.
    exact (dma_read_atapi_value fuel node offset size buffer w n m w' t Hr).
Qed.

Lemma read_atapi_bounds_witness :
  Dma.read_atapi (P:=Sim.sim_platform Examples.short_packet) (H:=Sim.header)
    4 Examples.cdrom0 0 4 zeroes (Examples.cd_ready 8 0) = Abort /\
  exists m w' t,
    Dma.read_atapi (P:=Sim.sim_platform Examples.short_packet) (H:=Sim.header)
      4 Examples.cdrom0 32 8 zeroes (Examples.cd_ready 8 4) = Ok ((4, m), w', t).
Proof.
  split.
  - exact (proj1 (read_atapi_bounds Sim.state
                    (Sim.sim_platform Examples.short_packet) Sim.header 4%nat
                    Examples.cdrom0 0 4 zeroes (Examples.cd_ready 8 0)) eq_refl).
  - assert (Hok : succeeded
                    (Dma.read_atapi (P:=Sim.sim_platform Examples.short_packet)
                       (H:=Sim.header) 4 Examples.cdrom0 32 8 zeroes
                       (Examples.cd_ready 8 4)) = true)
      by (vm_compute; reflexivity).
    destruct (Dma.read_atapi (P:=Sim.sim_platform Examples.short_packet)
                (H:=Sim.header) 4 Examples.cdrom0 32 8 zeroes
                (Examples.cd_ready 8 4))
      as [[[[n m] w'] t]| |] eqn:Hr; try discriminate Hok.
    destruct (proj2 (read_atapi_bounds Sim.state
                       (Sim.sim_platform Examples.short_packet) Sim.header 4%nat
                       Examples.cdrom0 32 8 zeroes (Examples.cd_ready 8 4))
                n m w' t Hr) as (_ & Hn & _).
    vm_compute in Hn. subst n. exists m, w', t. reflexivity.
Defined.

Section AtapiCommands.
Context {E : Type} {P : platform E} {H : ata_h}.
Local Abbreviation G := Dma.globals.

Lemma tally_poll_packet f fuel dev verdict :
  (forall p v, f (EvIn 8 p v) = false) ->
  tally f 0 (Dma.poll_packet (E:=E) fuel dev verdict).
Proof.
  intros Hf. induction fuel; cbn [Dma.poll_packet]; [apply tally_out_of_fuel|].
  eapply tally_bind; [apply tally_port_read_miss; intros; apply Hf | | reflexivity].
  intros status. destruct (verdict status); [apply tally_ret | exact IHfuel].
Qed.

Lemma tally_write_words f port ws :
  (forall p v, f (EvOut 16 p v) = false) ->
  tally f 0 (Dma.write_words (E:=E) port ws).
Proof.
  intros Hf. induction ws; cbn [Dma.write_words]; [apply tally_ret|].
  tally_go by_hyp.
Qed.

Lemma tally_sleep_on f : f EvSleep = false -> tally f 0 (sleep_on (E:=E) (G:=G)).
Proof. intros Hf w a w' t Hr. injection Hr as _ _ <-. cbn. now rewrite Hf. Qed.

Lemma dma_read_sector_atapi_one_packet fuel dev lba buf off :
  truthy (is_atapi dev) = true ->
  tally (is_command dev ATA_CMD_PACKET) 1
    (Dma.ata_device_read_sector_atapi (E:=E) fuel dev lba buf off).
Proof.
  intros Hatapi. unfold Dma.ata_device_read_sector_atapi. rewrite Hatapi.
  cbn [negb].
  assert (Hio : tally (is_command dev ATA_CMD_PACKET) 0
                  (ata_io_wait (E:=E) (G:=G) dev))
    by (apply tally_ata_io_wait; reflexivity).
  assert (Hp : forall verdict, tally (is_command dev ATA_CMD_PACKET) 0
                                 (Dma.poll_packet (E:=E) fuel dev verdict))
    by (intros; apply tally_poll_packet; reflexivity).
  assert (Hw : forall port ws, tally (is_command dev ATA_CMD_PACKET) 0
                                 (Dma.write_words (E:=E) port ws))
    by (intros; apply tally_write_words; reflexivity).
  assert (Hs : tally (is_command dev ATA_CMD_PACKET) 0 (sleep_on (E:=E) (G:=G)))
    by (apply tally_sleep_on; reflexivity).
  assert (Hi : forall port b o n, tally (is_command dev ATA_CMD_PACKET) 0
                                    (inportsm (E:=E) (G:=G) port b o n))
    by (intros; apply tally_inportsm; reflexivity).
  tally_go cmd_side.
Qed.

Lemma dma_read_atapi_at_capacity fuel node offset size buffer (w : world E G)
    n m w' t :
  let dev := Dma.devs (glob w) (device node) in
  let cap := Dma.atapi_max_offset dev in
  0 < atapi_sector_size dev -> truthy (is_atapi dev) = true ->
  u64 offset = cap -> cap mod atapi_sector_size dev = 0 ->
  1 <= size -> cap + size < 2 ^ 64 ->
  Dma.read_atapi fuel node offset size buffer w = Ok ((n, m), w', t) ->
  n = 0 /\ (1 <= commands dev ATA_CMD_PACKET t)%nat.
Proof.
  intros dev cap Hsec Hatapi Hoff Hmod Hsize Hfit Hr.
  assert (Hcap : 0 <= cap < 2 ^ 64).
  { rewrite <- Hoff. unfold u64. apply Z.mod_pos_bound. lia. }
  unfold Dma.read_atapi, Dma.koff in Hr.
  rewrite bind_get_globals in Hr. fold dev in Hr. fold cap in Hr.
  rewrite Hoff in Hr.
  replace (atapi_sector_size dev =? 0) with false in Hr
    by (symmetry; apply Z.eqb_neq; lia).
  replace (cap >? cap) with false in Hr
    by (symmetry; rewrite Z.gtb_ltb; apply Z.ltb_irrefl).
  assert (Hsum : u64 (cap + size) = cap + size)
    by (unfold u64; apply Z.mod_small; lia).
  rewrite Hsum in Hr.
  replace (cap + size >? cap) with true in Hr
    by (symmetry; rewrite Z.gtb_ltb; apply Z.ltb_lt; lia).
  replace (cap - cap) with 0 in Hr by lia.
  change (u32 (u64 0)) with 0 in Hr.
  rewrite Z.add_0_r in Hr.
  assert (Hid : u64 cap = cap) by (unfold u64; apply Z.mod_small; lia).
  rewrite Hid, Hmod in Hr. change (truthy 0) with false in Hr.
  cbn [andb] in Hr.
  apply bind_ok in Hr as ([[b1 x1] s1] & w1 & t1 & t2 & E1 & Hr & ->).
  injection E1 as <- <- <- <- <-.
  apply bind_ok in Hr as ([b2 e2] & w2 & t3 & t4 & E2 & Hr & ->).
  injection E2 as <- <- <- <-.
  apply bind_ok in Hr as (b3 & w3 & t5 & t6 & Hb & Hr & ->).
  injection Hr as <- _ _ <-. split; [reflexivity|].
  destruct fuel as [|k]; [discriminate|].
  cbn [Dma.read_blocks_atapi] in Hb.
  assert (Hle : (cap / atapi_sector_size dev
                 <=? u64 (cap + size - 1) / atapi_sector_size dev) = true).
  { apply Z.leb_le. unfold u64. rewrite Z.mod_small by lia.
    apply Z.div_le_mono; lia. }
  rewrite Hle in Hb.
  apply bind_ok in Hb as (b4 & w4 & t7 & t8 & Hs & _ & ->).
  apply (dma_read_sector_atapi_one_packet _ _ _ _ _ Hatapi) in Hs.
  cbn [app]. rewrite !commands_app. unfold commands at 1. rewrite Hs. lia.
Qed.
End AtapiCommands.

(** X16.  A request to [read_atapi] that starts exactly at the
    capacity returns 0 and yet goes to the drive: with a request of at
    least one byte at [offset = (atapi_lba + 1) * atapi_sector_size],
    every run that returns has sent at least one PACKET command. *)
Theorem read_atapi_at_capacity_goes_to_the_drive :
  forall (E : Type) (P : platform E) (H : ata_h) (fuel : nat)
         (node : fs_node_t) (offset size : Z) (buffer : mem)
         (w : world E Dma.globals) n m w' t,
    let dev := Dma.devs (glob w) (device node) in
    let cap := Dma.atapi_max_offset dev in
    0 < atapi_sector_size dev -> is_atapi dev <> 0 ->
    u64 offset = cap -> cap mod atapi_sector_size dev = 0 ->
    1 <= size -> cap + size < 2 ^ 64 ->
    Dma.read_atapi fuel node offset size buffer w = Ok ((n, m), w', t) ->
    n = 0 /\ (1 <= commands dev ATA_CMD_PACKET t)%nat.
Proof.
  intros E P H fuel node offset size buffer w n m w' t dev cap
         Hsec Hatapi Hoff Hmod Hsize Hfit Hr.
  apply (dma_read_atapi_at_capacity fuel node offset size buffer w n m w' t);
    try assumption.
  unfold truthy. apply negb_true_iff, Z.eqb_neq. exact Hatapi.
Qed.

Lemma read_atapi_at_capacity_goes_to_the_drive_witness :
  exists m w' t,
    Dma.read_atapi (P:=Sim.sim_platform Examples.short_packet) (H:=Sim.header)
      4 Examples.cdrom0 36 4 zeroes (Examples.cd_ready 8 4) = Ok ((0, m), w', t) /\
    (1 <= commands (Examples.cd_drive 8 4) ATA_CMD_PACKET t)%nat.
Proof.
  assert (Hok : succeeded
                  (Dma.read_atapi (P:=Sim.sim_platform Examples.short_packet)
                     (H:=Sim.header) 4 Examples.cdrom0 36 4 zeroes
                     (Examples.cd_ready 8 4)) = true)
    by (vm_compute; reflexivity).
  destruct (Dma.read_atapi (P:=Sim.sim_platform Examples.short_packet)
              (H:=Sim.header) 4 Examples.cdrom0 36 4 zeroes
              (Examples.cd_ready 8 4))
    as [[[[n m] w'] t]| |] eqn:Hr; try discriminate Hok.
  destruct (read_atapi_at_capacity_goes_to_the_drive Sim.state
              (Sim.sim_platform Examples.short_packet) Sim.header 4%nat
              Examples.cdrom0 36 4 zeroes (Examples.cd_ready 8 4) n m w' t)
    as [Hn Hc].
  - reflexivity.
  - discriminate.
  - reflexivity.
  - reflexivity.
  - lia.
  - vm_compute. reflexivity.
  - exact Hr.
  - subst n. exists m, w', t. split; [reflexivity | exact Hc].
Defined.

(** ** The search of [execvp] along the path *)

Section ExecSearch.
Context {L : Exec.libc_h}.

Lemma exec_search_calls file argv : forall tokens s,
  let out := Exec.search tokens file argv s in
  Exec.calls (snd out)
  = (Exec.calls s
     ++ map (fun p => Exec.CallStat (p ++ "/" ++ file)%string)
          (Exec.examined file tokens)
     ++ match find (Exec.runnable file) tokens with
        | Some p => [Exec.CallExecve (p ++ "/" ++ file)%string argv Exec.environ]
        | None => []
        end)%list /\
  match find (Exec.runnable file) tokens with
  | Some p =>
      exists e, (fst out, Exec.errno (snd out))
                = Exec.sets_errno_execve (p ++ "/" ++ file)%string argv
                    Exec.environ e
  | None => fst out = -1 /\ Exec.errno (snd out) = Exec.ENOENT
  end.
Proof.
  induction tokens as [|p rest IH]; intros s out.
  - subst out. cbn. rewrite app_nil_r. repeat split.
  - subst out. cbn [Exec.search Exec.examined find].
    assert (Hrun : Exec.runnable file p
                   = match Exec.stat (p ++ "/" ++ file)%string with
                     | Some st_mode => truthy (Z.land st_mode 73)
                     | None => false
                     end) by reflexivity.
    specialize (IH (Exec.Proc (Exec.stat_errno (p ++ "/" ++ file) (Exec.errno s))
                      (Exec.calls s ++ [Exec.CallStat (p ++ "/" ++ file)%string]))).
    cbv zeta in IH. destruct IH as [Hc Hres]. cbn [Exec.calls] in Hc.
    destruct (Exec.stat (p ++ "/" ++ file)) as [st_mode|].
    + destruct (truthy (Z.land st_mode 73)); rewrite Hrun; cbn [negb].
      * unfold Exec.execve. cbn [Exec.errno Exec.calls].
        destruct (Exec.sets_errno_execve (p ++ "/" ++ file) argv Exec.environ
                    (Exec.stat_errno (p ++ "/" ++ file) (Exec.errno s)))
          as [r e] eqn:Hx.
        cbn [fst snd Exec.calls Exec.errno map app]. split.
        -- rewrite <- app_assoc. reflexivity.
        -- eexists. rewrite Hx. reflexivity.
      * split; [|exact Hres].
        rewrite Hc. cbn [map app]. rewrite <- !app_assoc. reflexivity.
    + rewrite Hrun. split; [|exact Hres].
      rewrite Hc. cbn [map app]. rewrite <- !app_assoc. reflexivity.
Qed.
End ExecSearch.

(** X17.  [execvp] runs the first candidate of the path that [stat]
    finds with an execute bit, and looks no further.  For a name
    without a slash the candidates are [p/file] for the tokens [p] of
    [PATH], or of "/bin:/usr/bin" when [PATH] is unset, in order: each
    is passed to [stat] until one is runnable, that one is passed to
    [execve], whose result and [errno] are returned, and none of the
    later ones is examined; when none is runnable [execve] is not
    called and the result is -1 with [errno = ENOENT].  A name with a
    slash goes to [execve] as it is, with no [stat]; a null name gives
    -1 and [ENOENT] with no call at all. *)
Theorem execvp_runs_the_first_runnable_candidate :
  forall (L : Exec.libc_h) (file : option string) (argv : list string)
         (s : Exec.proc),
    let out := Exec.execvp file argv s in
    match file with
    | None =>
        out = (-1, Exec.Proc Exec.ENOENT (Exec.calls s))
    | Some f =>
        if Exec.strstr f "/" then
          out = Exec.execve f argv Exec.environ s /\
          Exec.calls (snd out)
          = (Exec.calls s ++ [Exec.CallExecve f argv Exec.environ])%list
        else
          let tokens :=
            Exec.strtok_r_all
              (match Exec.getenv "PATH" with
               | Some path => path
               | None => "/bin:/usr/bin"%string
               end) ":" in
          Exec.calls (snd out)
          = (Exec.calls s
             ++ map (fun p => Exec.CallStat (p ++ "/" ++ f)%string)
                  (Exec.examined f tokens)
             ++ match find (Exec.runnable f) tokens with
                | Some p => [Exec.CallExecve (p ++ "/" ++ f)%string argv Exec.environ]
                | None => []
                end)%list /\
          match find (Exec.runnable f) tokens with
          | Some p =>
              exists e, (fst out, Exec.errno (snd out))
                        = Exec.sets_errno_execve (p ++ "/" ++ f)%string argv
                            Exec.environ e
          | None => fst out = -1 /\ Exec.errno (snd out) = Exec.ENOENT
          end
    end.
Proof.
  intros L file argv s out. subst out.
  destruct file as [f|]; [|reflexivity].
  unfold Exec.execvp. destruct (Exec.strstr f "/"); cbn [negb].
  - split; [reflexivity|]. unfold Exec.execve.
    destruct (Exec.sets_errno_execve f argv Exec.environ (Exec.errno s)).
    reflexivity.
  - cbv zeta. apply exec_search_calls.
Qed.

Lemma execvp_runs_the_first_runnable_candidate_witness :
  Exec.execvp (L:=Examples.tiny_libc) (Some "ls"%string) ["ls"%string; "-l"%string]
    (Exec.Proc 0 [])
  = (-1, Exec.Proc 8
           [Exec.CallStat "/usr/bin/ls";
            Exec.CallStat "/bin/ls";
            Exec.CallExecve "/bin/ls" ["ls"%string; "-l"%string]
              ["PATH=/usr/bin::/bin"%string]]).
Proof.
  pose proof (execvp_runs_the_first_runnable_candidate Examples.tiny_libc
                (Some "ls"%string) ["ls"%string; "-l"%string] (Exec.Proc 0 []))
    as Hx.
  cbv zeta in Hx.
  destruct (Exec.execvp (L:=Examples.tiny_libc) (Some "ls"%string)
              ["ls"%string; "-l"%string] (Exec.Proc 0 [])) as [r [e c]].
  vm_compute in Hx. destruct Hx as [Hc [e0 He]].
  injection He as -> ->. rewrite Hc. reflexivity.
Defined.

(** ** Writing a sector in the DMA driver *)

Section DmaWriteSector.
Context {E : Type} {P : platform E} {H : ata_h}.
Hypothesis lba3_apart : u16 (ATA_REG_LBA3 - ATA_REG_COMMAND) <> 0.
Hypothesis lba4_apart : u16 (ATA_REG_LBA4 - ATA_REG_COMMAND) <> 0.
Hypothesis lba5_apart : u16 (ATA_REG_LBA5 - ATA_REG_COMMAND) <> 0.

Lemma dma_write_sector_one_write fuel dev lba buf off :
  tally (is_command dev ATA_CMD_WRITE_PIO) 1
    (Dma.ata_device_write_sector (E:=E) fuel dev lba buf off).
Proof.
  unfold Dma.ata_device_write_sector.
  assert (Hw : forall adv, tally (is_command dev ATA_CMD_WRITE_PIO) 0
                             (ata_wait (G:=Dma.globals) fuel dev adv))
    by (intros; apply tally_ata_wait; reflexivity).
  assert (Ho : forall port b o n, tally (is_command dev ATA_CMD_WRITE_PIO) 0
                                    (outportsm (G:=Dma.globals) port b o n))
    by (intros; apply tally_outportsm; reflexivity).
  tally_go cmd_side.
Qed.

Lemma dma_write_sector_one_flush fuel dev lba buf off :
  tally (is_command dev ATA_CMD_CACHE_FLUSH) 1
    (Dma.ata_device_write_sector (E:=E) fuel dev lba buf off).
Proof.
  unfold Dma.ata_device_write_sector.
  assert (Hw : forall adv, tally (is_command dev ATA_CMD_CACHE_FLUSH) 0
                             (ata_wait (G:=Dma.globals) fuel dev adv))
    by (intros; apply tally_ata_wait; reflexivity).
  assert (Ho : forall port b o n, tally (is_command dev ATA_CMD_CACHE_FLUSH) 0
                                    (outportsm (G:=Dma.globals) port b o n))
    by (intros; apply tally_outportsm; reflexivity).
  tally_go cmd_side.
Qed.

Lemma dma_write_sector_no_read_dma fuel dev lba buf off :
  tally (is_command dev ATA_CMD_READ_DMA) 0
    (Dma.ata_device_write_sector (E:=E) fuel dev lba buf off).
Proof.
  unfold Dma.ata_device_write_sector.
  assert (Hw : forall adv, tally (is_command dev ATA_CMD_READ_DMA) 0
                             (ata_wait (G:=Dma.globals) fuel dev adv))
    by (intros; apply tally_ata_wait; reflexivity).
  assert (Ho : forall port b o n, tally (is_command dev ATA_CMD_READ_DMA) 0
                                    (outportsm (G:=Dma.globals) port b o n))
    by (intros; apply tally_outportsm; reflexivity).
  tally_go cmd_side.
Qed.
End DmaWriteSector.

Section DmaWriteData.
Context {E : Type} {P : platform E} {H : ata_h}.

Lemma dma_write_sector_carries fuel dev lba buf off :
  carries (is_data_out dev) (load_words buf off 256)
    (Dma.ata_device_write_sector (E:=E) fuel dev lba buf off).
Proof.
  unfold Dma.ata_device_write_sector. cbv zeta.
  assert (Hw : forall adv, tally (is_data_out dev) 0
                             (ata_wait (G:=Dma.globals) fuel dev adv))
    by (intros; apply tally_ata_wait; reflexivity).
  repeat (apply carries_bind_l; [tally_go by_hyp | intros]).
  change (Z.to_nat (ATA_SECTOR_SIZE / 2)) with 256%nat.
  apply carries_bind_r; [apply carries_outportsm | intros].
  tally_go by_hyp.
Qed.

Lemma dma_write_sector_reads_nothing fuel dev lba buf off :
  tally (is_data_in dev) 0
    (Dma.ata_device_write_sector (E:=E) fuel dev lba buf off).
Proof.
  unfold Dma.ata_device_write_sector.
  assert (Hw : forall adv, tally (is_data_in dev) 0
                             (ata_wait (G:=Dma.globals) fuel dev adv))
    by (intros; apply tally_ata_wait; reflexivity).
  assert (Ho : forall port b o n, tally (is_data_in dev) 0
                                    (outportsm (G:=Dma.globals) port b o n))
    by (intros; apply tally_outportsm; reflexivity).
  tally_go by_hyp.
Qed.
End DmaWriteData.

(** X18.  The DMA driver writes a sector by PIO.  A run of its
    [ata_device_write_sector] that returns has written to the data port
    exactly the 256 words of the 512 bytes at [buf], low byte first and
    in order, and has read nothing from it; and, the LBA3..LBA5
    registers being distinct from the command register, it has issued
    WRITE PIO once, CACHE FLUSH once and no READ DMA. *)
Theorem dma_sector_write_sends_the_buffer :
  forall (E : Type) (P : platform E) (H : ata_h) (fuel : nat)
         (dev : ata_device) (lba : Z) (buf : mem) (off : Z)
         (w : world E Dma.globals) a w' t,
    Dma.ata_device_write_sector fuel dev lba buf off w = Ok (a, w', t) ->
    data_written dev t = load_words buf off 256 /\
    data_read dev t = [] /\
    (u16 (ATA_REG_LBA3 - ATA_REG_COMMAND) <> 0 ->
     u16 (ATA_REG_LBA4 - ATA_REG_COMMAND) <> 0 ->
     u16 (ATA_REG_LBA5 - ATA_REG_COMMAND) <> 0 ->
     commands dev ATA_CMD_WRITE_PIO t = 1%nat /\
     commands dev ATA_CMD_CACHE_FLUSH t = 1%nat /\
     commands dev ATA_CMD_READ_DMA t = 0%nat).
Proof.
  intros E P H fuel dev lba buf off w a w' t Hr.
  split; [exact (dma_write_sector_carries fuel dev lba buf off w a w' t Hr)|].
  split.
  - unfold data_read.
    pose proof (dma_write_sector_reads_nothing fuel dev lba buf off w a w' t Hr)
      as Hz.
    apply length_zero_iff_nil in Hz. rewrite Hz. reflexivity.
  - intros A3 A4 A5.
    split; [exact (dma_write_sector_one_write A3 A4 A5 fuel dev lba buf off
                     w a w' t Hr)|].
    split; [exact (dma_write_sector_one_flush A3 A4 A5 fuel dev lba buf off
                     w a w' t Hr)|].
    exact (dma_write_sector_no_read_dma A3 A4 A5 fuel dev lba buf off w a w' t Hr).
Qed.

Lemma dma_sector_write_sends_the_buffer_witness :
  exists w' t,
    Dma.ata_device_write_sector (P:=Sim.sim_platform Examples.small_disk)
      (H:=Sim.header) 2 Examples.primary 3 (Examples.marked 10) 0
      Examples.dma_boot = Ok (tt, w', t) /\
    data_written Examples.primary t = load_words (Examples.marked 10) 0 256 /\
    commands Examples.primary ATA_CMD_WRITE_PIO t = 1%nat.
Proof.
  assert (Hok : succeeded
                  (Dma.ata_device_write_sector
                     (P:=Sim.sim_platform Examples.small_disk) (H:=Sim.header)
                     2 Examples.primary 3 (Examples.marked 10) 0
                     Examples.dma_boot) = true)
    by (vm_compute; reflexivity).
  destruct (Dma.ata_device_write_sector
              (P:=Sim.sim_platform Examples.small_disk) (H:=Sim.header)
              2 Examples.primary 3 (Examples.marked 10) 0 Examples.dma_boot)
    as [[[[] w'] t]| |] eqn:Hr; try discriminate Hok.
  exists w', t. split; [reflexivity|].
  destruct (dma_sector_write_sends_the_buffer Sim.state
              (Sim.sim_platform Examples.small_disk) Sim.header 2%nat
              Examples.primary 3 (Examples.marked 10) 0 Examples.dma_boot
              tt w' t Hr) as (Hd & _ & Hc).
  split; [exact Hd|].
  destruct Hc as (Hw & _ & _); [discriminate | discriminate | discriminate |].
  exact Hw.
Defined.
